(** * zip_write.h: a shallow embedding of the streaming ZIP64 writer

    The C structures become records, the fixed-width integers become [Z]
    with their wrap-around written out, the output stream becomes a record
    holding the sink's own state and its [write] function, and every loop
    becomes a structural recursion on an iteration budget computed from the
    state it starts in.  Memory allocation is taken to succeed throughout,
    and [zw_create], which only wraps a stdio file as the sink of
    [zw_create_ex], is left out. *)

From Stdlib Require Import ZArith List Bool Lia.
From stdpp Require Import base option gmap.
Import ListNotations.

Local Open Scope Z_scope.

(** ** Fixed-width integers *)

Module Int.

Definition u8  (x : Z) : Z := x mod 256.
Definition u16 (x : Z) : Z := x mod 65536.
Definition u32 (x : Z) : Z := x mod 4294967296.
Definition u64 (x : Z) : Z := x mod 18446744073709551616.

(** [~x] on a 32-bit unsigned value. *)
Definition not32 (x : Z) : Z := u32 (Z.lnot x).

(** Little-endian memory image of an unsigned integer of [n] bytes. *)
Fixpoint le_bytes (n : nat) (x : Z) : list Z :=
  match n with
  | O => []
  | S n' => Z.land x 255 :: le_bytes n' (Z.shiftr x 8)
  end.

Definition le16 (x : Z) : list Z := le_bytes 2 (u16 x).
Definition le32 (x : Z) : list Z := le_bytes 4 (u32 x).
Definition le64 (x : Z) : list Z := le_bytes 8 (u64 x).

(** [p[i]] for a buffer [p] held as a list. *)
Definition rd (p : list Z) (i : Z) : Z := nth (Z.to_nat i) p 0.

End Int.
Import Int.

(** ** CRC-32 *)

Definition crc_table : list Z :=
  [ 0x00000000; 0x77073096; 0xEE0E612C; 0x990951BA; 0x076DC419; 0x706AF48F; 0xE963A535; 0x9E6495A3;
    0x0eDB8832; 0x79DCB8A4; 0xE0D5E91E; 0x97D2D988; 0x09B64C2B; 0x7EB17CBD; 0xE7B82D07; 0x90BF1D91;
    0x1DB71064; 0x6AB020F2; 0xF3B97148; 0x84BE41DE; 0x1ADAD47D; 0x6DDDE4EB; 0xF4D4B551; 0x83D385C7;
    0x136C9856; 0x646BA8C0; 0xFD62F97A; 0x8A65C9EC; 0x14015C4F; 0x63066CD9; 0xFA0F3D63; 0x8D080DF5;
    0x3B6E20C8; 0x4C69105E; 0xD56041E4; 0xA2677172; 0x3C03E4D1; 0x4B04D447; 0xD20D85FD; 0xA50AB56B;
    0x35B5A8FA; 0x42B2986C; 0xDBBBC9D6; 0xACBCF940; 0x32D86CE3; 0x45DF5C75; 0xDCD60DCF; 0xABD13D59;
    0x26D930AC; 0x51DE003A; 0xC8D75180; 0xBFD06116; 0x21B4F4B5; 0x56B3C423; 0xCFBA9599; 0xB8BDA50F;
    0x2802B89E; 0x5F058808; 0xC60CD9B2; 0xB10BE924; 0x2F6F7C87; 0x58684C11; 0xC1611DAB; 0xB6662D3D;
    0x76DC4190; 0x01DB7106; 0x98D220BC; 0xEFD5102A; 0x71B18589; 0x06B6B51F; 0x9FBFE4A5; 0xE8B8D433;
    0x7807C9A2; 0x0F00F934; 0x9609A88E; 0xE10E9818; 0x7F6A0DBB; 0x086D3D2D; 0x91646C97; 0xE6635C01;
    0x6B6B51F4; 0x1C6C6162; 0x856530D8; 0xF262004E; 0x6C0695ED; 0x1B01A57B; 0x8208F4C1; 0xF50FC457;
    0x65B0D9C6; 0x12B7E950; 0x8BBEB8EA; 0xFCB9887C; 0x62DD1DDF; 0x15DA2D49; 0x8CD37CF3; 0xFBD44C65;
    0x4DB26158; 0x3AB551CE; 0xA3BC0074; 0xD4BB30E2; 0x4ADFA541; 0x3DD895D7; 0xA4D1C46D; 0xD3D6F4FB;
    0x4369E96A; 0x346ED9FC; 0xAD678846; 0xDA60B8D0; 0x44042D73; 0x33031DE5; 0xAA0A4C5F; 0xDD0D7CC9;
    0x5005713C; 0x270241AA; 0xBE0B1010; 0xC90C2086; 0x5768B525; 0x206F85B3; 0xB966D409; 0xCE61E49F;
    0x5EDEF90E; 0x29D9C998; 0xB0D09822; 0xC7D7A8B4; 0x59B33D17; 0x2EB40D81; 0xB7BD5C3B; 0xC0BA6CAD;
    0xEDB88320; 0x9ABFB3B6; 0x03B6E20C; 0x74B1D29A; 0xEAD54739; 0x9DD277AF; 0x04DB2615; 0x73DC1683;
    0xE3630B12; 0x94643B84; 0x0D6D6A3E; 0x7A6A5AA8; 0xE40ECF0B; 0x9309FF9D; 0x0A00AE27; 0x7D079EB1;
    0xF00F9344; 0x8708A3D2; 0x1E01F268; 0x6906C2FE; 0xF762575D; 0x806567CB; 0x196C3671; 0x6E6B06E7;
    0xFED41B76; 0x89D32BE0; 0x10DA7A5A; 0x67DD4ACC; 0xF9B9DF6F; 0x8EBEEFF9; 0x17B7BE43; 0x60B08ED5;
    0xD6D6A3E8; 0xA1D1937E; 0x38D8C2C4; 0x4FDFF252; 0xD1BB67F1; 0xA6BC5767; 0x3FB506DD; 0x48B2364B;
    0xD80D2BDA; 0xAF0A1B4C; 0x36034AF6; 0x41047A60; 0xDF60EFC3; 0xA867DF55; 0x316E8EEF; 0x4669BE79;
    0xCB61B38C; 0xBC66831A; 0x256FD2A0; 0x5268E236; 0xCC0C7795; 0xBB0B4703; 0x220216B9; 0x5505262F;
    0xC5BA3BBE; 0xB2BD0B28; 0x2BB45A92; 0x5CB36A04; 0xC2D7FFA7; 0xB5D0CF31; 0x2CD99E8B; 0x5BDEAE1D;
    0x9B64C2B0; 0xEC63F226; 0x756AA39C; 0x026D930A; 0x9C0906A9; 0xEB0E363F; 0x72076785; 0x05005713;
    0x95BF4A82; 0xE2B87A14; 0x7BB12BAE; 0x0CB61B38; 0x92D28E9B; 0xE5D5BE0D; 0x7CDCEFB7; 0x0BDBDF21;
    0x86D3D2D4; 0xF1D4E242; 0x68DDB3F8; 0x1FDA836E; 0x81BE16CD; 0xF6B9265B; 0x6FB077E1; 0x18B74777;
    0x88085AE6; 0xFF0F6A70; 0x66063BCA; 0x11010B5C; 0x8F659EFF; 0xF862AE69; 0x616BFFD3; 0x166CCF45;
    0xA00AE278; 0xD70DD2EE; 0x4E048354; 0x3903B3C2; 0xA7672661; 0xD06016F7; 0x4969474D; 0x3E6E77DB;
    0xAED16A4A; 0xD9D65ADC; 0x40DF0B66; 0x37D83BF0; 0xA9BCAE53; 0xDEBB9EC5; 0x47B2CF7F; 0x30B5FFE9;
    0xBDBDF21C; 0xCABAC28A; 0x53B39330; 0x24B4A3A6; 0xBAD03605; 0xCDD70693; 0x54DE5729; 0x23D967BF;
    0xB3667A2E; 0xC4614AB8; 0x5D681B02; 0x2A6F2B94; 0xB40BBE37; 0xC30C8EA1; 0x5A05DF1B; 0x2D02EF8D ].

(** One turn of [crc = (crc >> 8) ^ crc_table[buffer[i] ^ (crc & 0xff)]]. *)
Definition crc_step (crc b : Z) : Z :=
  Z.lxor (Z.shiftr crc 8) (rd crc_table (Z.lxor b (Z.land crc 255))).

(** The [for] loop of [zw__crc32], over the [len] bytes of [buffer]. *)
Definition crc_loop (buffer : list Z) (crc : Z) : Z :=
  fold_left crc_step buffer crc.

Definition zw__crc32 (buffer : list Z) (initial : Z) : Z :=
  let crc := not32 initial in
  let crc := crc_loop buffer crc in
  not32 crc.

(** ** MS-DOS time and date *)

Definition zw__zip_encode_time (hour minute second : Z) : Z :=
  let hour := if 23 <? hour then 23 else hour in
  let hour := if 59 <? minute then 59 else hour in
  let second := if 59 <? second then 59 else second in
  u16 (Z.lor (Z.lor (Z.shiftr second 1) (u32 (Z.shiftl minute 5)))
             (u32 (Z.shiftl hour 11))).

Definition zw__zip_encode_date (year month day : Z) : Z :=
  let year := if 1980 <=? year then u32 (year - 1980) else 0 in
  let year := if 127 <? year then 127 else year in
  let month := if 12 <? month then 12 else month in
  let day := if 31 <? day then 31 else day in
  u16 (Z.lor (Z.lor day (u32 (Z.shiftl month 5))) (u32 (Z.shiftl year 9))).

(** ** Stretchy buffers

    A stretchy buffer is [None] while its pointer is null; otherwise it has a
    capacity [sbm] and holds the [zw__sbn] items of [sbitems].  Growing is
    taken to succeed, as [ZW_ASSERT(p)] states. *)

Record sbuf := { sbm : Z; sbitems : list Z }.

Definition zw__sbn (s : sbuf) : Z := Z.of_nat (length (sbitems s)).

Definition zw__sbcount (a : option sbuf) : Z :=
  match a with Some s => zw__sbn s | None => 0 end.

(** The items a loop [for (j = 0; j < zw__sbcount(a); ++j)] visits. *)
Definition sb_items (a : option sbuf) : list Z :=
  match a with Some s => sbitems s | None => [] end.

Definition zw__sbneedgrow (a : option sbuf) (n : Z) : bool :=
  match a with Some s => sbm s <=? zw__sbn s + n | None => true end.

Definition zw__sbgrowf (a : option sbuf) (increment : Z) : sbuf :=
  match a with
  | Some s => {| sbm := 2 * sbm s + increment; sbitems := sbitems s |}
  | None => {| sbm := increment + 1; sbitems := [] |}
  end.

Definition zw__sbmaybegrow (a : option sbuf) (n : Z) : sbuf :=
  match a with
  | Some s => if zw__sbneedgrow a n then zw__sbgrowf a n else s
  | None => zw__sbgrowf a n
  end.

Definition zw__sbpush (a : option sbuf) (v : Z) : sbuf :=
  let s := zw__sbmaybegrow a 1 in
  {| sbm := sbm s; sbitems := sbitems s ++ [v] |}.

(** ** Buffers and pointers

    A pointer into a buffer is the buffer from that position on, so [p + k]
    is [zdrop k p]. *)

Definition ztake (n : Z) (l : list Z) : list Z := take (Z.to_nat n) l.
Definition zdrop (n : Z) (l : list Z) : list Z := drop (Z.to_nat n) l.

(** [memmove(dst + d, src + s, n)] *)
Definition memmove (dst : list Z) (d : Z) (src : list Z) (s n : Z) : list Z :=
  ztake d dst ++ ztake n (zdrop s src) ++ zdrop (d + n) dst.

(** ** Common prefix of two buffers *)

(** The 16 bytes at [p]. *)
Definition mm_loadu_si128 (p : list Z) : list Z := map (rd p) (seqZ 0 16).

Definition mm_cmpeq_epi8 (va vb : list Z) : list Z :=
  zip_with (fun x y => if x =? y then 255 else 0) va vb.

(** Bit [k] of the result is the top bit of byte [k]. *)
Definition mm_movemask_epi8 (v : list Z) : Z :=
  fold_right (fun x acc => Z.b2z (Z.testbit x 7) + 2 * acc) 0 v.

Fixpoint ctz_pos (p : positive) : Z :=
  match p with
  | xO q => 1 + ctz_pos q
  | _ => 0
  end.

(** [__builtin_ctz] / [_BitScanForward]: index of the lowest set bit. *)
Definition zw__bsf (mask : Z) : Z :=
  u8 (match mask with Zpos p => ctz_pos p | _ => 0 end).

(** [movemask(cmpeq(load(a + i), load(b + i)))] *)
Definition eq_mask16 (a b : list Z) (i : Z) : Z :=
  mm_movemask_epi8 (mm_cmpeq_epi8 (mm_loadu_si128 (zdrop i a)) (mm_loadu_si128 (zdrop i b))).

(** The [while (i + 32u <= limit)] loop: [inl r] when it returns [r],
    [inr i] when it ends with the cursor at [i]. *)
Fixpoint zw__zlib_countm_sse32 (n : nat) (a b : list Z) (limit i : Z) : Z + Z :=
  match n with
  | O => inr i
  | S n' =>
      if u32 (i + 32) <=? limit then
        let mask := Z.lor (eq_mask16 a b (i + 0)) (u32 (Z.shiftl (eq_mask16 a b (i + 16)) 16)) in
        let mask := not32 mask in
        if negb (mask =? 0) then inl (u16 (i + zw__bsf mask))
        else zw__zlib_countm_sse32 n' a b limit (u16 (i + 32))
      else inr i
  end.

Definition zw__zlib_countm_sse16 (a b : list Z) (limit i : Z) : Z + Z :=
  if u32 (i + 16) <=? limit then
    let mask := Z.lxor (eq_mask16 a b i) 0xffff in
    if negb (mask =? 0) then inl (u16 (i + zw__bsf mask))
    else inr (u16 (i + 16))
  else inr i.

(** The closing [for (; i < limit; ++i) if (a[i] != b[i]) break;]. *)
Fixpoint zw__zlib_countm_tail (n : nat) (a b : list Z) (limit i : Z) : Z :=
  match n with
  | O => i
  | S n' =>
      if i <? limit then
        if negb (rd a i =? rd b i) then i
        else zw__zlib_countm_tail n' a b limit (u16 (i + 1))
      else i
  end.

(** [no_sse] tells whether the build defines [ZW_NO_SSE]. *)
Definition zw__zlib_countm (no_sse : bool) (a b : list Z) (limit : Z) : Z :=
  let i := 0 in
  let limit := if 258 <? limit then 258 else limit in
  let r :=
    if no_sse then inr i
    else
      match zw__zlib_countm_sse32 (Z.to_nat (limit / 32)) a b limit i with
      | inl r => inl r
      | inr i => zw__zlib_countm_sse16 a b limit i
      end in
  match r with
  | inl r => r
  | inr i => zw__zlib_countm_tail (Z.to_nat (limit - i)) a b limit i
  end.

(** Length of the longest common prefix of two buffers, by the words of the
    specification. *)
Fixpoint common_prefix_length (a b : list Z) : nat :=
  match a, b with
  | x :: a', y :: b' => if x =? y then S (common_prefix_length a' b') else O
  | _, _ => O
  end.

(** [r] is where the two buffers first differ, or [lim] when their first
    [lim] bytes agree. *)
Definition first_mismatch (a b : list Z) (lim r : Z) : Prop :=
  0 <= r <= lim
  /\ (forall k, 0 <= k < r -> rd a k = rd b k)
  /\ (r < lim -> rd a r <> rd b r).

Definition zw__zhash (data : list Z) : Z :=
  let hash := u32 (rd data 0 + Z.shiftl (rd data 1) 8 + Z.shiftl (rd data 2) 16) in
  let hash := Z.lxor hash (u32 (Z.shiftl hash 3)) in
  let hash := u32 (hash + Z.shiftr hash 5) in
  let hash := Z.lxor hash (u32 (Z.shiftl hash 4)) in
  let hash := u32 (hash + Z.shiftr hash 17) in
  let hash := Z.lxor hash (u32 (Z.shiftl hash 25)) in
  let hash := u32 (hash + Z.shiftr hash 6) in
  hash.

Definition zw__hash_size : Z := 16384.

Definition lengthc : list Z :=
  [3;4;5;6;7;8;9;10;11;13;15;17;19;23;27;31;35;43;51;59;67;83;99;115;131;163;195;227;258;259].
Definition lengtheb : list Z :=
  [0;0;0;0;0;0;0;0;1;1;1;1;2;2;2;2;3;3;3;3;4;4;4;4;5;5;5;5;0].
Definition distc : list Z :=
  [1;2;3;4;5;7;9;13;17;25;33;49;65;97;129;193;257;385;513;769;1025;1537;2049;3073;4097;6145;
   8193;12289;16385;24577;32768].
Definition disteb : list Z :=
  [0;0;0;0;1;1;2;2;3;3;4;4;5;5;6;6;7;7;8;8;9;9;10;10;11;11;12;12;13;13].

(** [for (j = 0; v > tbl[j+1] - 1; ++j);] for at most [n] turns. *)
Fixpoint code_index (n : nat) (tbl : list Z) (v j : Z) : Z :=
  match n with
  | O => j
  | S n' => if rd tbl (j + 1) - 1 <? v then code_index n' tbl v (u16 (j + 1)) else j
  end.

(** The first [for] loop over a chain: the longest candidate so far and where
    it starts in the window ([None] while [bestloc] is null). *)
Fixpoint scan_chain (no_sse : bool) (w : list Z) (i data_len : Z) (hlist : list Z)
    (best : Z) (bestloc : option Z) : Z * option Z :=
  match hlist with
  | [] => (best, bestloc)
  | e :: hlist' =>
      if i <? e then
        let d := zw__zlib_countm no_sse (zdrop e w) (zdrop (32768 + i) w) (data_len - i) in
        if best <=? d then scan_chain no_sse w i data_len hlist' d (Some e)
        else scan_chain no_sse w i data_len hlist' best bestloc
      else scan_chain no_sse w i data_len hlist' best bestloc
  end.

(** The lazy-matching loop over the chain of position [i + 1]: [true] when it
    sets [bestloc] to null and breaks. *)
Fixpoint lazy_scan (no_sse : bool) (w : list Z) (i data_len best : Z) (hlist : list Z) : bool :=
  match hlist with
  | [] => false
  | c :: hlist' =>
      if i + 1 <? c then
        let e := zw__zlib_countm no_sse (zdrop c w) (zdrop (32768 + i + 1) w) (data_len - i - 1) in
        if best <? e then true else lazy_scan no_sse w i data_len best hlist'
      else lazy_scan no_sse w i data_len best hlist'
  end.

(** "when hash table entry is too long, delete half the entries", then push. *)
Definition hash_trim (quality : Z) (hlist : option sbuf) : option sbuf :=
  match hlist with
  | Some s =>
      if zw__sbn s =? u32 (2 * quality) then
        Some {| sbm := sbm s;
                sbitems := ztake quality (memmove (sbitems s) 0 (sbitems s) quality quality) |}
      else Some s
  | None => None
  end.

Definition hash_insert (quality : Z) (hlist : option sbuf) (v : Z) : sbuf :=
  zw__sbpush (hash_trim quality hlist) v.

(** The window slide on one chain. *)
Fixpoint slide_items (in_cursor : Z) (hlist : list Z) : list Z :=
  match hlist with
  | [] => []
  | ofs :: hlist' =>
      if in_cursor <=? ofs then u16 (ofs - in_cursor) :: slide_items in_cursor hlist'
      else slide_items in_cursor hlist'
  end.

Definition slide_chain (in_cursor : Z) (s : sbuf) : sbuf :=
  {| sbm := sbm s; sbitems := slide_items in_cursor (sbitems s) |}.

(** ** ZIP records, as the bytes of their packed little-endian images *)

Definition zw__zip_sig_local_file_header : Z := 0x04034b50.
Definition zw__zip_sig_central_dir_file_header : Z := 0x02014b50.
Definition zw__zip_sig_eocd : Z := 0x06054b50.
Definition zw__zip_sig_eocd64 : Z := 0x06064b50.
Definition zw__zip_sig_eocdloc64 : Z := 0x07064b50.
Definition zw__zip_info64_id : Z := 0x0001.
Definition zw__zip_file_system_fat : Z := 0.
Definition zw__zip_compression_method_deflate : Z := 8.
Definition zw__zip_flag_has_data_desc : Z := Z.shiftl 1 3.

Definition local_file_header_bytes (file_time file_date file_name_length : Z) : list Z :=
  le32 zw__zip_sig_local_file_header ++ le16 45 ++ le16 zw__zip_flag_has_data_desc
  ++ le16 zw__zip_compression_method_deflate ++ le16 file_time ++ le16 file_date
  ++ le32 0 ++ le32 0 ++ le32 0 ++ le16 file_name_length ++ le16 0.

Record zw__zip_data_descriptor := {
  dd_crc : Z;
  dd_compressed_size : Z;
  dd_uncompressed_size : Z
}.

Definition data_descriptor_bytes (d : zw__zip_data_descriptor) : list Z :=
  le32 (dd_crc d) ++ le32 (dd_compressed_size d) ++ le32 (dd_uncompressed_size d).

Definition central_dir_file_header_bytes (file_time file_date crc file_name_length : Z) : list Z :=
  le32 zw__zip_sig_central_dir_file_header ++ [u8 45] ++ [u8 zw__zip_file_system_fat]
  ++ le16 45 ++ le16 zw__zip_flag_has_data_desc ++ le16 zw__zip_compression_method_deflate
  ++ le16 file_time ++ le16 file_date ++ le32 crc ++ le32 (not32 0) ++ le32 (not32 0)
  ++ le16 file_name_length ++ le16 28 ++ le16 0 ++ le16 0 ++ le16 0 ++ le32 0
  ++ le32 (not32 0).

Definition info64_bytes (uncompressed_size compressed_size local_header_relative_offset : Z)
    : list Z :=
  le16 zw__zip_info64_id ++ le16 (28 - 4) ++ le64 uncompressed_size ++ le64 compressed_size
  ++ le64 local_header_relative_offset.

Definition end_of_central_dir_64_bytes (num_files central_dir_size central_dir_offset : Z)
    : list Z :=
  le32 zw__zip_sig_eocd64 ++ le64 (56 - 12) ++ le16 45 ++ le16 45 ++ le32 0 ++ le32 0
  ++ le64 num_files ++ le64 num_files ++ le64 central_dir_size ++ le64 central_dir_offset.

Definition end_of_central_dir_locator_64_bytes (end_of_central_dir_64_offset : Z) : list Z :=
  le32 zw__zip_sig_eocdloc64 ++ le32 0 ++ le64 end_of_central_dir_64_offset ++ le32 1.

(** [memset(&eocd, 0xff, sizeof(eocd))], then the signature and the comment
    length. *)
Definition end_of_central_dir_bytes : list Z :=
  le32 zw__zip_sig_eocd ++ repeat 255 16 ++ le16 0.

(** The fields of [struct tm] that [zw_create_ex] reads. *)
Record tm := {
  tm_year : Z; tm_mon : Z; tm_mday : Z; tm_hour : Z; tm_min : Z; tm_sec : Z
}.

Inductive zw_bool := zw_false | zw_true.

(** What the session did to the outside world, oldest first: each call of the
    sink's [write] with the bytes handed over and the count it returned, the
    call of its [close], and the release of the session's memory block. *)
Inductive event :=
| EvWrite (data : list Z) (written : Z)
| EvClose
| EvFree.

Section Archive.

Context {U : Type}.

(** ** The output stream

    [write] and [close] receive the stream itself; they see and may change
    its [user_data] and [error]. *)
Record zw_output_stream := {
  user_data : U;
  write : option (U -> Z -> list Z -> Z * U * Z);
  close : option (U -> Z -> U * Z);
  error : Z
}.

Record zw_zip_options := { opt_stream : zw_output_stream }.

(** [name_heap] is [None] while [name] points to the inline [name_buf] and
    the capacity of the stretchy buffer it points to otherwise; [name] holds
    the bytes stored there, up to the terminating NUL. *)
Record zw__current_file := {
  start_offset : Z;
  compressed_size : Z;
  uncompressed_size : Z;
  crc : Z;
  name_length : Z;
  name_heap : option Z;
  name : list Z
}.

(** [hash_table] maps a slot index to its chain; a slot whose pointer is null
    has no entry.  [log] is not a field of the C structure. *)
Record zw__zip_details := {
  magic : Z;
  bitbuf : Z;
  bitcount : Z;
  quality : Z;
  out : list Z;
  out_cursor : Z;
  out_total : Z;
  window : list Z;
  in_cursor : Z;
  in_total : Z;
  hash_table : gmap Z sbuf;
  stream : zw_output_stream;
  offset : Z;
  current_file : zw__current_file;
  time : Z;
  date : Z;
  central_dir : option sbuf;
  num_files : Z;
  log : list event
}.

Definition set_error (v : Z) (s : zw_output_stream) : zw_output_stream :=
  {| user_data := user_data s; write := write s; close := close s; error := v |}.

Definition set_compressed_size (v : Z) (c : zw__current_file) : zw__current_file :=
  {| start_offset := start_offset c; compressed_size := v; uncompressed_size := uncompressed_size c; crc := crc c; name_length := name_length c; name_heap := name_heap c; name := name c |}.

Definition set_uncompressed_size (v : Z) (c : zw__current_file) : zw__current_file :=
  {| start_offset := start_offset c; compressed_size := compressed_size c; uncompressed_size := v; crc := crc c; name_length := name_length c; name_heap := name_heap c; name := name c |}.

Definition set_crc (v : Z) (c : zw__current_file) : zw__current_file :=
  {| start_offset := start_offset c; compressed_size := compressed_size c; uncompressed_size := uncompressed_size c; crc := v; name_length := name_length c; name_heap := name_heap c; name := name c |}.

Definition set_name_length (v : Z) (c : zw__current_file) : zw__current_file :=
  {| start_offset := start_offset c; compressed_size := compressed_size c; uncompressed_size := uncompressed_size c; crc := crc c; name_length := v; name_heap := name_heap c; name := name c |}.

Definition set_bitbuf (v : Z) (a : zw__zip_details) : zw__zip_details :=
  {| magic := magic a; bitbuf := v; bitcount := bitcount a; quality := quality a; out := out a; out_cursor := out_cursor a; out_total := out_total a; window := window a; in_cursor := in_cursor a; in_total := in_total a; hash_table := hash_table a; stream := stream a; offset := offset a; current_file := current_file a; time := time a; date := date a; central_dir := central_dir a; num_files := num_files a; log := log a |}.

Definition set_bitcount (v : Z) (a : zw__zip_details) : zw__zip_details :=
  {| magic := magic a; bitbuf := bitbuf a; bitcount := v; quality := quality a; out := out a; out_cursor := out_cursor a; out_total := out_total a; window := window a; in_cursor := in_cursor a; in_total := in_total a; hash_table := hash_table a; stream := stream a; offset := offset a; current_file := current_file a; time := time a; date := date a; central_dir := central_dir a; num_files := num_files a; log := log a |}.

Definition set_out (v : list Z) (a : zw__zip_details) : zw__zip_details :=
  {| magic := magic a; bitbuf := bitbuf a; bitcount := bitcount a; quality := quality a; out := v; out_cursor := out_cursor a; out_total := out_total a; window := window a; in_cursor := in_cursor a; in_total := in_total a; hash_table := hash_table a; stream := stream a; offset := offset a; current_file := current_file a; time := time a; date := date a; central_dir := central_dir a; num_files := num_files a; log := log a |}.

Definition set_out_cursor (v : Z) (a : zw__zip_details) : zw__zip_details :=
  {| magic := magic a; bitbuf := bitbuf a; bitcount := bitcount a; quality := quality a; out := out a; out_cursor := v; out_total := out_total a; window := window a; in_cursor := in_cursor a; in_total := in_total a; hash_table := hash_table a; stream := stream a; offset := offset a; current_file := current_file a; time := time a; date := date a; central_dir := central_dir a; num_files := num_files a; log := log a |}.

Definition set_window (v : list Z) (a : zw__zip_details) : zw__zip_details :=
  {| magic := magic a; bitbuf := bitbuf a; bitcount := bitcount a; quality := quality a; out := out a; out_cursor := out_cursor a; out_total := out_total a; window := v; in_cursor := in_cursor a; in_total := in_total a; hash_table := hash_table a; stream := stream a; offset := offset a; current_file := current_file a; time := time a; date := date a; central_dir := central_dir a; num_files := num_files a; log := log a |}.

Definition set_in_cursor (v : Z) (a : zw__zip_details) : zw__zip_details :=
  {| magic := magic a; bitbuf := bitbuf a; bitcount := bitcount a; quality := quality a; out := out a; out_cursor := out_cursor a; out_total := out_total a; window := window a; in_cursor := v; in_total := in_total a; hash_table := hash_table a; stream := stream a; offset := offset a; current_file := current_file a; time := time a; date := date a; central_dir := central_dir a; num_files := num_files a; log := log a |}.

Definition set_hash_table (v : gmap Z sbuf) (a : zw__zip_details) : zw__zip_details :=
  {| magic := magic a; bitbuf := bitbuf a; bitcount := bitcount a; quality := quality a; out := out a; out_cursor := out_cursor a; out_total := out_total a; window := window a; in_cursor := in_cursor a; in_total := in_total a; hash_table := v; stream := stream a; offset := offset a; current_file := current_file a; time := time a; date := date a; central_dir := central_dir a; num_files := num_files a; log := log a |}.

Definition set_stream (v : zw_output_stream) (a : zw__zip_details) : zw__zip_details :=
  {| magic := magic a; bitbuf := bitbuf a; bitcount := bitcount a; quality := quality a; out := out a; out_cursor := out_cursor a; out_total := out_total a; window := window a; in_cursor := in_cursor a; in_total := in_total a; hash_table := hash_table a; stream := v; offset := offset a; current_file := current_file a; time := time a; date := date a; central_dir := central_dir a; num_files := num_files a; log := log a |}.

Definition set_offset (v : Z) (a : zw__zip_details) : zw__zip_details :=
  {| magic := magic a; bitbuf := bitbuf a; bitcount := bitcount a; quality := quality a; out := out a; out_cursor := out_cursor a; out_total := out_total a; window := window a; in_cursor := in_cursor a; in_total := in_total a; hash_table := hash_table a; stream := stream a; offset := v; current_file := current_file a; time := time a; date := date a; central_dir := central_dir a; num_files := num_files a; log := log a |}.

Definition set_current_file (v : zw__current_file) (a : zw__zip_details) : zw__zip_details :=
  {| magic := magic a; bitbuf := bitbuf a; bitcount := bitcount a; quality := quality a; out := out a; out_cursor := out_cursor a; out_total := out_total a; window := window a; in_cursor := in_cursor a; in_total := in_total a; hash_table := hash_table a; stream := stream a; offset := offset a; current_file := v; time := time a; date := date a; central_dir := central_dir a; num_files := num_files a; log := log a |}.

Definition set_central_dir (v : option sbuf) (a : zw__zip_details) : zw__zip_details :=
  {| magic := magic a; bitbuf := bitbuf a; bitcount := bitcount a; quality := quality a; out := out a; out_cursor := out_cursor a; out_total := out_total a; window := window a; in_cursor := in_cursor a; in_total := in_total a; hash_table := hash_table a; stream := stream a; offset := offset a; current_file := current_file a; time := time a; date := date a; central_dir := v; num_files := num_files a; log := log a |}.

Definition set_num_files (v : Z) (a : zw__zip_details) : zw__zip_details :=
  {| magic := magic a; bitbuf := bitbuf a; bitcount := bitcount a; quality := quality a; out := out a; out_cursor := out_cursor a; out_total := out_total a; window := window a; in_cursor := in_cursor a; in_total := in_total a; hash_table := hash_table a; stream := stream a; offset := offset a; current_file := current_file a; time := time a; date := date a; central_dir := central_dir a; num_files := v; log := log a |}.

Definition set_log (v : list event) (a : zw__zip_details) : zw__zip_details :=
  {| magic := magic a; bitbuf := bitbuf a; bitcount := bitcount a; quality := quality a; out := out a; out_cursor := out_cursor a; out_total := out_total a; window := window a; in_cursor := in_cursor a; in_total := in_total a; hash_table := hash_table a; stream := stream a; offset := offset a; current_file := current_file a; time := time a; date := date a; central_dir := central_dir a; num_files := num_files a; log := v |}.

Definition zw__archive_magic : Z :=
  Z.lor (Z.lor (Z.lor 117 (Z.shiftl 90 8)) (Z.shiftl 73 16)) (Z.shiftl 80 24).

(** ** Sink adapter *)

(** [archive->stream.write(&archive->stream, data, size)] *)
Definition call_write (s : zw_output_stream) (data : list Z) : Z * zw_output_stream :=
  match write s with
  | Some f =>
      let '(written, u, e) := f (user_data s) (error s) data in
      (written, {| user_data := u; write := write s; close := close s; error := e |})
  | None => (0, s)
  end.

Definition zw__write_to_stream (a : zw__zip_details) (data : list Z) : zw_bool * zw__zip_details :=
  let size := Z.of_nat (length data) in
  if size =? 0 then (zw_true, a)
  else if negb (error (stream a) =? 0) then (zw_false, a)
  else
    let '(written, s) := call_write (stream a) data in
    let a := set_log (log a ++ [EvWrite data written]) (set_stream s a) in
    let a := set_offset (u64 (offset a + written)) a in
    if written =? size then (zw_true, a)
    else
      let a := if error (stream a) =? 0 then set_stream (set_error 1 (stream a)) a else a in
      (zw_false, a).

(** ** Bit writer *)

Definition zw__flush_compressed_bytes (a : zw__zip_details) : zw__zip_details :=
  if 0 <? out_cursor a then
    let a := set_current_file
               (set_compressed_size (u64 (compressed_size (current_file a) + out_cursor a))
                  (current_file a)) a in
    let a := snd (zw__write_to_stream a (ztake (out_cursor a) (out a))) in
    set_out_cursor 0 a
  else a.

(** The [while (archive->bitcount >= 8)] loop, for at most [n] turns. *)
Fixpoint zw__flush_bits_loop (n : nat) (a : zw__zip_details) : zw__zip_details :=
  match n with
  | O => a
  | S n' =>
      if 8 <=? bitcount a then
        let a := set_out (<[Z.to_nat (out_cursor a) := Z.land (bitbuf a) 255]> (out a)) a in
        let a := set_out_cursor (u16 (out_cursor a + 1)) a in
        let a := if out_cursor a =? out_total a then zw__flush_compressed_bytes a else a in
        let a := set_bitbuf (Z.shiftr (bitbuf a) 8) a in
        let a := set_bitcount (u32 (bitcount a - 8)) a in
        zw__flush_bits_loop n' a
      else a
  end.

Definition zw__flush_bits (a : zw__zip_details) : zw__zip_details :=
  zw__flush_bits_loop (Z.to_nat (bitcount a / 8)) a.

(** The [while (codebits--)] loop. *)
Fixpoint zw__zlib_bitrev_loop (n : nat) (code res : Z) : Z :=
  match n with
  | O => res
  | S n' =>
      zw__zlib_bitrev_loop n' (Z.shiftr code 1)
        (Z.lor (u32 (Z.shiftl res 1)) (Z.land code 1))
  end.

Definition zw__zlib_bitrev (code codebits : Z) : Z :=
  zw__zlib_bitrev_loop (Z.to_nat codebits) code 0.

Definition zw__zlib_add (code codebits : Z) (a : zw__zip_details) : zw__zip_details :=
  let a := set_bitbuf (Z.lor (bitbuf a) (u32 (Z.shiftl code (bitcount a)))) a in
  let a := set_bitcount (u32 (bitcount a + codebits)) a in
  zw__flush_bits a.

Definition zw__zlib_huffa (b c : Z) : zw__zip_details -> zw__zip_details :=
  zw__zlib_add (zw__zlib_bitrev b c) c.

Definition zw__zlib_huff1 (n : Z) := zw__zlib_huffa (0x30 + n) 8.
Definition zw__zlib_huff2 (n : Z) := zw__zlib_huffa (0x190 + n - 144) 9.
Definition zw__zlib_huff3 (n : Z) := zw__zlib_huffa (0 + n - 256) 7.
Definition zw__zlib_huff4 (n : Z) := zw__zlib_huffa (0xc0 + n - 280) 8.

Definition zw__zlib_huff (n : Z) : zw__zip_details -> zw__zip_details :=
  if n <=? 143 then zw__zlib_huff1 n
  else if n <=? 255 then zw__zlib_huff2 n
  else if n <=? 279 then zw__zlib_huff3 n
  else zw__zlib_huff4 n.

Definition zw__zlib_huffb (n : Z) : zw__zip_details -> zw__zip_details :=
  if n <=? 143 then zw__zlib_huff1 n else zw__zlib_huff2 n.

(** ** DEFLATE encoder *)

(** [ZW_NO_SSE], as the build has it. *)
Context (ZW_NO_SSE : bool).

(** The match branch of the main loop: length code and extra bits, distance
    code and extra bits. *)
Definition emit_match (best d : Z) (a : zw__zip_details) : zw__zip_details :=
  let j := code_index (length lengthc) lengthc best 0 in
  let a := zw__zlib_huff (j + 257) a in
  let a := if negb (rd lengtheb j =? 0)
           then zw__zlib_add (best - rd lengthc j) (rd lengtheb j) a else a in
  let j := code_index (length distc) distc d 0 in
  let a := zw__zlib_add (zw__zlib_bitrev j 5) 5 a in
  if negb (rd disteb j =? 0) then zw__zlib_add (d - rd distc j) (rd disteb j) a else a.

(** One turn of [while (i < data_len-3)]: the state and the cursor after it. *)
Definition flush_input_step (data_len : Z) (a : zw__zip_details) (i : Z)
    : zw__zip_details * Z :=
  let w := window a in
  let h := Z.land (zw__zhash (zdrop (32768 + i) w)) (zw__hash_size - 1) in
  let hlist := hash_table a !! h in
  let '(best, bestloc) := scan_chain ZW_NO_SSE w i data_len (sb_items hlist) 3 None in
  let a := set_hash_table
             (<[h := hash_insert (quality a) hlist (u16 (i + 32768))]> (hash_table a)) a in
  let bestloc :=
    match bestloc with
    | Some loc =>
        let h := Z.land (zw__zhash (zdrop (32768 + i + 1) w)) (zw__hash_size - 1) in
        let hlist := hash_table a !! h in
        if lazy_scan ZW_NO_SSE w i data_len best (sb_items hlist) then None else Some loc
    | None => None
    end in
  match bestloc with
  | Some loc => (emit_match best (u16 (32768 + i - loc)) a, u16 (i + best))
  | None => (zw__zlib_huffb (rd w (32768 + i)) a, u16 (i + 1))
  end.

Fixpoint flush_input_loop (n : nat) (data_len : Z) (a : zw__zip_details) (i : Z)
    : zw__zip_details * Z :=
  match n with
  | O => (a, i)
  | S n' =>
      if i <? data_len - 3 then
        let '(a, i) := flush_input_step data_len a i in
        flush_input_loop n' data_len a i
      else (a, i)
  end.

Definition zw__flush_input (a : zw__zip_details) : zw__zip_details :=
  let data_len := in_cursor a in
  if data_len =? 0 then a
  else
    let '(a, i) := flush_input_loop (Z.to_nat data_len) data_len a 0 in
    (* write out final bytes *)
    let a := foldl (fun a k => zw__zlib_huffb (rd (window a) (32768 + k)) a) a
                   (seqZ i (data_len - i)) in
    (* slide window and remove hash table entries that point too far back *)
    let a := set_hash_table (slide_chain (in_cursor a) <$> hash_table a) a in
    let a := set_window (memmove (window a) 0 (window a) (in_cursor a) 32768) a in
    let a := set_current_file
               (set_uncompressed_size (u64 (uncompressed_size (current_file a) + data_len))
                  (current_file a)) a in
    let a := set_current_file
               (set_crc (zw__crc32 (ztake data_len (zdrop 32768 (window a)))
                           (crc (current_file a)))
                  (current_file a)) a in
    set_in_cursor 0 a.

(** ** Archive functionality *)

Definition zw__append_to_central_dir (a : zw__zip_details) (data : list Z)
    : zw_bool * zw__zip_details :=
  let size := Z.of_nat (length data) in
  if size =? 0 then (zw_true, a)
  else
    let s := zw__sbmaybegrow (central_dir a) size in
    (zw_true, set_central_dir (Some {| sbm := sbm s; sbitems := sbitems s ++ data |}) a).

(** [time] and [localtime] give [local]; the memory block is taken to be
    allocated. *)
Definition zw_create_ex (options : option zw_zip_options) (local : tm)
    : option zw__zip_details :=
  match options with
  | None => None
  | Some o =>
      match write (opt_stream o) with
      | None => None
      | Some _ =>
          Some {| magic := zw__archive_magic;
                  bitbuf := 0; bitcount := 0; quality := 8;
                  out := repeat 0 (Z.to_nat 32768); out_cursor := 0; out_total := 32768;
                  window := repeat 0 (Z.to_nat 65536); in_cursor := 0; in_total := 32768;
                  hash_table := ∅;
                  stream := opt_stream o;
                  offset := 0;
                  current_file := {| start_offset := 0; compressed_size := 0;
                                     uncompressed_size := 0; crc := 0; name_length := 0;
                                     name_heap := None; name := [] |};
                  time := zw__zip_encode_time (u32 (tm_hour local)) (u32 (tm_min local))
                            (u32 (tm_sec local));
                  date := zw__zip_encode_date (u32 (tm_year local + 1900))
                            (u32 (tm_mon local + 1)) (u32 (tm_mday local));
                  central_dir := None;
                  num_files := 0;
                  log := [] |}
      end
  end.

(** The [while (archive->bitcount) zw__zlib_add(0,1);] loop. *)
Fixpoint pad_bits (n : nat) (a : zw__zip_details) : zw__zip_details :=
  match n with
  | O => a
  | S n' => if negb (bitcount a =? 0) then pad_bits n' (zw__zlib_add 0 1 a) else a
  end.

Definition zw__zip_end_file (a : zw__zip_details) : zw_bool * zw__zip_details :=
  if name_length (current_file a) =? 0 then (zw_false, a)
  else
    let a := zw__flush_input a in
    let a := zw__zlib_huff 256 a in
    let a := pad_bits 8 a in
    let a := zw__flush_compressed_bytes a in
    let data_desc := {| dd_crc := crc (current_file a);
                        dd_compressed_size := not32 0;
                        dd_uncompressed_size := not32 0 |} in
    match zw__write_to_stream a (data_descriptor_bytes data_desc) with
    | (zw_false, a) => (zw_false, a)
    | (zw_true, a) =>
        let file_name_length := name_length (current_file a) in
        let a := snd (zw__append_to_central_dir a
                        (central_dir_file_header_bytes (time a) (date a)
                           (crc (current_file a)) file_name_length)) in
        let a := snd (zw__append_to_central_dir a
                        (ztake file_name_length (name (current_file a)))) in
        let a := snd (zw__append_to_central_dir a
                        (info64_bytes (uncompressed_size (current_file a))
                           (compressed_size (current_file a))
                           (start_offset (current_file a)))) in
        (zw_true, set_current_file (set_name_length 0 (current_file a)) a)
    end.

(** Where [current_file.name] points after [zw_begin_file] has made room for
    a name of [name_length] bytes. *)
Definition name_room (name_heap : option Z) (name_length : Z) : option Z :=
  let name_capacity := match name_heap with None => 64 | Some m => m end in
  if name_capacity <=? name_length then
    let name_capacity := name_length + 1 in
    let name_capacity := if name_capacity <? 260 then 260 else name_capacity in
    match name_heap with
    | None => Some (name_capacity + 1)
    | Some m => Some (2 * m + name_capacity)
    end
  else name_heap.

(** [file_path] is [None] for a null pointer and the bytes before the
    terminating NUL otherwise. *)
Definition zw_begin_file (archive : option zw__zip_details) (file_path : option (list Z))
    : zw_bool * option zw__zip_details :=
  match archive with
  | None => (zw_false, None)
  | Some a =>
      let a := snd (zw__zip_end_file a) in
      match file_path with
      | None | Some [] => (zw_false, Some a)
      | Some file_path =>
          let name_length := Z.of_nat (length file_path) in
          let name_length := if 0xfffe <? name_length then 0xfffe else name_length in
          let offset0 := offset a in
          match zw__write_to_stream a
                  (local_file_header_bytes (time a) (date a) (u16 name_length)) with
          | (zw_false, a) => (zw_false, Some a)
          | (zw_true, a) =>
              match zw__write_to_stream a (ztake name_length file_path) with
              | (zw_false, a) => (zw_false, Some a)
              | (zw_true, a) =>
                  let heap := name_room (name_heap (current_file a)) name_length in
                  let a := if negb (num_files a =? 0)
                           then set_hash_table
                                  ((fun s => {| sbm := sbm s; sbitems := [] |})
                                     <$> hash_table a) a
                           else a in
                  let a := set_in_cursor 0 a in
                  let a := set_out_cursor 0 a in
                  let a := set_current_file
                             {| start_offset := offset0; compressed_size := 0;
                                uncompressed_size := 0; crc := 0;
                                name_length := u16 name_length;
                                name_heap := heap;
                                name := ztake name_length file_path |} a in
                  let a := set_num_files (u64 (num_files a + 1)) a in
                  (* begin raw deflate block *)
                  let a := zw__zlib_add 1 1 a in
                  let a := zw__zlib_add 1 2 a in
                  (zw_true, Some a)
              end
          end
      end
  end.

(** The [while (data_len > 0)] loop for at most [n] turns: the state and the
    bytes not yet taken. *)
Fixpoint write_loop (n : nat) (a : zw__zip_details) (data : list Z)
    : zw__zip_details * list Z :=
  match n with
  | O => (a, data)
  | S n' =>
      let data_len := Z.of_nat (length data) in
      if 0 <? data_len then
        let avail := u16 (in_total a - in_cursor a) in
        let batch := if data_len <? avail then u16 data_len else avail in
        let a := set_window
                   (memmove (window a) (32768 + in_cursor a) data 0 batch) a in
        let a := set_in_cursor (u16 (in_cursor a + batch)) a in
        let a := if in_cursor a =? in_total a then zw__flush_input a else a in
        write_loop n' a (zdrop batch data)
      else (a, data)
  end.

Definition zw_write (archive : option zw__zip_details) (data : list Z)
    : zw_bool * option zw__zip_details :=
  match archive with
  | None => (zw_false, None)
  | Some a =>
      if num_files a =? 0 then (zw_false, Some a)
      else (zw_true, Some (fst (write_loop (length data) a data)))
  end.

Definition zw_write_text (archive : option zw__zip_details) (text : list Z) :=
  zw_write archive text.

(** The state returned with the result is the session as [zw_finish] leaves
    it; [EvFree] in its [log] tells that its memory has been released. *)
Definition zw_finish (archive : option zw__zip_details)
    : zw_bool * option zw__zip_details :=
  match archive with
  | None => (zw_false, None)
  | Some a =>
      let result := zw_true in
      let a := snd (zw__zip_end_file a) in
      let a := set_hash_table ∅ a in
      let offset0 := offset a in
      let central_dir_size := zw__sbcount (central_dir a) in
      let '(result, a) :=
        match zw__write_to_stream a (sb_items (central_dir a)) with
        | (zw_false, a) => (zw_false, a)
        | (zw_true, a) => (result, a)
        end in
      let a := set_central_dir None a in
      let eocd64 := end_of_central_dir_64_bytes (num_files a) central_dir_size offset0 in
      let offset0 := u64 (offset0 + central_dir_size) in
      let '(result, a) :=
        match result with
        | zw_true =>
            match zw__write_to_stream a eocd64 with
            | (zw_false, a) => (zw_false, a)
            | (zw_true, a) => (result, a)
            end
        | zw_false => (result, a)
        end in
      let '(result, a) :=
        match zw__write_to_stream a (end_of_central_dir_locator_64_bytes offset0) with
        | (zw_false, a) => (zw_false, a)
        | (zw_true, a) => (result, a)
        end in
      let go_on (result : zw_bool) (a : zw__zip_details) :=
        let a := match close (stream a) with
                 | Some f =>
                     let '(u, e) := f (user_data (stream a)) (error (stream a)) in
                     set_log (log a ++ [EvClose])
                       (set_stream {| user_data := u; write := write (stream a);
                                      close := close (stream a); error := e |} a)
                 | None => a
                 end in
        let result := if negb (error (stream a) =? 0) then zw_false else result in
        let a := set_log (log a ++ [EvFree]) a in
        (result, Some a) in
      match result with
      | zw_true =>
          match zw__write_to_stream a end_of_central_dir_bytes with
          | (zw_false, a) => (zw_false, Some a)
          | (zw_true, a) => go_on result a
          end
      | zw_false => go_on result a
      end
  end.

End Archive.

Arguments zw_output_stream : clear implicits.
Arguments zw_zip_options : clear implicits.
Arguments zw__current_file : clear implicits.
Arguments zw__zip_details : clear implicits.

(** ** Views of a session used to state what an operation leaves alone *)

Section Views.

Context {U : Type}.

(** What the bit writer never touches. *)
Definition enc_frame (a : zw__zip_details U) :=
  (quality a, in_total a, out_total a, in_cursor a, window a, hash_table a,
   num_files a, length (out a), (time a, date a, central_dir a),
   (start_offset (current_file a), uncompressed_size (current_file a),
    crc (current_file a), name_length (current_file a),
    name_heap (current_file a), name (current_file a))).

(** What a call of the sink never touches. *)
Definition sink_frame (a : zw__zip_details U) :=
  (bitbuf a, bitcount a, out a, out_cursor a, compressed_size (current_file a),
   enc_frame a).

(** [a'] comes from [a] by emitting bits: the encoder's other fields are
    kept and the log is only extended. *)
Definition emits (a a' : zw__zip_details U) : Prop :=
  enc_frame a' = enc_frame a /\ log a `prefix_of` log a'.

(** What [zw__flush_input] never touches. *)
Definition layout (a : zw__zip_details U) :=
  (quality a, in_total a, out_total a, num_files a, length (out a),
   (time a, date a, central_dir a),
   (start_offset (current_file a), name_length (current_file a),
    name_heap (current_file a), name (current_file a))).

(** What the match search never touches; it does extend the chains. *)
Definition search_frame (a : zw__zip_details U) :=
  (layout a, in_cursor a, window a, uncompressed_size (current_file a),
   crc (current_file a)).

(** Every chain of the hash table holds at most [2 * quality] offsets. *)
Definition chains_bounded (a : zw__zip_details U) : Prop :=
  map_Forall (fun _ s => zw__sbn s <= 2 * quality a) (hash_table a).

(** The layout [zw_create_ex] sets up, an input cursor inside the upper half
    of the window, and bounded chains. *)
Definition session_ok (a : zw__zip_details U) : Prop :=
  quality a = 8 /\ in_total a = 32768 /\ out_total a = 32768
  /\ length (out a) = Z.to_nat 32768 /\ 0 <= in_cursor a < 32768
  /\ chains_bounded a.

(** The sessions the public operations can produce. *)
Inductive reachable (no_sse : bool) : zw__zip_details U -> Prop :=
| reach_create options local a :
    zw_create_ex options local = Some a -> reachable no_sse a
| reach_begin_file a file_path r a' :
    reachable no_sse a ->
    zw_begin_file no_sse (Some a) file_path = (r, Some a') -> reachable no_sse a'
| reach_write a data r a' :
    reachable no_sse a ->
    zw_write no_sse (Some a) data = (r, Some a') -> reachable no_sse a'
| reach_finish a r a' :
    reachable no_sse a ->
    zw_finish no_sse (Some a) = (r, Some a') -> reachable no_sse a'.

End Views.

(** ** Sample sinks and sessions *)

(** A sink that stores every byte it is given. *)
Definition memory_write (u : list Z) (e : Z) (data : list Z) : Z * list Z * Z :=
  (Z.of_nat (length data), u ++ data, e).

Definition memory_stream : zw_output_stream (list Z) :=
  {| user_data := []; write := Some memory_write;
     close := Some (fun u e => (u, e)); error := 0 |}.

(** A sink that fails after [N] bytes: [user_data] counts the bytes it still
    accepts; a write that asks for more is cut short and sets [error]. *)
Definition failing_write (u : Z) (e : Z) (data : list Z) : Z * Z * Z :=
  let size := Z.of_nat (length data) in
  if size <=? u then (size, u - size, e) else (u, 0, 5).

Definition failing_stream (N : Z) : zw_output_stream Z :=
  {| user_data := N; write := Some failing_write;
     close := Some (fun u e => (u, e)); error := 0 |}.

(** 2024-06-15 13:45:32 *)
Definition stamp : tm :=
  {| tm_year := 124; tm_mon := 5; tm_mday := 15; tm_hour := 13; tm_min := 45; tm_sec := 32 |}.

Definition memory_session : option (zw__zip_details (list Z)) :=
  zw_create_ex (Some {| opt_stream := memory_stream |}) stamp.

Definition failing_session (N : Z) : option (zw__zip_details Z) :=
  zw_create_ex (Some {| opt_stream := failing_stream N |}) stamp.

(** A session whose sink has failed while member "a" was being closed: the
    sink takes the 31 bytes of the local header and name, then no more. *)
Definition latched_session : option (zw__zip_details Z) :=
  let s := failing_session 31 in
  let s := snd (zw_begin_file false s (Some [97])) in
  snd (zw_begin_file false s (Some [98])).

(** A session on which member "a" has been ended by a refused
    [zw_begin_file]. *)
Definition idle_session : option (zw__zip_details (list Z)) :=
  let s := memory_session in
  let s := snd (zw_begin_file false s (Some [97])) in
  snd (zw_begin_file false s (Some [])).

(** How often the sink's [close] was called, and how often the session's
    memory was released. *)
Fixpoint count_closes (l : list event) : nat :=
  match l with
  | [] => O
  | EvClose :: l' => S (count_closes l')
  | _ :: l' => count_closes l'
  end.

Fixpoint count_frees (l : list event) : nat :=
  match l with
  | [] => O
  | EvFree :: l' => S (count_frees l')
  | _ :: l' => count_frees l'
  end.


(** ** Sessions used by the protocol *)

Section Protocol.

Context {U : Type}.

(** The accumulator holds fewer than 8 bits and nothing above them. *)
Definition bits_ok (a : zw__zip_details U) : Prop :=
  0 <= bitcount a < 8 /\ 0 <= bitbuf a < 2 ^ bitcount a.

(** Every offset in every chain is below [bound]. *)
Definition entries_below (bound : Z) (a : zw__zip_details U) : Prop :=
  map_Forall (fun _ s => Forall (fun e => e < bound) (sbitems s)) (hash_table a).

(** The encoder between two operations: the chains point into the lower half
    of the window, and the accumulator is empty while no member is active. *)
Definition encoder_ok (a : zw__zip_details U) : Prop :=
  bits_ok a /\ entries_below 32768 a
  /\ (name_length (current_file a) = 0 -> bitcount a = 0).

(** The sessions reached when [zw_write] is only called while a member is
    active. *)
Inductive in_protocol (no_sse : bool) : zw__zip_details U -> Prop :=
| proto_create options local a :
    zw_create_ex options local = Some a -> in_protocol no_sse a
| proto_begin_file a file_path r a' :
    in_protocol no_sse a ->
    zw_begin_file no_sse (Some a) file_path = (r, Some a') -> in_protocol no_sse a'
| proto_write a data r a' :
    in_protocol no_sse a -> name_length (current_file a) <> 0 ->
    zw_write no_sse (Some a) data = (r, Some a') -> in_protocol no_sse a'.

End Protocol.


(** 32768 bytes: the 259 bytes 0, 1, ..., 255, 0, 1, 2 over and over. *)
Definition ramp_data : list Z :=
  ztake 32768 (concat (repeat (map (fun n => n mod 256) (seqZ 0 259)) 127)).


(** ** The CRC-32 of IEEE 802.3, one bit at a time

    The reference the table of [zw__crc32] is compared with: the reflected
    polynomial 0xEDB88320, each byte folded in by eight shifts. *)

Definition crc_poly : Z := 0xEDB88320.

Definition crc_bit_step (c : Z) : Z :=
  Z.lxor (Z.shiftr c 1) (if Z.odd c then crc_poly else 0).

Definition crc_byte_bitwise (crc b : Z) : Z :=
  Nat.iter 8 crc_bit_step (Z.lxor crc b).

Definition crc32_bitwise (buffer : list Z) (initial : Z) : Z :=
  not32 (fold_left crc_byte_bitwise buffer (not32 initial)).

(** ** The session as its sink sees it *)

(** The stream, the offset and the record of the calls made so far. *)
Definition sink_state {U : Type} (a : zw__zip_details U) :=
  (stream a, offset a, log a).

(** The sum of the counts the sink's [write] has returned. *)
Fixpoint total_written (l : list event) : Z :=
  match l with
  | [] => 0
  | EvWrite _ written :: l' => written + total_written l'
  | _ :: l' => total_written l'
  end.

(** The offset is the count of the bytes written, modulo 2^64. *)
Definition accounted {U : Type} (s : zw_output_stream U * Z * list event) : Prop :=
  snd (fst s) = u64 (total_written (snd s)).

(** The end of [zw_finish]: the sink is closed, the result is lowered when
    the stream holds an error, and the session is released. *)
Definition finish_tail {U : Type} (result : zw_bool) (a : zw__zip_details U)
    : zw_bool * option (zw__zip_details U) :=
  let a := match close (stream a) with
           | Some f =>
               let '(u, e) := f (user_data (stream a)) (error (stream a)) in
               set_log (log a ++ [EvClose])
                 (set_stream {| user_data := u; write := write (stream a);
                                close := close (stream a); error := e |} a)
           | None => a
           end in
  let result := if negb (error (stream a) =? 0) then zw_false else result in
  let a := set_log (log a ++ [EvFree]) a in
  (result, Some a).

(** ** The compressed stream, bit by bit *)

(** The bytes the sink has taken: of the bytes of each call of [write], as
    many as the count it returned. *)
Fixpoint handed (l : list event) : list Z :=
  match l with
  | [] => []
  | EvWrite data written :: l' => ztake written data ++ handed l'
  | _ :: l' => handed l'
  end.

(** The low [n] bits of [x], least significant first. *)
Fixpoint bits_lsb (n : nat) (x : Z) : list bool :=
  match n with
  | O => []
  | S n' => Z.odd x :: bits_lsb n' (x / 2)
  end.

(** The low [n] bits of [x], most significant first. *)
Definition bits_msb (n : nat) (x : Z) : list bool := rev (bits_lsb n x).

(** A byte sequence as DEFLATE reads it: each byte from its least
    significant bit on. *)
Definition bytes_bits (l : list Z) : list bool := flat_map (bits_lsb 8) l.

(** Every bit the encoder has produced so far: the bytes the sink has
    taken, the bytes waiting in [out], and the bits in the accumulator. *)
Definition bitstream {U : Type} (a : zw__zip_details U) : list bool :=
  bytes_bits (handed (log a) ++ ztake (out_cursor a) (out a))
  ++ bits_lsb (Z.to_nat (bitcount a)) (bitbuf a).

(** A sink that takes every byte it is given and reports no error. *)
Definition sink_accepts {U : Type} (s : zw_output_stream U) : Prop :=
  error s = 0
  /\ exists f, write s = Some f
       /\ forall u data, exists u', f u 0 data = (Z.of_nat (length data), u', 0).

(** The bit writer between two calls: an accepting sink, fewer than 8 bits
    in the accumulator, and a cursor inside the output buffer. *)
Definition writer_ok {U : Type} (a : zw__zip_details U) : Prop :=
  sink_accepts (stream a) /\ bits_ok a
  /\ out_total a = 32768 /\ length (out a) = Z.to_nat 32768
  /\ 0 <= out_cursor a < 32768.

(** By how much [compressed_size] is ahead of the bytes the sink has taken. *)
Definition lag {U : Type} (a : zw__zip_details U) : Z :=
  compressed_size (current_file a) - Z.of_nat (length (handed (log a))).

(** The code of a literal/length symbol in the fixed Huffman table, in the
    order its bits enter the stream. *)
Definition fixed_code (n : Z) : list bool :=
  if n <=? 143 then bits_msb 8 (0x30 + n)
  else if n <=? 255 then bits_msb 9 (0x190 + n - 144)
  else if n <=? 279 then bits_msb 7 (0 + n - 256)
  else bits_msb 8 (0xc0 + n - 280).

(** ** A reference decoder for fixed-Huffman DEFLATE streams

    Written after RFC 1951: blocks of type 01 only, which are the blocks this
    writer produces.  Huffman codes are read from their most significant
    bit on, every other field from its least significant bit on. *)

Definition lsb_val (bs : list bool) : Z :=
  fold_right (fun b acc => Z.b2z b + 2 * acc) 0 bs.

Definition msb_val (bs : list bool) : Z :=
  fold_left (fun acc b => 2 * acc + Z.b2z b) bs 0.

Definition read_lsb (n : nat) (bs : list bool) : option (Z * list bool) :=
  if (n <=? length bs)%nat then Some (lsb_val (take n bs), drop n bs) else None.

Definition read_msb (n : nat) (bs : list bool) : option (Z * list bool) :=
  if (n <=? length bs)%nat then Some (msb_val (take n bs), drop n bs) else None.

(** RFC 1951, 3.2.6: codes 0000000-0010111 are the symbols 256-279,
    00110000-10111111 the symbols 0-143, 11000000-11000111 the symbols
    280-287, and 110010000-111111111 the symbols 144-255. *)
Definition inflate_symbol (bs : list bool) : option (Z * list bool) :=
  match read_msb 7 bs with
  | None => None
  | Some (c, r) =>
      if c <=? 23 then Some (256 + c, r)
      else
        match read_msb 8 bs with
        | None => None
        | Some (c, r) =>
            if c <=? 191 then Some (c - 48, r)
            else if c <=? 199 then Some (280 + (c - 192), r)
            else
              match read_msb 9 bs with
              | None => None
              | Some (c, r) => Some (144 + (c - 400), r)
              end
        end
  end.

(** RFC 1951, 3.2.5: base lengths and extra bits of the length codes
    257-285, base distances and extra bits of the distance codes 0-29. *)
Definition inflate_length_base : list Z :=
  [3; 4; 5; 6; 7; 8; 9; 10; 11; 13; 15; 17; 19; 23; 27; 31; 35; 43; 51; 59; 67; 83; 99;
   115; 131; 163; 195; 227; 258].
Definition inflate_length_extra : list Z :=
  [0; 0; 0; 0; 0; 0; 0; 0; 1; 1; 1; 1; 2; 2; 2; 2; 3; 3; 3; 3; 4; 4; 4; 4; 5; 5; 5; 5; 0].
Definition inflate_dist_base : list Z :=
  [1; 2; 3; 4; 5; 7; 9; 13; 17; 25; 33; 49; 65; 97; 129; 193; 257; 385; 513; 769; 1025;
   1537; 2049; 3073; 4097; 6145; 8193; 12289; 16385; 24577].
Definition inflate_dist_extra : list Z :=
  [0; 0; 0; 0; 1; 1; 2; 2; 3; 3; 4; 4; 5; 5; 6; 6; 7; 7; 8; 8; 9; 9; 10; 10; 11; 11; 12;
   12; 13; 13].

(** Copy [n] bytes from [dist] bytes back, one at a time, so that the copy
    may run into the bytes it has just produced. *)
Fixpoint lz_copy (n : nat) (dist : nat) (out : list Z) : list Z :=
  match n with
  | O => out
  | S n' => lz_copy n' dist (out ++ [nth (length out - dist) out 0])
  end.

(** The symbols of one block, up to its end-of-block symbol: the output and
    the bits after the block. *)
Fixpoint inflate_block (fuel : nat) (bs : list bool) (out : list Z)
    : option (list Z * list bool) :=
  match fuel with
  | O => None
  | S fuel' =>
      match inflate_symbol bs with
      | None => None
      | Some (sym, bs) =>
          if sym <? 256 then inflate_block fuel' bs (out ++ [sym])
          else if sym =? 256 then Some (out, bs)
          else if 285 <? sym then None
          else
            match read_lsb (Z.to_nat (rd inflate_length_extra (sym - 257))) bs with
            | None => None
            | Some (e, bs) =>
                let len := rd inflate_length_base (sym - 257) + e in
                match read_msb 5 bs with
                | None => None
                | Some (dc, bs) =>
                    if 29 <? dc then None
                    else
                      match read_lsb (Z.to_nat (rd inflate_dist_extra dc)) bs with
                      | None => None
                      | Some (e, bs) =>
                          let dist := rd inflate_dist_base dc + e in
                          if dist <=? Z.of_nat (length out) then
                            inflate_block fuel' bs
                              (lz_copy (Z.to_nat len) (Z.to_nat dist) out)
                          else None
                      end
                end
            end
      end
  end.

(** The blocks of a stream: BFINAL, then BTYPE from its low bit on, then
    the block. *)
Fixpoint inflate_blocks (fuel : nat) (bs : list bool) (out : list Z) : option (list Z) :=
  match fuel with
  | O => None
  | S fuel' =>
      match bs with
      | bfinal :: b0 :: b1 :: bs =>
          if b0 && negb b1 then
            match inflate_block (length bs) bs out with
            | Some (out, bs) => if bfinal then Some out else inflate_blocks fuel' bs out
            | None => None
            end
          else None
      | _ => None
      end
  end.

Definition inflate (bs : list bool) : option (list Z) :=
  inflate_blocks (length bs) bs [].

(** The bits [emit_match] writes for a match of [len] bytes at [d] bytes
    back. *)
Definition match_bits (len d : Z) : list bool :=
  let j := code_index (length lengthc) lengthc len 0 in
  let k := code_index (length distc) distc d 0 in
  fixed_code (j + 257)
  ++ bits_lsb (Z.to_nat (rd lengtheb j)) (len - rd lengthc j)
  ++ bits_msb 5 k
  ++ bits_lsb (Z.to_nat (rd disteb k)) (d - rd distc k).

(** The decoder turns [bits] into the bytes that lead from [out] to [out']
    in [n] symbols, whatever follows. *)
Definition decodes (bits : list bool) (out out' : list Z) (n : nat) : Prop :=
  forall fuel rest,
    inflate_block (n + fuel) (bits ++ rest) out = inflate_block fuel rest out'.

(** ** The encoder against the decoder *)

(** What the decoder holds when the search is at [i]: the bytes of the member
    encoded by earlier flushes, [E], then the first [i] bytes of the block in
    the upper half of the window. *)
Definition decoded (w E : list Z) (i : Z) : list Z := E ++ ztake i (zdrop 32768 w).

(** The lower half of the window ends with the last bytes of [E]. *)
Definition hist_ok (w E : list Z) : Prop :=
  forall p, 0 <= p < 32768 -> 32768 - Z.of_nat (length E) <= p ->
    rd w p = rd E (Z.of_nat (length E) - 32768 + p).

(** Every offset of every chain satisfies [P]. *)
Definition entries_sat {U : Type} (P : Z -> Prop) (a : zw__zip_details U) : Prop :=
  map_Forall (fun _ s => Forall P (sbitems s)) (hash_table a).

(** An offset below [bound] that points at a byte of the [hist] bytes
    encoded so far or of the block. *)
Definition entry_in (bound hist : Z) (e : Z) : Prop :=
  0 <= e < bound /\ 32768 - e <= hist.

Definition byte (b : Z) : Prop := 0 <= b <= 255.

(** ** Members *)

(** The sessions on which [k] members have been begun, [zw_write] being
    called only while a member is active. *)
Inductive began {U : Type} (no_sse : bool) : nat -> zw__zip_details U -> Prop :=
| began_create options local a :
    zw_create_ex options local = Some a -> began no_sse 0 a
| began_member k a file_path a' :
    began no_sse k a ->
    zw_begin_file no_sse (Some a) file_path = (zw_true, Some a') ->
    began no_sse (S k) a'
| began_refused k a file_path a' :
    began no_sse k a ->
    zw_begin_file no_sse (Some a) file_path = (zw_false, Some a') ->
    began no_sse k a'
| began_write k a data r a' :
    began no_sse k a -> name_length (current_file a) <> 0 ->
    zw_write no_sse (Some a) data = (r, Some a') ->
    began no_sse k a'.

(** The bytes [zw_write] has put into the window and no flush has encoded
    yet. *)
Definition pending {U : Type} (a : zw__zip_details U) : list Z :=
  ztake (in_cursor a) (zdrop 32768 (window a)).

(** A member in the making: [B] are the bytes the sink had taken when the
    body began, [E] the bytes of the member the flushes have encoded.  The
    stream holds the block header and symbols that decode to [E], the lower
    half of the window holds the end of [E], and the chains point into it. *)
Definition member_inv {U : Type} (B E : list Z) (a : zw__zip_details U) : Prop :=
  writer_ok a /\ quality a = 8 /\ in_total a = 32768 /\ 0 <= in_cursor a < 32768
  /\ length (window a) = Z.to_nat 65536
  /\ hist_ok (window a) E
  /\ entries_sat (entry_in 32768 (Z.of_nat (length E))) a
  /\ Forall byte (pending a)
  /\ crc (current_file a) = zw__crc32 E 0
  /\ uncompressed_size (current_file a) = u64 (Z.of_nat (length E))
  /\ u64 (lag a) = u64 (- Z.of_nat (length B))
  /\ name_length (current_file a) <> 0
  /\ (exists body, handed (log a) = B ++ body)
  /\ exists bits m,
       bitstream a = bytes_bits B ++ [true; true; false] ++ bits
       /\ decodes bits [] E m /\ (m <= length bits)%nat.


(** The name length [zw_begin_file] records for a path. *)
Definition clamp_name_length (file_path : list Z) : Z :=
  if 0xfffe <? Z.of_nat (length file_path) then 0xfffe else Z.of_nat (length file_path).

(** What lasts from the beginning of a member to its end. *)
Definition static {U : Type} (a : zw__zip_details U) :=
  (num_files a, time a, date a, start_offset (current_file a),
   name_heap (current_file a), name (current_file a)).

(** One [zw_write] after the other, for each chunk of [chunks]. *)
Definition zw_write_all {U : Type} (no_sse : bool)
    (archive : option (zw__zip_details U)) (chunks : list (list Z))
    : option (zw__zip_details U) :=
  foldl (fun s data => snd (zw_write no_sse s data)) archive chunks.

(** ** A client that writes a whole archive *)

(** A file is its path and the chunks handed to [zw_write] one by one. *)
Definition add_member {U : Type} (no_sse : bool)
    (s : option (zw__zip_details U)) (file : list Z * list (list Z))
    : option (zw__zip_details U) :=
  zw_write_all no_sse (snd (zw_begin_file no_sse s (Some (fst file)))) (snd file).

(** [zw_create_ex], then every file, then [zw_finish]. *)
Definition write_archive {U : Type} (no_sse : bool)
    (options : option (zw_zip_options U)) (local : tm)
    (files : list (list Z * list (list Z)))
    : zw_bool * option (zw__zip_details U) :=
  zw_finish no_sse (foldl (add_member no_sse) (zw_create_ex options local) files).

(** The [close] of the sink reports no error. *)
Definition closes_cleanly {U : Type} (s : zw_output_stream U) : Prop :=
  match close s with
  | Some f => forall u, snd (f u 0) = 0
  | None => True
  end.

(** ** The layout of an archive

    A member is given by its path, its bytes and its compressed body. *)

Definition member_bytes (t d : Z) (m : list Z * list Z * list Z) : list Z :=
  let '(p, D, body) := m in
  local_file_header_bytes t d (clamp_name_length p)
  ++ ztake (clamp_name_length p) p
  ++ body
  ++ data_descriptor_bytes
       {| dd_crc := zw__crc32 D 0; dd_compressed_size := not32 0;
          dd_uncompressed_size := not32 0 |}.

Definition entry_bytes (t d : Z) (m : list Z * list Z * list Z) (pos : Z) : list Z :=
  let '(p, D, body) := m in
  central_dir_file_header_bytes t d (zw__crc32 D 0) (clamp_name_length p)
  ++ ztake (clamp_name_length p) p
  ++ info64_bytes (Z.of_nat (length D)) (Z.of_nat (length body)) pos.

Fixpoint members_bytes (t d : Z) (l : list (list Z * list Z * list Z)) : list Z :=
  match l with
  | [] => []
  | m :: l' => member_bytes t d m ++ members_bytes t d l'
  end.

(** The entries of the members of [l], the first of which lies at [pos]. *)
Fixpoint directory_bytes (t d : Z) (pos : Z) (l : list (list Z * list Z * list Z))
    : list Z :=
  match l with
  | [] => []
  | m :: l' =>
      entry_bytes t d m pos
      ++ directory_bytes t d (pos + Z.of_nat (length (member_bytes t d m))) l'
  end.

Definition archive_bytes (t d : Z) (l : list (list Z * list Z * list Z)) : list Z :=
  let M := members_bytes t d l in
  let C := directory_bytes t d 0 l in
  M ++ C
  ++ end_of_central_dir_64_bytes (Z.of_nat (length l)) (Z.of_nat (length C))
       (Z.of_nat (length M))
  ++ end_of_central_dir_locator_64_bytes (Z.of_nat (length M) + Z.of_nat (length C))
  ++ end_of_central_dir_bytes.

(** The members a list of files gives with the bodies [bodies]. *)
Definition stored (files : list (list Z * list (list Z))) (bodies : list (list Z))
    : list (list Z * list Z * list Z) :=
  zip_with (fun f body => (fst f, concat (snd f), body)) files bodies.
(** The session after the members [l]: ending the member in the making
    leaves their bytes with the sink and their entries in the central
    directory. *)
Definition holds {U : Type} (no_sse : bool) (t d : Z)
    (l : list (list Z * list Z * list Z)) (a : zw__zip_details U) : Prop :=
  began no_sse (length l) a /\ sink_accepts (stream a) /\ closes_cleanly (stream a)
  /\ time a = t /\ date a = d
  /\ handed (log (snd (zw__zip_end_file no_sse a))) = members_bytes t d l
  /\ sb_items (central_dir (snd (zw__zip_end_file no_sse a))) = directory_bytes t d 0 l.


(** ** One turn of the loop of [zw_write] *)

(** The count of bytes a turn takes from [data]. *)
Definition write_batch {U : Type} (a : zw__zip_details U) (data : list Z) : Z :=
  let data_len := Z.of_nat (length data) in
  let avail := u16 (in_total a - in_cursor a) in
  if data_len <? avail then u16 data_len else avail.

(** The session after a turn that takes [batch] bytes. *)
Definition write_step {U : Type} (no_sse : bool) (a : zw__zip_details U)
    (data : list Z) (batch : Z) : zw__zip_details U :=
  let a := set_window (memmove (window a) (32768 + in_cursor a) data 0 batch) a in
  let a := set_in_cursor (u16 (in_cursor a + batch)) a in
  if in_cursor a =? in_total a then zw__flush_input no_sse a else a.

(** The buffers as [zw_create_ex] lays them out. *)
Definition buffers_ok {U : Type} (a : zw__zip_details U) : Prop :=
  session_ok a /\ length (window a) = Z.to_nat 65536.

(** A session on which member "a" has just begun. *)
Definition member_sample : option (zw__zip_details (list Z)) :=
  snd (zw_begin_file false memory_session (Some [97])).

(** * cpuid_multiver.h: choosing a version of a function by CPUID

    The capabilities are an enumeration, a set of capabilities is the
    [unsigned int] of their bits, and the processor is what CPUID returns:
    the highest leaf and the four registers of leaves 1 and 7.  The array of
    versions is a list; running past its last element, which the C++ leaves
    undefined, is [None]. *)

Module cmv.

Inductive capability :=
| mmx | sse | sse2 | sse3 | ssse3 | sse41 | sse42 | bmi1 | bmi2 | aes | f16c | avx | avx2
| pclmulqdq | rdrand | rdseed.

(** [CMV_CAPABILITY_LIST]: name, CPUID leaf, register (1 = eax .. 4 = edx),
    bit of the register. *)
Definition capability_list : list (capability * Z * Z * Z) :=
  [ (mmx, 1, 4, 23); (sse, 1, 4, 25); (sse2, 1, 4, 26); (sse3, 1, 3, 0);
    (ssse3, 1, 3, 9); (sse41, 1, 3, 19); (sse42, 1, 3, 20); (bmi1, 7, 2, 3);
    (bmi2, 7, 2, 8); (aes, 1, 3, 25); (f16c, 1, 3, 29); (avx, 1, 3, 28);
    (avx2, 7, 2, 5); (pclmulqdq, 1, 3, 1); (rdrand, 1, 3, 30); (rdseed, 7, 2, 18) ].

(** [capability_index::name] *)
Definition capability_index (c : capability) : Z :=
  match c with
  | mmx => 0 | sse => 1 | sse2 => 2 | sse3 => 3 | ssse3 => 4 | sse41 => 5 | sse42 => 6
  | bmi1 => 7 | bmi2 => 8 | aes => 9 | f16c => 10 | avx => 11 | avx2 => 12
  | pclmulqdq => 13 | rdrand => 14 | rdseed => 15
  end.

(** [enum caps]: [name = 1 << capability_index::name], and [generic = 0]. *)
Definition caps (c : capability) : Z := Z.shiftl 1 (capability_index c).
Definition generic : Z := 0.

(** eax, ebx, ecx and edx after CPUID. *)
Record regs := { eax : Z; ebx : Z; ecx : Z; edx : Z }.

(** The processor.  Leaf 0 (whose eax is the highest leaf) and leaf 1 have no
    subleaves; leaf 7 answers for the subleaf it finds in ecx. *)
Record cpu := { leaf0 : regs; leaf1 : regs; leaf7 : Z -> regs }.

(** A 32-bit register stored in an [int]. *)
Definition to_int (x : Z) : Z := if u32 x <? 2 ^ 31 then u32 x else u32 x - 2 ^ 32.

(** The four [int]s that [__cpuid] and [__cpuidex] fill, and the four
    [unsigned int]s that [__get_cpuid] fills. *)
Definition int_array (r : regs) : list Z := map to_int [eax r; ebx r; ecx r; edx r].
Definition uint_array (r : regs) : list Z := map u32 [eax r; ebx r; ecx r; edx r].

(** [__get_cpuid_max (0, 0)] of <cpuid.h>: eax of leaf 0. *)
Definition get_cpuid_max (c : cpu) : Z := u32 (eax (leaf0 c)).

(** [__get_cpuid (leaf, f+0, f+1, f+2, f+3)] of <cpuid.h>: it leaves [f] alone
    when the leaf is above the highest one, and runs CPUID with eax = [leaf]
    otherwise.  It does not load ecx, so leaf 7 answers for the subleaf that
    ecx happens to hold, [stale_ecx]. *)
Definition get_cpuid (c : cpu) (stale_ecx : Z) (leaf : Z) (f : list Z) : list Z :=
  let maxlevel := get_cpuid_max c in
  if (maxlevel =? 0) || (maxlevel <? leaf) then f
  else uint_array (if leaf =? 1 then leaf1 c else leaf7 c stale_ecx).

(** One [CMV_DETECT_CAP] line. *)
Definition detect_cap (f1 f7 : list Z) (result : Z) (e : capability * Z * Z * Z) : Z :=
  let '(name, fn, reg, regbit) := e in
  let f := if fn =? 1 then f1 else f7 in
  if negb (Z.land (rd f (reg - 1)) (Z.shiftl 1 regbit) =? 0)
  then Z.lor result (caps name) else result.

(** The two builds of [detect_system_caps]: with MSVC's <intrin.h>, where
    [__cpuid] clears ecx and [__cpuidex] is given subleaf 0, and with GCC's
    <cpuid.h>. *)
Inductive compiler := msvc | gnuc.

Definition detect_system_caps (b : compiler) (c : cpu) (stale_ecx : Z) : Z :=
  match b with
  | msvc =>
      let f1 := [0; 0; 0; 0] in
      let f7 := [0; 0; 0; 0] in
      let data := int_array (leaf0 c) in
      let max_func := rd data 0 in
      let f1 := if 1 <=? max_func then int_array (leaf1 c) else f1 in
      let f7 := if 7 <=? max_func then int_array (leaf7 c 0) else f7 in
      fold_left (detect_cap f1 f7) capability_list 0
  | gnuc =>
      let f1 := [0; 0; 0; 0] in
      let f7 := [0; 0; 0; 0] in
      let max_func := to_int (get_cpuid_max c) in
      let f1 := if 1 <=? max_func then get_cpuid c stale_ecx 1 f1 else f1 in
      let f7 := if 7 <=? max_func then get_cpuid c stale_ecx 7 f7 else f7 in
      fold_left (detect_cap f1 f7) capability_list 0
  end.

Record version (F : Type) := { function : F; requirements : Z }.
Arguments function {F} _.
Arguments requirements {F} _.

(** The loop [while (candidate->requirements & not_present) ++candidate;]. *)
Fixpoint resolve_from {F : Type} (not_present : Z) (candidates : list (version F))
    : option F :=
  match candidates with
  | [] => None
  | candidate :: rest =>
      if negb (Z.land (requirements candidate) not_present =? 0)
      then resolve_from not_present rest
      else Some (function candidate)
  end.

(** [system_caps] is what [get_cached_system_caps] returns. *)
Definition resolve {F : Type} (system_caps : Z) (first_candidate : list (version F))
    : option F :=
  let not_present := u32 (Z.lnot system_caps) in
  resolve_from not_present first_candidate.

End cmv.

(** A set of capabilities has every capability of [requirements]. *)
Definition supports (system_caps requirements : Z) : Prop :=
  Z.land requirements system_caps = requirements.

(** ** Capacities of the stretchy buffers *)

(** The items of a stretchy buffer lie within its capacity, one slot being
    spare. *)
Definition sb_fits (s : sbuf) : Prop := zw__sbn s < sbm s.

(** The central directory and every chain of the hash table lie within
    their capacities. *)
Definition buffers_fit {U : Type} (a : zw__zip_details U) : Prop :=
  (forall s, central_dir a = Some s -> sb_fits s)
  /\ map_Forall (fun _ s => sb_fits s) (hash_table a).


(** ** What a member has taken in *)

(** After [a'] has taken [data] more than [a]: the CRC-32 and the size the
    member would be closed with are those of the bytes it had taken and of
    [data] after them, and the bytes waiting in the window are the last of
    them, in order. *)
Definition takes_in {U : Type} (a : zw__zip_details U) (data : list Z)
    (a' : zw__zip_details U) : Prop :=
  zw__crc32 (pending a') (crc (current_file a'))
  = zw__crc32 (pending a ++ data) (crc (current_file a))
  /\ u64 (uncompressed_size (current_file a') + Z.of_nat (length (pending a')))
     = u64 (uncompressed_size (current_file a) + Z.of_nat (length (pending a ++ data)))
  /\ exists flushed, pending a ++ data = flushed ++ pending a'.

(** A member whose 32768 bytes fill one chain: the triple "aaa" is entered
    at offsets 0 and 1 and then every 258 bytes, fourteen times, which
    leaves its chain with exactly 16 offsets when the window is flushed. *)
Definition chain_data : list Z :=
  repeat 97 (Z.to_nat 3871)
  ++ concat (map (fun b => repeat b (Z.to_nat 259)) (seqZ 100 111))
  ++ repeat 211 (Z.to_nat 148).

(** A session in the middle of a match search where the lazy step applies:
    member "a" holds the 20 bytes "abc_bcdef_abcdefzzzz" and the search has
    taken the first ten as literals.  At 10, "abc" matches the three bytes at
    0; at 11, "bcdef" matches the five bytes at 4. *)
Definition lazy_sample : option (zw__zip_details (list Z)) :=
  let s := snd (zw_begin_file false memory_session (Some [97])) in
  let s := snd (zw_write false s [97; 98; 99; 95; 98; 99; 100; 101; 102; 95;
                                  97; 98; 99; 100; 101; 102; 122; 122; 122; 122]) in
  (fun a => fst (flush_input_loop false 10 20 a 0)) <$> s.


(** A processor that reports every capability, and zeros for the subleaves
    of leaf 7 it does not have. *)
Definition sample_cpu : cmv.cpu :=
  let ones := {| cmv.eax := 0xFFFFFFFF; cmv.ebx := 0xFFFFFFFF; cmv.ecx := 0xFFFFFFFF;
                 cmv.edx := 0xFFFFFFFF |} in
  let zeros := {| cmv.eax := 0; cmv.ebx := 0; cmv.ecx := 0; cmv.edx := 0 |} in
  {| cmv.leaf0 := {| cmv.eax := 13; cmv.ebx := 0x756E6547; cmv.ecx := 0x6C65746E;
                     cmv.edx := 0x49656E69 |};
     cmv.leaf1 := ones;
     cmv.leaf7 := fun subleaf => if subleaf =? 0 then ones else zeros |}.

(** * Properties *)

(** ** Integer helpers *)

Lemma u32_range x : 0 <= u32 x < 4294967296.
Proof. unfold u32. apply Z.mod_pos_bound. lia. Qed.

Lemma u32_small x : 0 <= x < 4294967296 -> u32 x = x.
Proof. intros H. unfold u32. apply Z.mod_small. exact H. Qed.

Lemma u16_small x : 0 <= x < 65536 -> u16 x = x.
Proof. intros H. unfold u16. apply Z.mod_small. exact H. Qed.

Lemma not32_range x : 0 <= not32 x < 4294967296.
Proof. apply u32_range. Qed.

Lemma not32_involutive x : 0 <= x < 4294967296 -> not32 (not32 x) = x.
Proof.
  intros H. unfold not32, u32.
  replace (Z.lnot x) with (- x - 1) by (unfold Z.lnot, Z.pred; lia).
  replace ((- x - 1) mod 4294967296) with (4294967295 - x).
  2:{ apply Z.mod_unique with (q := -1); lia. }
  replace (Z.lnot (4294967295 - x)) with (x - 4294967296)
    by (unfold Z.lnot, Z.pred; lia).
  symmetry. apply Z.mod_unique with (q := -1); lia.
Qed.

(** Bitwise [or] and [xor] stay below the power of two that bounds both
    operands. *)
Lemma below_pow2_bits n x :
  0 <= n -> 0 <= x ->
  (x < 2 ^ n <-> forall k, n <= k -> Z.testbit x k = false).
Proof.
  intros Hn Hx. split.
  - intros Hlt k Hk. destruct (Z.eq_dec x 0) as [->|Hne].
    + apply Z.bits_0.
    + apply Z.bits_above_log2; [lia|].
      assert (Z.log2 x < n) by (apply Z.log2_lt_pow2; lia). lia.
  - intros Hbits. destruct (Z.eq_dec x 0) as [->|Hne].
    + apply Z.pow_pos_nonneg; lia.
    + destruct (Z.lt_ge_cases x (2 ^ n)) as [Hlt|Hge]; [exact Hlt|].
      assert (Hl : n <= Z.log2 x) by (apply Z.log2_le_pow2; lia).
      specialize (Hbits _ Hl). rewrite Z.bit_log2 in Hbits by lia. discriminate.
Qed.

Lemma lxor_below n x y :
  0 <= n -> 0 <= x < 2 ^ n -> 0 <= y < 2 ^ n -> 0 <= Z.lxor x y < 2 ^ n.
Proof.
  intros Hn Hx Hy.
  assert (H0 : 0 <= Z.lxor x y) by (apply Z.lxor_nonneg; lia).
  split; [exact H0|]. apply below_pow2_bits; [lia|lia|].
  intros k Hk. rewrite Z.lxor_spec.
  rewrite (proj1 (below_pow2_bits n x Hn (proj1 Hx)) (proj2 Hx) k Hk).
  rewrite (proj1 (below_pow2_bits n y Hn (proj1 Hy)) (proj2 Hy) k Hk).
  reflexivity.
Qed.

Lemma lor_below n x y :
  0 <= n -> 0 <= x < 2 ^ n -> 0 <= y < 2 ^ n -> 0 <= Z.lor x y < 2 ^ n.
Proof.
  intros Hn Hx Hy.
  assert (H0 : 0 <= Z.lor x y) by (apply Z.lor_nonneg; lia).
  split; [exact H0|]. apply below_pow2_bits; [lia|lia|].
  intros k Hk. rewrite Z.lor_spec.
  rewrite (proj1 (below_pow2_bits n x Hn (proj1 Hx)) (proj2 Hx) k Hk).
  rewrite (proj1 (below_pow2_bits n y Hn (proj1 Hy)) (proj2 Hy) k Hk).
  reflexivity.
Qed.

(** ** CRC-32 *)

Lemma crc_table_range : Forall (fun t => 0 <= t < 2 ^ 32) crc_table.
Proof.
  apply List.Forall_forall. intros t Ht.
  assert (Hb : forallb (fun t => (0 <=? t) && (t <? 2 ^ 32)) crc_table = true)
    by (vm_compute; reflexivity).
  rewrite forallb_forall in Hb. specialize (Hb t Ht).
  apply andb_true_iff in Hb. destruct Hb as [H1 H2].
  apply Z.leb_le in H1. apply Z.ltb_lt in H2. lia.
Qed.

Lemma crc_table_rd_range i : 0 <= rd crc_table i < 2 ^ 32.
Proof.
  unfold rd. destruct (Nat.lt_ge_cases (Z.to_nat i) (length crc_table)) as [Hlt|Hge].
  - pose proof crc_table_range as HF. rewrite List.Forall_forall in HF.
    apply HF. apply nth_In. exact Hlt.
  - rewrite nth_overflow by exact Hge. lia.
Qed.

Lemma crc_step_range crc b : 0 <= crc < 2 ^ 32 -> 0 <= crc_step crc b < 2 ^ 32.
Proof.
  intros H. unfold crc_step. apply lxor_below; [lia| |apply crc_table_rd_range].
  rewrite Z.shiftr_div_pow2 by lia. split.
  - apply Z.div_pos; lia.
  - apply Z.div_lt_upper_bound; lia.
Qed.

Lemma crc_loop_range buffer : forall crc,
  0 <= crc < 2 ^ 32 -> 0 <= crc_loop buffer crc < 2 ^ 32.
Proof.
  unfold crc_loop. induction buffer as [|b buffer IH]; intros crc H; simpl.
  - exact H.
  - apply IH. apply crc_step_range. exact H.
Qed.

Lemma crc_loop_app b1 b2 crc :
  crc_loop (b1 ++ b2) crc = crc_loop b2 (crc_loop b1 crc).
Proof. unfold crc_loop. apply fold_left_app. Qed.

(** C5: the CRC of a concatenation is the CRC of the second part started
    from the CRC of the first part. *)
Theorem crc32_split (buf1 buf2 : list Z) (prior : Z) :
  zw__crc32 (buf1 ++ buf2) prior = zw__crc32 buf2 (zw__crc32 buf1 prior).
Proof.
  unfold zw__crc32. rewrite crc_loop_app. f_equal. f_equal.
  symmetry. apply not32_involutive.
  change 4294967296 with (2 ^ 32). apply crc_loop_range.
  change (2 ^ 32) with 4294967296. apply not32_range.
Qed.

(** C6: the CRC-32 of the 13 ASCII bytes of "hello, world!" from the initial
    value 0 is 0x58988D13. *)
Theorem crc32_hello_world :
  zw__crc32 [104; 101; 108; 108; 111; 44; 32; 119; 111; 114; 108; 100; 33] 0
  = 0x58988D13.
Proof. vm_compute. reflexivity. Qed.

(** ** MS-DOS time and date *)

Lemma shiftl_small x n m :
  0 <= x -> 0 <= n -> x * 2 ^ n < 2 ^ m -> m <= 32 ->
  u32 (Z.shiftl x n) = Z.shiftl x n /\ 0 <= Z.shiftl x n < 2 ^ m.
Proof.
  intros Hx Hn Hlt Hm. rewrite Z.shiftl_mul_pow2 by lia.
  assert (H2 : 0 < 2 ^ n) by (apply Z.pow_pos_nonneg; lia).
  assert (Hle : 2 ^ m <= 2 ^ 32) by (apply Z.pow_le_mono_r; lia).
  split; [apply u32_small; change 4294967296 with (2 ^ 32)|]; nia.
Qed.

(** C7: for an in-range local time the DOS time is
    [second/2 | minute<<5 | hour<<11] and the DOS date is
    [day | month<<5 | (year-1980)<<9]; 2024-06-15 13:45:32 gives the date
    0x58CF and the time 0x6DB0. *)
Theorem dos_stamp_in_range (hour minute second year month day : Z) :
  0 <= hour <= 23 -> 0 <= minute <= 59 -> 0 <= second <= 59 ->
  1980 <= year <= 2107 -> 1 <= month <= 12 -> 1 <= day <= 31 ->
  zw__zip_encode_time hour minute second
    = Z.lor (Z.lor (second / 2) (Z.shiftl minute 5)) (Z.shiftl hour 11)
  /\ zw__zip_encode_date year month day
    = Z.lor (Z.lor day (Z.shiftl month 5)) (Z.shiftl (year - 1980) 9)
  /\ zw__zip_encode_date 2024 6 15 = 0x58CF
  /\ zw__zip_encode_time 13 45 32 = 0x6DB0.
Proof.
  intros Hh Hm Hs Hy Hmo Hd.
  split; [|split; [|split; vm_compute; reflexivity]].
  - unfold zw__zip_encode_time.
    destruct (Z.ltb_spec 23 hour); [lia|].
    destruct (Z.ltb_spec 59 minute); [lia|].
    destruct (Z.ltb_spec 59 second); [lia|].
    destruct (shiftl_small minute 5 16) as [-> Hm5]; [lia..|].
    destruct (shiftl_small hour 11 16) as [-> Hh11]; [lia..|].
    rewrite Z.shiftr_div_pow2 by lia. change (2 ^ 1) with 2.
    apply u16_small. change 65536 with (2 ^ 16).
    assert (0 <= second / 2 < 2 ^ 16).
    { split; [apply Z.div_pos; lia | apply Z.div_lt_upper_bound; lia]. }
    apply lor_below; [lia| |exact Hh11]. apply lor_below; [lia|assumption|exact Hm5].
  - unfold zw__zip_encode_date.
    destruct (Z.leb_spec 1980 year); [|lia].
    rewrite (u32_small (year - 1980)) by lia.
    destruct (Z.ltb_spec 127 (year - 1980)); [lia|].
    destruct (Z.ltb_spec 12 month); [lia|].
    destruct (Z.ltb_spec 31 day); [lia|].
    destruct (shiftl_small month 5 16) as [-> Hm5]; [lia..|].
    destruct (shiftl_small (year - 1980) 9 16) as [-> Hy9]; [lia..|].
    apply u16_small. change 65536 with (2 ^ 16).
    apply lor_below; [lia| |exact Hy9]. apply lor_below; [lia|lia|exact Hm5].
Qed.

Lemma dos_stamp_in_range_witness :
  zw__zip_encode_time 13 45 32
    = Z.lor (Z.lor (32 / 2) (Z.shiftl 45 5)) (Z.shiftl 13 11)
  /\ zw__zip_encode_date 2024 6 15
    = Z.lor (Z.lor 15 (Z.shiftl 6 5)) (Z.shiftl (2024 - 1980) 9)
  /\ zw__zip_encode_date 2024 6 15 = 0x58CF
  /\ zw__zip_encode_time 13 45 32 = 0x6DB0.
Proof. apply (dos_stamp_in_range 13 45 32 2024 6 15); lia. Defined.

(** ** Common prefix *)

Lemma rd_zdrop (p : list Z) i k : 0 <= i -> 0 <= k -> rd (zdrop i p) k = rd p (i + k).
Proof.
  intros Hi Hk. unfold rd, zdrop. rewrite !nth_lookup, lookup_drop.
  rewrite Z2Nat.inj_add by lia. reflexivity.
Qed.

Lemma movemask_cmpeq_bits (xs ys : list Z) (j : nat) :
  Z.testbit (mm_movemask_epi8 (mm_cmpeq_epi8 xs ys)) (Z.of_nat j)
  = match xs !! j, ys !! j with
    | Some x, Some y => x =? y
    | _, _ => false
    end.
Proof.
  revert ys j. induction xs as [|x xs IH]; intros ys j.
  - simpl. rewrite Z.bits_0. reflexivity.
  - destruct ys as [|y ys].
    + simpl. rewrite Z.bits_0. destruct (_ !! j); reflexivity.
    + change (mm_movemask_epi8 (mm_cmpeq_epi8 (x :: xs) (y :: ys)))
        with (Z.b2z (Z.testbit (if x =? y then 255 else 0) 7)
              + 2 * mm_movemask_epi8 (mm_cmpeq_epi8 xs ys)).
      replace (Z.testbit (if x =? y then 255 else 0) 7) with (x =? y)
        by (destruct (x =? y); reflexivity).
      rewrite Z.add_comm. destruct j as [|j].
      * rewrite Z.testbit_0_r. reflexivity.
      * rewrite Nat2Z.inj_succ, Z.testbit_succ_r by lia. exact (IH ys j).
Qed.

Lemma eq_mask16_bits (a b : list Z) i k :
  0 <= i -> 0 <= k ->
  Z.testbit (eq_mask16 a b i) k = (k <? 16) && (rd a (i + k) =? rd b (i + k)).
Proof.
  intros Hi Hk. unfold eq_mask16, mm_loadu_si128.
  rewrite <- (Z2Nat.id k) at 1 by lia. rewrite movemask_cmpeq_bits.
  rewrite !list_lookup_fmap. destruct (Z.ltb_spec k 16) as [Hlt|Hge].
  - rewrite (lookup_seqZ_lt 0 16 (Z.to_nat k)) by lia. simpl.
    rewrite !rd_zdrop by lia. rewrite Z2Nat.id by lia. reflexivity.
  - rewrite (lookup_seqZ_ge 0 16 (Z.to_nat k)) by lia. reflexivity.
Qed.

Lemma movemask_nonneg (v : list Z) : 0 <= mm_movemask_epi8 v.
Proof.
  induction v as [|x v IH]; [reflexivity|].
  change (mm_movemask_epi8 (x :: v))
    with (Z.b2z (Z.testbit x 7) + 2 * mm_movemask_epi8 v).
  destruct (Z.testbit x 7); cbn [Z.b2z]; lia.
Qed.

Lemma eq_mask16_nonneg (a b : list Z) i : 0 <= eq_mask16 a b i.
Proof. apply movemask_nonneg. Qed.

(** Bit [k] of the mismatch mask of the 32 bytes at [i]. *)
Lemma mask32_bits (a b : list Z) i k :
  0 <= i -> 0 <= k ->
  Z.testbit (not32 (Z.lor (eq_mask16 a b (i + 0)) (u32 (Z.shiftl (eq_mask16 a b (i + 16)) 16)))) k
  = (k <? 32) && negb (rd a (i + k) =? rd b (i + k)).
Proof.
  intros Hi Hk. unfold not32, u32. change 4294967296 with (2 ^ 32).
  destruct (Z.ltb_spec k 32) as [Hlt|Hge].
  - rewrite Z.mod_pow2_bits_low by lia. rewrite Z.lnot_spec by lia.
    rewrite Z.lor_spec. rewrite Z.mod_pow2_bits_low by lia.
    rewrite Z.shiftl_spec by lia. rewrite eq_mask16_bits by lia.
    simpl. f_equal. destruct (Z.ltb_spec k 16) as [Hl|Hg].
    + rewrite Z.testbit_neg_r by lia. rewrite Z.add_0_r. simpl.
      apply orb_false_r.
    + rewrite eq_mask16_bits by lia. simpl.
      replace (k - 16 <? 16) with true by (symmetry; apply Z.ltb_lt; lia).
      replace (i + 16 + (k - 16)) with (i + k) by lia. reflexivity.
  - rewrite Z.mod_pow2_bits_high by lia. reflexivity.
Qed.

Lemma mask16_bits (a b : list Z) i k :
  0 <= i -> 0 <= k ->
  Z.testbit (Z.lxor (eq_mask16 a b i) 0xffff) k
  = (k <? 16) && negb (rd a (i + k) =? rd b (i + k)).
Proof.
  intros Hi Hk. rewrite Z.lxor_spec, eq_mask16_bits by lia.
  change 0xffff with (Z.ones 16). destruct (Z.ltb_spec k 16) as [Hlt|Hge].
  - rewrite Z.ones_spec_low by lia. simpl. apply xorb_true_r.
  - rewrite Z.ones_spec_high by lia. reflexivity.
Qed.

Lemma ctz_pos_spec (p : positive) :
  0 <= ctz_pos p
  /\ Z.testbit (Zpos p) (ctz_pos p) = true
  /\ forall k, 0 <= k < ctz_pos p -> Z.testbit (Zpos p) k = false.
Proof.
  induction p as [p IH|p IH|].
  - simpl ctz_pos. split; [lia|]. split; [reflexivity|]. intros k Hk. lia.
  - destruct IH as (H0 & Hset & Hlow). simpl ctz_pos.
    change (Zpos p~0) with (2 * Zpos p). split; [lia|]. split.
    + replace (1 + ctz_pos p) with (Z.succ (ctz_pos p)) by lia.
      rewrite Z.double_bits_succ. exact Hset.
    + intros k Hk. destruct (Z.eq_dec k 0) as [->|Hne].
      * apply Z.testbit_even_0.
      * replace k with (Z.succ (k - 1)) by lia. rewrite Z.double_bits_succ.
        apply Hlow. lia.
  - simpl. split; [lia|]. split; [reflexivity|]. intros k Hk. lia.
Qed.

(** What a mismatch mask over the [n] bytes at [i] tells: nothing differs
    when it is zero; otherwise [zw__bsf] finds the first byte that does. *)
Lemma mismatch_mask_spec (a b : list Z) i n mask :
  0 < n <= 32 ->
  (forall k, 0 <= k -> Z.testbit mask k = (k <? n) && negb (rd a (i + k) =? rd b (i + k))) ->
  0 <= mask ->
  if mask =? 0
  then forall k, 0 <= k < n -> rd a (i + k) = rd b (i + k)
  else 0 <= zw__bsf mask < n
       /\ rd a (i + zw__bsf mask) <> rd b (i + zw__bsf mask)
       /\ forall k, 0 <= k < zw__bsf mask -> rd a (i + k) = rd b (i + k).
Proof.
  intros Hn Hbits Hpos. destruct (Z.eqb_spec mask 0) as [->|Hne].
  - intros k Hk. specialize (Hbits k (proj1 Hk)). rewrite Z.bits_0 in Hbits.
    replace (k <? n) with true in Hbits by (symmetry; apply Z.ltb_lt; lia).
    simpl in Hbits. symmetry in Hbits. apply negb_false_iff in Hbits.
    apply Z.eqb_eq. exact Hbits.
  - destruct mask as [|p|p]; [congruence| |lia].
    destruct (ctz_pos_spec p) as (H0 & Hset & Hlow).
    assert (Hc : ctz_pos p < n).
    { rewrite Hbits in Hset by lia. apply andb_true_iff in Hset.
      destruct Hset as [Hlt _]. apply Z.ltb_lt in Hlt. exact Hlt. }
    assert (Hu : zw__bsf (Zpos p) = ctz_pos p).
    { unfold zw__bsf, u8. apply Z.mod_small. lia. }
    rewrite Hu. split; [lia|]. split.
    + rewrite Hbits in Hset by lia. apply andb_true_iff in Hset.
      destruct Hset as [_ Hd]. apply negb_true_iff in Hd.
      apply Z.eqb_neq. exact Hd.
    + intros k Hk. specialize (Hlow k Hk). rewrite Hbits in Hlow by lia.
      replace (k <? n) with true in Hlow by (symmetry; apply Z.ltb_lt; lia).
      simpl in Hlow. apply negb_false_iff in Hlow. apply Z.eqb_eq. exact Hlow.
Qed.

Lemma first_mismatch_unique a b lim r r' :
  first_mismatch a b lim r -> first_mismatch a b lim r' -> r = r'.
Proof.
  intros (Hr & Heq & Hne) (Hr' & Heq' & Hne').
  destruct (Z.lt_trichotomy r r') as [Hlt|[Heq0|Hgt]]; [|exact Heq0|].
  - exfalso. apply Hne; [lia|]. apply Heq'. lia.
  - exfalso. apply Hne'; [lia|]. apply Heq. lia.
Qed.

Lemma countm_tail_spec (a b : list Z) lim : forall n i,
  0 <= i <= lim -> lim <= 258 -> lim - i <= Z.of_nat n ->
  (forall k, 0 <= k < i -> rd a k = rd b k) ->
  first_mismatch a b lim (zw__zlib_countm_tail n a b lim i).
Proof.
  induction n as [|n IH]; intros i Hi Hlim Hn Heq.
  - simpl. assert (i = lim) by lia. subst i.
    refine (conj _ (conj Heq _)); lia.
  - cbn [zw__zlib_countm_tail]. destruct (Z.ltb_spec i lim) as [Hlt|Hge].
    + destruct (Z.eqb_spec (rd a i) (rd b i)) as [He|Hd]; cbn [negb].
      * rewrite u16_small by lia. apply IH; try lia.
        intros k Hk. destruct (Z.eq_dec k i) as [->|]; [exact He|apply Heq; lia].
      * refine (conj _ (conj Heq (fun _ => Hd))). lia.
    + assert (i = lim) by lia. subst i.
      refine (conj _ (conj Heq _)); lia.
Qed.

Lemma countm_sse32_spec (a b : list Z) lim : forall n i,
  0 <= i <= lim -> lim <= 258 -> lim - i < 32 * (Z.of_nat n + 1) ->
  (forall k, 0 <= k < i -> rd a k = rd b k) ->
  match zw__zlib_countm_sse32 n a b lim i with
  | inl r => first_mismatch a b lim r
  | inr i' => i <= i' <= lim /\ lim < i' + 32
              /\ forall k, 0 <= k < i' -> rd a k = rd b k
  end.
Proof.
  induction n as [|n IH]; intros i Hi Hlim Hn Heq.
  - simpl. refine (conj _ (conj _ Heq)); lia.
  - cbn [zw__zlib_countm_sse32]. rewrite u32_small by lia.
    destruct (Z.leb_spec (i + 32) lim) as [Hle|Hgt].
    + pose proof (mismatch_mask_spec a b i 32 _ ltac:(lia)
                    (fun k Hk => mask32_bits a b i k (proj1 Hi) Hk)
                    (proj1 (not32_range _))) as Hm.
      destruct (Z.eqb_spec (not32 (Z.lor (eq_mask16 a b (i + 0))
                  (u32 (Z.shiftl (eq_mask16 a b (i + 16)) 16)))) 0) as [Hz|Hnz];
        cbn [negb].
      * rewrite u16_small by lia.
        specialize (IH (i + 32)). 
        destruct (zw__zlib_countm_sse32 n a b lim (i + 32)).
        -- apply IH; try lia. intros k Hk.
           destruct (Z.lt_ge_cases k i); [apply Heq; lia|].
           replace k with (i + (k - i)) by lia. apply Hm. lia.
        -- assert (Hx : i + 32 <= z <= lim /\ lim < z + 32
                        /\ (forall k, 0 <= k < z -> rd a k = rd b k)).
           { apply IH; try lia. intros k Hk.
             destruct (Z.lt_ge_cases k i); [apply Heq; lia|].
             replace k with (i + (k - i)) by lia. apply Hm. lia. }
           destruct Hx as (? & ? & ?). refine (conj _ (conj _ _)); [lia|lia|assumption].
      * destruct Hm as (Hc & Hd & Hl). rewrite u16_small by lia.
        refine (conj _ (conj _ (fun _ => Hd))); [lia|].
        intros k Hk. destruct (Z.lt_ge_cases k i); [apply Heq; lia|].
        replace k with (i + (k - i)) by lia. apply Hl. lia.
    + refine (conj _ (conj _ Heq)); lia.
Qed.

Lemma countm_sse16_spec (a b : list Z) lim i :
  0 <= i <= lim -> lim <= 258 ->
  (forall k, 0 <= k < i -> rd a k = rd b k) ->
  match zw__zlib_countm_sse16 a b lim i with
  | inl r => first_mismatch a b lim r
  | inr i' => i <= i' <= lim /\ forall k, 0 <= k < i' -> rd a k = rd b k
  end.
Proof.
  intros Hi Hlim Heq. unfold zw__zlib_countm_sse16. rewrite u32_small by lia.
  destruct (Z.leb_spec (i + 16) lim) as [Hle|Hgt].
  - pose proof (mismatch_mask_spec a b i 16 _ ltac:(lia)
                  (fun k Hk => mask16_bits a b i k (proj1 Hi) Hk)) as Hm.
    assert (Hpos : 0 <= Z.lxor (eq_mask16 a b i) 65535).
    { apply Z.lxor_nonneg. pose proof (eq_mask16_nonneg a b i). lia. }
    specialize (Hm Hpos).
    destruct (Z.eqb_spec (Z.lxor (eq_mask16 a b i) 65535) 0) as [Hz|Hnz]; cbn [negb].
    + rewrite u16_small by lia. split; [lia|]. intros k Hk.
      destruct (Z.lt_ge_cases k i); [apply Heq; lia|].
      replace k with (i + (k - i)) by lia. apply Hm. lia.
    + destruct Hm as (Hc & Hd & Hl). rewrite u16_small by lia.
      refine (conj _ (conj _ (fun _ => Hd))); [lia|].
      intros k Hk. destruct (Z.lt_ge_cases k i); [apply Heq; lia|].
      replace k with (i + (k - i)) by lia. apply Hl. lia.
  - split; [lia|]. exact Heq.
Qed.

(** In either build [zw__zlib_countm] finds the first mismatch below
    [min(limit, 258)]. *)
Lemma countm_first_mismatch (no_sse : bool) (a b : list Z) limit :
  0 <= limit ->
  first_mismatch a b (Z.min limit 258) (zw__zlib_countm no_sse a b limit).
Proof.
  intros Hl. unfold zw__zlib_countm.
  replace (if 258 <? limit then 258 else limit) with (Z.min limit 258)
    by (destruct (Z.ltb_spec 258 limit); lia).
  set (lim := Z.min limit 258). assert (Hlim : 0 <= lim <= 258) by lia.
  assert (H0 : forall k, 0 <= k < 0 -> rd a k = rd b k) by (intros; lia).
  assert (Hfuel : lim - 0 < 32 * (Z.of_nat (Z.to_nat (lim / 32)) + 1)).
  { rewrite Z2Nat.id by (apply Z.div_pos; lia).
    pose proof (Z.mul_succ_div_gt lim 32). lia. }
  destruct no_sse.
  - apply countm_tail_spec; solve [lia | exact H0].
  - pose proof (countm_sse32_spec a b lim (Z.to_nat (lim / 32)) 0
                  ltac:(lia) ltac:(lia) Hfuel H0) as H32.
    destruct (zw__zlib_countm_sse32 (Z.to_nat (lim / 32)) a b lim 0) as [r|i].
    + exact H32.
    + destruct H32 as (Hi & Hex & Heq).
      pose proof (countm_sse16_spec a b lim i ltac:(lia) ltac:(lia) Heq) as H16.
      destruct (zw__zlib_countm_sse16 a b lim i) as [r|i'].
      * exact H16.
      * destruct H16 as (Hi' & Heq').
        apply countm_tail_spec; solve [lia | exact Heq'].
Qed.

Lemma countm_bounds (no_sse : bool) (a b : list Z) limit :
  0 <= limit ->
  0 <= zw__zlib_countm no_sse a b limit <= Z.min limit 258.
Proof. intros Hl. apply (countm_first_mismatch no_sse a b limit Hl). Qed.

Lemma common_prefix_agree : forall (a b : list Z) (k : nat),
  (k < common_prefix_length a b)%nat -> nth k a 0 = nth k b 0.
Proof.
  induction a as [|x a IH]; intros b k Hk; [simpl in Hk; lia|].
  destruct b as [|y b]; [simpl in Hk; lia|]. simpl in Hk.
  destruct (Z.eqb_spec x y) as [->|Hne]; [|lia].
  destruct k as [|k]; [reflexivity|]. simpl. apply IH. lia.
Qed.

Lemma common_prefix_differ : forall (a b : list Z),
  (common_prefix_length a b < length a)%nat ->
  (common_prefix_length a b < length b)%nat ->
  nth (common_prefix_length a b) a 0 <> nth (common_prefix_length a b) b 0.
Proof.
  induction a as [|x a IH]; intros b Ha Hb; [simpl in Ha; lia|].
  destruct b as [|y b]; [simpl in Hb; lia|]. simpl in *.
  destruct (Z.eqb_spec x y) as [->|Hne]; [|exact Hne].
  simpl. apply IH; lia.
Qed.

(** C10: the SSE build and the scalar build of [zw__zlib_countm] return the
    same count, and that count is the length of the longest common prefix of
    [a] and [b] capped at [min(limit, 258)]. *)
Theorem countm_is_capped_common_prefix (a b : list Z) (limit : Z) :
  0 <= limit ->
  zw__zlib_countm false a b limit = zw__zlib_countm true a b limit
  /\ (Z.min limit 258 <= Z.of_nat (length a) ->
      Z.min limit 258 <= Z.of_nat (length b) ->
      forall no_sse,
        zw__zlib_countm no_sse a b limit
        = Z.min (Z.of_nat (common_prefix_length a b)) (Z.min limit 258)).
Proof.
  intros Hl. split.
  - eapply first_mismatch_unique; apply countm_first_mismatch; exact Hl.
  - intros Ha Hb no_sse.
    eapply first_mismatch_unique; [apply countm_first_mismatch; exact Hl|].
    set (lim := Z.min limit 258) in *. set (c := common_prefix_length a b).
    refine (conj _ (conj _ _)); [lia| |].
    + intros k Hk. unfold rd. apply common_prefix_agree. fold c. lia.
    + intros Hlt. assert (Hc : Z.min (Z.of_nat c) lim = Z.of_nat c) by lia.
      rewrite Hc. unfold rd. rewrite Nat2Z.id.
      apply common_prefix_differ; fold c; lia.
Qed.

Lemma countm_is_capped_common_prefix_witness :
  zw__zlib_countm false [1; 2; 3; 4] [1; 2; 9; 4] 4
  = zw__zlib_countm true [1; 2; 3; 4] [1; 2; 9; 4] 4
  /\ zw__zlib_countm false [1; 2; 3; 4] [1; 2; 9; 4] 4 = 2.
Proof.
  destruct (countm_is_capped_common_prefix [1; 2; 3; 4] [1; 2; 9; 4] 4 ltac:(lia))
    as [H1 H2].
  split; [exact H1|]. apply (H2 ltac:(simpl; lia) ltac:(simpl; lia) false).
Defined.

(** ** Frames *)

Section Frames.

Context {U : Type}.
Implicit Types a : zw__zip_details U.

Lemma emits_refl a : emits a a.
Proof. split; reflexivity. Qed.

Lemma emits_trans a b c : emits a b -> emits b c -> emits a c.
Proof.
  intros [Hf1 Hl1] [Hf2 Hl2]. split; [congruence|].
  etransitivity; eassumption.
Qed.

Lemma write_to_stream_sink_frame a data :
  sink_frame (snd (zw__write_to_stream a data)) = sink_frame a.
Proof.
  unfold zw__write_to_stream.
  destruct (Z.of_nat (length data) =? 0); [reflexivity|].
  destruct (negb (error (stream a) =? 0)); [reflexivity|].
  destruct (call_write (stream a) data) as [written s].
  destruct (written =? Z.of_nat (length data)); [reflexivity|].
  cbn [stream set_offset set_log set_stream].
  destruct (error s =? 0); reflexivity.
Qed.

Lemma write_to_stream_log a data :
  log (snd (zw__write_to_stream a data)) = log a
  \/ exists written,
       log (snd (zw__write_to_stream a data)) = log a ++ [EvWrite data written].
Proof.
  unfold zw__write_to_stream.
  destruct (Z.of_nat (length data) =? 0); [left; reflexivity|].
  destruct (negb (error (stream a) =? 0)); [left; reflexivity|].
  destruct (call_write (stream a) data) as [written s].
  right. exists written.
  destruct (written =? Z.of_nat (length data)); [reflexivity|].
  cbn [stream set_offset set_log set_stream].
  destruct (error s =? 0); reflexivity.
Qed.

Lemma write_to_stream_emits a data : emits a (snd (zw__write_to_stream a data)).
Proof.
  split.
  - pose proof (write_to_stream_sink_frame a data) as H.
    unfold sink_frame in H. congruence.
  - destruct (write_to_stream_log a data) as [->|[w ->]];
      [reflexivity|apply prefix_app_r; reflexivity].
Qed.

Lemma flush_compressed_bytes_emits a : emits a (zw__flush_compressed_bytes a).
Proof.
  unfold zw__flush_compressed_bytes. destruct (0 <? out_cursor a); [|apply emits_refl].
  match goal with |- emits _ (set_out_cursor _ (snd (zw__write_to_stream ?b ?d))) =>
    destruct (write_to_stream_emits b d) as [Hf Hl]; split; [exact Hf|exact Hl] end.
Qed.

Lemma flush_bits_loop_emits n : forall a, emits a (zw__flush_bits_loop n a).
Proof.
  induction n as [|n IH]; intros a; [apply emits_refl|].
  cbn [zw__flush_bits_loop]. destruct (8 <=? bitcount a); [|apply emits_refl].
  eapply emits_trans; [|apply IH].
  cbn [out_cursor set_out_cursor out_total set_out bitcount bitbuf].
  match goal with |- context [if ?c then _ else _] => destruct c end.
  - match goal with |- emits _ (set_bitcount _ (set_bitbuf _ (zw__flush_compressed_bytes ?b))) =>
      destruct (flush_compressed_bytes_emits b) as [Hf Hl] end.
    split; [|exact Hl].
    etransitivity; [exact Hf|]. unfold enc_frame; cbn. rewrite length_insert. reflexivity.
  - split; [|reflexivity]. unfold enc_frame; cbn. rewrite length_insert. reflexivity.
Qed.

Lemma flush_bits_emits a : emits a (zw__flush_bits a).
Proof. apply flush_bits_loop_emits. Qed.

Lemma zlib_add_emits code codebits a : emits a (zw__zlib_add code codebits a).
Proof.
  unfold zw__zlib_add.
  match goal with |- emits _ (zw__flush_bits ?b) =>
    destruct (flush_bits_emits b) as [Hf Hl]; split; [exact Hf|exact Hl] end.
Qed.

Lemma zlib_huffa_emits b c a : emits a (zw__zlib_huffa b c a).
Proof. apply zlib_add_emits. Qed.

Lemma zlib_huff_emits n a : emits a (zw__zlib_huff n a).
Proof.
  unfold zw__zlib_huff.
  destruct (n <=? 143); [apply zlib_huffa_emits|].
  destruct (n <=? 255); [apply zlib_huffa_emits|].
  destruct (n <=? 279); apply zlib_huffa_emits.
Qed.

Lemma zlib_huffb_emits n a : emits a (zw__zlib_huffb n a).
Proof. unfold zw__zlib_huffb. destruct (n <=? 143); apply zlib_huffa_emits. Qed.

Lemma emit_match_emits best d a : emits a (emit_match best d a).
Proof.
  unfold emit_match.
  repeat match goal with
         | |- emits _ (if ?c then _ else _) => destruct c
         | |- emits ?a (zw__zlib_add _ _ ?b) =>
             apply (emits_trans a b); [|apply zlib_add_emits]
         | |- emits ?a (zw__zlib_huff _ ?b) =>
             apply (emits_trans a b); [|apply zlib_huff_emits]
         end; apply emits_refl.
Qed.

Lemma pad_bits_emits n : forall a, emits a (pad_bits n a).
Proof.
  induction n as [|n IH]; intros a; [apply emits_refl|].
  cbn [pad_bits]. destruct (negb (bitcount a =? 0)); [|apply emits_refl].
  eapply emits_trans; [apply zlib_add_emits|apply IH].
Qed.

Lemma enc_frame_search_frame a a' :
  enc_frame a' = enc_frame a -> search_frame a' = search_frame a.
Proof.
  unfold enc_frame. intros H. injection H. intros.
  unfold search_frame, layout. congruence.
Qed.

Lemma enc_frame_hash_table a a' :
  enc_frame a' = enc_frame a -> hash_table a' = hash_table a.
Proof. unfold enc_frame. intros H. injection H. intros. congruence. Qed.

Lemma search_frame_layout a a' :
  search_frame a' = search_frame a -> layout a' = layout a.
Proof. unfold search_frame. intros H. injection H. intros. congruence. Qed.

Lemma layout_quality a a' : layout a' = layout a -> quality a' = quality a.
Proof. unfold layout. intros H. injection H. intros. congruence. Qed.

Lemma layout_in_total a a' : layout a' = layout a -> in_total a' = in_total a.
Proof. unfold layout. intros H. injection H. intros. congruence. Qed.

Lemma trim_half (q : Z) (items : list Z) :
  0 <= q -> Z.of_nat (length items) = 2 * q ->
  ztake q (memmove items 0 items q q) = zdrop q items.
Proof.
  intros Hq Hlen. unfold memmove, ztake, zdrop. rewrite take_0, app_nil_l.
  assert (Hd : length (drop (Z.to_nat q) items) = Z.to_nat q)
    by (rewrite length_drop; lia).
  rewrite (take_ge (drop (Z.to_nat q) items)) by lia.
  apply take_app_length'. lia.
Qed.

Lemma sbpush_items (hl : option sbuf) v : sbitems (zw__sbpush hl v) = sb_items hl ++ [v].
Proof.
  unfold zw__sbpush, zw__sbmaybegrow, zw__sbgrowf. destruct hl as [s|]; [|reflexivity].
  cbn [sb_items]. destruct (zw__sbneedgrow (Some s) 1); reflexivity.
Qed.

(** What the trim-and-push of the match search leaves in a chain. *)
Lemma hash_insert_items (q : Z) (hl : option sbuf) v :
  0 <= q < 2147483648 ->
  sbitems (hash_insert q hl v)
  = (if zw__sbcount hl =? 2 * q then zdrop q (sb_items hl) else sb_items hl) ++ [v].
Proof.
  intros Hq. unfold hash_insert. rewrite sbpush_items. f_equal.
  destruct hl as [s|]; cbn [hash_trim sb_items zw__sbcount].
  - rewrite (u32_small (2 * q)) by lia.
    destruct (Z.eqb_spec (zw__sbn s) (2 * q)) as [He|Hn]; [|reflexivity].
    cbn [sb_items sbitems]. apply trim_half; [lia|exact He].
  - destruct (0 =? 2 * q); [unfold zdrop; rewrite drop_nil|]; reflexivity.
Qed.

Lemma hash_insert_bound (q : Z) (hl : option sbuf) v :
  1 <= q < 2147483648 -> zw__sbcount hl <= 2 * q ->
  zw__sbn (hash_insert q hl v) <= 2 * q.
Proof.
  intros Hq Hb. unfold zw__sbn. rewrite hash_insert_items by lia.
  rewrite length_app. cbn [length].
  destruct (Z.eqb_spec (zw__sbcount hl) (2 * q)) as [He|Hn].
  - unfold zdrop. rewrite length_drop.
    assert (Z.of_nat (length (sb_items hl)) = 2 * q)
      by (destruct hl; [exact He|simpl in He; lia]).
    lia.
  - assert (Z.of_nat (length (sb_items hl)) = zw__sbcount hl)
      by (destruct hl; reflexivity).
    lia.
Qed.

Lemma slide_items_length c (l : list Z) : (length (slide_items c l) <= length l)%nat.
Proof.
  induction l as [|x l IH]; [reflexivity|]. cbn [slide_items].
  destruct (c <=? x); cbn [length]; lia.
Qed.

Lemma chains_bounded_lookup a h :
  chains_bounded a -> 0 <= quality a -> zw__sbcount (hash_table a !! h) <= 2 * quality a.
Proof.
  intros Hc Hq. destruct (hash_table a !! h) as [s|] eqn:E; cbn [zw__sbcount]; [|lia].
  exact (Hc h s E).
Qed.

Section Search.

Context (ZW_NO_SSE : bool).

(** One turn of the match search extends one chain by [hash_insert] and
    emits bits. *)
Lemma flush_input_step_spec data_len a i :
  exists h,
    hash_table (fst (flush_input_step ZW_NO_SSE data_len a i))
    = <[h := hash_insert (quality a) (hash_table a !! h) (u16 (i + 32768))]> (hash_table a)
    /\ search_frame (fst (flush_input_step ZW_NO_SSE data_len a i)) = search_frame a
    /\ log a `prefix_of` log (fst (flush_input_step ZW_NO_SSE data_len a i)).
Proof.
  unfold flush_input_step.
  set (h := Z.land (zw__zhash (zdrop (32768 + i) (window a))) (zw__hash_size - 1)).
  exists h.
  destruct (scan_chain ZW_NO_SSE (window a) i data_len (sb_items (hash_table a !! h)) 3 None)
    as [best bestloc].
  set (b := set_hash_table _ a).
  assert (Hb : forall b', emits b b' ->
     hash_table b' = hash_table b /\ search_frame b' = search_frame a
     /\ log a `prefix_of` log b').
  { intros b' [Hf Hl]. split; [apply enc_frame_hash_table; exact Hf|].
    split; [rewrite (enc_frame_search_frame _ _ Hf); reflexivity|exact Hl]. }
  destruct bestloc as [loc|]; [destruct (lazy_scan _ _ _ _ _ _)|]; cbn [fst].
  - apply Hb, zlib_huffb_emits.
  - apply Hb, emit_match_emits.
  - apply Hb, zlib_huffb_emits.
Qed.

Lemma flush_input_loop_frame data_len n : forall a i,
  search_frame (fst (flush_input_loop ZW_NO_SSE n data_len a i)) = search_frame a
  /\ log a `prefix_of` log (fst (flush_input_loop ZW_NO_SSE n data_len a i)).
Proof.
  induction n as [|n IH]; intros a i; [split; reflexivity|].
  cbn [flush_input_loop]. destruct (i <? data_len - 3); [|split; reflexivity].
  destruct (flush_input_step_spec data_len a i) as (h & _ & Hf & Hl).
  destruct (flush_input_step ZW_NO_SSE data_len a i) as [a1 i1]. cbn [fst] in *.
  destruct (IH a1 i1) as [Hf' Hl']. split; [congruence|].
  etransitivity; eassumption.
Qed.

Lemma literal_tail_emits (l : list Z) : forall a,
  emits a (foldl (fun a k => zw__zlib_huffb (rd (window a) (32768 + k)) a) a l).
Proof.
  induction l as [|k l IH]; intros a; [apply emits_refl|].
  cbn [foldl]. eapply emits_trans; [apply zlib_huffb_emits|apply IH].
Qed.

Lemma flush_input_layout a :
  layout (zw__flush_input ZW_NO_SSE a) = layout a
  /\ in_cursor (zw__flush_input ZW_NO_SSE a) = 0
  /\ log a `prefix_of` log (zw__flush_input ZW_NO_SSE a).
Proof.
  unfold zw__flush_input. destruct (Z.eqb_spec (in_cursor a) 0) as [H0|Hn].
  - split; [reflexivity|]. split; [exact H0|reflexivity].
  - destruct (flush_input_loop_frame (in_cursor a) (Z.to_nat (in_cursor a)) a 0)
      as [Hf Hl].
    destruct (flush_input_loop ZW_NO_SSE (Z.to_nat (in_cursor a)) (in_cursor a) a 0)
      as [a1 i1]. cbn [fst] in *.
    destruct (literal_tail_emits (seqZ i1 (in_cursor a - i1)) a1) as [Hf2 Hl2].
    set (a2 := foldl _ a1 _) in *.
    apply enc_frame_search_frame, search_frame_layout in Hf2.
    apply search_frame_layout in Hf.
    split; [|split; [reflexivity|]].
    + etransitivity; [|exact Hf]. etransitivity; [|exact Hf2]. reflexivity.
    + cbn [log set_in_cursor set_current_file set_window set_hash_table].
      etransitivity; eassumption.
Qed.

Lemma flush_input_step_chains data_len a i :
  quality a = 8 -> chains_bounded a ->
  chains_bounded (fst (flush_input_step ZW_NO_SSE data_len a i)).
Proof.
  intros Hq Hc. destruct (flush_input_step_spec data_len a i) as (h & Hh & Hf & _).
  unfold chains_bounded. rewrite Hh.
  rewrite (layout_quality _ _ (search_frame_layout _ _ Hf)).
  apply map_Forall_insert_2; [|exact Hc].
  apply hash_insert_bound; [lia|]. apply chains_bounded_lookup; [exact Hc|lia].
Qed.

Lemma flush_input_loop_chains data_len n : forall a i,
  quality a = 8 -> chains_bounded a ->
  chains_bounded (fst (flush_input_loop ZW_NO_SSE n data_len a i)).
Proof.
  induction n as [|n IH]; intros a i Hq Hc; [exact Hc|].
  cbn [flush_input_loop]. destruct (i <? data_len - 3); [|exact Hc].
  pose proof (flush_input_step_chains data_len a i Hq Hc) as Hc1.
  destruct (flush_input_step_spec data_len a i) as (h & _ & Hf & _).
  destruct (flush_input_step ZW_NO_SSE data_len a i) as [a1 i1]. cbn [fst] in *.
  apply IH; [|exact Hc1].
  rewrite (layout_quality _ _ (search_frame_layout _ _ Hf)). exact Hq.
Qed.

Lemma flush_input_chains a :
  quality a = 8 -> chains_bounded a -> chains_bounded (zw__flush_input ZW_NO_SSE a).
Proof.
  intros Hq Hc. unfold zw__flush_input. destruct (in_cursor a =? 0); [exact Hc|].
  pose proof (flush_input_loop_chains (in_cursor a) (Z.to_nat (in_cursor a)) a 0 Hq Hc)
    as Hc1.
  destruct (flush_input_loop_frame (in_cursor a) (Z.to_nat (in_cursor a)) a 0)
    as [Hf _].
  destruct (flush_input_loop ZW_NO_SSE (Z.to_nat (in_cursor a)) (in_cursor a) a 0)
    as [a1 i1]. cbn [fst] in *.
  destruct (literal_tail_emits (seqZ i1 (in_cursor a - i1)) a1) as [Hf2 _].
  set (a2 := foldl _ a1 _) in *.
  assert (Hq2 : quality a2 = 8).
  { rewrite (layout_quality _ _ (search_frame_layout _ _
               (enc_frame_search_frame _ _ Hf2))).
    rewrite (layout_quality _ _ (search_frame_layout _ _ Hf)). exact Hq. }
  unfold chains_bounded.
  cbn [hash_table quality set_in_cursor set_current_file set_window set_hash_table].
  apply map_Forall_fmap. rewrite Hq2.
  rewrite (enc_frame_hash_table _ _ Hf2).
  eapply map_Forall_impl; [exact Hc1|]. intros h s Hs. cbn beta.
  rewrite (layout_quality _ _ (search_frame_layout _ _ Hf)), Hq in Hs.
  unfold zw__sbn in *. unfold compose. cbn [slide_chain sbitems].
  pose proof (slide_items_length (in_cursor a2) (sbitems s)). lia.
Qed.

Lemma session_ok_enc_frame (a b : zw__zip_details U) :
  enc_frame b = enc_frame a -> session_ok a -> session_ok b.
Proof.
  unfold enc_frame, session_ok, chains_bounded. intros H. injection H. intros.
  repeat match goal with H : _ = _ |- _ => rewrite H end. assumption.
Qed.

Lemma session_ok_emits (a b : zw__zip_details U) : emits a b -> session_ok a -> session_ok b.
Proof. intros [Hf _]. apply session_ok_enc_frame. exact Hf. Qed.

Lemma flush_input_session_ok a :
  quality a = 8 -> in_total a = 32768 -> out_total a = 32768 ->
  length (out a) = Z.to_nat 32768 -> chains_bounded a ->
  session_ok (zw__flush_input ZW_NO_SSE a).
Proof.
  intros Hq Hi Ho Hl Hc. destruct (flush_input_layout a) as (Hlay & Hcur & _).
  pose proof (flush_input_chains a Hq Hc) as Hc'.
  unfold layout in Hlay. injection Hlay. intros.
  unfold session_ok. rewrite Hcur.
  repeat split; try congruence; try lia. exact Hc'.
Qed.

Lemma session_ok_fields (a b : zw__zip_details U) :
  quality b = quality a -> in_total b = in_total a -> out_total b = out_total a ->
  length (out b) = length (out a) -> in_cursor b = in_cursor a ->
  hash_table b = hash_table a ->
  session_ok a -> session_ok b.
Proof.
  unfold session_ok, chains_bounded. intros -> -> -> -> -> ->. exact id.
Qed.

Lemma append_to_central_dir_session_ok a data :
  session_ok a -> session_ok (snd (zw__append_to_central_dir a data)).
Proof.
  unfold zw__append_to_central_dir. destruct (Z.of_nat (length data) =? 0); [exact id|].
  apply session_ok_fields; reflexivity.
Qed.

Lemma end_file_session_ok a :
  session_ok a -> session_ok (snd (zw__zip_end_file ZW_NO_SSE a)).
Proof.
  intros Hok. unfold zw__zip_end_file.
  destruct (name_length (current_file a) =? 0); [exact Hok|].
  assert (H1 : session_ok (zw__flush_input ZW_NO_SSE a)).
  { destruct Hok as (? & ? & ? & ? & ? & ?). apply flush_input_session_ok; assumption. }
  set (a1 := zw__flush_input ZW_NO_SSE a) in *.
  assert (H4 : session_ok (zw__flush_compressed_bytes (pad_bits 8 (zw__zlib_huff 256 a1)))).
  { eapply session_ok_emits; [apply flush_compressed_bytes_emits|].
    eapply session_ok_emits; [apply pad_bits_emits|].
    eapply session_ok_emits; [apply zlib_huff_emits|]. exact H1. }
  set (a4 := zw__flush_compressed_bytes _) in *.
  match goal with |- context [zw__write_to_stream a4 ?d] =>
    pose proof (write_to_stream_emits a4 d) as Hw;
    destruct (zw__write_to_stream a4 d) as [[|] a5] end; cbn [snd] in *.
  - eapply session_ok_emits; eassumption.
  - eapply (session_ok_fields (snd (zw__append_to_central_dir _ _)));
      try reflexivity.
    repeat apply append_to_central_dir_session_ok.
    eapply session_ok_emits; eassumption.
Qed.

Lemma chains_reset (m : gmap Z sbuf) q :
  0 <= q -> map_Forall (fun _ s => zw__sbn s <= 2 * q)
              ((fun s => {| sbm := sbm s; sbitems := [] |}) <$> m).
Proof.
  intros Hq. apply map_Forall_fmap. intros h s _. unfold compose, zw__sbn. simpl. lia.
Qed.

Lemma begin_file_session_ok a file_path r a' :
  session_ok a -> zw_begin_file ZW_NO_SSE (Some a) file_path = (r, Some a') ->
  session_ok a'.
Proof.
  intros Hok. unfold zw_begin_file.
  pose proof (end_file_session_ok a Hok) as H0.
  set (a0 := snd (zw__zip_end_file ZW_NO_SSE a)) in *.
  destruct file_path as [[|c file_path]|]; [congruence| |congruence].
  match goal with |- context [zw__write_to_stream a0 ?d] =>
    pose proof (session_ok_emits _ _ (write_to_stream_emits a0 d) H0) as H1;
    destruct (zw__write_to_stream a0 d) as [[|] a1] end; cbn [snd] in *;
    [congruence|].
  match goal with |- context [zw__write_to_stream a1 ?d] =>
    pose proof (session_ok_emits _ _ (write_to_stream_emits a1 d) H1) as H2;
    destruct (zw__write_to_stream a1 d) as [[|] a2] end; cbn [snd] in *;
    [congruence|].
  intros E. injection E as _ <-.
  eapply session_ok_emits; [apply zlib_add_emits|].
  eapply session_ok_emits; [apply zlib_add_emits|].
  destruct H2 as (Hq & Hi & Ho & Hl & Hc & Hch).
  unfold session_ok, chains_bounded.
  destruct (negb (num_files a2 =? 0)); cbn; repeat split; try assumption; try lia.
  rewrite Hq. apply chains_reset. lia.
Qed.

Lemma write_loop_spec n : forall a (data : list Z),
  session_ok a -> (length data <= n)%nat ->
  session_ok (fst (write_loop ZW_NO_SSE n a data))
  /\ snd (write_loop ZW_NO_SSE n a data) = [].
Proof.
  induction n as [|n IH]; intros a data Hok Hn.
  - destruct data; [|simpl in Hn; lia]. split; [exact Hok|reflexivity].
  - cbn [write_loop]. destruct (Z.ltb_spec 0 (Z.of_nat (length data))) as [Hlen|Hlen].
    2:{ destruct data; [|simpl in Hlen; lia]. split; [exact Hok|reflexivity]. }
    destruct Hok as (Hq & Hi & Ho & Hl & Hc & Hch).
    rewrite Hi. rewrite (u16_small (32768 - in_cursor a)) by lia.
    set (batch := if Z.of_nat (length data) <? 32768 - in_cursor a
                  then u16 (Z.of_nat (length data)) else 32768 - in_cursor a).
    assert (Hb : 1 <= batch <= 32768 - in_cursor a /\ batch <= Z.of_nat (length data)).
    { unfold batch. destruct (Z.ltb_spec (Z.of_nat (length data)) (32768 - in_cursor a));
        [rewrite u16_small by lia|]; lia. }
    cbn [in_cursor in_total set_in_cursor set_window].
    rewrite Hi. rewrite (u16_small (in_cursor a + batch)) by lia.
    apply IH.
    + destruct (Z.eqb_spec (in_cursor a + batch) 32768) as [He|Hne].
      * apply flush_input_session_ok; assumption.
      * unfold session_ok, chains_bounded. cbn. repeat split; try assumption; lia.
    + unfold zdrop. rewrite length_drop. lia.
Qed.

Lemma write_session_ok a data r a' :
  session_ok a -> zw_write ZW_NO_SSE (Some a) data = (r, Some a') -> session_ok a'.
Proof.
  intros Hok. unfold zw_write. destruct (num_files a =? 0); [congruence|].
  intros E. injection E as _ <-. apply write_loop_spec; [exact Hok|lia].
Qed.

Lemma finish_session_ok a r a' :
  session_ok a -> zw_finish ZW_NO_SSE (Some a) = (r, Some a') -> session_ok a'.
Proof.
  intros Hok. unfold zw_finish.
  pose proof (end_file_session_ok a Hok) as H0.
  set (a0 := snd (zw__zip_end_file ZW_NO_SSE a)) in *.
  assert (H1 : session_ok (set_hash_table ∅ a0)).
  { destruct H0 as (? & ? & ? & ? & ? & ?). unfold session_ok, chains_bounded. cbn.
    repeat split; try assumption; try lia. apply map_Forall_empty. }
  set (a1 := set_hash_table ∅ a0) in *.
  assert (Hstep : forall (x : zw__zip_details U) d (res : zw_bool),
            session_ok x ->
            session_ok (snd (match zw__write_to_stream x d with
                             | (zw_false, y) => (zw_false, y)
                             | (zw_true, y) => (res, y)
                             end))).
  { intros x d res Hx. pose proof (session_ok_emits _ _ (write_to_stream_emits x d) Hx).
    destruct (zw__write_to_stream x d) as [[|] y]; assumption. }
  pose proof (Hstep a1 (sb_items (central_dir a1)) zw_true H1) as H2.
  destruct (match zw__write_to_stream a1 (sb_items (central_dir a1)) with
            | (zw_false, y) => (zw_false, y)
            | (zw_true, y) => (zw_true, y)
            end) as [r2 a2]. cbn [snd] in H2.
  assert (H3 : session_ok (set_central_dir None a2))
    by (revert H2; apply session_ok_fields; reflexivity).
  set (a3 := set_central_dir None a2) in *.
  match goal with
  | |- context [match r2 with zw_false => _ | zw_true => ?t end] =>
      assert (H4 : session_ok (snd (match r2 with zw_false => (r2, a3) | zw_true => t end)))
  end.
  { destruct r2; [exact H3|]. apply Hstep. exact H3. }
  match goal with
  | H : session_ok (snd ?t) |- _ => destruct t as [r4 a4]
  end. cbn [snd] in H4.
  match goal with
  | |- context [zw__write_to_stream a4 ?d] => pose proof (Hstep a4 d r4 H4) as H5
  end.
  match goal with
  | H : session_ok (snd ?t) |- _ => destruct t as [r5 a5]
  end. cbn [snd] in H5.
  assert (Hgo : forall (x : zw__zip_details U), session_ok x ->
            session_ok (set_log (log (match close (stream x) with
                 | Some f =>
                     let '(u, e) := f (user_data (stream x)) (error (stream x)) in
                     set_log (log x ++ [EvClose])
                       (set_stream {| user_data := u; write := write (stream x);
                                      close := close (stream x); error := e |} x)
                 | None => x
                 end) ++ [EvFree]) (match close (stream x) with
                 | Some f =>
                     let '(u, e) := f (user_data (stream x)) (error (stream x)) in
                     set_log (log x ++ [EvClose])
                       (set_stream {| user_data := u; write := write (stream x);
                                      close := close (stream x); error := e |} x)
                 | None => x
                 end))).
  { intros x Hx. destruct (close (stream x)) as [f|].
    - destruct (f (user_data (stream x)) (error (stream x))) as [u e].
      revert Hx. apply session_ok_fields; reflexivity.
    - revert Hx. apply session_ok_fields; reflexivity. }
  destruct r5.
  - intros E. injection E as _ <-. apply Hgo. exact H5.
  - pose proof (session_ok_emits _ _ (write_to_stream_emits a5 end_of_central_dir_bytes) H5) as H6.
    destruct (zw__write_to_stream a5 end_of_central_dir_bytes) as [[|] a6]; cbn [snd] in H6.
    + intros E. injection E as _ <-. exact H6.
    + intros E. injection E as _ <-. apply Hgo. exact H6.
Qed.

Lemma create_ex_session_ok options local a :
  zw_create_ex options local = Some a -> session_ok a.
Proof.
  unfold zw_create_ex. destruct options as [o|]; [|congruence].
  destruct (write (opt_stream o)); [|congruence].
  intros E. apply (f_equal (from_option session_ok True)) in E.
  cbn [from_option] in E. rewrite <- E. unfold session_ok, chains_bounded.
  cbn [quality in_total out_total out in_cursor hash_table].
  rewrite repeat_length. repeat split; try lia. apply map_Forall_empty.
Qed.

Lemma reachable_session_ok a : reachable ZW_NO_SSE a -> session_ok a.
Proof.
  induction 1 as [options local a Hc|a file_path r a' _ IH Hb|a data r a' _ IH Hw
                  |a r a' _ IH Hf].
  - eapply create_ex_session_ok; eassumption.
  - eapply begin_file_session_ok; eassumption.
  - eapply write_session_ok; eassumption.
  - eapply finish_session_ok; eassumption.
Qed.

End Search.

End Frames.

(** ** Chains of the hash table *)

Section Chains.

Context {U : Type}.

(** C9: in every session the public operations can produce, each chain holds
    at most 2 * quality = 16 offsets; a turn of the match search keeps that
    bound from any state that has it, extending one chain by [hash_insert],
    which first drops the older 8 entries of a chain of exactly 16 and then
    appends the new offset. *)
Theorem chains_never_exceed_twice_quality (no_sse : bool) (a : zw__zip_details U) :
  reachable no_sse a ->
  quality a = 8
  /\ (forall h s, hash_table a !! h = Some s -> zw__sbn s <= 16)
  /\ (forall (b : zw__zip_details U) data_len i,
        quality b = 8 -> chains_bounded b ->
        chains_bounded (fst (flush_input_step no_sse data_len b i))
        /\ exists h,
             hash_table (fst (flush_input_step no_sse data_len b i))
             = <[h := hash_insert 8 (hash_table b !! h) (u16 (i + 32768))]> (hash_table b))
  /\ (forall hlist v,
        sbitems (hash_insert 8 hlist v)
        = (if zw__sbcount hlist =? 16 then zdrop 8 (sb_items hlist) else sb_items hlist)
          ++ [v]).
Proof.
  intros Hr. destruct (reachable_session_ok no_sse a Hr) as (Hq & _ & _ & _ & _ & Hc).
  split; [exact Hq|]. split; [|split].
  - intros h s Hs. specialize (Hc h s Hs). cbn beta in Hc. rewrite Hq in Hc. exact Hc.
  - intros b data_len i Hqb Hcb. split.
    + apply flush_input_step_chains; assumption.
    + destruct (flush_input_step_spec no_sse data_len b i) as (h & Hh & _).
      exists h. rewrite Hh, Hqb. reflexivity.
  - intros hlist v. apply (hash_insert_items 8). lia.
Qed.

End Chains.

(** ** zw_write *)

(** C1 fails on the code: on a session whose sink error has latched while a
    member is active, [zw_write] buffers the byte and returns success; on a
    session with no member active it returns success as well. *)
Lemma zw_write_succeeds_after_latched_error :
  (from_option (fun a => error (stream a)) 0 latched_session = 5
   /\ from_option (fun a => name_length (current_file a)) 0 latched_session = 1
   /\ from_option in_cursor 0 latched_session = 0
   /\ fst (zw_write false latched_session [120]) = zw_true
   /\ from_option in_cursor 0 (snd (zw_write false latched_session [120])) = 1)
  /\ (from_option (fun a => name_length (current_file a)) 1 idle_session = 0
      /\ from_option num_files 0 idle_session = 1
      /\ fst (zw_write false idle_session [120]) = zw_true).
Proof. vm_compute. repeat split; reflexivity. Qed.

(** ** Lazy matching *)

Lemma scan_chain_best (no_sse : bool) (w : list Z) i data_len :
  0 <= data_len - i ->
  forall hlist best0 loc0 best loc,
    3 <= best0 <= 258 ->
    scan_chain no_sse w i data_len hlist best0 loc0 = (best, loc) ->
    3 <= best <= 258.
Proof.
  intros Hl. induction hlist as [|e hlist IH]; intros best0 loc0 best loc Hb.
  - cbn [scan_chain]. intros E. injection E as <- _. exact Hb.
  - cbn [scan_chain]. destruct (i <? e); [|apply IH; exact Hb].
    pose proof (countm_bounds no_sse (zdrop e w) (zdrop (32768 + i) w) (data_len - i) Hl).
    destruct (Z.leb_spec best0
                (zw__zlib_countm no_sse (zdrop e w) (zdrop (32768 + i) w) (data_len - i)));
      apply IH; lia.
Qed.

Lemma lazy_scan_spec (no_sse : bool) (w : list Z) i data_len best (hlist : list Z) :
  lazy_scan no_sse w i data_len best hlist = true
  <-> exists c, c ∈ hlist /\ i + 1 < c
                /\ best < zw__zlib_countm no_sse (zdrop c w) (zdrop (32768 + i + 1) w)
                            (data_len - i - 1).
Proof.
  induction hlist as [|c hlist IH]; cbn [lazy_scan].
  - split; [discriminate|]. intros (c & Hc & _). inversion Hc.
  - destruct (Z.ltb_spec (i + 1) c) as [Hlt|Hge].
    + destruct (Z.ltb_spec best
                  (zw__zlib_countm no_sse (zdrop c w) (zdrop (32768 + i + 1) w)
                     (data_len - i - 1))) as [Hb|Hb].
      * split; [|reflexivity]. intros _. exists c. split; [left|]. split; assumption.
      * rewrite IH. split.
        -- intros (c' & Hc' & H1 & H2). exists c'. split; [right; exact Hc'|]. split; assumption.
        -- intros (c' & Hc' & H1 & H2). apply elem_of_cons in Hc'.
           destruct Hc' as [->|Hc']; [lia|]. exists c'. split; [exact Hc'|]. split; assumption.
    + rewrite IH. split.
      * intros (c' & Hc' & H1 & H2). exists c'. split; [right; exact Hc'|]. split; assumption.
      * intros (c' & Hc' & H1 & H2). apply elem_of_cons in Hc'.
        destruct Hc' as [->|Hc']; [lia|]. exists c'. split; [exact Hc'|]. split; assumption.
Qed.

(** ** zw_finish *)

(** C2 fails on the code.  On a session with no member, [zw_finish] writes
    the 56-byte ZIP64 end record, the 20-byte locator and the 22-byte end
    record.  With a sink that fails after 76 bytes the last write fails, and
    [zw_finish] returns at once: [close] is not called and the session is not
    released.  With a sink that fails earlier (after 0 or 60 bytes) or not at
    all, [close] is called once and the session is released. *)
Theorem finish_leaks_when_last_record_fails :
  (fst (zw_finish false (failing_session 76)) = zw_false
   /\ from_option (fun a => error (stream a)) 0 (snd (zw_finish false (failing_session 76))) = 5
   /\ from_option (fun a => count_closes (log a)) 7%nat
        (snd (zw_finish false (failing_session 76))) = 0%nat
   /\ from_option (fun a => count_frees (log a)) 7%nat
        (snd (zw_finish false (failing_session 76))) = 0%nat)
  /\ (fst (zw_finish false (failing_session 60)) = zw_false
      /\ from_option (fun a => count_closes (log a)) 7%nat
           (snd (zw_finish false (failing_session 60))) = 1%nat
      /\ from_option (fun a => count_frees (log a)) 7%nat
           (snd (zw_finish false (failing_session 60))) = 1%nat)
  /\ (fst (zw_finish false (failing_session 0)) = zw_false
      /\ from_option (fun a => count_closes (log a)) 7%nat
           (snd (zw_finish false (failing_session 0))) = 1%nat
      /\ from_option (fun a => count_frees (log a)) 7%nat
           (snd (zw_finish false (failing_session 0))) = 1%nat)
  /\ (fst (zw_finish false memory_session) = zw_true
      /\ from_option (fun a => count_closes (log a)) 7%nat
           (snd (zw_finish false memory_session)) = 1%nat
      /\ from_option (fun a => count_frees (log a)) 7%nat
           (snd (zw_finish false memory_session)) = 1%nat).
Proof. vm_compute. repeat split; reflexivity. Qed.

(** ** Data descriptor *)

Section Descriptor.

Context {U : Type}.
Implicit Types a : zw__zip_details U.

Lemma write_to_stream_true a data c :
  zw__write_to_stream a data = (zw_true, c) -> data <> [] ->
  log c = log a ++ [EvWrite data (Z.of_nat (length data))].
Proof.
  unfold zw__write_to_stream. intros E Hd.
  destruct data as [|x data]; [contradiction|].
  replace (Z.of_nat (length (x :: data)) =? 0) with false in E
    by (symmetry; apply Z.eqb_neq; cbn [length]; lia).
  destruct (negb (error (stream a) =? 0)); [discriminate|].
  destruct (call_write (stream a) (x :: data)) as [written s].
  destruct (Z.eqb_spec written (Z.of_nat (length (x :: data)))) as [->|_];
    [|discriminate].
  injection E as <-. reflexivity.
Qed.

Lemma append_to_central_dir_keeps a data :
  log (snd (zw__append_to_central_dir a data)) = log a
  /\ current_file (snd (zw__append_to_central_dir a data)) = current_file a
  /\ sb_items (central_dir (snd (zw__append_to_central_dir a data)))
     = sb_items (central_dir a) ++ data.
Proof.
  unfold zw__append_to_central_dir.
  destruct (Z.eqb_spec (Z.of_nat (length data)) 0) as [H0|Hn]; cbn [snd].
  - destruct data; [|simpl in H0; lia]. rewrite app_nil_r. repeat split.
  - repeat split. cbn [central_dir set_central_dir sb_items sbitems]. f_equal.
    unfold zw__sbmaybegrow. destruct (central_dir a) as [s|]; [|reflexivity].
    cbn [sb_items]. destruct (zw__sbneedgrow _ _); reflexivity.
Qed.

Lemma append_to_central_dir_log a data :
  log (snd (zw__append_to_central_dir a data)) = log a.
Proof. apply append_to_central_dir_keeps. Qed.

Lemma append_to_central_dir_current_file a data :
  current_file (snd (zw__append_to_central_dir a data)) = current_file a.
Proof. apply append_to_central_dir_keeps. Qed.

Lemma append_to_central_dir_items a data :
  sb_items (central_dir (snd (zw__append_to_central_dir a data)))
  = sb_items (central_dir a) ++ data.
Proof. apply append_to_central_dir_keeps. Qed.

Lemma data_descriptor_bytes_length d : length (data_descriptor_bytes d) = 12%nat.
Proof. reflexivity. Qed.

Local Arguments zw__append_to_central_dir : simpl never.

End Descriptor.

(** ** The iteration budgets are enough

    Each loop of the source is modelled with a budget of turns; these lemmas
    show that the loop's own exit condition holds when the budget given by
    its caller is used up. *)

Lemma code_index_exits (tbl : list Z) v n : forall j k,
  0 <= j <= k -> k < 65535 -> k - j < Z.of_nat n -> v <= rd tbl (k + 1) - 1 ->
  j <= code_index n tbl v j <= k
  /\ v <= rd tbl (code_index n tbl v j + 1) - 1.
Proof.
  induction n as [|n IH]; intros j k Hj Hk Hn Hv; [lia|].
  cbn [code_index]. destruct (Z.ltb_spec (rd tbl (j + 1) - 1) v) as [Hlt|Hge]; [|lia].
  assert (j <> k) by (intros ->; lia).
  rewrite u16_small by lia.
  destruct (IH (j + 1) k ltac:(lia) Hk ltac:(lia) Hv). lia.
Qed.

(** The length code of a match of 3 to 258 bytes is found within the table. *)
Lemma code_index_exits_lengthc best :
  best <= 258 ->
  0 <= code_index (length lengthc) lengthc best 0 <= 28
  /\ best <= rd lengthc (code_index (length lengthc) lengthc best 0 + 1) - 1.
Proof.
  intros Hb. apply code_index_exits; [lia|lia|cbn [length lengthc]; lia|].
  change (rd lengthc (28 + 1)) with 259. lia.
Qed.

(** The distance code of a distance below 32768 is found within the table. *)
Lemma code_index_exits_distc d :
  d <= 32767 ->
  0 <= code_index (length distc) distc d 0 <= 29
  /\ d <= rd distc (code_index (length distc) distc d 0 + 1) - 1.
Proof.
  intros Hd. apply code_index_exits; [lia|lia|cbn [length distc]; lia|].
  change (rd distc (29 + 1)) with 32768. lia.
Qed.

Section Budgets.

Context {U : Type}.
Implicit Types a : zw__zip_details U.

Lemma flush_compressed_bytes_bitcount a :
  bitcount (zw__flush_compressed_bytes a) = bitcount a.
Proof.
  unfold zw__flush_compressed_bytes. destruct (0 <? out_cursor a); [|reflexivity].
  match goal with |- bitcount (set_out_cursor _ (snd (zw__write_to_stream ?b ?d))) = _ =>
    pose proof (write_to_stream_sink_frame b d) as H end.
  apply (f_equal (fun t => snd (fst (fst (fst (fst t)))))) in H. exact H.
Qed.

(** [zw__flush_bits] leaves fewer than 8 bits in the accumulator. *)
Lemma flush_bits_loop_bitcount n : forall a,
  0 <= bitcount a < 4294967296 -> bitcount a / 8 <= Z.of_nat n ->
  bitcount (zw__flush_bits_loop n a) = bitcount a mod 8.
Proof.
  induction n as [|n IH]; intros a Hb Hn.
  - cbn [zw__flush_bits_loop]. symmetry. apply Z.mod_small.
    assert (bitcount a / 8 = 0) by (pose proof (Z.div_pos (bitcount a) 8); lia).
    apply Z.div_small_iff in H; lia.
  - cbn [zw__flush_bits_loop]. destruct (Z.leb_spec 8 (bitcount a)) as [Hge|Hlt].
    + match goal with |- bitcount (zw__flush_bits_loop n ?b) = _ =>
        assert (Hbc : bitcount b = bitcount a - 8) end.
      { cbn [bitcount set_bitcount set_bitbuf].
        match goal with |- context [if ?c then _ else _] => destruct c end;
          [rewrite flush_compressed_bytes_bitcount|];
          cbn [bitcount set_out_cursor set_out]; apply u32_small; lia. }
      rewrite IH; rewrite Hbc.
      * replace (bitcount a) with (bitcount a - 8 + 1 * 8) at 2 by lia.
        rewrite Z.mod_add by lia. reflexivity.
      * lia.
      * replace (bitcount a) with (bitcount a - 8 + 1 * 8) in Hn by lia.
        rewrite Z.div_add in Hn by lia. lia.
    + symmetry. apply Z.mod_small. lia.
Qed.

Lemma zlib_add_bitcount code n a :
  0 <= bitcount a < 8 -> 0 <= n < 2147483648 ->
  bitcount (zw__zlib_add code n a) = (bitcount a + n) mod 8.
Proof.
  intros Hb Hn. unfold zw__zlib_add, zw__flush_bits.
  cbn [bitcount set_bitcount set_bitbuf]. rewrite (u32_small (bitcount a + n)) by lia.
  rewrite flush_bits_loop_bitcount; cbn [bitcount set_bitcount set_bitbuf];
    rewrite ?(u32_small (bitcount a + n)) by lia; solve [reflexivity | lia].
Qed.

(** The padding loop of [zw__zip_end_file] ends on a byte boundary. *)
Lemma pad_bits_bitcount n : forall a,
  0 <= bitcount a < 8 -> bitcount a = 0 \/ 8 - bitcount a <= Z.of_nat n ->
  bitcount (pad_bits n a) = 0.
Proof.
  induction n as [|n IH]; intros a Hb Hn.
  - cbn [pad_bits]. lia.
  - cbn [pad_bits]. destruct (Z.eqb_spec (bitcount a) 0) as [H0|Hne]; cbn [negb];
      [exact H0|].
    pose proof (zlib_add_bitcount 0 1 a Hb ltac:(lia)) as Hadd.
    assert (Hcase : bitcount a = 7 \/ bitcount a < 7) by lia.
    destruct Hcase as [H7|Hlt].
    + rewrite H7 in Hadd. change ((7 + 1) mod 8) with 0 in Hadd.
      apply IH; [lia|left; exact Hadd].
    + rewrite (Z.mod_small (bitcount a + 1)) in Hadd by lia.
      apply IH; [lia|right; lia].
Qed.

Section Search.

Context (ZW_NO_SSE : bool).

Lemma scan_chain_within (w : list Z) i data_len :
  3 <= data_len - i ->
  forall hlist best0 loc0 best loc,
    3 <= best0 <= data_len - i ->
    scan_chain ZW_NO_SSE w i data_len hlist best0 loc0 = (best, loc) ->
    3 <= best <= data_len - i.
Proof.
  intros Hl. induction hlist as [|e hlist IH]; intros best0 loc0 best loc Hb.
  - cbn [scan_chain]. intros E. injection E as <- _. exact Hb.
  - cbn [scan_chain]. destruct (i <? e); [|apply IH; exact Hb].
    pose proof (countm_bounds ZW_NO_SSE (zdrop e w) (zdrop (32768 + i) w) (data_len - i)
                  ltac:(lia)).
    destruct (Z.leb_spec best0
                (zw__zlib_countm ZW_NO_SSE (zdrop e w) (zdrop (32768 + i) w) (data_len - i)));
      apply IH; lia.
Qed.

(** A turn of the match search moves the cursor forward and not past the
    data. *)
Lemma flush_input_step_advances data_len a i :
  0 <= i < data_len - 3 -> data_len <= 32768 ->
  i < snd (flush_input_step ZW_NO_SSE data_len a i) <= data_len.
Proof.
  intros Hi Hlen. unfold flush_input_step.
  destruct (scan_chain ZW_NO_SSE (window a) i data_len _ 3 None) as [best bestloc] eqn:E.
  pose proof (scan_chain_within (window a) i data_len ltac:(lia) _ 3 None best bestloc
                ltac:(lia) E) as Hb.
  destruct bestloc as [loc|]; [destruct (lazy_scan _ _ _ _ _ _)|]; cbn [snd];
    rewrite u16_small by lia; lia.
Qed.

(** The match search stops within the last 3 bytes of the data. *)
Lemma flush_input_loop_exits data_len n : forall a i,
  0 <= i <= data_len -> data_len <= 32768 -> data_len - 3 - i <= Z.of_nat n ->
  let i' := snd (flush_input_loop ZW_NO_SSE n data_len a i) in
  i <= i' <= data_len /\ ~ i' < data_len - 3.
Proof.
  induction n as [|n IH]; intros a i Hi Hlen Hn; cbn [flush_input_loop].
  - cbn [snd]. lia.
  - destruct (Z.ltb_spec i (data_len - 3)) as [Hlt|Hge]; [|cbn [snd]; lia].
    pose proof (flush_input_step_advances data_len a i ltac:(lia) Hlen) as Hadv.
    destruct (flush_input_step ZW_NO_SSE data_len a i) as [a1 i1]. cbn [snd] in Hadv.
    specialize (IH a1 i1 ltac:(lia) Hlen ltac:(lia)). cbv zeta in IH. lia.
Qed.

End Search.

End Budgets.

(** ** The bit accumulator and the chains between operations *)

Lemma land_bit x : 0 <= Z.land x 1 < 2.
Proof.
  change 1 with (Z.ones 1). rewrite Z.land_ones by lia.
  change (2 ^ 1) with 2. apply Z.mod_pos_bound. lia.
Qed.

Lemma bitrev_loop_bound n : forall code res m,
  0 <= m -> m + Z.of_nat n <= 32 -> 0 <= res < 2 ^ m ->
  0 <= zw__zlib_bitrev_loop n code res < 2 ^ (m + Z.of_nat n).
Proof.
  induction n as [|n IH]; intros code res m Hm Hn Hr.
  - cbn [zw__zlib_bitrev_loop]. rewrite Z.add_0_r. exact Hr.
  - cbn [zw__zlib_bitrev_loop].
    replace (m + Z.of_nat (S n)) with ((m + 1) + Z.of_nat n) by lia.
    apply IH; [lia|lia|].
    assert (Hp : 2 ^ (m + 1) = 2 * 2 ^ m) by (rewrite Z.pow_add_r by lia; lia).
    assert (Hle : 2 ^ (m + 1) <= 2 ^ 32) by (apply Z.pow_le_mono_r; lia).
    rewrite Z.shiftl_mul_pow2 by lia. change (2 ^ 1) with 2.
    rewrite u32_small by (change 4294967296 with (2 ^ 32); lia).
    apply lor_below; [lia|lia|]. pose proof (land_bit code).
    assert (0 < 2 ^ m) by (apply Z.pow_pos_nonneg; lia). lia.
Qed.

Lemma bitrev_bound code c : 0 <= c <= 32 -> 0 <= zw__zlib_bitrev code c < 2 ^ c.
Proof.
  intros Hc. unfold zw__zlib_bitrev.
  pose proof (bitrev_loop_bound (Z.to_nat c) code 0 0 ltac:(lia) ltac:(lia) ltac:(lia)) as H.
  rewrite Z2Nat.id in H by lia. exact H.
Qed.

Lemma code_index_bounds (tbl : list Z) v n : forall j k,
  0 <= j <= k -> k < 65535 -> k - j < Z.of_nat n -> v <= rd tbl (k + 1) - 1 ->
  j <= code_index n tbl v j <= k
  /\ v <= rd tbl (code_index n tbl v j + 1) - 1
  /\ (code_index n tbl v j = j \/ rd tbl (code_index n tbl v j) <= v).
Proof.
  induction n as [|n IH]; intros j k Hj Hk Hn Hv; [lia|].
  cbn [code_index]. destruct (Z.ltb_spec (rd tbl (j + 1) - 1) v) as [Hlt|Hge]; [|lia].
  assert (j <> k) by (intros ->; lia).
  rewrite u16_small by lia.
  destruct (IH (j + 1) k ltac:(lia) Hk ltac:(lia) Hv) as (H1 & H2 & [H3|H3]).
  - rewrite H3. split; [lia|]. split; [rewrite H3 in H2; exact H2|]. right. lia.
  - split; [lia|]. split; [exact H2|]. right. exact H3.
Qed.

(** The extra bits of a length code hold the offset within its range. *)
Lemma length_extra_fits best :
  3 <= best <= 258 ->
  let j := code_index (length lengthc) lengthc best 0 in
  0 <= rd lengtheb j <= 5 /\ 0 <= best - rd lengthc j
  /\ (rd lengtheb j <> 0 -> best - rd lengthc j < 2 ^ rd lengtheb j).
Proof.
  intros Hb j.
  destruct (code_index_bounds lengthc best (length lengthc) 0 28) as (Hj & Hhi & Hlo);
    [lia|lia|cbn [length lengthc]; lia|change (rd lengthc (28 + 1)) with 259; lia|].
  fold j in Hj, Hhi, Hlo. clearbody j.
  assert (Hlo' : rd lengthc j <= best)
    by (destruct Hlo as [->|]; [change (rd lengthc 0) with 3; lia|assumption]).
  assert (Htab : forallb (fun k =>
            (0 <=? rd lengtheb k) && (rd lengtheb k <=? 5)
            && ((rd lengtheb k =? 0)
                || (rd lengthc (k + 1) - rd lengthc k <=? 2 ^ rd lengtheb k)))
            (seqZ 0 29) = true) by (vm_compute; reflexivity).
  rewrite forallb_forall in Htab. specialize (Htab j).
  assert (Hin : In j (seqZ 0 29)) by (apply list_elem_of_In, elem_of_seqZ; lia).
  specialize (Htab Hin). rewrite !andb_true_iff, orb_true_iff, !Z.leb_le, Z.eqb_eq in Htab.
  lia.
Qed.

(** The extra bits of a distance code hold the offset within its range. *)
Lemma dist_extra_fits d :
  1 <= d <= 32767 ->
  let j := code_index (length distc) distc d 0 in
  0 <= j <= 29 /\ 0 <= rd disteb j <= 13 /\ 0 <= d - rd distc j
  /\ (rd disteb j <> 0 -> d - rd distc j < 2 ^ rd disteb j).
Proof.
  intros Hd j.
  destruct (code_index_bounds distc d (length distc) 0 29) as (Hj & Hhi & Hlo);
    [lia|lia|cbn [length distc]; lia|change (rd distc (29 + 1)) with 32768; lia|].
  fold j in Hj, Hhi, Hlo. clearbody j.
  assert (Hlo' : rd distc j <= d)
    by (destruct Hlo as [->|]; [change (rd distc 0) with 1; lia|assumption]).
  assert (Htab : forallb (fun k =>
            (0 <=? rd disteb k) && (rd disteb k <=? 13)
            && ((rd disteb k =? 0)
                || (rd distc (k + 1) - rd distc k <=? 2 ^ rd disteb k)))
            (seqZ 0 30) = true) by (vm_compute; reflexivity).
  rewrite forallb_forall in Htab. specialize (Htab j).
  assert (Hin : In j (seqZ 0 30)) by (apply list_elem_of_In, elem_of_seqZ; lia).
  specialize (Htab Hin). rewrite !andb_true_iff, orb_true_iff, !Z.leb_le, Z.eqb_eq in Htab.
  lia.
Qed.

Section Accumulator.

Context {U : Type}.
Implicit Types a : zw__zip_details U.

Lemma flush_compressed_bytes_bitbuf a :
  bitbuf (zw__flush_compressed_bytes a) = bitbuf a.
Proof.
  unfold zw__flush_compressed_bytes. destruct (0 <? out_cursor a); [|reflexivity].
  match goal with |- bitbuf (set_out_cursor _ (snd (zw__write_to_stream ?b ?d))) = _ =>
    pose proof (write_to_stream_sink_frame b d) as H end.
  apply (f_equal (fun t => fst (fst (fst (fst (fst t)))))) in H. exact H.
Qed.

Lemma flush_bits_loop_bits n : forall a,
  0 <= bitcount a < 32 -> 0 <= bitbuf a < 2 ^ bitcount a ->
  bitcount a / 8 <= Z.of_nat n ->
  bits_ok (zw__flush_bits_loop n a).
Proof.
  induction n as [|n IH]; intros a Hc Hb Hn.
  - cbn [zw__flush_bits_loop].
    assert (bitcount a / 8 = 0) by (pose proof (Z.div_pos (bitcount a) 8); lia).
    apply Z.div_small_iff in H; [|lia]. split; [lia|exact Hb].
  - cbn [zw__flush_bits_loop]. destruct (Z.leb_spec 8 (bitcount a)) as [Hge|Hlt];
      [|split; [lia|exact Hb]].
    match goal with |- bits_ok (zw__flush_bits_loop n ?b) =>
      assert (Hbc : bitcount b = bitcount a - 8 /\ bitbuf b = Z.shiftr (bitbuf a) 8) end.
    { cbn [bitcount bitbuf set_bitcount set_bitbuf].
      match goal with |- context [if ?c then _ else _] => destruct c end;
        rewrite ?flush_compressed_bytes_bitcount, ?flush_compressed_bytes_bitbuf;
        cbn [bitcount bitbuf set_out_cursor set_out]; (split; [apply u32_small; lia|]);
        reflexivity. }
    destruct Hbc as [Hbc Hbb]. apply IH; rewrite ?Hbc, ?Hbb.
    + lia.
    + rewrite Z.shiftr_div_pow2 by lia. split; [apply Z.div_pos; lia|].
      apply Z.div_lt_upper_bound; [lia|]. rewrite <- Z.pow_add_r by lia.
      replace (8 + (bitcount a - 8)) with (bitcount a) by lia. lia.
    + replace (bitcount a) with (bitcount a - 8 + 1 * 8) in Hn by lia.
      rewrite Z.div_add in Hn by lia. lia.
Qed.

(** Adding a code that fits its bit count keeps the accumulator in order. *)
Lemma zlib_add_bits code n a :
  bits_ok a -> 0 <= n <= 24 -> 0 <= code < 2 ^ n ->
  bits_ok (zw__zlib_add code n a).
Proof.
  intros [Hc Hb] Hn Hcode. unfold zw__zlib_add, zw__flush_bits.
  assert (Hs : 0 <= Z.shiftl code (bitcount a) < 2 ^ (bitcount a + n)).
  { rewrite Z.shiftl_mul_pow2 by lia. rewrite Z.pow_add_r by lia.
    assert (0 < 2 ^ bitcount a) by (apply Z.pow_pos_nonneg; lia). nia. }
  assert (Hle : 2 ^ (bitcount a + n) <= 2 ^ 32) by (apply Z.pow_le_mono_r; lia).
  apply flush_bits_loop_bits; cbn [bitcount bitbuf set_bitcount set_bitbuf];
    rewrite ?(u32_small (bitcount a + n)) by lia.
  - lia.
  - rewrite u32_small by (change 4294967296 with (2 ^ 32); lia).
    apply lor_below; [lia| |exact Hs].
    assert (2 ^ bitcount a <= 2 ^ (bitcount a + n)) by (apply Z.pow_le_mono_r; lia). lia.
  - rewrite Z2Nat.id by (apply Z.div_pos; lia). lia.
Qed.

Lemma zlib_huffa_bits b c a :
  bits_ok a -> 0 <= c <= 24 -> bits_ok (zw__zlib_huffa b c a).
Proof.
  intros Ha Hc. apply zlib_add_bits; [exact Ha|exact Hc|apply bitrev_bound; lia].
Qed.

Lemma zlib_huff_bits n a : bits_ok a -> bits_ok (zw__zlib_huff n a).
Proof.
  intros Ha. unfold zw__zlib_huff, zw__zlib_huff1, zw__zlib_huff2, zw__zlib_huff3,
    zw__zlib_huff4.
  destruct (n <=? 143); [apply zlib_huffa_bits; [exact Ha|lia]|].
  destruct (n <=? 255); [apply zlib_huffa_bits; [exact Ha|lia]|].
  destruct (n <=? 279); apply zlib_huffa_bits; solve [exact Ha|lia].
Qed.

Lemma zlib_huffb_bits n a : bits_ok a -> bits_ok (zw__zlib_huffb n a).
Proof.
  intros Ha. unfold zw__zlib_huffb, zw__zlib_huff1, zw__zlib_huff2.
  destruct (n <=? 143); apply zlib_huffa_bits; solve [exact Ha|lia].
Qed.

Lemma emit_match_bits best d a :
  bits_ok a -> 3 <= best <= 258 -> 1 <= d <= 32767 -> bits_ok (emit_match best d a).
Proof.
  intros Ha Hb Hd. unfold emit_match.
  pose proof (length_extra_fits best Hb) as Hl. cbv zeta in Hl.
  pose proof (dist_extra_fits d Hd) as Hx. cbv zeta in Hx.
  set (j := code_index (length lengthc) lengthc best 0) in *.
  set (k := code_index (length distc) distc d 0) in *.
  assert (H1 : bits_ok (zw__zlib_huff (j + 257) a)) by (apply zlib_huff_bits; exact Ha).
  set (a1 := zw__zlib_huff (j + 257) a) in *.
  assert (H2 : bits_ok (if negb (rd lengtheb j =? 0)
                        then zw__zlib_add (best - rd lengthc j) (rd lengtheb j) a1
                        else a1)).
  { destruct (Z.eqb_spec (rd lengtheb j) 0); cbn [negb]; [exact H1|].
    apply zlib_add_bits; [exact H1|lia|lia]. }
  set (a2 := if negb (rd lengtheb j =? 0) then _ else a1) in *.
  assert (H3 : bits_ok (zw__zlib_add (zw__zlib_bitrev k 5) 5 a2))
    by (apply zlib_add_bits; [exact H2|lia|apply bitrev_bound; lia]).
  destruct (Z.eqb_spec (rd disteb k) 0); cbn [negb]; [exact H3|].
  apply zlib_add_bits; [exact H3|lia|lia].
Qed.

Lemma pad_bits_bits n : forall a, bits_ok a -> bits_ok (pad_bits n a).
Proof.
  induction n as [|n IH]; intros a Ha; [exact Ha|].
  cbn [pad_bits]. destruct (negb (bitcount a =? 0)); [|exact Ha].
  apply IH. apply zlib_add_bits; [exact Ha|lia|lia].
Qed.

Lemma flush_compressed_bytes_bits a : bits_ok a -> bits_ok (zw__flush_compressed_bytes a).
Proof.
  unfold bits_ok. rewrite flush_compressed_bytes_bitcount, flush_compressed_bytes_bitbuf.
  exact id.
Qed.

End Accumulator.

Lemma scan_chain_loc (no_sse : bool) (w : list Z) i data_len :
  forall hlist best0 loc0 best loc,
    scan_chain no_sse w i data_len hlist best0 loc0 = (best, Some loc) ->
    loc0 = Some loc \/ (loc ∈ hlist /\ i < loc).
Proof.
  induction hlist as [|e hlist IH]; intros best0 loc0 best loc; cbn [scan_chain].
  - intros E. injection E as _ ->. left. reflexivity.
  - destruct (Z.ltb_spec i e) as [Hlt|Hge].
    + destruct (best0 <=? _).
      * intros E. destruct (IH _ _ _ _ E) as [H|[H1 H2]].
        -- injection H as ->. right. split; [left|exact Hlt].
        -- right. split; [right; exact H1|exact H2].
      * intros E. destruct (IH _ _ _ _ E) as [H|[H1 H2]]; [left; exact H|].
        right. split; [right; exact H1|exact H2].
    + intros E. destruct (IH _ _ _ _ E) as [H|[H1 H2]]; [left; exact H|].
      right. split; [right; exact H1|exact H2].
Qed.

Lemma slide_items_below c (l : list Z) :
  0 <= c -> Forall (fun e => e < 32768 + c) l ->
  Forall (fun e => e < 32768) (slide_items c l).
Proof.
  intros Hc. induction 1 as [|e l He _ IH]; cbn [slide_items]; [constructor|].
  destruct (Z.leb_spec c e); [|exact IH].
  constructor; [|exact IH]. rewrite u16_small by lia. lia.
Qed.

Section Encoder.

Context {U : Type} (ZW_NO_SSE : bool).
Implicit Types a : zw__zip_details U.

Lemma entries_below_mono a bound bound' :
  bound <= bound' -> entries_below bound a -> entries_below bound' a.
Proof.
  intros Hle Hb. eapply map_Forall_impl; [exact Hb|]. intros h s Hs.
  eapply Forall_impl; [exact Hs|]. intros e He. cbn beta in *. lia.
Qed.

Lemma entries_below_lookup a bound h e :
  entries_below bound a -> e ∈ sb_items (hash_table a !! h) -> e < bound.
Proof.
  intros Hb. destruct (hash_table a !! h) as [s|] eqn:E; cbn [sb_items]; [|inversion 1].
  specialize (Hb h s E). cbn beta in Hb. rewrite Forall_forall in Hb. apply Hb.
Qed.

(** A turn of the match search at [i] keeps the accumulator in order and
    leaves every chain entry at or below [32768 + i]; the distance of a match
    it emits is between 1 and 32767. *)
Lemma flush_input_step_encoder data_len a i :
  quality a = 8 -> bits_ok a -> entries_below (32768 + i) a ->
  0 <= i < data_len - 3 -> data_len <= 32768 ->
  bits_ok (fst (flush_input_step ZW_NO_SSE data_len a i))
  /\ entries_below (32768 + i + 1) (fst (flush_input_step ZW_NO_SSE data_len a i)).
Proof.
  intros Hq Hbits Hent Hi Hlen. split.
  - unfold flush_input_step.
    set (h := Z.land (zw__zhash (zdrop (32768 + i) (window a))) (zw__hash_size - 1)).
    destruct (scan_chain ZW_NO_SSE (window a) i data_len (sb_items (hash_table a !! h)) 3 None)
      as [best bestloc] eqn:E.
    set (b := set_hash_table _ a).
    assert (Hb : bits_ok b) by exact Hbits.
    destruct bestloc as [loc|]; [destruct (lazy_scan _ _ _ _ _ _)|]; cbn [fst].
    + apply zlib_huffb_bits. exact Hb.
    + apply emit_match_bits; [exact Hb| |].
      * apply (scan_chain_best ZW_NO_SSE (window a) i data_len ltac:(lia) _ 3 None best
                 (Some loc) ltac:(lia) E).
      * destruct (scan_chain_loc _ _ _ _ _ _ _ _ _ E) as [H|[H1 H2]]; [discriminate|].
        pose proof (entries_below_lookup a _ h loc Hent H1).
        rewrite u16_small by lia. lia.
    + apply zlib_huffb_bits. exact Hb.
  - destruct (flush_input_step_spec ZW_NO_SSE data_len a i) as (h & Hh & _ & _).
    unfold entries_below. rewrite Hh. apply map_Forall_insert_2.
    + rewrite hash_insert_items by lia. apply Forall_app. split.
      * assert (Hold : Forall (fun e => e < 32768 + i + 1) (sb_items (hash_table a !! h))).
        { apply Forall_forall. intros e He.
          pose proof (entries_below_lookup a _ h e Hent He). lia. }
        destruct (_ =? _); [unfold zdrop; apply Forall_drop|]; exact Hold.
      * constructor; [|constructor]. rewrite u16_small by lia. lia.
    + apply (entries_below_mono a (32768 + i)); [lia|exact Hent].
Qed.

Lemma flush_input_loop_encoder data_len n : forall a i,
  quality a = 8 -> bits_ok a -> entries_below (32768 + i) a ->
  0 <= i <= data_len -> data_len <= 32768 ->
  bits_ok (fst (flush_input_loop ZW_NO_SSE n data_len a i))
  /\ entries_below (32768 + data_len) (fst (flush_input_loop ZW_NO_SSE n data_len a i)).
Proof.
  induction n as [|n IH]; intros a i Hq Hbits Hent Hi Hlen; cbn [flush_input_loop].
  - split; [exact Hbits|]. apply (entries_below_mono a (32768 + i)); [lia|exact Hent].
  - destruct (Z.ltb_spec i (data_len - 3)) as [Hlt|Hge].
    2:{ split; [exact Hbits|]. apply (entries_below_mono a (32768 + i)); [lia|exact Hent]. }
    destruct (flush_input_step_encoder data_len a i Hq Hbits Hent ltac:(lia) Hlen)
      as [Hb1 He1].
    pose proof (flush_input_step_advances ZW_NO_SSE data_len a i ltac:(lia) Hlen) as Hadv.
    destruct (flush_input_step_spec ZW_NO_SSE data_len a i) as (h & _ & Hf & _).
    destruct (flush_input_step ZW_NO_SSE data_len a i) as [a1 i1]. cbn [fst snd] in *.
    apply IH; [|exact Hb1| |lia|exact Hlen].
    + rewrite (layout_quality _ _ (search_frame_layout _ _ Hf)). exact Hq.
    + apply (entries_below_mono a1 (32768 + i + 1)); [lia|exact He1].
Qed.

Lemma literal_tail_bits (l : list Z) : forall a,
  bits_ok a ->
  bits_ok (foldl (fun a k => zw__zlib_huffb (rd (window a) (32768 + k)) a) a l).
Proof.
  induction l as [|k l IH]; intros a Ha; [exact Ha|].
  cbn [foldl]. apply IH. apply zlib_huffb_bits. exact Ha.
Qed.

(** [zw__flush_input] keeps the accumulator in order and brings every chain
    entry back below 32768. *)
Lemma flush_input_encoder a :
  quality a = 8 -> bits_ok a -> entries_below 32768 a -> 0 <= in_cursor a <= 32768 ->
  bits_ok (zw__flush_input ZW_NO_SSE a)
  /\ entries_below 32768 (zw__flush_input ZW_NO_SSE a).
Proof.
  intros Hq Hbits Hent Hc. unfold zw__flush_input.
  destruct (in_cursor a =? 0); [split; assumption|].
  destruct (flush_input_loop_encoder (in_cursor a) (Z.to_nat (in_cursor a)) a 0
              Hq Hbits Hent ltac:(lia) ltac:(lia)) as [Hb1 He1].
  destruct (flush_input_loop_frame ZW_NO_SSE (in_cursor a) (Z.to_nat (in_cursor a)) a 0)
    as [Hf _].
  destruct (flush_input_loop ZW_NO_SSE (Z.to_nat (in_cursor a)) (in_cursor a) a 0)
    as [a1 i1]. cbn [fst] in *.
  pose proof (literal_tail_bits (seqZ i1 (in_cursor a - i1)) a1 Hb1) as Hb2.
  destruct (literal_tail_emits (seqZ i1 (in_cursor a - i1)) a1) as [Hf2 _].
  set (a2 := foldl _ a1 _) in *.
  assert (Hc2 : in_cursor a2 = in_cursor a).
  { apply enc_frame_search_frame in Hf2. unfold search_frame in Hf, Hf2.
    injection Hf. injection Hf2. intros. congruence. }
  split; [exact Hb2|].
  unfold entries_below.
  cbn [hash_table set_in_cursor set_current_file set_window set_hash_table].
  apply map_Forall_fmap. rewrite (enc_frame_hash_table _ _ Hf2), Hc2.
  eapply map_Forall_impl; [exact He1|]. intros h s Hs. unfold compose.
  cbn [slide_chain sbitems]. apply slide_items_below; [lia|exact Hs].
Qed.

End Encoder.

Section ProtocolInvariant.

Context {U : Type} (ZW_NO_SSE : bool).
Implicit Types a b : zw__zip_details U.

Lemma encoder_ok_fields a b :
  bitbuf b = bitbuf a -> bitcount b = bitcount a -> hash_table b = hash_table a ->
  name_length (current_file b) = name_length (current_file a) ->
  encoder_ok a -> encoder_ok b.
Proof.
  unfold encoder_ok, bits_ok, entries_below. intros -> -> -> ->. exact id.
Qed.

Lemma encoder_ok_sink_frame a b :
  sink_frame b = sink_frame a -> encoder_ok a -> encoder_ok b.
Proof.
  unfold sink_frame, enc_frame. intros H. injection H. intros.
  apply (encoder_ok_fields a b); assumption.
Qed.

Lemma sink_frame_bitcount a b : sink_frame b = sink_frame a -> bitcount b = bitcount a.
Proof.
  intros H. apply (f_equal (fun t => snd (fst (fst (fst (fst t)))))) in H. exact H.
Qed.

Lemma enc_frame_name_length a b :
  enc_frame b = enc_frame a ->
  name_length (current_file b) = name_length (current_file a).
Proof.
  intros H. apply (f_equal (fun t => snd (fst (fst (snd t))))) in H. exact H.
Qed.

Lemma entries_below_emits a b bound :
  emits a b -> entries_below bound a -> entries_below bound b.
Proof.
  intros [Hf _]. unfold entries_below. rewrite (enc_frame_hash_table _ _ Hf). exact id.
Qed.

Lemma append_to_central_dir_encoder a data :
  bitbuf (snd (zw__append_to_central_dir a data)) = bitbuf a
  /\ bitcount (snd (zw__append_to_central_dir a data)) = bitcount a
  /\ hash_table (snd (zw__append_to_central_dir a data)) = hash_table a.
Proof.
  unfold zw__append_to_central_dir. destruct (Z.of_nat (length data) =? 0); repeat split.
Qed.

(** Ending a member leaves the accumulator empty. *)
Lemma end_file_encoder a :
  session_ok a -> encoder_ok a ->
  encoder_ok (snd (zw__zip_end_file ZW_NO_SSE a))
  /\ bitcount (snd (zw__zip_end_file ZW_NO_SSE a)) = 0.
Proof.
  intros (Hq & Hi & Ho & Hl & Hc & Hch) (Hbits & Hent & Hidle). unfold zw__zip_end_file.
  destruct (Z.eqb_spec (name_length (current_file a)) 0) as [H0|Hn].
  { cbn [snd]. split; [exact (conj Hbits (conj Hent Hidle))|apply Hidle; exact H0]. }
  destruct (flush_input_encoder ZW_NO_SSE a Hq Hbits Hent ltac:(lia)) as [Hb1 He1].
  set (a1 := zw__flush_input ZW_NO_SSE a) in *.
  assert (Hb2 : bits_ok (zw__zlib_huff 256 a1)) by (apply zlib_huff_bits; exact Hb1).
  assert (He2 : entries_below 32768 (zw__zlib_huff 256 a1))
    by (eapply entries_below_emits; [apply zlib_huff_emits|exact He1]).
  set (a2 := zw__zlib_huff 256 a1) in *.
  assert (Hb3 : bits_ok (pad_bits 8 a2)) by (apply pad_bits_bits; exact Hb2).
  assert (Hc3 : bitcount (pad_bits 8 a2) = 0).
  { apply pad_bits_bitcount; [apply Hb2|]. destruct Hb2 as [? _].
    change (Z.of_nat 8) with 8. lia. }
  assert (He3 : entries_below 32768 (pad_bits 8 a2))
    by (eapply entries_below_emits; [apply pad_bits_emits|exact He2]).
  set (a3 := pad_bits 8 a2) in *.
  assert (H4 : encoder_ok (zw__flush_compressed_bytes a3)
               /\ bitcount (zw__flush_compressed_bytes a3) = 0).
  { split; [|rewrite flush_compressed_bytes_bitcount; exact Hc3].
    split; [apply flush_compressed_bytes_bits; exact Hb3|]. split.
    - eapply entries_below_emits; [apply flush_compressed_bytes_emits|exact He3].
    - intros _. rewrite flush_compressed_bytes_bitcount. exact Hc3. }
  set (a4 := zw__flush_compressed_bytes a3) in *. destruct H4 as [H4 Hc4].
  match goal with |- context [zw__write_to_stream a4 ?d] =>
    pose proof (write_to_stream_sink_frame a4 d) as Hw;
    destruct (zw__write_to_stream a4 d) as [[|] a5] end; cbn [snd] in *.
  - split; [eapply encoder_ok_sink_frame; eassumption|].
    rewrite (sink_frame_bitcount _ _ Hw). exact Hc4.
  - pose proof (encoder_ok_sink_frame a4 a5 Hw H4) as (Hb5 & He5 & _).
    assert (Hc5 : bitcount a5 = 0).
    { rewrite (sink_frame_bitcount _ _ Hw). exact Hc4. }
    match goal with |- encoder_ok ?x /\ bitcount ?x = 0 =>
      assert (Hx : bitbuf x = bitbuf a5 /\ bitcount x = bitcount a5
                   /\ hash_table x = hash_table a5)
    end.
    { cbn [bitbuf bitcount hash_table set_current_file].
      repeat match goal with
             | |- context [snd (zw__append_to_central_dir ?y ?d)] =>
                 destruct (append_to_central_dir_encoder y d) as (-> & -> & ->)
             end.
      repeat split. }
    destruct Hx as (Hx1 & Hx2 & Hx3).
    split; [|rewrite Hx2; exact Hc5].
    unfold encoder_ok, bits_ok, entries_below. rewrite Hx1, Hx2, Hx3.
    split; [exact Hb5|]. split; [exact He5|]. intros _. exact Hc5.
Qed.

Lemma begin_file_encoder a file_path r a' :
  session_ok a -> encoder_ok a ->
  zw_begin_file ZW_NO_SSE (Some a) file_path = (r, Some a') -> encoder_ok a'.
Proof.
  intros Hok Henc. unfold zw_begin_file.
  destruct (end_file_encoder a Hok Henc) as [H0 Hc0].
  pose proof (end_file_session_ok ZW_NO_SSE a Hok) as Hs0.
  set (a0 := snd (zw__zip_end_file ZW_NO_SSE a)) in *.
  destruct file_path as [[|c file_path]|]; [congruence| |congruence].
  match goal with |- context [zw__write_to_stream a0 ?d] =>
    pose proof (write_to_stream_sink_frame a0 d) as Hf1;
    destruct (zw__write_to_stream a0 d) as [[|] a1] end; cbn [snd] in *.
  { intros E. injection E as _ <-. eapply encoder_ok_sink_frame; eassumption. }
  match goal with |- context [zw__write_to_stream a1 ?d] =>
    pose proof (write_to_stream_sink_frame a1 d) as Hf2;
    destruct (zw__write_to_stream a1 d) as [[|] a2] end; cbn [snd] in *.
  { intros E. injection E as _ <-.
    eapply encoder_ok_sink_frame; [exact Hf2|].
    eapply encoder_ok_sink_frame; eassumption. }
  rewrite Hf1 in Hf2. clear Hf1.
  pose proof (encoder_ok_sink_frame a0 a2 Hf2 H0) as (Hb2 & He2 & _).
  assert (Hc2 : bitcount a2 = 0).
  { rewrite (sink_frame_bitcount _ _ Hf2). exact Hc0. }
  set (nl := if 65534 <? Z.of_nat (length (c :: file_path)) then 65534
             else Z.of_nat (length (c :: file_path))) in *.
  assert (Hnl : 1 <= nl <= 65534)
    by (unfold nl; destruct (Z.ltb_spec 65534 (Z.of_nat (length (c :: file_path))));
        cbn [length] in *; lia).
  intros E. injection E as _ <-.
  match goal with |- encoder_ok (zw__zlib_add 1 2 (zw__zlib_add 1 1 ?b)) =>
    set (b0 := b);
    assert (Hb0 : bits_ok b0 /\ entries_below 32768 b0
                  /\ name_length (current_file b0) <> 0)
  end.
  { unfold bits_ok, entries_below, b0.
    destruct (negb (num_files a2 =? 0));
      cbn [bitcount bitbuf hash_table current_file name_length set_num_files
           set_current_file set_out_cursor set_in_cursor set_hash_table];
      (split; [exact Hb2|]); (split; [|rewrite u16_small by lia; lia]).
    - apply map_Forall_fmap. intros h s _. unfold compose. cbn [sbitems]. constructor.
    - exact He2. }
  destruct Hb0 as (Hbb & Hbe & Hbn).
  assert (H1 : bits_ok (zw__zlib_add 1 1 b0)) by (apply zlib_add_bits; [exact Hbb|lia|lia]).
  assert (H2 : bits_ok (zw__zlib_add 1 2 (zw__zlib_add 1 1 b0)))
    by (apply zlib_add_bits; [exact H1|lia|lia]).
  assert (Hem : emits b0 (zw__zlib_add 1 2 (zw__zlib_add 1 1 b0)))
    by (eapply emits_trans; apply zlib_add_emits).
  split; [exact H2|]. split; [eapply entries_below_emits; eassumption|].
  destruct Hem as [Hf _]. rewrite (enc_frame_name_length _ _ Hf).
  intros; contradiction.
Qed.

Lemma write_loop_encoder n : forall a (data : list Z),
  session_ok a -> encoder_ok a -> name_length (current_file a) <> 0 ->
  encoder_ok (fst (write_loop ZW_NO_SSE n a data)).
Proof.
  induction n as [|n IH]; intros a data Hok Henc Hact; [exact Henc|].
  cbn [write_loop]. destruct (Z.ltb_spec 0 (Z.of_nat (length data))) as [Hlen|Hlen];
    [|exact Henc].
  destruct Hok as (Hq & Hi & Ho & Hl & Hc & Hch).
  rewrite Hi. rewrite (u16_small (32768 - in_cursor a)) by lia.
  set (batch := if Z.of_nat (length data) <? 32768 - in_cursor a
                then u16 (Z.of_nat (length data)) else 32768 - in_cursor a).
  assert (Hb : 1 <= batch <= 32768 - in_cursor a /\ batch <= Z.of_nat (length data)).
  { unfold batch. destruct (Z.ltb_spec (Z.of_nat (length data)) (32768 - in_cursor a));
      [rewrite u16_small by lia|]; lia. }
  cbn [in_cursor in_total set_in_cursor set_window].
  rewrite Hi. rewrite (u16_small (in_cursor a + batch)) by lia.
  set (a1 := set_in_cursor (in_cursor a + batch) (set_window _ a)).
  assert (Henc1 : encoder_ok a1) by (revert Henc; apply encoder_ok_fields; reflexivity).
  destruct (Z.eqb_spec (in_cursor a + batch) 32768) as [He|Hne].
  - destruct Henc1 as (Hb1 & He1 & _).
    destruct (flush_input_encoder ZW_NO_SSE a1 Hq Hb1 He1) as [Hb2 He2];
      [unfold a1; cbn [in_cursor set_in_cursor]; lia|].
    destruct (flush_input_layout ZW_NO_SSE a1) as (Hlay & _ & _).
    assert (Hn2 : name_length (current_file (zw__flush_input ZW_NO_SSE a1))
                  = name_length (current_file a)).
    { unfold layout in Hlay. injection Hlay. intros. assumption. }
    apply IH.
    + apply flush_input_session_ok; assumption.
    + split; [exact Hb2|]. split; [exact He2|]. rewrite Hn2. intros; contradiction.
    + rewrite Hn2. exact Hact.
  - apply IH; [|exact Henc1|exact Hact].
    unfold session_ok, chains_bounded, a1. cbn. repeat split; try assumption; lia.
Qed.

Lemma create_ex_encoder options local a :
  zw_create_ex options local = Some a -> encoder_ok a.
Proof.
  unfold zw_create_ex. destruct options as [o|]; [|congruence].
  destruct (write (opt_stream o)); [|congruence].
  intros E. apply (f_equal (from_option encoder_ok True)) in E.
  cbn [from_option] in E. rewrite <- E. unfold encoder_ok, bits_ok, entries_below.
  cbn [bitcount bitbuf hash_table]. split; [lia|]. split; [apply map_Forall_empty|].
  reflexivity.
Qed.

Lemma in_protocol_reachable a : in_protocol ZW_NO_SSE a -> reachable ZW_NO_SSE a.
Proof.
  induction 1 as [options local a Hc|a file_path r a' _ IH Hb|a data r a' _ IH Hn Hw].
  - eapply reach_create; eassumption.
  - eapply reach_begin_file; eassumption.
  - eapply reach_write; eassumption.
Qed.

(** Between operations of the protocol the encoder is in order. *)
Lemma in_protocol_encoder a : in_protocol ZW_NO_SSE a -> encoder_ok a.
Proof.
  induction 1 as [options local a Hc|a file_path r a' Hp IH Hb|a data r a' Hp IH Hn Hw].
  - eapply create_ex_encoder; eassumption.
  - eapply begin_file_encoder; [|exact IH|exact Hb].
    apply (reachable_session_ok ZW_NO_SSE), in_protocol_reachable. exact Hp.
  - unfold zw_write in Hw. destruct (num_files a =? 0).
    + injection Hw as _ <-. exact IH.
    + injection Hw as _ <-. apply write_loop_encoder; [|exact IH|exact Hn].
      apply (reachable_session_ok ZW_NO_SSE), in_protocol_reachable. exact Hp.
Qed.

End ProtocolInvariant.

(** ** Empty member *)

Section EmptyMember.

Context {U : Type}.
Implicit Types a x : zw__zip_details U.

Local Arguments zw__append_to_central_dir : simpl never.

(** Adding bits that do not fill a byte only changes the accumulator. *)
Lemma zlib_add_no_flush code n x :
  0 <= bitcount x -> 0 <= n -> bitcount x + n < 8 ->
  zw__zlib_add code n x
  = set_bitcount (bitcount x + n)
      (set_bitbuf (Z.lor (bitbuf x) (u32 (Z.shiftl code (bitcount x)))) x).
Proof.
  intros Hb Hn Hlt. unfold zw__zlib_add, zw__flush_bits.
  cbn [bitcount set_bitcount set_bitbuf].
  rewrite (u32_small (bitcount x + n)) by lia.
  rewrite Z.div_small by lia. reflexivity.
Qed.

Lemma write_to_stream_calls_sink a data :
  error (stream a) = 0 -> data <> [] ->
  exists written,
    log (snd (zw__write_to_stream a data)) = log a ++ [EvWrite data written].
Proof.
  intros He Hd. unfold zw__write_to_stream. destruct data as [|x data]; [contradiction|].
  replace (Z.of_nat (length (x :: data)) =? 0) with false
    by (symmetry; apply Z.eqb_neq; cbn [length]; lia).
  rewrite He. cbn [Z.eqb negb].
  destruct (call_write (stream a) (x :: data)) as [written s]. exists written.
  destruct (written =? Z.of_nat (length (x :: data))); [reflexivity|].
  cbn [stream set_offset set_log set_stream]. destruct (error s =? 0); reflexivity.
Qed.

(** The state [zw_begin_file] leaves when it succeeds, the accumulator being
    empty once the previous member has been ended. *)
Lemma begin_file_opens_block (no_sse : bool) a file_path a1 :
  bitbuf (snd (zw__zip_end_file no_sse a)) = 0 ->
  bitcount (snd (zw__zip_end_file no_sse a)) = 0 ->
  zw_begin_file no_sse (Some a) file_path = (zw_true, Some a1) ->
  bitbuf a1 = 3 /\ bitcount a1 = 3 /\ out_cursor a1 = 0 /\ in_cursor a1 = 0
  /\ out a1 = out (snd (zw__zip_end_file no_sse a))
  /\ out_total a1 = out_total (snd (zw__zip_end_file no_sse a))
  /\ name_length (current_file a1) <> 0
  /\ crc (current_file a1) = 0 /\ uncompressed_size (current_file a1) = 0
  /\ compressed_size (current_file a1) = 0.
Proof.
  unfold zw_begin_file. set (a0 := snd (zw__zip_end_file no_sse a)). intros Hb Hc.
  destruct file_path as [[|ch file_path]|]; [discriminate| |discriminate].
  match goal with |- context [zw__write_to_stream a0 ?d] =>
    pose proof (write_to_stream_sink_frame a0 d) as Hf1;
    destruct (zw__write_to_stream a0 d) as [[|] a2] end; [discriminate|].
  match goal with |- context [zw__write_to_stream a2 ?d] =>
    pose proof (write_to_stream_sink_frame a2 d) as Hf2;
    destruct (zw__write_to_stream a2 d) as [[|] a3] end; [discriminate|].
  cbn [snd] in *. rewrite Hf1 in Hf2. clear Hf1. intros E.
  unfold sink_frame, enc_frame in Hf2. injection Hf2. intros.
  set (nl := if 65534 <? Z.of_nat (length (ch :: file_path)) then 65534
             else Z.of_nat (length (ch :: file_path))) in *.
  assert (Hnl : 1 <= nl <= 65534)
    by (unfold nl; destruct (Z.ltb_spec 65534 (Z.of_nat (length (ch :: file_path))));
        cbn [length] in *; lia).
  match type of E with
  | (zw_true, Some (zw__zlib_add 1 2 (zw__zlib_add 1 1 ?b))) = _ => set (b0 := b) in *
  end.
  assert (Hb0 : bitbuf b0 = 0 /\ bitcount b0 = 0).
  { unfold b0. destruct (negb (num_files a3 =? 0)); cbn; split; congruence. }
  destruct Hb0 as [Hbb Hbc].
  rewrite (zlib_add_no_flush 1 1 b0) in E by lia.
  rewrite zlib_add_no_flush in E by (cbn [bitcount set_bitcount set_bitbuf]; lia).
  cbn [bitcount bitbuf set_bitcount set_bitbuf] in E. rewrite Hbb, Hbc in E.
  injection E as <-.
  unfold b0. destruct (negb (num_files a3 =? 0)); cbn;
    (split; [reflexivity|]); (split; [reflexivity|]);
    repeat split; try congruence; try reflexivity;
    rewrite u16_small by lia; lia.
Qed.

(** Closing the block of a member that has taken no byte: the end-of-block
    code and the padding fill the first two bytes of the output buffer. *)
Lemma close_empty_block (no_sse : bool) x o0 o1 rest :
  bitbuf x = 3 -> bitcount x = 3 -> out_cursor x = 0 -> in_cursor x = 0 ->
  out_total x = 32768 -> out x = o0 :: o1 :: rest ->
  pad_bits 8 (zw__zlib_huff 256 (zw__flush_input no_sse x))
  = set_bitcount 0 (set_bitbuf 0 (set_out_cursor 2 (set_out (3 :: 0 :: rest) x))).
Proof.
  intros Hb Hc Ho Hi Ht Hout.
  assert (Hf : zw__flush_input no_sse x = x)
    by (unfold zw__flush_input; rewrite Hi; reflexivity).
  rewrite Hf. destruct x. cbn in Hb, Hc, Ho, Hi, Ht, Hout. subst.
  vm_compute. reflexivity.
Qed.

(** The empty member where the accumulator is clean: in a session on which
    [zw_write] has only been called while a member was active, a member that
    is begun on a sound sink and ended without a byte written has the
    two-byte body 0x03 0x00 (the bits
    BFINAL=1, BTYPE=01, the seven zero bits of symbol 256, and six zero bits
    of padding, least significant bit first); its CRC-32 and uncompressed
    size are 0, its compressed size 2, and these are what the data
    descriptor and the central directory record. *)
Theorem empty_member_body_is_two_bytes (no_sse : bool) a file_path a1 :
  in_protocol no_sse a ->
  zw_begin_file no_sse (Some a) file_path = (zw_true, Some a1) ->
  error (stream a1) = 0 ->
  let r := fst (zw__zip_end_file no_sse a1) in
  let a2 := snd (zw__zip_end_file no_sse a1) in
  let descriptor := le32 0 ++ [255; 255; 255; 255] ++ [255; 255; 255; 255] in
  exists written rest,
    log a2 = log a1 ++ EvWrite [3; 0] written :: rest
    /\ (rest = [] \/ exists w, rest = [EvWrite descriptor w])
    /\ crc (current_file a2) = 0
    /\ uncompressed_size (current_file a2) = 0
    /\ compressed_size (current_file a2) = 2
    /\ (r = zw_true ->
        rest = [EvWrite descriptor 12]
        /\ sb_items (central_dir a2)
           = sb_items (central_dir a1)
             ++ central_dir_file_header_bytes (time a1) (date a1) 0
                  (name_length (current_file a1))
             ++ ztake (name_length (current_file a1)) (name (current_file a1))
             ++ info64_bytes 0 2 (start_offset (current_file a1))).
Proof.
  intros Hp Hbegin Herr.
  pose proof (reachable_session_ok no_sse a (in_protocol_reachable no_sse a Hp)) as Hok.
  destruct (end_file_encoder no_sse a Hok (in_protocol_encoder no_sse a Hp))
    as [((_ & Hbb) & _ & _) Hbc].
  destruct (end_file_session_ok no_sse a Hok) as (_ & _ & Hot & Hlen & _ & _).
  rewrite Hbc in Hbb. change (2 ^ 0) with 1 in Hbb.
  destruct (begin_file_opens_block no_sse a file_path a1 ltac:(lia) Hbc Hbegin)
    as (Hb1 & Hc1 & Ho1 & Hi1 & Hout1 & Hot1 & Hn1 & Hcrc1 & Hus1 & Hcs1).
  assert (Hout : exists o0 o1 rest, out a1 = o0 :: o1 :: rest).
  { rewrite Hout1. destruct (out (snd (zw__zip_end_file no_sse a))) as [|o0 [|o1 rest]];
      [cbn [length] in Hlen; lia|cbn [length] in Hlen; lia|eauto]. }
  destruct Hout as (o0 & o1 & orest & Hout).
  intros r a2 descriptor. subst r a2. unfold zw__zip_end_file.
  destruct (Z.eqb_spec (name_length (current_file a1)) 0) as [|_]; [contradiction|].
  rewrite (close_empty_block no_sse a1 o0 o1 orest) by congruence.
  set (x := set_bitcount 0 _).
  unfold zw__flush_compressed_bytes.
  change (0 <? out_cursor x) with true. cbn iota.
  change (ztake (out_cursor _) (out _)) with [3; 0].
  set (y := set_current_file _ x).
  assert (Hy : error (stream y) = 0) by exact Herr.
  destruct (write_to_stream_calls_sink y [3; 0] Hy ltac:(discriminate)) as [written Hw].
  pose proof (write_to_stream_sink_frame y [3; 0]) as Hfy.
  set (v := snd (zw__write_to_stream y [3; 0])) in *.
  assert (Hcv : crc (current_file v) = 0 /\ uncompressed_size (current_file v) = 0
                /\ compressed_size (current_file v) = 2
                /\ time v = time a1 /\ date v = date a1
                /\ central_dir v = central_dir a1
                /\ name_length (current_file v) = name_length (current_file a1)
                /\ name (current_file v) = name (current_file a1)
                /\ start_offset (current_file v) = start_offset (current_file a1)).
  { unfold sink_frame, enc_frame in Hfy. injection Hfy. intros.
    assert (Hcy : compressed_size (current_file y) = 2)
      by (unfold y, x; cbn; rewrite Hcs1; reflexivity).
    repeat split; try congruence. }
  assert (Hw' : log v = log a1 ++ [EvWrite [3; 0] written]) by exact Hw.
  clearbody v. clear Hfy Hy Hw. clear y x.
  set (z := set_out_cursor 0 v).
  assert (Hlz : log z = log a1 ++ [EvWrite [3; 0] written]) by exact Hw'.
  assert (Hcz : crc (current_file z) = 0 /\ uncompressed_size (current_file z) = 0
                /\ compressed_size (current_file z) = 2
                /\ time z = time a1 /\ date z = date a1
                /\ central_dir z = central_dir a1
                /\ name_length (current_file z) = name_length (current_file a1)
                /\ name (current_file z) = name (current_file a1)
                /\ start_offset (current_file z) = start_offset (current_file a1))
    by exact Hcv.
  clearbody z. clear Hw' Hcv.
  destruct Hcz as (Hz1 & Hz2 & Hz3 & Hz4 & Hz5 & Hz6 & Hz7 & Hz8 & Hz9).
  rewrite Hz1.
  change (data_descriptor_bytes _) with descriptor.
  pose proof (write_to_stream_sink_frame z descriptor) as Hfc.
  pose proof (write_to_stream_log z descriptor) as Hlc.
  destruct (zw__write_to_stream z descriptor) as [[|] c] eqn:E; cbn [fst snd] in *.
  - exists written.
    assert (Hc' : crc (current_file c) = 0 /\ uncompressed_size (current_file c) = 0
                  /\ compressed_size (current_file c) = 2).
    { unfold sink_frame, enc_frame in Hfc. injection Hfc. intros.
      repeat split; congruence. }
    destruct Hc' as (? & ? & ?).
    destruct Hlc as [Hlc|[w Hlc]]; rewrite Hlc, Hlz.
    + exists []. split; [reflexivity|]. split; [left; reflexivity|].
      split; [assumption|]. split; [assumption|]. split; [assumption|discriminate].
    + exists [EvWrite descriptor w]. rewrite <- app_assoc.
      split; [reflexivity|]. split; [right; eexists; reflexivity|].
      split; [assumption|]. split; [assumption|]. split; [assumption|discriminate].
  - exists written, [EvWrite descriptor 12].
    pose proof (write_to_stream_true z descriptor c E ltac:(discriminate)) as Hl.
    change (Z.of_nat (length descriptor)) with 12 in Hl.
    unfold sink_frame, enc_frame in Hfc. injection Hfc. intros.
    cbn [log current_file set_current_file crc uncompressed_size compressed_size
         set_name_length central_dir].
    rewrite !append_to_central_dir_log, !append_to_central_dir_current_file,
      !append_to_central_dir_items.
    rewrite Hl, Hlz, <- !app_assoc.
    split; [reflexivity|]. split; [right; eexists; reflexivity|].
    split; [congruence|]. split; [congruence|]. split; [congruence|].
    intros _. split; [reflexivity|].
    repeat match goal with H : _ = _ |- _ => rewrite H end.
    reflexivity.
Qed.

End EmptyMember.

Lemma empty_member_body_is_two_bytes_witness :
  match snd (zw_begin_file false memory_session (Some [101])) with
  | Some a1 =>
      exists written rest,
        log (snd (zw__zip_end_file false a1)) = log a1 ++ EvWrite [3; 0] written :: rest
        /\ crc (current_file (snd (zw__zip_end_file false a1))) = 0
        /\ uncompressed_size (current_file (snd (zw__zip_end_file false a1))) = 0
        /\ compressed_size (current_file (snd (zw__zip_end_file false a1))) = 2
  | None => False
  end.
Proof.
  destruct (zw_begin_file false memory_session (Some [101])) as [r o] eqn:E.
  pose proof (f_equal (fun p => (fst p, from_option (fun a => error (stream a)) 1 (snd p))) E)
    as He.
  vm_compute in He. cbn [snd].
  destruct o as [a1|]; [|injection He as _ He; discriminate He].
  injection He as <- He. change (0 = error (stream a1)) in He.
  assert (Hp : exists a, memory_session = Some a /\ in_protocol false a).
  { eexists. split; [reflexivity|].
    apply (proto_create false (Some {| opt_stream := memory_stream |}) stamp).
    reflexivity. }
  destruct Hp as (a & Ha & Hp). rewrite Ha in E.
  destruct (empty_member_body_is_two_bytes false a (Some [101]) a1 Hp E (eq_sym He))
    as (written & rest & H1 & _ & H2 & H3 & H4 & _).
  exists written, rest. repeat split; assumption.
Defined.

(** C3 fails on the code: a member that is begun and ended without a byte
    written does not always have the body BFINAL=1, BTYPE=01, end of block.
    [zw_write] looks at [num_files], not at the member being active, so on
    the session where member "a" has been ended it takes 32768 bytes and
    returns success; this runs the encoder and leaves one bit in the
    accumulator, which [zw_begin_file] does not clear.  The member "b" begun
    next and ended without a byte written has the body 0x07 0x00: its block
    type reads 11, which is no DEFLATE stream, where 0x03 0x00 inflates to
    the empty member. *)
Theorem empty_member_after_idle_write :
  let w := zw_write false idle_session ramp_data in
  let b := zw_begin_file false (snd w) (Some [98]) in
  fst w = zw_true
  /\ from_option (fun a => (name_length (current_file a), bitcount a, bitbuf a)) (1, 0, 0)
       (snd w) = (0, 1, 1)
  /\ fst b = zw_true
  /\ from_option
       (fun a1 => (error (stream a1),
                   drop (length (log a1)) (log (snd (zw__zip_end_file false a1)))))
       (1, []) (snd b)
     = (0, [EvWrite [7; 0] 2;
            EvWrite [0; 0; 0; 0; 255; 255; 255; 255; 255; 255; 255; 255] 12])
  /\ inflate (bytes_bits [7; 0]) = None
  /\ inflate (bytes_bits [3; 0]) = Some [].
Proof. vm_compute. repeat split; reflexivity. Qed.

(** ** Fields of the MS-DOS stamps *)

Lemma lor_shiftl_add a b n :
  0 <= n -> 0 <= a < 2 ^ n -> 0 <= b -> Z.lor a (Z.shiftl b n) = a + b * 2 ^ n.
Proof.
  intros Hn Ha Hb. rewrite <- Z.shiftl_mul_pow2 by lia.
  assert (Hl : Z.land a (Z.shiftl b n) = 0).
  { apply Z.bits_inj'. intros k Hk. rewrite Z.land_spec, Z.bits_0.
    destruct (Z.lt_ge_cases k n) as [Hlt|Hge].
    - rewrite Z.shiftl_spec_low by lia. apply andb_false_r.
    - rewrite (proj1 (below_pow2_bits n a Hn (proj1 Ha)) (proj2 Ha) k Hge).
      reflexivity. }
  rewrite <- (Z.lxor_lor _ _ Hl). symmetry. apply Z.add_nocarry_lxor. exact Hl.
Qed.

(** [day | month << 5 | year << 9] for fields that fit their places. *)
Lemma pack3 (lo mid hi : Z) (n m : Z) :
  0 < n -> 0 < m -> 0 <= lo < 2 ^ n -> 0 <= mid < 2 ^ m -> 0 <= hi ->
  Z.lor (Z.lor lo (Z.shiftl mid n)) (Z.shiftl hi (n + m))
  = lo + mid * 2 ^ n + hi * 2 ^ (n + m).
Proof.
  intros Hn Hm Hlo Hmid Hhi.
  rewrite (lor_shiftl_add lo mid n) by lia.
  apply lor_shiftl_add; [lia| |lia].
  rewrite Z.pow_add_r by lia.
  assert (0 < 2 ^ n) by (apply Z.pow_pos_nonneg; lia). nia.
Qed.

(** X1: the three fields of a DOS date read back the clamped day, month and
    year: whatever the arguments, the day field is [min day 31], the month
    field [min month 12] and the year field [year - 1980] kept within
    [0, 127]. *)
Theorem dos_date_fields (year month day : Z) :
  0 <= year < 2 ^ 32 -> 0 <= month < 2 ^ 32 -> 0 <= day < 2 ^ 32 ->
  let d := zw__zip_encode_date year month day in
  0 <= d < 65536
  /\ Z.land d 31 = Z.min day 31
  /\ Z.land (Z.shiftr d 5) 15 = Z.min month 12
  /\ Z.shiftr d 9 = Z.max 0 (Z.min (year - 1980) 127).
Proof.
  intros Hy Hm Hd d.
  assert (E : exists dd mo y, dd = Z.min day 31 /\ mo = Z.min month 12
                /\ y = Z.max 0 (Z.min (year - 1980) 127)
                /\ d = dd + mo * 32 + y * 512).
  { subst d. unfold zw__zip_encode_date.
    set (y := if 127 <? (if 1980 <=? year then u32 (year - 1980) else 0)
              then 127 else if 1980 <=? year then u32 (year - 1980) else 0).
    set (mo := if 12 <? month then 12 else month).
    set (dd := if 31 <? day then 31 else day).
    assert (Hy' : y = Z.max 0 (Z.min (year - 1980) 127)).
    { subst y. destruct (Z.leb_spec 1980 year).
      - rewrite (u32_small (year - 1980)) by lia.
        destruct (Z.ltb_spec 127 (year - 1980)); lia.
      - simpl. lia. }
    assert (Hmo : mo = Z.min month 12) by (subst mo; destruct (Z.ltb_spec 12 month); lia).
    assert (Hdd : dd = Z.min day 31) by (subst dd; destruct (Z.ltb_spec 31 day); lia).
    clearbody y mo dd. exists dd, mo, y. refine (conj Hdd (conj Hmo (conj Hy' _))).
    destruct (shiftl_small mo 5 16) as [-> _]; [lia..|].
    destruct (shiftl_small y 9 16) as [-> _]; [lia..|].
    change 9 with (5 + 4).
    rewrite (pack3 dd mo y 5 4) by lia.
    change (2 ^ 5) with 32. change (2 ^ (5 + 4)) with 512.
    apply u16_small. lia. }
  clearbody d. destruct E as (dd & mo & y & Hdd & Hmo & Hy' & ->).
  change 31 with (Z.ones 5) at 1. change 15 with (Z.ones 4) at 1.
  rewrite !Z.land_ones by lia. rewrite !Z.shiftr_div_pow2 by lia.
  change (2 ^ 5) with 32. change (2 ^ 4) with 16. change (2 ^ 9) with 512.
  split; [lia|]. split; [|split].
  - rewrite <- Hdd. symmetry. apply Z.mod_unique with (q := mo + 16 * y); lia.
  - rewrite <- Hmo. replace ((dd + mo * 32 + y * 512) / 32) with (mo + 16 * y).
    + symmetry. apply Z.mod_unique with (q := y); lia.
    + apply Z.div_unique with (r := dd); lia.
  - rewrite <- Hy'. symmetry. apply Z.div_unique with (r := dd + mo * 32); lia.
Qed.

Lemma dos_date_fields_witness :
  let d := zw__zip_encode_date 2200 13 40 in
  0 <= d < 65536
  /\ Z.land d 31 = Z.min 40 31
  /\ Z.land (Z.shiftr d 5) 15 = Z.min 13 12
  /\ Z.shiftr d 9 = Z.max 0 (Z.min (2200 - 1980) 127).
Proof. apply (dos_date_fields 2200 13 40); lia. Defined.

(** X2: while the minute is in range, the three fields of a DOS time read back
    the minute, the hour clamped to 23 and half the second clamped to 59.
    A minute above 59 overwrites the hour instead of the minute, so the
    result no longer depends on the hour passed. *)
Theorem dos_time_fields (hour minute second : Z) :
  0 <= hour < 2 ^ 32 -> 0 <= minute < 2 ^ 32 -> 0 <= second < 2 ^ 32 ->
  let t := zw__zip_encode_time hour minute second in
  0 <= t < 65536
  /\ (minute <= 59 ->
      Z.land t 31 = Z.min second 59 / 2
      /\ Z.land (Z.shiftr t 5) 63 = minute
      /\ Z.shiftr t 11 = Z.min hour 23)
  /\ (59 < minute -> t = zw__zip_encode_time 59 minute second).
Proof.
  intros Hh Hm Hs t. split; [|split].
  - subst t. unfold zw__zip_encode_time, u16. apply Z.mod_pos_bound. lia.
  - intros Hm59.
    assert (E : exists h s2, h = Z.min hour 23 /\ s2 = Z.min second 59 / 2
                  /\ 0 <= s2 < 30 /\ t = s2 + minute * 32 + h * 2048).
    { subst t. unfold zw__zip_encode_time.
      destruct (Z.ltb_spec 59 minute) as [|_]; [lia|].
      set (h := if 23 <? hour then 23 else hour).
      set (s := if 59 <? second then 59 else second).
      assert (Hh' : h = Z.min hour 23) by (subst h; destruct (Z.ltb_spec 23 hour); lia).
      assert (Hs' : s = Z.min second 59) by (subst s; destruct (Z.ltb_spec 59 second); lia).
      clearbody h s.
      destruct (shiftl_small minute 5 16) as [-> _]; [lia..|].
      destruct (shiftl_small h 11 16) as [-> _]; [lia..|].
      rewrite (Z.shiftr_div_pow2 s 1) by lia. change (2 ^ 1) with 2.
      assert (Hs2 : 0 <= s / 2 < 30).
      { split; [apply Z.div_pos; lia | apply Z.div_lt_upper_bound; lia]. }
      exists h, (s / 2). rewrite <- Hs'. refine (conj Hh' (conj eq_refl (conj Hs2 _))).
      change 11 with (5 + 6).
      rewrite (pack3 (s / 2) minute h 5 6) by lia.
      change (2 ^ 5) with 32. change (2 ^ (5 + 6)) with 2048.
      apply u16_small. lia. }
    clearbody t. destruct E as (h & s2 & Hh' & Hs' & Hs2 & ->).
    change 31 with (Z.ones 5) at 1. change 63 with (Z.ones 6) at 1.
    rewrite !Z.land_ones by lia. rewrite !Z.shiftr_div_pow2 by lia.
    change (2 ^ 5) with 32. change (2 ^ 6) with 64. change (2 ^ 11) with 2048.
    rewrite <- Hs', <- Hh'. split; [|split].
    + symmetry. apply Z.mod_unique with (q := minute + 64 * h); lia.
    + replace ((s2 + minute * 32 + h * 2048) / 32) with (minute + 64 * h).
      * symmetry. apply Z.mod_unique with (q := h); lia.
      * apply Z.div_unique with (r := s2); lia.
    + symmetry. apply Z.div_unique with (r := s2 + minute * 32); lia.
  - intros Hm59. subst t. unfold zw__zip_encode_time.
    destruct (Z.ltb_spec 59 minute) as [_|]; [|lia]. reflexivity.
Qed.

Lemma dos_time_fields_witness :
  let t := zw__zip_encode_time 30 59 61 in
  0 <= t < 65536
  /\ (59 <= 59 ->
      Z.land t 31 = Z.min 61 59 / 2
      /\ Z.land (Z.shiftr t 5) 63 = 59
      /\ Z.shiftr t 11 = Z.min 30 23)
  /\ (59 < 59 -> t = zw__zip_encode_time 59 59 61).
Proof. apply (dos_time_fields 30 59 61); lia. Defined.

(** ** The CRC table against the polynomial *)

Lemma crc_table_entries :
  forallb (fun x => rd crc_table x =? Nat.iter 8 crc_bit_step x) (seqZ 0 256) = true.
Proof. vm_compute. reflexivity. Qed.

Lemma crc_table_entry x :
  0 <= x < 256 -> rd crc_table x = Nat.iter 8 crc_bit_step x.
Proof.
  intros Hx. pose proof crc_table_entries as H.
  rewrite forallb_forall in H. apply Z.eqb_eq. apply H.
  apply list_elem_of_In. apply elem_of_seqZ. lia.
Qed.

Lemma crc_bit_step_lxor x y :
  crc_bit_step (Z.lxor x y) = Z.lxor (crc_bit_step x) (crc_bit_step y).
Proof.
  unfold crc_bit_step. rewrite Z.shiftr_lxor.
  rewrite <- !Z.bit0_odd, Z.lxor_spec.
  destruct (Z.testbit x 0), (Z.testbit y 0); cbn [xorb];
    rewrite ?Z.lxor_0_r;
    rewrite ?Z.lxor_assoc; try reflexivity.
  - rewrite (Z.lxor_comm crc_poly (Z.lxor _ crc_poly)).
    rewrite Z.lxor_assoc, Z.lxor_nilpotent, Z.lxor_0_r. reflexivity.
  - f_equal. apply Z.lxor_comm.
Qed.

Lemma crc_bit_iter_lxor n x y :
  Nat.iter n crc_bit_step (Z.lxor x y)
  = Z.lxor (Nat.iter n crc_bit_step x) (Nat.iter n crc_bit_step y).
Proof.
  induction n as [|n IH]; [reflexivity|].
  rewrite !Nat.iter_succ. rewrite IH. apply crc_bit_step_lxor.
Qed.

Lemma crc_bit_step_shiftl z n :
  0 <= n -> crc_bit_step (Z.shiftl z (n + 1)) = Z.shiftl z n.
Proof.
  intros Hn. unfold crc_bit_step.
  rewrite <- Z.bit0_odd, Z.shiftl_spec_low by lia.
  rewrite Z.lxor_0_r, Z.shiftr_shiftl_l by lia. f_equal. lia.
Qed.

Lemma crc_bit_iter_shiftl z (k : nat) n :
  0 <= n -> Nat.iter k crc_bit_step (Z.shiftl z (n + Z.of_nat k)) = Z.shiftl z n.
Proof.
  revert n. induction k as [|k IH]; intros n Hn.
  - change (Nat.iter 0 crc_bit_step ?x) with x. f_equal. lia.
  - rewrite Nat.iter_succ_r.
    replace (n + Z.of_nat (S k)) with ((n + Z.of_nat k) + 1) by lia.
    rewrite crc_bit_step_shiftl by lia. apply IH. exact Hn.
Qed.

Lemma split_low_byte x :
  x = Z.lxor (Z.shiftl (Z.shiftr x 8) 8) (Z.land x 255).
Proof.
  apply Z.bits_inj'. intros k Hk. rewrite Z.lxor_spec, Z.land_spec.
  change 255 with (Z.ones 8).
  destruct (Z.lt_ge_cases k 8) as [Hlt|Hge].
  - rewrite Z.shiftl_spec_low by lia.
    rewrite Z.ones_spec_low by lia. rewrite andb_true_r. reflexivity.
  - rewrite Z.shiftl_spec by lia. rewrite Z.shiftr_spec by lia.
    rewrite Z.ones_spec_high by lia. rewrite andb_false_r, xorb_false_r.
    f_equal. lia.
Qed.

Lemma byte_land_255 b : 0 <= b < 256 -> Z.land b 255 = b.
Proof.
  intros Hb. change 255 with (Z.ones 8). rewrite Z.land_ones by lia.
  apply Z.mod_small. lia.
Qed.

Lemma byte_shiftr_8 b : 0 <= b < 256 -> Z.shiftr b 8 = 0.
Proof.
  intros Hb. rewrite Z.shiftr_div_pow2 by lia. apply Z.div_small. lia.
Qed.

Lemma crc_step_bitwise crc b :
  0 <= b < 256 -> crc_step crc b = crc_byte_bitwise crc b.
Proof.
  intros Hb. unfold crc_step, crc_byte_bitwise.
  rewrite (split_low_byte (Z.lxor crc b)) at 1.
  rewrite crc_bit_iter_lxor.
  rewrite (crc_bit_iter_shiftl _ 8 0) by lia. rewrite Z.shiftl_0_r.
  rewrite Z.shiftr_lxor, (byte_shiftr_8 b Hb), Z.lxor_0_r.
  f_equal.
  replace (Z.land (Z.lxor crc b) 255) with (Z.lxor b (Z.land crc 255)).
  2:{ apply Z.bits_inj'. intros k Hk.
      rewrite Z.land_spec, !Z.lxor_spec, Z.land_spec.
      rewrite <- (byte_land_255 b Hb) at 1. rewrite Z.land_spec.
      destruct (Z.testbit crc k), (Z.testbit b k), (Z.testbit 255 k); reflexivity. }
  apply crc_table_entry.
  assert (H : 0 <= Z.land crc 255 < 2 ^ 8).
  { change 255 with (Z.ones 8). rewrite Z.land_ones by lia.
    apply Z.mod_pos_bound. lia. }
  change 256 with (2 ^ 8). apply lxor_below; lia.
Qed.

Lemma fold_left_cons {A B : Type} (f : A -> B -> A) (x : B) (l : list B) (a : A) :
  fold_left f (x :: l) a = fold_left f l (f a x).
Proof. reflexivity. Qed.

Lemma fold_crc_bitwise buffer :
  Forall (fun b => 0 <= b < 256) buffer ->
  forall c, fold_left crc_step buffer c = fold_left crc_byte_bitwise buffer c.
Proof.
  induction 1 as [|b buffer Hb0 _ IH]; intros c.
  - reflexivity.
  - rewrite !fold_left_cons, IH. f_equal. apply crc_step_bitwise. exact Hb0.
Qed.

(** X3: the table of [zw__crc32] is the table of the CRC-32 polynomial
    0xEDB88320: on every buffer of bytes and from every initial value,
    [zw__crc32] returns what the bit-by-bit computation returns. *)
Theorem crc32_is_bitwise_crc (buffer : list Z) (initial : Z) :
  Forall (fun b => 0 <= b < 256) buffer ->
  zw__crc32 buffer initial = crc32_bitwise buffer initial.
Proof.
  intros Hb. unfold zw__crc32, crc32_bitwise, crc_loop. f_equal.
  apply fold_crc_bitwise. exact Hb.
Qed.

Lemma crc32_is_bitwise_crc_witness :
  zw__crc32 [104; 101; 108; 108; 111] 7 = crc32_bitwise [104; 101; 108; 108; 111] 7.
Proof.
  apply (crc32_is_bitwise_crc [104; 101; 108; 108; 111] 7).
  repeat constructor; lia.
Defined.

(** X4: [zw__crc32] always returns a 32-bit value, and on an empty buffer it
    returns the initial value it was given. *)
Theorem crc32_range_and_empty (buffer : list Z) (initial : Z) :
  0 <= zw__crc32 buffer initial < 2 ^ 32
  /\ (0 <= initial < 2 ^ 32 -> zw__crc32 [] initial = initial).
Proof.
  split.
  - unfold zw__crc32. change (2 ^ 32) with 4294967296. apply not32_range.
  - intros Hi. unfold zw__crc32, crc_loop. cbn [fold_left].
    apply not32_involutive. exact Hi.
Qed.

Lemma crc32_range_and_empty_witness :
  0 <= zw__crc32 [1; 2; 3] 5 < 2 ^ 32
  /\ (0 <= 5 < 2 ^ 32 -> zw__crc32 [] 5 = 5).
Proof. apply (crc32_range_and_empty [1; 2; 3] 5). Defined.

(** ** Bit reversal *)

Lemma land_1_testbit code i :
  0 <= i -> Z.testbit (Z.land code 1) i = if i =? 0 then Z.testbit code 0 else false.
Proof.
  intros Hi. change 1 with (Z.ones 1). rewrite Z.land_spec.
  destruct (Z.eqb_spec i 0) as [->|Hne].
  - rewrite Z.ones_spec_low by lia. apply andb_true_r.
  - rewrite Z.ones_spec_high by lia. apply andb_false_r.
Qed.

Lemma bitrev_loop_testbit n : forall code res m,
  0 <= m -> m + Z.of_nat n <= 32 -> 0 <= res < 2 ^ m -> 0 <= code ->
  forall i, 0 <= i ->
    Z.testbit (zw__zlib_bitrev_loop n code res) i
    = if i <? Z.of_nat n then Z.testbit code (Z.of_nat n - 1 - i)
      else Z.testbit res (i - Z.of_nat n).
Proof.
  induction n as [|n IH]; intros code res m Hm Hmn Hres Hcode i Hi.
  - cbn [zw__zlib_bitrev_loop]. destruct (Z.ltb_spec i (Z.of_nat 0)); [lia|].
    f_equal. lia.
  - cbn [zw__zlib_bitrev_loop].
    assert (Hp : 0 < 2 ^ m) by (apply Z.pow_pos_nonneg; lia).
    assert (Hres2 : 0 <= Z.shiftl res 1 < 2 ^ (m + 1)).
    { rewrite Z.shiftl_mul_pow2, Z.pow_add_r by lia. lia. }
    assert (Hm32 : 2 ^ (m + 1) <= 2 ^ 32) by (apply Z.pow_le_mono_r; lia).
    rewrite (u32_small (Z.shiftl res 1)) by (change 4294967296 with (2 ^ 32); lia).
    assert (Hb : 0 <= Z.land code 1 < 2 ^ (m + 1)).
    { pose proof (land_bit code). rewrite Z.pow_add_r by lia. lia. }
    rewrite (IH (Z.shiftr code 1) _ (m + 1)); [|lia|lia| |apply Z.shiftr_nonneg; lia|lia].
    2:{ apply lor_below; [lia|exact Hres2|exact Hb]. }
    destruct (Z.ltb_spec i (Z.of_nat n)) as [Hlt|Hge].
    + destruct (Z.ltb_spec i (Z.of_nat (S n))); [|lia].
      rewrite Z.shiftr_spec by lia. f_equal. lia.
    + rewrite Z.lor_spec.
      destruct (Z.eq_dec i (Z.of_nat n)) as [->|Hne].
      * destruct (Z.ltb_spec (Z.of_nat n) (Z.of_nat (S n))); [|lia].
        replace (Z.of_nat n - Z.of_nat n) with 0 by lia.
        rewrite Z.shiftl_spec_low by lia. cbn [orb].
        rewrite land_1_testbit by lia. cbn [Z.eqb]. f_equal. lia.
      * destruct (Z.ltb_spec i (Z.of_nat (S n))); [lia|].
        rewrite Z.shiftl_spec by lia. rewrite land_1_testbit by lia.
        destruct (Z.eqb_spec (i - Z.of_nat n) 0); [lia|].
        rewrite orb_false_r. f_equal. lia.
Qed.

Lemma bitrev_testbit code c i :
  0 <= c <= 32 -> 0 <= code -> 0 <= i < c ->
  Z.testbit (zw__zlib_bitrev code c) i = Z.testbit code (c - 1 - i).
Proof.
  intros Hc Hcode Hi. unfold zw__zlib_bitrev.
  rewrite (bitrev_loop_testbit (Z.to_nat c) code 0 0) by lia.
  rewrite Z2Nat.id by lia. destruct (Z.ltb_spec i c); [reflexivity|lia].
Qed.

(** X5: [zw__zlib_bitrev code codebits] is [code] with its low [codebits] bits
    in the opposite order and nothing above them, so that reversing twice
    gives a code of [codebits] bits back. *)
Theorem bitrev_reverses_bits (code codebits : Z) :
  0 <= codebits <= 32 -> 0 <= code ->
  0 <= zw__zlib_bitrev code codebits < 2 ^ codebits
  /\ (forall i, 0 <= i < codebits ->
        Z.testbit (zw__zlib_bitrev code codebits) i = Z.testbit code (codebits - 1 - i))
  /\ (code < 2 ^ codebits ->
        zw__zlib_bitrev (zw__zlib_bitrev code codebits) codebits = code).
Proof.
  intros Hc Hcode.
  pose proof (bitrev_bound code codebits Hc) as Hb.
  split; [exact Hb|]. split.
  - intros i Hi. apply bitrev_testbit; lia.
  - intros Hlt. apply Z.bits_inj'. intros k Hk.
    destruct (Z.lt_ge_cases k codebits) as [Hlo|Hhi].
    + rewrite bitrev_testbit by lia. rewrite bitrev_testbit by lia. f_equal. lia.
    + pose proof (bitrev_bound (zw__zlib_bitrev code codebits) codebits Hc) as Hb2.
      rewrite (proj1 (below_pow2_bits codebits _ (proj1 Hc) (proj1 Hb2)) (proj2 Hb2) k Hhi).
      rewrite (proj1 (below_pow2_bits codebits _ (proj1 Hc) Hcode) Hlt k Hhi).
      reflexivity.
Qed.

Lemma bitrev_reverses_bits_witness :
  0 <= zw__zlib_bitrev 0x190 9 < 2 ^ 9
  /\ (forall i, 0 <= i < 9 ->
        Z.testbit (zw__zlib_bitrev 0x190 9) i = Z.testbit 0x190 (9 - 1 - i))
  /\ (0x190 < 2 ^ 9 -> zw__zlib_bitrev (zw__zlib_bitrev 0x190 9) 9 = 0x190).
Proof. apply (bitrev_reverses_bits 0x190 9); lia. Defined.

(** ** What only [zw__write_to_stream] can change

    The stream, the offset and the log are touched by [zw__write_to_stream]
    alone until [zw_finish] closes the sink: a property of the three that every
    call of [zw__write_to_stream] keeps is kept by every other operation. *)

Section SinkInvariant.

Context {U : Type}.
Implicit Types a : zw__zip_details U.

Variable P : zw_output_stream U * Z * list event -> Prop.

Hypothesis write_keeps : forall a data,
  P (sink_state a) -> P (sink_state (snd (zw__write_to_stream a data))).

Lemma flush_compressed_bytes_keeps a :
  P (sink_state a) -> P (sink_state (zw__flush_compressed_bytes a)).
Proof.
  intros H. unfold zw__flush_compressed_bytes.
  destruct (0 <? out_cursor a); [|exact H].
  match goal with |- P (sink_state (set_out_cursor _ (snd (zw__write_to_stream ?b ?d)))) =>
    exact (write_keeps b d H) end.
Qed.

Lemma flush_bits_loop_keeps n : forall a,
  P (sink_state a) -> P (sink_state (zw__flush_bits_loop n a)).
Proof.
  induction n as [|n IH]; intros a H; [exact H|].
  cbn [zw__flush_bits_loop]. destruct (8 <=? bitcount a); [|exact H].
  apply IH.
  cbn [out_cursor set_out_cursor out_total set_out bitcount bitbuf].
  match goal with |- context [if ?c then _ else _] => destruct c end; [|exact H].
  match goal with |- P (sink_state (set_bitcount _ (set_bitbuf _ (zw__flush_compressed_bytes ?b)))) =>
    exact (flush_compressed_bytes_keeps b H) end.
Qed.

Lemma zlib_add_keeps code codebits a :
  P (sink_state a) -> P (sink_state (zw__zlib_add code codebits a)).
Proof. intros H. unfold zw__zlib_add, zw__flush_bits. apply flush_bits_loop_keeps. exact H. Qed.

Lemma zlib_huff_keeps n a : P (sink_state a) -> P (sink_state (zw__zlib_huff n a)).
Proof.
  intros H. unfold zw__zlib_huff, zw__zlib_huff1, zw__zlib_huff2, zw__zlib_huff3,
    zw__zlib_huff4, zw__zlib_huffa.
  destruct (n <=? 143); [apply zlib_add_keeps; exact H|].
  destruct (n <=? 255); [apply zlib_add_keeps; exact H|].
  destruct (n <=? 279); apply zlib_add_keeps; exact H.
Qed.

Lemma zlib_huffb_keeps n a : P (sink_state a) -> P (sink_state (zw__zlib_huffb n a)).
Proof.
  intros H. unfold zw__zlib_huffb, zw__zlib_huff1, zw__zlib_huff2, zw__zlib_huffa.
  destruct (n <=? 143); apply zlib_add_keeps; exact H.
Qed.

Lemma emit_match_keeps best d a :
  P (sink_state a) -> P (sink_state (emit_match best d a)).
Proof.
  intros H. unfold emit_match.
  repeat match goal with
         | |- P (sink_state (if ?c then _ else _)) => destruct c
         | |- P (sink_state (zw__zlib_add _ _ _)) => apply zlib_add_keeps
         | |- P (sink_state (zw__zlib_huff _ _)) => apply zlib_huff_keeps
         end; exact H.
Qed.

Lemma pad_bits_keeps n : forall a, P (sink_state a) -> P (sink_state (pad_bits n a)).
Proof.
  induction n as [|n IH]; intros a H; [exact H|].
  cbn [pad_bits]. destruct (negb (bitcount a =? 0)); [|exact H].
  apply IH. apply zlib_add_keeps. exact H.
Qed.

Lemma flush_input_step_keeps (no_sse : bool) data_len a i :
  P (sink_state a) -> P (sink_state (fst (flush_input_step no_sse data_len a i))).
Proof.
  intros H. unfold flush_input_step.
  destruct (scan_chain _ _ _ _ _ _ _) as [best bestloc].
  match goal with |- context [match ?x with Some _ => _ | None => _ end] =>
    destruct x as [loc|] end; cbn [fst].
  - apply emit_match_keeps. exact H.
  - apply zlib_huffb_keeps. exact H.
Qed.

Lemma flush_input_loop_keeps (no_sse : bool) data_len n : forall a i,
  P (sink_state a) -> P (sink_state (fst (flush_input_loop no_sse n data_len a i))).
Proof.
  induction n as [|n IH]; intros a i H; [exact H|].
  cbn [flush_input_loop]. destruct (i <? data_len - 3); [|exact H].
  pose proof (flush_input_step_keeps no_sse data_len a i H) as Hs.
  destruct (flush_input_step no_sse data_len a i) as [a1 i1]. apply IH. exact Hs.
Qed.

Lemma literal_tail_keeps (l : list Z) : forall a,
  P (sink_state a) ->
  P (sink_state (foldl (fun a k => zw__zlib_huffb (rd (window a) (32768 + k)) a) a l)).
Proof.
  induction l as [|k l IH]; intros a H; [exact H|].
  cbn [foldl]. apply IH. apply zlib_huffb_keeps. exact H.
Qed.

Lemma flush_input_keeps (no_sse : bool) a :
  P (sink_state a) -> P (sink_state (zw__flush_input no_sse a)).
Proof.
  intros H. unfold zw__flush_input. destruct (in_cursor a =? 0); [exact H|].
  pose proof (flush_input_loop_keeps no_sse (in_cursor a) (Z.to_nat (in_cursor a)) a 0 H) as Hl.
  destruct (flush_input_loop no_sse _ _ a 0) as [a1 i1]. cbn [fst] in Hl.
  exact (literal_tail_keeps _ a1 Hl).
Qed.

Lemma append_to_central_dir_keeps_sink a data :
  sink_state (snd (zw__append_to_central_dir a data)) = sink_state a.
Proof.
  unfold zw__append_to_central_dir.
  destruct (Z.of_nat (length data) =? 0); reflexivity.
Qed.

Lemma end_file_keeps (no_sse : bool) a :
  P (sink_state a) -> P (sink_state (snd (zw__zip_end_file no_sse a))).
Proof.
  intros H. unfold zw__zip_end_file.
  destruct (name_length (current_file a) =? 0); [exact H|].
  match goal with |- context [zw__write_to_stream ?b ?d] =>
    assert (Hb : P (sink_state b))
      by (apply flush_compressed_bytes_keeps, pad_bits_keeps, zlib_huff_keeps,
            flush_input_keeps; exact H);
    pose proof (write_keeps b d Hb) as Hw;
    destruct (zw__write_to_stream b d) as [[|] c]
  end; cbn [snd] in *; [exact Hw|].
  match goal with |- P (sink_state (set_current_file _ ?x)) =>
    change (P (sink_state x)) end.
  rewrite !append_to_central_dir_keeps_sink. exact Hw.
Qed.

Lemma begin_file_keeps (no_sse : bool) a file_path r a' :
  P (sink_state a) -> zw_begin_file no_sse (Some a) file_path = (r, Some a') ->
  P (sink_state a').
Proof.
  intros H. unfold zw_begin_file.
  pose proof (end_file_keeps no_sse a H) as H0.
  set (a0 := snd (zw__zip_end_file no_sse a)) in *. clearbody a0.
  destruct file_path as [[|c path]|]; [intros [= <- <-]; exact H0| |intros [= <- <-]; exact H0].
  match goal with |- context [zw__write_to_stream a0 ?d] =>
    pose proof (write_keeps a0 d H0) as H1;
    destruct (zw__write_to_stream a0 d) as [[|] a1] end;
    cbn [snd] in H1; [intros [= <- <-]; exact H1|].
  match goal with |- context [zw__write_to_stream a1 ?d] =>
    pose proof (write_keeps a1 d H1) as H2;
    destruct (zw__write_to_stream a1 d) as [[|] a2] end;
    cbn [snd] in H2; [intros [= <- <-]; exact H2|].
  intros [= <- <-].
  apply zlib_add_keeps, zlib_add_keeps.
  destruct (negb (num_files a2 =? 0)); exact H2.
Qed.

Lemma write_loop_keeps (no_sse : bool) n : forall a (data : list Z),
  P (sink_state a) -> P (sink_state (fst (write_loop no_sse n a data))).
Proof.
  induction n as [|n IH]; intros a data H; [exact H|].
  cbn [write_loop]. destruct (0 <? Z.of_nat (length data)); [|exact H].
  apply IH.
  match goal with |- context [if ?c then _ else _] => destruct c end; [|exact H].
  apply flush_input_keeps. exact H.
Qed.

Lemma write_keeps_sink (no_sse : bool) a data r a' :
  P (sink_state a) -> zw_write no_sse (Some a) data = (r, Some a') -> P (sink_state a').
Proof.
  intros H. unfold zw_write. destruct (num_files a =? 0); intros [= <- <-]; [exact H|].
  apply write_loop_keeps. exact H.
Qed.

End SinkInvariant.

(** ** Offsets *)

Lemma total_written_app l1 l2 :
  total_written (l1 ++ l2) = total_written l1 + total_written l2.
Proof.
  induction l1 as [|[d w| |] l1 IH]; cbn [app total_written]; lia.
Qed.

Lemma u64_add_l x y : u64 (u64 x + y) = u64 (x + y).
Proof. unfold u64. apply Zplus_mod_idemp_l. Qed.

Section Accounting.

Context {U : Type}.
Implicit Types a : zw__zip_details U.

Lemma write_to_stream_accounted a data :
  accounted (sink_state a) -> accounted (sink_state (snd (zw__write_to_stream a data))).
Proof.
  unfold accounted, sink_state. cbn [fst snd]. intros H. unfold zw__write_to_stream.
  destruct (Z.of_nat (length data) =? 0); [exact H|].
  destruct (negb (error (stream a) =? 0)); [exact H|].
  destruct (call_write (stream a) data) as [written s].
  assert (E : u64 (offset a + written) = u64 (total_written (log a ++ [EvWrite data written]))).
  { rewrite total_written_app. cbn [total_written]. rewrite Z.add_0_r.
    rewrite H. apply u64_add_l. }
  destruct (written =? Z.of_nat (length data)); cbn [snd]; [exact E|].
  cbn [stream set_offset set_log set_stream].
  destruct (error s =? 0); exact E.
Qed.

(** [zw_finish], step by step. *)
Lemma finish_unfold (no_sse : bool) a :
  zw_finish no_sse (Some a)
  = let a0 := set_hash_table ∅ (snd (zw__zip_end_file no_sse a)) in
    let size := zw__sbcount (central_dir a0) in
    let w1 := zw__write_to_stream a0 (sb_items (central_dir a0)) in
    let a1 := set_central_dir None (snd w1) in
    let eocd64 := end_of_central_dir_64_bytes (num_files a1) size (offset a0) in
    let loc := end_of_central_dir_locator_64_bytes (u64 (offset a0 + size)) in
    match fst w1 with
    | zw_true =>
        let w2 := zw__write_to_stream a1 eocd64 in
        let w3 := zw__write_to_stream (snd w2) loc in
        match fst w2, fst w3 with
        | zw_true, zw_true =>
            let w4 := zw__write_to_stream (snd w3) end_of_central_dir_bytes in
            match fst w4 with
            | zw_true => finish_tail zw_true (snd w4)
            | zw_false => (zw_false, Some (snd w4))
            end
        | _, _ => finish_tail zw_false (snd w3)
        end
    | zw_false => finish_tail zw_false (snd (zw__write_to_stream a1 loc))
    end.
Proof.
  unfold zw_finish. cbv zeta.
  destruct (zw__write_to_stream _ (sb_items _)) as [[|] a1]; cbn [fst snd].
  - destruct (zw__write_to_stream _ (end_of_central_dir_locator_64_bytes _)) as [[|] a3];
      reflexivity.
  - destruct (zw__write_to_stream _ (end_of_central_dir_64_bytes _ _ _)) as [[|] a2];
      cbn [fst snd].
    + destruct (zw__write_to_stream _ (end_of_central_dir_locator_64_bytes _)) as [[|] a3];
        reflexivity.
    + destruct (zw__write_to_stream _ (end_of_central_dir_locator_64_bytes _)) as [[|] a3];
        cbn [fst snd]; [reflexivity|].
      destruct (zw__write_to_stream _ end_of_central_dir_bytes) as [[|] a4]; reflexivity.
Qed.

Lemma finish_tail_accounted res a r a' :
  accounted (sink_state a) -> finish_tail res a = (r, Some a') ->
  accounted (sink_state a').
Proof.
  unfold finish_tail, accounted, sink_state. cbn [fst snd]. intros H.
  destruct (close (stream a)) as [f|].
  - destruct (f (user_data (stream a)) (error (stream a))) as [u e].
    intros [= <- <-]. cbn [log set_log offset set_stream]. rewrite !total_written_app.
    cbn [total_written]. rewrite !Z.add_0_r. exact H.
  - intros [= <- <-]. cbn [log set_log offset]. rewrite total_written_app.
    cbn [total_written]. rewrite Z.add_0_r. exact H.
Qed.

Lemma finish_accounted (no_sse : bool) a r a' :
  accounted (sink_state a) -> zw_finish no_sse (Some a) = (r, Some a') ->
  accounted (sink_state a').
Proof.
  intros H. rewrite finish_unfold. cbv zeta.
  pose proof (end_file_keeps accounted write_to_stream_accounted no_sse a H) as H0.
  set (a0 := set_hash_table ∅ (snd (zw__zip_end_file no_sse a))).
  assert (Hh : accounted (sink_state a0)) by exact H0. clearbody a0. clear H0.
  pose proof (write_to_stream_accounted a0 (sb_items (central_dir a0)) Hh) as H1.
  destruct (zw__write_to_stream a0 (sb_items (central_dir a0))) as [r1 a1].
  cbn [fst snd] in *.
  assert (Hc1 : accounted (sink_state (set_central_dir None a1))) by exact H1.
  set (c1 := set_central_dir None a1) in *. clearbody c1.
  destruct r1.
  - match goal with |- context [zw__write_to_stream c1 ?d] =>
      pose proof (write_to_stream_accounted c1 d Hc1) as H3;
      destruct (zw__write_to_stream c1 d) as [r3 a3] end.
    cbn [snd] in *. apply finish_tail_accounted. exact H3.
  - match goal with |- context [zw__write_to_stream c1 ?d] =>
      pose proof (write_to_stream_accounted c1 d Hc1) as H2;
      destruct (zw__write_to_stream c1 d) as [r2 a2] end.
    cbn [fst snd] in *.
    match goal with |- context [zw__write_to_stream a2 ?d] =>
      pose proof (write_to_stream_accounted a2 d H2) as H3;
      destruct (zw__write_to_stream a2 d) as [r3 a3] end.
    cbn [fst snd] in *.
    destruct r2, r3; try (apply finish_tail_accounted; exact H3).
    pose proof (write_to_stream_accounted a3 end_of_central_dir_bytes H3) as H4.
    destruct (zw__write_to_stream a3 end_of_central_dir_bytes) as [r4 a4].
    cbn [fst snd] in *. destruct r4.
    + intros [= <- <-]. exact H4.
    + apply finish_tail_accounted. exact H4.
Qed.

Lemma create_ex_accounted options local a :
  zw_create_ex options local = Some a -> accounted (sink_state a).
Proof.
  unfold zw_create_ex. destruct options as [o|]; [|congruence].
  destruct (write (opt_stream o)); [|congruence].
  intros E. apply (f_equal (from_option (fun a => accounted (sink_state a)) True)) in E.
  cbn [from_option] in E. rewrite <- E. reflexivity.
Qed.

Lemma reachable_accounted (no_sse : bool) a :
  reachable no_sse a -> accounted (sink_state a).
Proof.
  induction 1 as [options local a Hc|a path r a' _ IH Hb|a data r a' _ IH Hw
                 |a r a' _ IH Hf].
  - exact (create_ex_accounted options local a Hc).
  - exact (begin_file_keeps accounted write_to_stream_accounted no_sse a path r a' IH Hb).
  - exact (write_keeps_sink accounted write_to_stream_accounted no_sse a data r a' IH Hw).
  - exact (finish_accounted no_sse a r a' IH Hf).
Qed.

End Accounting.

(** X6: in every session the public operations can produce, the offset is the
    number of bytes the sink has reported as written, counted over all the
    calls of its [write] and taken modulo 2^64. *)
Theorem offset_counts_written_bytes {U : Type} (no_sse : bool) (a : zw__zip_details U) :
  reachable no_sse a -> offset a = u64 (total_written (log a)).
Proof. intros H. exact (reachable_accounted no_sse a H). Qed.

Lemma offset_counts_written_bytes_witness :
  match snd (zw_begin_file false (failing_session 40) (Some [97; 98])) with
  | Some a => offset a = u64 (total_written (log a))
  | None => False
  end.
Proof.
  destruct (zw_begin_file false (failing_session 40) (Some [97; 98])) as [r o] eqn:E.
  pose proof (f_equal (fun p => from_option num_files 0 (snd p)) E) as H1.
  vm_compute in H1. destruct o as [a1|]; [clear H1|discriminate H1]. cbn [snd].
  apply (offset_counts_written_bytes false a1).
  eapply (reach_begin_file false _ (Some [97; 98]) r a1); [|exact E].
  eapply reach_create with (options := Some {| opt_stream := failing_stream 40 |})
                           (local := stamp).
  reflexivity.
Defined.

(** ** After an error has latched *)

Section Latched.

Context {U : Type}.
Implicit Types a : zw__zip_details U.

Lemma write_to_stream_latched a data :
  error (stream a) <> 0 ->
  zw__write_to_stream a data
  = (if Z.of_nat (length data) =? 0 then zw_true else zw_false, a).
Proof.
  intros He. unfold zw__write_to_stream.
  destruct (Z.of_nat (length data) =? 0); [reflexivity|].
  destruct (Z.eqb_spec (error (stream a)) 0); [contradiction|]. reflexivity.
Qed.

Lemma write_to_stream_keeps_latched a0 a data :
  error (stream a0) <> 0 ->
  sink_state a = sink_state a0 ->
  sink_state (snd (zw__write_to_stream a data)) = sink_state a0.
Proof.
  intros He H. rewrite write_to_stream_latched; [exact H|].
  unfold sink_state in H. congruence.
Qed.

Lemma local_file_header_length t d n : length (local_file_header_bytes t d n) = 30%nat.
Proof. reflexivity. Qed.

Lemma begin_file_latched (no_sse : bool) a file_path r a' :
  error (stream a) <> 0 ->
  zw_begin_file no_sse (Some a) file_path = (r, Some a') ->
  r = zw_false /\ sink_state a' = sink_state a.
Proof.
  intros He Hb. split.
  - revert Hb. unfold zw_begin_file.
    pose proof (end_file_keeps (fun s => s = sink_state a)
                  (fun b d => write_to_stream_keeps_latched a b d He) no_sse a eq_refl) as H0.
    set (a0 := snd (zw__zip_end_file no_sse a)) in *. clearbody a0.
    destruct file_path as [[|c path]|];
      [intros [= <- _]; reflexivity| |intros [= <- _]; reflexivity].
    rewrite (write_to_stream_latched a0) by (unfold sink_state in H0; congruence).
    rewrite local_file_header_length. cbn [Z.of_nat Z.eqb].
    intros [= <- _]; reflexivity.
  - exact (begin_file_keeps (fun s => s = sink_state a)
             (fun b d => write_to_stream_keeps_latched a b d He) no_sse a file_path r a'
             eq_refl Hb).
Qed.

Lemma finish_tail_false a :
  exists a', finish_tail zw_false a = (zw_false, Some a')
    /\ log a' = log a ++ match close (stream a) with Some _ => [EvClose] | None => [] end
                      ++ [EvFree].
Proof.
  unfold finish_tail. destruct (close (stream a)) as [f|].
  - destruct (f (user_data (stream a)) (error (stream a))) as [u e].
    eexists. split.
    + f_equal. match goal with |- (if ?c then _ else _) = _ => destruct c end; reflexivity.
    + cbn [log set_log]. rewrite <- app_assoc. reflexivity.
  - eexists. split.
    + f_equal. match goal with |- (if ?c then _ else _) = _ => destruct c end; reflexivity.
    + reflexivity.
Qed.

End Latched.

(** X7: once the stream holds an error, [zw_begin_file] fails and neither it nor
    [zw_write] calls the sink again: the stream, the offset and the record
    of the calls stay as they are. *)
Theorem latched_error_silences_sink {U : Type} (no_sse : bool) (a : zw__zip_details U) :
  error (stream a) <> 0 ->
  (forall file_path r a',
      zw_begin_file no_sse (Some a) file_path = (r, Some a') ->
      r = zw_false /\ stream a' = stream a /\ offset a' = offset a /\ log a' = log a)
  /\ (forall data r a',
        zw_write no_sse (Some a) data = (r, Some a') ->
        stream a' = stream a /\ offset a' = offset a /\ log a' = log a).
Proof.
  intros He. split.
  - intros file_path r a' Hb.
    destruct (begin_file_latched no_sse a file_path r a' He Hb) as [Hr Hs].
    unfold sink_state in Hs. injection Hs as H1 H2 H3. auto.
  - intros data r a' Hw.
    pose proof (write_keeps_sink (fun s => s = sink_state a)
                  (fun b d => write_to_stream_keeps_latched a b d He) no_sse a data r a'
                  eq_refl Hw) as Hs.
    unfold sink_state in Hs. injection Hs as H1 H2 H3. auto.
Qed.

Lemma latched_error_silences_sink_witness :
  match latched_session with
  | Some a =>
      (forall file_path r a',
          zw_begin_file false (Some a) file_path = (r, Some a') ->
          r = zw_false /\ stream a' = stream a /\ offset a' = offset a /\ log a' = log a)
      /\ (forall data r a',
            zw_write false (Some a) data = (r, Some a') ->
            stream a' = stream a /\ offset a' = offset a /\ log a' = log a)
  | None => False
  end.
Proof.
  assert (He : from_option (fun a => error (stream a)) 0 latched_session = 5)
    by (vm_compute; reflexivity).
  destruct latched_session as [a|]; [|discriminate He]. cbn [from_option] in He.
  apply (latched_error_silences_sink false a). rewrite He. discriminate.
Defined.

(** X8: when the stream already holds an error, [zw_finish] still reaches its
    end: it fails, calls the sink's [close] once if there is one, and
    releases the session, without another call of the sink's [write]. *)
Theorem finish_after_latched_error {U : Type} (no_sse : bool) (a : zw__zip_details U) :
  error (stream a) <> 0 ->
  exists a',
    zw_finish no_sse (Some a) = (zw_false, Some a')
    /\ log a' = log a ++ match close (stream a) with Some _ => [EvClose] | None => [] end
                      ++ [EvFree].
Proof.
  intros He. rewrite finish_unfold. cbv zeta.
  pose proof (end_file_keeps (fun s => s = sink_state a)
                (fun b d => write_to_stream_keeps_latched a b d He) no_sse a eq_refl) as H0.
  set (a0 := set_hash_table ∅ (snd (zw__zip_end_file no_sse a))).
  assert (Hs : sink_state a0 = sink_state a) by exact H0. clearbody a0. clear H0.
  assert (He0 : error (stream a0) <> 0) by (unfold sink_state in Hs; congruence).
  rewrite (write_to_stream_latched a0 _ He0). cbn [fst snd].
  set (a1 := set_central_dir None a0).
  assert (Hs1 : sink_state a1 = sink_state a) by exact Hs.
  assert (He1 : error (stream a1) <> 0) by exact He0. clearbody a1.
  assert (Hlog : forall x, sink_state x = sink_state a ->
            exists a', finish_tail zw_false x = (zw_false, Some a')
              /\ log a' = log a ++ match close (stream a) with
                                   | Some _ => [EvClose] | None => [] end ++ [EvFree]).
  { intros x Hx. destruct (finish_tail_false x) as (a' & E & Hl). exists a'.
    split; [exact E|]. rewrite Hl. unfold sink_state in Hx. injection Hx as -> _ ->.
    reflexivity. }
  destruct (Z.of_nat (length (sb_items (central_dir a0))) =? 0).
  - rewrite !(write_to_stream_latched a1 _ He1). cbn [fst snd].
    replace (Z.of_nat (length (end_of_central_dir_64_bytes (num_files a1)
               (zw__sbcount (central_dir a0)) (offset a0))) =? 0) with false
      by reflexivity.
    cbn [fst snd]. apply Hlog. exact Hs1.
  - rewrite !(write_to_stream_latched a1 _ He1). cbn [fst snd].
    apply Hlog. exact Hs1.
Qed.

Lemma finish_after_latched_error_witness :
  match latched_session with
  | Some a =>
      exists a',
        zw_finish false (Some a) = (zw_false, Some a')
        /\ log a' = log a ++ match close (stream a) with
                             | Some _ => [EvClose] | None => [] end ++ [EvFree]
  | None => False
  end.
Proof.
  assert (He : from_option (fun a => error (stream a)) 0 latched_session = 5)
    by (vm_compute; reflexivity).
  destruct latched_session as [a|]; [|discriminate He]. cbn [from_option] in He.
  apply (finish_after_latched_error false a). rewrite He. discriminate.
Defined.

(** ** Bits *)

Lemma bits_lsb_length n : forall x, length (bits_lsb n x) = n.
Proof. induction n as [|n IH]; intros x; cbn [bits_lsb length]; [|rewrite IH]; reflexivity. Qed.

Lemma testbit_half x i : 0 <= i -> Z.testbit (x / 2) i = Z.testbit x (i + 1).
Proof.
  intros Hi. rewrite <- Z.div2_div, Z.div2_spec, Z.shiftr_spec by lia. reflexivity.
Qed.

Lemma bits_lsb_ext n : forall x y,
  (forall i, 0 <= i < Z.of_nat n -> Z.testbit x i = Z.testbit y i) ->
  bits_lsb n x = bits_lsb n y.
Proof.
  induction n as [|n IH]; intros x y H; [reflexivity|].
  cbn [bits_lsb]. f_equal.
  - rewrite <- !Z.bit0_odd. apply H. lia.
  - apply IH. intros i Hi. rewrite !testbit_half by lia. apply H. lia.
Qed.

Lemma bits_lsb_nth n : forall x i,
  (i < n)%nat -> nth i (bits_lsb n x) false = Z.testbit x (Z.of_nat i).
Proof.
  induction n as [|n IH]; intros x i Hi; [lia|].
  cbn [bits_lsb]. destruct i as [|i].
  - cbn [nth]. rewrite Z.bit0_odd. reflexivity.
  - cbn [nth]. rewrite IH by lia. rewrite testbit_half by lia. f_equal. lia.
Qed.

Lemma bits_lsb_app n m : forall x,
  bits_lsb (n + m) x = bits_lsb n x ++ bits_lsb m (Z.shiftr x (Z.of_nat n)).
Proof.
  induction n as [|n IH]; intros x.
  - cbn [Nat.add bits_lsb app]. rewrite Z.shiftr_0_r. reflexivity.
  - cbn [Nat.add bits_lsb app]. f_equal. rewrite IH. f_equal. f_equal.
    rewrite <- Z.div2_div, Z.div2_spec, Z.shiftr_shiftr by lia. f_equal. lia.
Qed.

Lemma bits_lsb_land n x : bits_lsb n (Z.land x (Z.ones (Z.of_nat n))) = bits_lsb n x.
Proof.
  apply bits_lsb_ext. intros i Hi.
  rewrite Z.land_spec, Z.ones_spec_low by lia. apply andb_true_r.
Qed.

(** Adding [code << k] above the [k] bits of [x]. *)
Lemma bits_lsb_lor k n x code :
  0 <= x < 2 ^ Z.of_nat k ->
  bits_lsb (k + n) (Z.lor x (Z.shiftl code (Z.of_nat k)))
  = bits_lsb k x ++ bits_lsb n code.
Proof.
  intros Hx. rewrite bits_lsb_app. f_equal.
  - apply bits_lsb_ext. intros i Hi.
    rewrite Z.lor_spec, Z.shiftl_spec_low by lia. apply orb_false_r.
  - f_equal. rewrite Z.shiftr_lor, Z.shiftr_shiftl_l by lia.
    rewrite Z.sub_diag, Z.shiftl_0_r.
    rewrite Z.shiftr_div_pow2 by lia. rewrite Z.div_small by lia. reflexivity.
Qed.

Lemma bytes_bits_app l1 l2 : bytes_bits (l1 ++ l2) = bytes_bits l1 ++ bytes_bits l2.
Proof. unfold bytes_bits. apply flat_map_app. Qed.

Lemma bytes_bits_length l : length (bytes_bits l) = (8 * length l)%nat.
Proof.
  unfold bytes_bits. induction l as [|x l IH]; [reflexivity|].
  cbn [flat_map]. rewrite length_app, bits_lsb_length, IH. cbn [length]. lia.
Qed.

Lemma handed_app l1 l2 : handed (l1 ++ l2) = handed l1 ++ handed l2.
Proof.
  induction l1 as [|[d w| |] l1 IH]; cbn [app handed]; [reflexivity| |exact IH|exact IH].
  rewrite IH. apply app_assoc.
Qed.

Lemma ztake_all (l : list Z) : ztake (Z.of_nat (length l)) l = l.
Proof. unfold ztake. rewrite Nat2Z.id. apply firstn_all. Qed.

(** ** The bit writer on an accepting sink *)

Section BitWriter.

Context {U : Type}.
Implicit Types a : zw__zip_details U.

Lemma write_to_stream_accepted a data :
  sink_accepts (stream a) ->
  exists a',
    zw__write_to_stream a data = (zw_true, a')
    /\ sink_accepts (stream a')
    /\ log a' = log a ++ (if Z.of_nat (length data) =? 0 then []
                          else [EvWrite data (Z.of_nat (length data))])
    /\ handed (log a') = handed (log a) ++ data
    /\ offset a' = (if Z.of_nat (length data) =? 0 then offset a
                    else u64 (offset a + Z.of_nat (length data)))
    /\ sink_frame a' = sink_frame a.
Proof.
  intros (He & f & Hf & Hacc). unfold zw__write_to_stream.
  destruct (Z.eqb_spec (Z.of_nat (length data)) 0) as [H0|H0].
  - exists a. rewrite app_nil_r.
    assert (data = []) as -> by (destruct data; [reflexivity|cbn [length] in H0; lia]).
    rewrite app_nil_r. repeat split; try reflexivity. exact He. exists f. auto.
  - rewrite He. cbn [Z.eqb negb]. unfold call_write. rewrite Hf, He.
    destruct (Hacc (user_data (stream a)) data) as [u' ->].
    rewrite Z.eqb_refl. eexists. split; [reflexivity|].
    cbn [stream set_offset set_log set_stream error log offset].
    split; [split; [reflexivity|exists f; auto]|].
    split; [reflexivity|]. split.
    + rewrite handed_app. cbn [handed]. rewrite ztake_all, app_nil_r. reflexivity.
    + split; reflexivity.
Qed.

Lemma sink_frame_fields a a' :
  sink_frame a' = sink_frame a ->
  bitbuf a' = bitbuf a /\ bitcount a' = bitcount a /\ out a' = out a
  /\ out_cursor a' = out_cursor a
  /\ compressed_size (current_file a') = compressed_size (current_file a)
  /\ out_total a' = out_total a /\ enc_frame a' = enc_frame a.
Proof.
  unfold sink_frame. intros H.
  pose proof (f_equal (fun t => fst (fst (fst (fst (fst t))))) H) as H1.
  pose proof (f_equal (fun t => snd (fst (fst (fst (fst t))))) H) as H2.
  pose proof (f_equal (fun t => snd (fst (fst (fst t)))) H) as H3.
  pose proof (f_equal (fun t => snd (fst (fst t))) H) as H4.
  pose proof (f_equal (fun t => snd (fst t)) H) as H5.
  pose proof (f_equal snd H) as H6. cbn [fst snd] in *.
  assert (H7 : out_total a' = out_total a).
  { unfold enc_frame in H6.
    exact (f_equal (fun t => snd (fst (fst (fst (fst (fst (fst (fst t)))))))) H6). }
  auto 10.
Qed.

Lemma flush_compressed_bytes_accepted a :
  sink_accepts (stream a) -> 0 <= out_cursor a ->
  let a' := zw__flush_compressed_bytes a in
  sink_accepts (stream a')
  /\ handed (log a') = handed (log a) ++ ztake (out_cursor a) (out a)
  /\ out_cursor a' = 0 /\ out a' = out a
  /\ bitbuf a' = bitbuf a /\ bitcount a' = bitcount a /\ out_total a' = out_total a
  /\ compressed_size (current_file a')
     = (if 0 <? out_cursor a then u64 (compressed_size (current_file a) + out_cursor a)
        else compressed_size (current_file a)).
Proof.
  intros Hs Hc a'. subst a'. unfold zw__flush_compressed_bytes.
  destruct (Z.ltb_spec 0 (out_cursor a)) as [Hpos|Hz].
  - match goal with |- context [zw__write_to_stream ?b ?d] =>
      destruct (write_to_stream_accepted b d Hs) as (c & E & Hs' & _ & Hh & _ & Hf);
      rewrite E end.
    cbn [snd stream set_out_cursor log out_cursor out bitbuf bitcount out_total current_file].
    destruct (sink_frame_fields _ _ Hf) as (Hf1 & Hf2 & Hf3 & Hf4 & Hf5 & Hf6 & _).
    cbn [bitbuf bitcount out out_cursor current_file out_total
      set_current_file compressed_size set_compressed_size log] in Hf1, Hf2, Hf3, Hf4, Hf5, Hf6, Hh.
    split; [exact Hs'|]. auto 10.
  - assert (out_cursor a = 0) as E by lia. rewrite E. unfold ztake. cbn [Z.to_nat take].
    rewrite app_nil_r. split; [exact Hs|]. auto 10.
Qed.

Lemma take_insert_snoc (l : list Z) (i : nat) (v : Z) :
  (i < length l)%nat -> take (S i) (<[i := v]> l) = take i l ++ [v].
Proof.
  intros Hi. rewrite (take_S_r _ _ v) by (apply list_lookup_insert_eq; exact Hi).
  rewrite take_insert_ge by lia. reflexivity.
Qed.

Lemma bits_lsb_byte (k : nat) bb :
  bits_lsb (8 + k) bb = bits_lsb 8 (Z.land bb 255) ++ bits_lsb k (Z.shiftr bb 8).
Proof.
  rewrite bits_lsb_app. f_equal. symmetry. exact (bits_lsb_land 8 bb).
Qed.

Lemma u64_lag_step x c h : u64 (u64 (x + c) - (h + c)) = u64 (x - h).
Proof.
  unfold u64. rewrite Zminus_mod_idemp_l. f_equal. lia.
Qed.

(** One byte leaves the accumulator. *)
Lemma flush_bits_loop_stream n : forall a,
  sink_accepts (stream a) -> out_total a = 32768 -> length (out a) = Z.to_nat 32768 ->
  0 <= out_cursor a < 32768 -> 0 <= bitcount a < 32 -> 0 <= bitbuf a < 2 ^ bitcount a ->
  bitcount a / 8 <= Z.of_nat n ->
  let a' := zw__flush_bits_loop n a in
  writer_ok a' /\ bitstream a' = bitstream a /\ u64 (lag a') = u64 (lag a)
  /\ bitcount a' = bitcount a mod 8.
Proof.
  induction n as [|n IH]; intros a Hs Hot Hlen Hc Hbc Hbb Hn; cbv zeta.
  - cbn [zw__flush_bits_loop]. change (Z.of_nat 0) with 0 in Hn.
    assert (Hlt : bitcount a < 8).
    { destruct (Z.lt_ge_cases (bitcount a) 8) as [|Hge]; [assumption|].
      assert (1 <= bitcount a / 8) by (apply Z.div_le_lower_bound; lia). lia. }
    split; [|split; [reflexivity|split; [reflexivity|]]].
    + unfold writer_ok, bits_ok. auto 10 with zarith.
    + symmetry. apply Z.mod_small. lia.
  - cbn [zw__flush_bits_loop]. destruct (Z.leb_spec 8 (bitcount a)) as [H8|H8].
    2:{ split; [|split; [reflexivity|split; [reflexivity|]]].
        - unfold writer_ok, bits_ok. auto 10 with zarith.
        - symmetry. apply Z.mod_small. lia. }
    cbn [out_cursor set_out_cursor out_total set_out bitcount bitbuf out].
    set (v := Z.land (bitbuf a) 255).
    set (out' := <[Z.to_nat (out_cursor a) := v]> (out a)).
    rewrite (u16_small (out_cursor a + 1)) by lia.
    set (a2 := set_out_cursor (out_cursor a + 1) (set_out out' a)).
    assert (Hlen' : length out' = Z.to_nat 32768) by (subst out'; rewrite length_insert; exact Hlen).
    assert (Htake : ztake (out_cursor a + 1) out' = ztake (out_cursor a) (out a) ++ [v]).
    { unfold ztake. replace (Z.to_nat (out_cursor a + 1)) with (S (Z.to_nat (out_cursor a))) by lia.
      subst out'. apply take_insert_snoc. lia. }
    assert (Hbits : bits_lsb (Z.to_nat (bitcount a)) (bitbuf a)
                    = bits_lsb 8 v ++ bits_lsb (Z.to_nat (bitcount a - 8)) (Z.shiftr (bitbuf a) 8)).
    { replace (Z.to_nat (bitcount a)) with (8 + Z.to_nat (bitcount a - 8))%nat by lia.
      apply bits_lsb_byte. }
    assert (Hsh : 0 <= Z.shiftr (bitbuf a) 8 < 2 ^ (bitcount a - 8)).
    { rewrite Z.shiftr_div_pow2 by lia. split; [apply Z.div_pos; lia|].
      apply Z.div_lt_upper_bound; [lia|]. rewrite <- Z.pow_add_r by lia.
      replace (8 + (bitcount a - 8)) with (bitcount a) by lia. lia. }
    assert (Hdiv : (bitcount a - 8) / 8 <= Z.of_nat n).
    { replace (bitcount a - 8) with (bitcount a + (-1) * 8) by lia.
      rewrite Z.div_add by lia. lia. }
    assert (Hmod : (bitcount a - 8) mod 8 = bitcount a mod 8).
    { replace (bitcount a - 8) with (bitcount a + (-1) * 8) by lia.
      apply Z.mod_add. lia. }
    destruct (Z.eqb_spec (out_cursor a + 1) (out_total a)) as [Hfull|Hroom].
    + (* the output buffer is full *)
      destruct (flush_compressed_bytes_accepted a2 Hs ltac:(cbn; lia))
        as (Hs3 & Hh3 & Hc3 & Ho3 & Hb3 & Hk3 & Ht3 & Hz3).
      set (a3 := zw__flush_compressed_bytes a2) in *. clearbody a3.
      cbn [log out_cursor out bitbuf bitcount out_total current_file a2
           set_out_cursor set_out compressed_size] in Hh3, Ho3, Hb3, Hk3, Ht3, Hz3.
      destruct (Z.ltb_spec 0 (out_cursor a + 1)) as [_|]; [|lia].
      cbn [bitcount set_bitbuf]. rewrite Hb3, Hk3.
      rewrite (u32_small (bitcount a - 8)) by lia.
      match goal with |- context [zw__flush_bits_loop n ?x] =>
        destruct (IH x) as (Hw & Hst & Hlag & Hbc') end;
        cbn [stream bitcount bitbuf out out_total out_cursor set_bitcount set_bitbuf];
        try assumption; try lia; try congruence.
      split; [exact Hw|]. split; [|split].
      * rewrite Hst. unfold bitstream.
        cbn [log out_cursor out bitbuf bitcount set_bitcount set_bitbuf].
        rewrite Hh3, Hc3, Htake, Hbits. unfold ztake at 1. cbn [Z.to_nat take].
        rewrite app_nil_r, !bytes_bits_app. unfold bytes_bits at 3.
        cbn [flat_map]. rewrite app_nil_r, <- !app_assoc. reflexivity.
      * rewrite Hlag. unfold lag.
        cbn [current_file log set_bitcount set_bitbuf].
        rewrite Hz3, Hh3, Htake. rewrite !length_app. cbn [length].
        unfold ztake. rewrite length_take.
        replace (Z.of_nat (length (handed (log a)) +
                   (Z.to_nat (out_cursor a) `min` length (out a) + 1)))
          with (Z.of_nat (length (handed (log a))) + (out_cursor a + 1)) by lia.
        apply u64_lag_step.
      * rewrite Hbc'. cbn [bitcount set_bitcount]. exact Hmod.
    + cbn [bitcount bitbuf set_bitbuf a2 set_out_cursor set_out].
      fold out'. fold a2.
      rewrite (u32_small (bitcount a - 8)) by lia.
      match goal with |- context [zw__flush_bits_loop n ?x] =>
        destruct (IH x) as (Hw & Hst & Hlag & Hbc') end;
        cbn [stream bitcount bitbuf out out_total out_cursor set_bitcount set_bitbuf a2
             set_out_cursor set_out];
        try assumption; try lia.
      split; [exact Hw|]. split; [|split].
      * rewrite Hst. unfold bitstream.
        cbn [log out_cursor out bitbuf bitcount set_bitcount set_bitbuf a2 set_out_cursor set_out].
        rewrite Htake, Hbits. rewrite !bytes_bits_app. unfold bytes_bits at 3.
        cbn [flat_map]. rewrite app_nil_r, <- !app_assoc. reflexivity.
      * rewrite Hlag. reflexivity.
      * rewrite Hbc'. cbn [bitcount set_bitcount]. exact Hmod.
Qed.

(** [zw__zlib_add] appends the [codebits] bits of [code], least significant
    first, to the stream. *)
Lemma zlib_add_stream code n a :
  writer_ok a -> 0 <= n <= 24 -> 0 <= code < 2 ^ n ->
  let a' := zw__zlib_add code n a in
  writer_ok a' /\ bitstream a' = bitstream a ++ bits_lsb (Z.to_nat n) code
  /\ u64 (lag a') = u64 (lag a)
  /\ bitcount a' = (bitcount a + n) mod 8.
Proof.
  intros (Hs & (Hbc & Hbb) & Hot & Hlen & Hc) Hn Hcode. cbv zeta.
  unfold zw__zlib_add, zw__flush_bits.
  cbn [bitcount bitbuf set_bitcount set_bitbuf].
  assert (Hp : 0 < 2 ^ bitcount a) by (apply Z.pow_pos_nonneg; lia).
  assert (Hsl : 0 <= Z.shiftl code (bitcount a) < 2 ^ (bitcount a + n)).
  { rewrite Z.shiftl_mul_pow2, Z.pow_add_r by lia. nia. }
  assert (H32 : 2 ^ (bitcount a + n) <= 2 ^ 32) by (apply Z.pow_le_mono_r; lia).
  rewrite (u32_small (Z.shiftl code (bitcount a))) by (change 4294967296 with (2 ^ 32); lia).
  rewrite (u32_small (bitcount a + n)) by lia.
  assert (Hor : 0 <= Z.lor (bitbuf a) (Z.shiftl code (bitcount a)) < 2 ^ (bitcount a + n)).
  { apply lor_below; [lia| |exact Hsl].
    assert (2 ^ bitcount a <= 2 ^ (bitcount a + n)) by (apply Z.pow_le_mono_r; lia). lia. }
  match goal with |- context [zw__flush_bits_loop ?k ?x] =>
    destruct (flush_bits_loop_stream k x) as (Hw & Hst & Hlag & Hbc') end;
    cbn [stream bitcount bitbuf out out_total out_cursor set_bitcount set_bitbuf];
    try assumption; try lia.
  split; [exact Hw|]. split; [|split; [exact Hlag|exact Hbc']].
  rewrite Hst. unfold bitstream.
  cbn [log out_cursor out bitbuf bitcount set_bitcount set_bitbuf].
  rewrite <- app_assoc. f_equal.
  replace (Z.to_nat (bitcount a + n)) with (Z.to_nat (bitcount a) + Z.to_nat n)%nat by lia.
  rewrite <- (Z2Nat.id (bitcount a)) at 2 by lia.
  apply bits_lsb_lor. rewrite Z2Nat.id by lia. exact Hbb.
Qed.

Lemma bits_lsb_bitrev (c : nat) b :
  (c <= 32)%nat -> 0 <= b ->
  bits_lsb c (zw__zlib_bitrev b (Z.of_nat c)) = bits_msb c b.
Proof.
  intros Hc Hb. unfold bits_msb.
  apply (nth_ext _ _ false false).
  - rewrite length_rev, !bits_lsb_length. reflexivity.
  - intros i Hi. rewrite bits_lsb_length in Hi.
    rewrite rev_nth by (rewrite bits_lsb_length; exact Hi).
    rewrite bits_lsb_length. rewrite !bits_lsb_nth by lia.
    rewrite bitrev_testbit by lia. f_equal. lia.
Qed.

(** A Huffman code enters the stream from its most significant bit on. *)
Lemma zlib_huffa_stream b c a :
  writer_ok a -> 0 <= c <= 24 -> 0 <= b ->
  let a' := zw__zlib_huffa b c a in
  writer_ok a' /\ bitstream a' = bitstream a ++ bits_msb (Z.to_nat c) b
  /\ u64 (lag a') = u64 (lag a)
  /\ bitcount a' = (bitcount a + c) mod 8.
Proof.
  intros Hw Hc Hb. cbv zeta. unfold zw__zlib_huffa.
  destruct (zlib_add_stream (zw__zlib_bitrev b c) c a Hw Hc) as (H1 & H2 & H3 & H4).
  { apply bitrev_bound. lia. }
  split; [exact H1|]. split; [|split; assumption].
  rewrite H2. f_equal. rewrite <- (Z2Nat.id c) at 2 by lia.
  apply bits_lsb_bitrev; lia.
Qed.

Lemma zlib_huff_stream n a :
  writer_ok a -> 0 <= n <= 287 ->
  let a' := zw__zlib_huff n a in
  writer_ok a' /\ bitstream a' = bitstream a ++ fixed_code n
  /\ u64 (lag a') = u64 (lag a).
Proof.
  intros Hw Hn. cbv zeta. unfold zw__zlib_huff, fixed_code, zw__zlib_huff1,
    zw__zlib_huff2, zw__zlib_huff3, zw__zlib_huff4.
  destruct (Z.leb_spec n 143); [|destruct (Z.leb_spec n 255); [|destruct (Z.leb_spec n 279)]].
  - destruct (zlib_huffa_stream (0x30 + n) 8 a Hw) as (K1 & K2 & K3 & _); [lia..|]. auto.
  - destruct (zlib_huffa_stream (0x190 + n - 144) 9 a Hw) as (K1 & K2 & K3 & _); [lia..|]. auto.
  - destruct (zlib_huffa_stream (0 + n - 256) 7 a Hw) as (K1 & K2 & K3 & _); [lia..|]. auto.
  - destruct (zlib_huffa_stream (0xc0 + n - 280) 8 a Hw) as (K1 & K2 & K3 & _); [lia..|]. auto.
Qed.

Lemma zlib_huffb_stream n a :
  writer_ok a -> 0 <= n <= 255 ->
  let a' := zw__zlib_huffb n a in
  writer_ok a' /\ bitstream a' = bitstream a ++ fixed_code n
  /\ u64 (lag a') = u64 (lag a).
Proof.
  intros Hw Hn. cbv zeta. unfold zw__zlib_huffb, fixed_code, zw__zlib_huff1, zw__zlib_huff2.
  destruct (Z.leb_spec n 143).
  - destruct (zlib_huffa_stream (0x30 + n) 8 a Hw) as (K1 & K2 & K3 & _); [lia..|]. auto.
  - destruct (Z.leb_spec n 255); [|lia].
    destruct (zlib_huffa_stream (0x190 + n - 144) 9 a Hw) as (K1 & K2 & K3 & _); [lia..|]. auto.
Qed.

End BitWriter.

(** ** Reading what the bit writer wrote *)

Lemma lsb_val_bits n : forall x, 0 <= x -> lsb_val (bits_lsb n x) = x mod 2 ^ Z.of_nat n.
Proof.
  induction n as [|n IH]; intros x Hx.
  - cbn. rewrite Z.mod_1_r. reflexivity.
  - cbn [bits_lsb lsb_val fold_right]. fold (lsb_val (bits_lsb n (x / 2))).
    rewrite IH by (apply Z.div_pos; lia).
    rewrite Nat2Z.inj_succ, Z.pow_succ_r by lia.
    rewrite Z.rem_mul_r by lia.
    rewrite Zmod_odd. destruct (Z.odd x); cbn [Z.b2z]; lia.
Qed.

Lemma lsb_val_bits_small n x :
  0 <= x < 2 ^ Z.of_nat n -> lsb_val (bits_lsb n x) = x.
Proof. intros Hx. rewrite lsb_val_bits by lia. apply Z.mod_small. exact Hx. Qed.

Lemma msb_val_snoc l b : msb_val (l ++ [b]) = 2 * msb_val l + Z.b2z b.
Proof. unfold msb_val. rewrite fold_left_app. reflexivity. Qed.

Lemma msb_val_rev l : msb_val (rev l) = lsb_val l.
Proof.
  induction l as [|b l IH]; [reflexivity|].
  cbn [rev]. rewrite msb_val_snoc, IH. cbn [lsb_val fold_right]. unfold lsb_val. lia.
Qed.

Lemma msb_val_bits_small n x :
  0 <= x < 2 ^ Z.of_nat n -> msb_val (bits_msb n x) = x.
Proof. intros Hx. unfold bits_msb. rewrite msb_val_rev. apply lsb_val_bits_small. exact Hx. Qed.

Lemma bits_msb_length n x : length (bits_msb n x) = n.
Proof. unfold bits_msb. rewrite length_rev. apply bits_lsb_length. Qed.

Lemma read_lsb_bits n x rest :
  0 <= x < 2 ^ Z.of_nat n -> read_lsb n (bits_lsb n x ++ rest) = Some (x, rest).
Proof.
  intros Hx. unfold read_lsb.
  rewrite length_app, bits_lsb_length.
  destruct (Nat.leb_spec n (n + length rest)); [|lia].
  rewrite take_app_length' by (symmetry; apply bits_lsb_length).
  rewrite drop_app_length' by (symmetry; apply bits_lsb_length).
  rewrite lsb_val_bits_small by exact Hx. reflexivity.
Qed.

(** The first [m] bits of a code of [m + k] bits. *)
Lemma take_bits_msb m k x :
  take m (bits_msb (m + k) x) = bits_msb m (Z.shiftr x (Z.of_nat k)).
Proof.
  unfold bits_msb. rewrite (Nat.add_comm m k), bits_lsb_app.
  rewrite rev_app_distr. apply take_app_length'. rewrite length_rev.
  symmetry. apply bits_lsb_length.
Qed.

Lemma read_msb_prefix m k x rest :
  0 <= x < 2 ^ Z.of_nat (m + k) ->
  exists r, read_msb m (bits_msb (m + k) x ++ rest) = Some (x / 2 ^ Z.of_nat k, r)
            /\ (k = O -> r = rest).
Proof.
  intros Hx. unfold read_msb. rewrite length_app, bits_msb_length.
  destruct (Nat.leb_spec m (m + k + length rest)); [|lia].
  eexists. split.
  - f_equal. f_equal. rewrite take_app_le by (rewrite bits_msb_length; lia).
    rewrite take_bits_msb. rewrite msb_val_bits_small.
    + apply Z.shiftr_div_pow2. lia.
    + rewrite Z.shiftr_div_pow2 by lia. split.
      * apply Z.div_pos; [lia|]. apply Z.pow_pos_nonneg; lia.
      * apply Z.div_lt_upper_bound; [apply Z.pow_pos_nonneg; lia|].
        rewrite <- Z.pow_add_r by lia. rewrite Nat2Z.inj_add in Hx.
        replace (Z.of_nat k + Z.of_nat m) with (Z.of_nat m + Z.of_nat k) by lia. lia.
  - intros ->. rewrite Nat.add_0_r.
    apply drop_app_length'. symmetry. apply bits_msb_length.
Qed.

Lemma read_msb_bits n x rest :
  0 <= x < 2 ^ Z.of_nat n -> read_msb n (bits_msb n x ++ rest) = Some (x, rest).
Proof.
  intros Hx. destruct (read_msb_prefix n 0 x rest) as (r & E & Hr).
  - rewrite Nat.add_0_r. exact Hx.
  - rewrite Nat.add_0_r in E. rewrite E, (Hr eq_refl). cbn. rewrite Z.div_1_r. reflexivity.
Qed.

(** The decoder reads back every literal/length symbol. *)
Lemma inflate_symbol_fixed_code n rest :
  0 <= n <= 287 -> inflate_symbol (fixed_code n ++ rest) = Some (n, rest).
Proof.
  intros Hn. unfold inflate_symbol, fixed_code.
  destruct (Z.leb_spec n 143); [|destruct (Z.leb_spec n 255); [|destruct (Z.leb_spec n 279)]].
  - destruct (read_msb_prefix 7 1 (48 + n) rest) as (r & E7 & _); [cbn; lia|].
    change (7 + 1)%nat with 8%nat in E7. rewrite E7. clear E7.
    change (2 ^ Z.of_nat 1) with 2.
    destruct (Z.leb_spec ((48 + n) / 2) 23) as [Hc|_].
    { assert (24 <= (48 + n) / 2) by (apply Z.div_le_lower_bound; lia). lia. } rewrite read_msb_bits by (cbn; lia).
    destruct (Z.leb_spec (48 + n) 191); [|lia]. f_equal. f_equal. lia.
  - destruct (read_msb_prefix 7 2 (400 + n - 144) rest) as (r & E7 & _); [cbn; lia|].
    change (7 + 2)%nat with 9%nat in E7. rewrite E7. clear E7.
    change (2 ^ Z.of_nat 2) with 4.
    destruct (Z.leb_spec ((400 + n - 144) / 4) 23) as [Hc|_].
    { assert (24 <= (400 + n - 144) / 4) by (apply Z.div_le_lower_bound; lia). lia. }
    destruct (read_msb_prefix 8 1 (400 + n - 144) rest) as (r' & E8 & _); [cbn; lia|].
    change (8 + 1)%nat with 9%nat in E8. rewrite E8. clear E8.
    change (2 ^ Z.of_nat 1) with 2.
    destruct (Z.leb_spec ((400 + n - 144) / 2) 191) as [Hc|_].
    { assert (192 <= (400 + n - 144) / 2) by (apply Z.div_le_lower_bound; lia). lia. }
    destruct (Z.leb_spec ((400 + n - 144) / 2) 199) as [Hc|_].
    { assert (200 <= (400 + n - 144) / 2) by (apply Z.div_le_lower_bound; lia). lia. } rewrite read_msb_bits by (cbn; lia).
    f_equal. f_equal. lia.
  - rewrite read_msb_bits by (cbn; lia).
    destruct (Z.leb_spec (0 + n - 256) 23); [|lia]. f_equal. f_equal. lia.
  - destruct (read_msb_prefix 7 1 (192 + n - 280) rest) as (r & E7 & _); [cbn; lia|].
    change (7 + 1)%nat with 8%nat in E7. rewrite E7. clear E7.
    change (2 ^ Z.of_nat 1) with 2.
    destruct (Z.leb_spec ((192 + n - 280) / 2) 23) as [Hc|_].
    { assert (24 <= (192 + n - 280) / 2) by (apply Z.div_le_lower_bound; lia). lia. } rewrite read_msb_bits by (cbn; lia).
    destruct (Z.leb_spec (192 + n - 280) 191); [lia|].
    destruct (Z.leb_spec (192 + n - 280) 199); [|lia]. f_equal. f_equal. lia.
Qed.

(** ** Length and distance codes *)

Lemma length_code_exact best :
  3 <= best <= 258 ->
  let j := code_index (length lengthc) lengthc best 0 in
  0 <= j <= 28 /\ 0 <= rd lengtheb j <= 5
  /\ 0 <= best - rd lengthc j < 2 ^ rd lengtheb j
  /\ rd inflate_length_base j = rd lengthc j
  /\ rd inflate_length_extra j = rd lengtheb j.
Proof.
  intros Hb j.
  destruct (code_index_bounds lengthc best (length lengthc) 0 28) as (Hj & Hhi & Hlo);
    [lia|lia|cbn [length lengthc]; lia|change (rd lengthc (28 + 1)) with 259; lia|].
  fold j in Hj, Hhi, Hlo. clearbody j.
  assert (Hlo' : rd lengthc j <= best)
    by (destruct Hlo as [->|]; [change (rd lengthc 0) with 3; lia|assumption]).
  assert (Htab : forallb (fun k =>
            (0 <=? rd lengtheb k) && (rd lengtheb k <=? 5)
            && (rd lengthc (k + 1) - rd lengthc k <=? 2 ^ rd lengtheb k)
            && (rd inflate_length_base k =? rd lengthc k)
            && (rd inflate_length_extra k =? rd lengtheb k))
            (seqZ 0 29) = true) by (vm_compute; reflexivity).
  rewrite forallb_forall in Htab. specialize (Htab j).
  assert (Hin : In j (seqZ 0 29)) by (apply list_elem_of_In, elem_of_seqZ; lia).
  specialize (Htab Hin). rewrite !andb_true_iff, !Z.leb_le, !Z.eqb_eq in Htab.
  lia.
Qed.

Lemma dist_code_exact d :
  1 <= d <= 32767 ->
  let k := code_index (length distc) distc d 0 in
  0 <= k <= 29 /\ 0 <= rd disteb k <= 13
  /\ 0 <= d - rd distc k < 2 ^ rd disteb k
  /\ rd inflate_dist_base k = rd distc k
  /\ rd inflate_dist_extra k = rd disteb k.
Proof.
  intros Hd k.
  destruct (code_index_bounds distc d (length distc) 0 29) as (Hj & Hhi & Hlo);
    [lia|lia|cbn [length distc]; lia|change (rd distc (29 + 1)) with 32768; lia|].
  fold k in Hj, Hhi, Hlo. clearbody k.
  assert (Hlo' : rd distc k <= d)
    by (destruct Hlo as [->|]; [change (rd distc 0) with 1; lia|assumption]).
  assert (Htab : forallb (fun k =>
            (0 <=? rd disteb k) && (rd disteb k <=? 13)
            && (rd distc (k + 1) - rd distc k <=? 2 ^ rd disteb k)
            && (rd inflate_dist_base k =? rd distc k)
            && (rd inflate_dist_extra k =? rd disteb k))
            (seqZ 0 30) = true) by (vm_compute; reflexivity).
  rewrite forallb_forall in Htab. specialize (Htab k).
  assert (Hin : In k (seqZ 0 30)) by (apply list_elem_of_In, elem_of_seqZ; lia).
  specialize (Htab Hin). rewrite !andb_true_iff, !Z.leb_le, !Z.eqb_eq in Htab.
  lia.
Qed.

(** ** Symbol by symbol *)

Lemma decodes_nil out : decodes [] out out 0.
Proof. intros fuel rest. reflexivity. Qed.

Lemma decodes_app b1 b2 o o1 o2 n1 n2 :
  decodes b1 o o1 n1 -> decodes b2 o1 o2 n2 -> decodes (b1 ++ b2) o o2 (n1 + n2).
Proof.
  intros H1 H2 fuel rest. rewrite <- Nat.add_assoc, <- app_assoc.
  rewrite H1. apply H2.
Qed.

Lemma decodes_literal b out :
  0 <= b <= 255 -> decodes (fixed_code b) out (out ++ [b]) 1.
Proof.
  intros Hb fuel rest. cbn [Nat.add inflate_block].
  rewrite inflate_symbol_fixed_code by lia.
  destruct (Z.ltb_spec b 256); [reflexivity|lia].
Qed.

Lemma inflate_block_end fuel rest out :
  inflate_block (S fuel) (fixed_code 256 ++ rest) out = Some (out, rest).
Proof. cbn [inflate_block]. rewrite inflate_symbol_fixed_code by lia. reflexivity. Qed.

Lemma decodes_match len d out :
  3 <= len <= 258 -> 1 <= d <= 32767 -> d <= Z.of_nat (length out) ->
  decodes (match_bits len d) out (lz_copy (Z.to_nat len) (Z.to_nat d) out) 1.
Proof.
  intros Hl Hd Hout fuel rest. unfold match_bits.
  destruct (length_code_exact len Hl) as (Hj & Heb & Hx & Eb & Ee).
  destruct (dist_code_exact d Hd) as (Hk & Hdb & Hy & Db & De).
  set (j := code_index (length lengthc) lengthc len 0) in *.
  set (k := code_index (length distc) distc d 0) in *. clearbody j k.
  cbn [Nat.add inflate_block]. rewrite <- !app_assoc.
  rewrite inflate_symbol_fixed_code by lia.
  destruct (Z.ltb_spec (j + 257) 256); [lia|].
  destruct (Z.eqb_spec (j + 257) 256); [lia|].
  destruct (Z.ltb_spec 285 (j + 257)); [lia|].
  replace (j + 257 - 257) with j by lia. rewrite Eb, Ee.
  rewrite read_lsb_bits by (rewrite Z2Nat.id by lia; exact Hx).
  rewrite read_msb_bits by (cbn; lia).
  destruct (Z.ltb_spec 29 k); [lia|]. rewrite Db, De.
  rewrite read_lsb_bits by (rewrite Z2Nat.id by lia; exact Hy).
  replace (rd lengthc j + (len - rd lengthc j)) with len by lia.
  replace (rd distc k + (d - rd distc k)) with d by lia.
  destruct (Z.leb_spec d (Z.of_nat (length out))); [reflexivity|lia].
Qed.

Section MatchBits.

Context {U : Type}.
Implicit Types a : zw__zip_details U.

(** Extra bits, written only when the code has some. *)
Lemma extra_bits_stream v eb a :
  writer_ok a -> 0 <= eb <= 13 -> 0 <= v < 2 ^ eb ->
  let a' := if negb (eb =? 0) then zw__zlib_add v eb a else a in
  writer_ok a' /\ bitstream a' = bitstream a ++ bits_lsb (Z.to_nat eb) v
  /\ u64 (lag a') = u64 (lag a).
Proof.
  intros Hw Heb Hv. cbv zeta. destruct (Z.eqb_spec eb 0) as [->|Hne]; cbn [negb].
  - cbn [Z.to_nat bits_lsb]. rewrite app_nil_r. auto.
  - destruct (zlib_add_stream v eb a Hw) as (K1 & K2 & K3 & _); [lia|exact Hv|]. auto.
Qed.

Lemma emit_match_stream best d a :
  writer_ok a -> 3 <= best <= 258 -> 1 <= d <= 32767 ->
  let a' := emit_match best d a in
  writer_ok a' /\ bitstream a' = bitstream a ++ match_bits best d
  /\ u64 (lag a') = u64 (lag a).
Proof.
  intros Hw Hl Hd. cbv zeta. unfold emit_match, match_bits.
  destruct (length_code_exact best Hl) as (Hj & Heb & Hx & _ & _).
  destruct (dist_code_exact d Hd) as (Hk & Hdb & Hy & _ & _).
  set (j := code_index (length lengthc) lengthc best 0) in *.
  set (k := code_index (length distc) distc d 0) in *. clearbody j k.
  destruct (zlib_huff_stream (j + 257) a Hw) as (W1 & S1 & L1); [lia|].
  set (a1 := zw__zlib_huff (j + 257) a) in *. clearbody a1.
  destruct (extra_bits_stream (best - rd lengthc j) (rd lengtheb j) a1 W1)
    as (W2 & S2 & L2); [lia|exact Hx|].
  set (a2 := if negb (rd lengtheb j =? 0)
             then zw__zlib_add (best - rd lengthc j) (rd lengtheb j) a1 else a1) in *.
  clearbody a2.
  destruct (zlib_huffa_stream k 5 a2 W2) as (W3 & S3 & L3 & _); [lia|lia|].
  unfold zw__zlib_huffa in W3, S3, L3.
  set (a3 := zw__zlib_add (zw__zlib_bitrev k 5) 5 a2) in *. clearbody a3.
  destruct (extra_bits_stream (d - rd distc k) (rd disteb k) a3 W3)
    as (W4 & S4 & L4); [lia|exact Hy|].
  split; [exact W4|]. split.
  - rewrite S4, S3, S2, S1. rewrite <- !app_assoc. reflexivity.
  - congruence.
Qed.

End MatchBits.

(** ** Copies inside the window *)

Lemma rd_app_l (l1 l2 : list Z) i :
  0 <= i < Z.of_nat (length l1) -> rd (l1 ++ l2) i = rd l1 i.
Proof. intros Hi. unfold rd. apply app_nth1. lia. Qed.

Lemma rd_app_r (l1 l2 : list Z) i :
  Z.of_nat (length l1) <= i -> rd (l1 ++ l2) i = rd l2 (i - Z.of_nat (length l1)).
Proof.
  intros Hi. unfold rd. rewrite app_nth2 by lia. f_equal. lia.
Qed.

Lemma rd_ztake (l : list Z) n i : 0 <= i < n -> rd (ztake n l) i = rd l i.
Proof.
  intros Hi. unfold rd, ztake. rewrite nth_firstn.
  destruct (Nat.ltb_spec (Z.to_nat i) (Z.to_nat n)); [reflexivity|lia].
Qed.

Lemma ztake_length (l : list Z) n :
  0 <= n <= Z.of_nat (length l) -> Z.of_nat (length (ztake n l)) = n.
Proof. intros Hn. unfold ztake. rewrite length_take. lia. Qed.

Lemma zdrop_length (l : list Z) n :
  0 <= n -> Z.of_nat (length (zdrop n l)) = Z.max 0 (Z.of_nat (length l) - n).
Proof. intros Hn. unfold zdrop. rewrite length_drop. lia. Qed.

Lemma ztake_snoc (l : list Z) n :
  0 <= n < Z.of_nat (length l) -> ztake (n + 1) l = ztake n l ++ [rd l n].
Proof.
  intros Hn. unfold ztake, rd.
  replace (Z.to_nat (n + 1)) with (S (Z.to_nat n)) by lia.
  apply take_S_r. destruct (nth_lookup_or_length l (Z.to_nat n) 0) as [H|H]; [exact H|lia].
Qed.

Section Decoded.

Variables (w E : list Z).
Hypothesis w_length : length w = Z.to_nat 65536.

Lemma decoded_length i :
  0 <= i <= 32768 -> Z.of_nat (length (decoded w E i)) = Z.of_nat (length E) + i.
Proof.
  intros Hi. unfold decoded. rewrite length_app, Nat2Z.inj_add.
  rewrite ztake_length; [reflexivity|]. rewrite zdrop_length by lia. lia.
Qed.

Lemma decoded_snoc i :
  0 <= i < 32768 -> decoded w E (i + 1) = decoded w E i ++ [rd w (32768 + i)].
Proof.
  intros Hi. unfold decoded. rewrite ztake_snoc by (rewrite zdrop_length; lia).
  rewrite rd_zdrop by lia. rewrite app_assoc. reflexivity.
Qed.

Hypothesis history : hist_ok w E.

(** The decoder's byte for the window position [p]. *)
Lemma decoded_rd i p :
  0 <= i <= 32768 -> 0 <= p < 32768 + i -> 32768 - Z.of_nat (length E) <= p ->
  rd (decoded w E i) (Z.of_nat (length E) - 32768 + p) = rd w p.
Proof.
  intros Hi Hp Hh. unfold decoded.
  destruct (Z.lt_ge_cases p 32768) as [Hlo|Hup].
  - rewrite rd_app_l by lia. symmetry. apply history; lia.
  - rewrite rd_app_r by lia.
    replace (Z.of_nat (length E) - 32768 + p - Z.of_nat (length E)) with (p - 32768) by lia.
    rewrite rd_ztake by lia. rewrite rd_zdrop by lia. f_equal. lia.
Qed.

(** A match found in the window is what the decoder's copy produces. *)
Lemma lz_copy_decoded (n : nat) : forall i loc,
  0 <= i -> i + Z.of_nat n <= 32768 -> 0 <= loc < 32768 + i ->
  32768 - loc <= Z.of_nat (length E) ->
  (forall k, 0 <= k < Z.of_nat n -> rd w (loc + k) = rd w (32768 + i + k)) ->
  lz_copy n (Z.to_nat (32768 + i - loc)) (decoded w E i) = decoded w E (i + Z.of_nat n).
Proof.
  induction n as [|n IH]; intros i loc Hi Hn Hloc Hh Heq.
  - cbn [lz_copy]. rewrite Z.add_0_r. reflexivity.
  - cbn [lz_copy].
    assert (Hnth : nth (length (decoded w E i) - Z.to_nat (32768 + i - loc))
                     (decoded w E i) 0 = rd w (32768 + i)).
    { pose proof (decoded_length i ltac:(lia)) as Hlen.
      pose proof (decoded_rd i loc ltac:(lia) ltac:(lia) ltac:(lia)) as Hrd.
      unfold rd in Hrd at 1.
      replace (length (decoded w E i) - Z.to_nat (32768 + i - loc))%nat
        with (Z.to_nat (Z.of_nat (length E) - 32768 + loc)) by lia.
      rewrite Hrd. specialize (Heq 0 ltac:(lia)). rewrite !Z.add_0_r in Heq. exact Heq. }
    rewrite Hnth, <- decoded_snoc by lia.
    replace (32768 + i - loc) with (32768 + (i + 1) - (loc + 1)) by lia.
    rewrite (IH (i + 1) (loc + 1)); try lia.
    + f_equal. lia.
    + intros k Hk. specialize (Heq (k + 1) ltac:(lia)).
      replace (loc + 1 + k) with (loc + (k + 1)) by lia.
      replace (32768 + (i + 1) + k) with (32768 + i + (k + 1)) by lia. exact Heq.
Qed.

End Decoded.

Lemma crc32_app (buf1 buf2 : list Z) (prior : Z) :
  zw__crc32 (buf1 ++ buf2) prior = zw__crc32 buf2 (zw__crc32 buf1 prior).
Proof.
  unfold zw__crc32. rewrite crc_loop_app. f_equal. f_equal.
  symmetry. apply not32_involutive.
  change 4294967296 with (2 ^ 32). apply crc_loop_range.
  change (2 ^ 32) with 4294967296. apply not32_range.
Qed.

Lemma slide_items_sat (P Q : Z -> Prop) c (l : list Z) :
  (forall e, P e -> c <= e -> Q (u16 (e - c))) ->
  Forall P l -> Forall Q (slide_items c l).
Proof.
  intros HPQ. induction 1 as [|e l He _ IH]; cbn [slide_items]; [constructor|].
  destruct (Z.leb_spec c e); [constructor; [apply HPQ; assumption|exact IH]|exact IH].
Qed.

Lemma memmove_slide (w : list Z) c n :
  memmove w 0 w c n = ztake n (zdrop c w) ++ zdrop n w.
Proof. reflexivity. Qed.

Lemma window_slide_length (w : list Z) c :
  length w = Z.to_nat 65536 -> 0 <= c <= 32768 ->
  length (memmove w 0 w c 32768) = Z.to_nat 65536.
Proof.
  intros Hw Hc. rewrite memmove_slide. unfold ztake, zdrop.
  rewrite !length_app, !length_take, !length_drop. lia.
Qed.

Lemma window_slide_upper (w : list Z) c :
  length w = Z.to_nat 65536 -> 0 <= c <= 32768 ->
  zdrop 32768 (memmove w 0 w c 32768) = zdrop 32768 w.
Proof.
  intros Hw Hc. rewrite memmove_slide.
  unfold zdrop at 1. apply drop_app_length'.
  unfold ztake, zdrop. rewrite length_take, length_drop. lia.
Qed.

Lemma window_slide_lower (w : list Z) c p :
  length w = Z.to_nat 65536 -> 0 <= c <= 32768 -> 0 <= p < 32768 ->
  rd (memmove w 0 w c 32768) p = rd w (c + p).
Proof.
  intros Hw Hc Hp. rewrite memmove_slide.
  rewrite rd_app_l by (rewrite ztake_length; [lia|rewrite zdrop_length; lia]).
  rewrite rd_ztake by lia. apply rd_zdrop; lia.
Qed.

(** ** The match search, symbol by symbol *)

Lemma fixed_code_length n : (7 <= length (fixed_code n))%nat.
Proof.
  unfold fixed_code.
  destruct (n <=? 143); [|destruct (n <=? 255); [|destruct (n <=? 279)]];
    rewrite bits_msb_length; lia.
Qed.

Lemma match_bits_length len d : (7 <= length (match_bits len d))%nat.
Proof.
  unfold match_bits. rewrite length_app. pose proof (fixed_code_length
    (code_index (length lengthc) lengthc len 0 + 257)). lia.
Qed.

Lemma scan_chain_match (no_sse : bool) (w : list Z) i data_len :
  forall hlist best0 loc0 best loc,
    scan_chain no_sse w i data_len hlist best0 loc0 = (best, Some loc) ->
    (loc0 = Some loc /\ best = best0)
    \/ (loc ∈ hlist /\ i < loc
        /\ best = zw__zlib_countm no_sse (zdrop loc w) (zdrop (32768 + i) w) (data_len - i)).
Proof.
  induction hlist as [|e hlist IH]; intros best0 loc0 best loc; cbn [scan_chain].
  - intros [= <- <-]. left. split; reflexivity.
  - destruct (Z.ltb_spec i e) as [Hlt|Hge].
    + destruct (best0 <=? _).
      * intros H. destruct (IH _ _ _ _ H) as [[[= <-] ->]|(H1 & H2 & H3)].
        -- right. split; [left|split; [exact Hlt|reflexivity]].
        -- right. split; [right; exact H1|split; assumption].
      * intros H. destruct (IH _ _ _ _ H) as [H1|(H1 & H2 & H3)]; [left; exact H1|].
        right. split; [right; exact H1|split; assumption].
    + intros H. destruct (IH _ _ _ _ H) as [H1|(H1 & H2 & H3)]; [left; exact H1|].
      right. split; [right; exact H1|split; assumption].
Qed.

Section SearchTokens.

Context {U : Type} (no_sse : bool).
Implicit Types a : zw__zip_details U.

Lemma entries_sat_lookup (P : Z -> Prop) a h e :
  entries_sat P a -> e ∈ sb_items (hash_table a !! h) -> P e.
Proof.
  intros Hb. destruct (hash_table a !! h) as [s|] eqn:E; cbn [sb_items]; [|inversion 1].
  specialize (Hb h s E). cbn beta in Hb. rewrite Forall_forall in Hb. apply Hb.
Qed.

Lemma entries_sat_impl (P Q : Z -> Prop) a (b : zw__zip_details U) :
  (forall e, P e -> Q e) -> hash_table b = hash_table a ->
  entries_sat P a -> entries_sat Q b.
Proof.
  intros HPQ Hh Ha. unfold entries_sat. rewrite Hh.
  eapply map_Forall_impl; [exact Ha|]. intros h s Hs. cbn beta in *.
  eapply Forall_impl; [exact Hs|]. exact HPQ.
Qed.

Lemma flush_input_step_entries (P : Z -> Prop) data_len a i :
  quality a = 8 -> entries_sat P a -> P (u16 (i + 32768)) ->
  entries_sat P (fst (flush_input_step no_sse data_len a i)).
Proof.
  intros Hq Hent Hv.
  destruct (flush_input_step_spec no_sse data_len a i) as (h & Hh & _ & _).
  unfold entries_sat. rewrite Hh. apply map_Forall_insert_2; [|exact Hent].
  rewrite hash_insert_items by lia. apply Forall_app. split.
  - assert (Hold : Forall P (sb_items (hash_table a !! h))).
    { apply Forall_forall. intros e He. exact (entries_sat_lookup P a h e Hent He). }
    destruct (_ =? _); [unfold zdrop; apply Forall_drop|]; exact Hold.
  - constructor; [exact Hv|constructor].
Qed.

Lemma writer_ok_set_hash_table v a : writer_ok a -> writer_ok (set_hash_table v a).
Proof. exact id. Qed.

Lemma flush_input_step_tokens (E : list Z) data_len a i :
  writer_ok a -> quality a = 8 -> length (window a) = Z.to_nat 65536 ->
  0 <= i < data_len - 3 -> data_len <= 32768 ->
  hist_ok (window a) E ->
  entries_sat (entry_in (32768 + i) (Z.of_nat (length E))) a ->
  (forall p, 32768 <= p < 32768 + data_len -> byte (rd (window a) p)) ->
  let a' := fst (flush_input_step no_sse data_len a i) in
  let i' := snd (flush_input_step no_sse data_len a i) in
  writer_ok a' /\ i < i' <= data_len
  /\ entries_sat (entry_in (32768 + i') (Z.of_nat (length E))) a'
  /\ u64 (lag a') = u64 (lag a)
  /\ exists bits,
       bitstream a' = bitstream a ++ bits
       /\ decodes bits (decoded (window a) E i) (decoded (window a) E i') 1
       /\ (1 <= length bits)%nat.
Proof.
  intros Hw Hq Hwl Hi Hlen Hhist Hent Hbytes a' i'.
  pose proof (flush_input_step_advances no_sse data_len a i Hi Hlen) as Hadv.
  fold i' in Hadv.
  assert (Hent' : entries_sat (entry_in (32768 + i') (Z.of_nat (length E))) a').
  { apply flush_input_step_entries; [exact Hq| |].
    - eapply entries_sat_impl; [|reflexivity|exact Hent].
      intros e [H1 H2]. split; lia.
    - rewrite u16_small by lia. split; lia. }
  split; [|split; [exact Hadv|split; [exact Hent'|]]]; clear Hent'.
  all: subst a' i'; unfold flush_input_step in *.
  all: set (h := Z.land (zw__zhash (zdrop (32768 + i) (window a))) (zw__hash_size - 1)) in *.
  all: destruct (scan_chain no_sse (window a) i data_len (sb_items (hash_table a !! h)) 3 None)
         as [best bestloc] eqn:Esc.
  all: set (b := set_hash_table _ a) in *.
  all: assert (Hb : writer_ok b) by exact Hw.
  all: assert (Hsb : bitstream b = bitstream a) by reflexivity.
  all: assert (Hlb : lag b = lag a) by reflexivity.
  all: assert (Hwb : window b = window a) by reflexivity.
  all: clearbody b.
  all: assert (Hlit : forall x : zw__zip_details U * Z,
         x = (zw__zlib_huffb (rd (window a) (32768 + i)) b, u16 (i + 1)) ->
         writer_ok (fst x)
         /\ (u64 (lag (fst x)) = u64 (lag a)
             /\ exists bits, bitstream (fst x) = bitstream a ++ bits
                  /\ decodes bits (decoded (window a) E i) (decoded (window a) E (snd x)) 1
                  /\ (1 <= length bits)%nat)).
  all: try (intros x ->; cbn [fst snd];
         destruct (zlib_huffb_stream (rd (window a) (32768 + i)) b Hb) as (K1 & K2 & K3);
           [apply Hbytes; lia|];
         split; [exact K1|]; split; [congruence|];
         exists (fixed_code (rd (window a) (32768 + i))); split; [congruence|];
         split; [|pose proof (fixed_code_length (rd (window a) (32768 + i))); lia];
         rewrite u16_small by lia; rewrite (decoded_snoc _ _ Hwl) by lia;
         apply decodes_literal; apply Hbytes; lia).
  all: destruct bestloc as [loc|];
         [destruct (lazy_scan _ _ _ _ _ _) eqn:Elz|];
         try (destruct (Hlit _ eq_refl) as (K1 & K2); first [exact K1|exact K2]).
  all: cbn [fst snd].
  all: destruct (scan_chain_match _ _ _ _ _ _ _ _ _ Esc) as [[H _]|(Hin & Hloc & Hbest)];
         [discriminate|].
  all: destruct (entries_sat_lookup _ a h loc Hent Hin) as [Hl1 Hl2].
  all: pose proof (scan_chain_best no_sse (window a) i data_len ltac:(lia) _ 3 None best
                     (Some loc) ltac:(lia) Esc) as Hb258.
  all: pose proof (scan_chain_within no_sse (window a) i data_len ltac:(lia) _ 3 None best
                     (Some loc) ltac:(lia) Esc) as Hbw.
  all: rewrite (u16_small (32768 + i - loc)) by lia.
  all: destruct (emit_match_stream best (32768 + i - loc) b Hb) as (K1 & K2 & K3);
         [lia|lia|].
  - exact K1.
  - split; [congruence|]. exists (match_bits best (32768 + i - loc)).
    split; [congruence|]. split; [|pose proof (match_bits_length best (32768 + i - loc)); lia].
    rewrite u16_small by lia.
    replace best with (Z.of_nat (Z.to_nat best)) at 2 by lia.
    rewrite <- (lz_copy_decoded (window a) E Hwl Hhist (Z.to_nat best) i loc); try lia.
    + apply decodes_match; [lia|lia|].
      rewrite (decoded_length _ _ Hwl) by lia. lia.
    + intros k Hk.
      pose proof (countm_first_mismatch no_sse (zdrop loc (window a))
                    (zdrop (32768 + i) (window a)) (data_len - i) ltac:(lia)) as (_ & Hm & _).
      rewrite <- Hbest in Hm. specialize (Hm k ltac:(lia)).
      rewrite !rd_zdrop in Hm by lia. exact Hm.
Qed.

Lemma flush_input_loop_tokens (E : list Z) data_len n : forall a i,
  writer_ok a -> quality a = 8 -> length (window a) = Z.to_nat 65536 ->
  0 <= i <= data_len -> data_len <= 32768 ->
  hist_ok (window a) E ->
  entries_sat (entry_in (32768 + i) (Z.of_nat (length E))) a ->
  (forall p, 32768 <= p < 32768 + data_len -> byte (rd (window a) p)) ->
  let a' := fst (flush_input_loop no_sse n data_len a i) in
  let i' := snd (flush_input_loop no_sse n data_len a i) in
  writer_ok a' /\ i <= i' <= data_len
  /\ entries_sat (entry_in (32768 + i') (Z.of_nat (length E))) a'
  /\ u64 (lag a') = u64 (lag a)
  /\ exists bits m,
       bitstream a' = bitstream a ++ bits
       /\ decodes bits (decoded (window a) E i) (decoded (window a) E i') m
       /\ (m <= length bits)%nat.
Proof.
  induction n as [|n IH]; intros a i Hw Hq Hwl Hi Hlen Hhist Hent Hbytes; cbv zeta.
  - cbn [flush_input_loop fst snd]. split; [exact Hw|]. split; [lia|].
    split; [exact Hent|]. split; [reflexivity|]. exists [], O.
    rewrite app_nil_r. split; [reflexivity|]. split; [apply decodes_nil|cbn; lia].
  - cbn [flush_input_loop]. destruct (Z.ltb_spec i (data_len - 3)) as [Hlt|Hge].
    2:{ cbn [fst snd]. split; [exact Hw|]. split; [lia|].
        split; [exact Hent|]. split; [reflexivity|]. exists [], O.
        rewrite app_nil_r. split; [reflexivity|]. split; [apply decodes_nil|cbn; lia]. }
    destruct (flush_input_step_tokens E data_len a i Hw Hq Hwl ltac:(lia) Hlen Hhist Hent
                Hbytes) as (W1 & Hadv & He1 & L1 & bits1 & S1 & D1 & N1).
    destruct (flush_input_step_spec no_sse data_len a i) as (h & _ & Hf & _).
    destruct (flush_input_step no_sse data_len a i) as [a1 i1]. cbn [fst snd] in *.
    assert (Hq1 : quality a1 = 8)
      by (rewrite (layout_quality _ _ (search_frame_layout _ _ Hf)); exact Hq).
    assert (Hw1 : window a1 = window a).
    { unfold search_frame in Hf.
      exact (f_equal (fun t => snd (fst (fst t))) Hf). }
    destruct (IH a1 i1 W1 Hq1) as (W2 & Hi2 & He2 & L2 & bits2 & m2 & S2 & D2 & N2);
      try (rewrite Hw1; assumption); try lia; try assumption.
    split; [exact W2|]. split; [lia|]. split; [exact He2|]. split; [congruence|].
    exists (bits1 ++ bits2), (1 + m2)%nat.
    split; [rewrite S2, S1, app_assoc; reflexivity|]. split.
    + rewrite Hw1 in D2. exact (decodes_app _ _ _ _ _ _ _ D1 D2).
    + rewrite length_app. lia.
Qed.

Lemma literal_tail_tokens (E w : list Z) (n : nat) : forall a i,
  writer_ok a -> window a = w -> length w = Z.to_nat 65536 ->
  0 <= i -> i + Z.of_nat n <= 32768 ->
  (forall p, 32768 + i <= p < 32768 + i + Z.of_nat n -> byte (rd w p)) ->
  let a' := foldl (fun a k => zw__zlib_huffb (rd (window a) (32768 + k)) a) a
              (seqZ i (Z.of_nat n)) in
  writer_ok a' /\ u64 (lag a') = u64 (lag a)
  /\ exists bits m,
       bitstream a' = bitstream a ++ bits
       /\ decodes bits (decoded w E i) (decoded w E (i + Z.of_nat n)) m
       /\ (m <= length bits)%nat.
Proof.
  induction n as [|n IH]; intros a i Hw Hwin Hwl Hi Hn Hbytes; cbv zeta.
  - cbn [Z.of_nat seqZ]. change (seqZ i 0) with (@nil Z). cbn [foldl].
    split; [exact Hw|]. split; [reflexivity|]. exists [], O.
    rewrite app_nil_r, Z.add_0_r. split; [reflexivity|]. split; [apply decodes_nil|cbn; lia].
  - rewrite seqZ_cons by lia. cbn [foldl]. rewrite Hwin.
    destruct (zlib_huffb_stream (rd w (32768 + i)) a Hw) as (K1 & K2 & K3);
      [apply Hbytes; lia|].
    destruct (zlib_huffb_emits (rd w (32768 + i)) a) as [Hf _].
    set (a1 := zw__zlib_huffb (rd w (32768 + i)) a) in *. clearbody a1.
    assert (Hwin1 : window a1 = w).
    { rewrite <- Hwin. unfold enc_frame in Hf.
      exact (f_equal (fun t => snd (fst (fst (fst (fst (fst t)))))) Hf). }
    replace (Z.pred (Z.of_nat (S n))) with (Z.of_nat n) by lia.
    destruct (IH a1 (Z.succ i) K1 Hwin1 Hwl ltac:(lia) ltac:(lia))
      as (W2 & L2 & bits2 & m2 & S2 & D2 & N2).
    { intros p Hp. apply Hbytes. lia. }
    split; [exact W2|]. split; [congruence|].
    exists (fixed_code (rd w (32768 + i)) ++ bits2), (1 + m2)%nat.
    split; [rewrite S2, K2, app_assoc; reflexivity|]. split.
    + replace (i + Z.of_nat (S n)) with (Z.succ i + Z.of_nat n) by lia.
      refine (decodes_app _ _ _ _ _ _ _ _ D2).
      unfold Z.succ. rewrite (decoded_snoc _ _ Hwl) by lia.
      apply decodes_literal. apply Hbytes. lia.
    + rewrite length_app. pose proof (fixed_code_length (rd w (32768 + i))). lia.
Qed.

(** One flush: the block is encoded, the window slides over it, and the
    counters take it in. *)
Lemma flush_input_member (E : list Z) a :
  writer_ok a -> quality a = 8 -> length (window a) = Z.to_nat 65536 ->
  0 <= in_cursor a <= 32768 ->
  hist_ok (window a) E ->
  entries_sat (entry_in 32768 (Z.of_nat (length E))) a ->
  Forall byte (ztake (in_cursor a) (zdrop 32768 (window a))) ->
  crc (current_file a) = zw__crc32 E 0 ->
  uncompressed_size (current_file a) = u64 (Z.of_nat (length E)) ->
  let a' := zw__flush_input no_sse a in
  let E' := E ++ ztake (in_cursor a) (zdrop 32768 (window a)) in
  writer_ok a' /\ in_cursor a' = 0 /\ length (window a') = Z.to_nat 65536
  /\ hist_ok (window a') E'
  /\ entries_sat (entry_in 32768 (Z.of_nat (length E'))) a'
  /\ u64 (lag a') = u64 (lag a)
  /\ crc (current_file a') = zw__crc32 E' 0
  /\ uncompressed_size (current_file a') = u64 (Z.of_nat (length E'))
  /\ exists bits m,
       bitstream a' = bitstream a ++ bits /\ decodes bits E E' m
       /\ (m <= length bits)%nat.
Proof.
  intros Hw Hq Hwl Hc Hhist Hent Hbytes Hcrc Hus. cbv zeta.
  unfold zw__flush_input. destruct (Z.eqb_spec (in_cursor a) 0) as [H0|H0].
  - rewrite H0. unfold ztake. cbn [Z.to_nat take]. rewrite app_nil_r.
    split; [exact Hw|]. split; [reflexivity|]. split; [exact Hwl|]. split; [exact Hhist|].
    split; [exact Hent|]. split; [reflexivity|]. split; [exact Hcrc|]. split; [exact Hus|].
    exists [], O. rewrite app_nil_r.
    split; [reflexivity|]. split; [apply decodes_nil|cbn; lia].
  - set (c := in_cursor a) in *. set (w := window a) in *.
    assert (Hb : forall p, 32768 <= p < 32768 + c -> byte (rd w p)).
    { intros p Hp. rewrite Forall_forall in Hbytes.
      replace (rd w p) with (rd (ztake c (zdrop 32768 w)) (p - 32768)).
      - apply Hbytes. apply list_elem_of_In. apply nth_In.
        assert (Z.of_nat (length (ztake c (zdrop 32768 w))) = c)
          by (apply ztake_length; rewrite zdrop_length by lia; lia).
        lia.
      - rewrite rd_ztake by lia. rewrite rd_zdrop by lia. f_equal. lia. }
    destruct (flush_input_loop_tokens E c (Z.to_nat c) a 0 Hw Hq Hwl ltac:(lia) ltac:(lia)
                Hhist Hent Hb) as (W1 & Hi1 & He1 & L1 & bits1 & m1 & S1 & D1 & N1).
    pose proof (flush_input_loop_exits no_sse c (Z.to_nat c) a 0 ltac:(lia) ltac:(lia)
                  ltac:(lia)) as [_ Hex].
    destruct (flush_input_loop_frame no_sse c (Z.to_nat c) a 0) as [Hf _].
    destruct (flush_input_loop no_sse (Z.to_nat c) c a 0) as [a1 i1]. cbn [fst snd] in *.
    assert (Hw1 : window a1 = w)
      by exact (f_equal (fun t => snd (fst (fst t))) Hf).
    assert (Hc1 : in_cursor a1 = c)
      by exact (f_equal (fun t => snd (fst (fst (fst t)))) Hf).
    assert (Hcf1 : crc (current_file a1) = crc (current_file a))
      by exact (f_equal snd Hf).
    assert (Hus1 : uncompressed_size (current_file a1) = uncompressed_size (current_file a))
      by exact (f_equal (fun t => snd (fst t)) Hf).
    replace (c - i1) with (Z.of_nat (Z.to_nat (c - i1))) by lia.
    destruct (literal_tail_tokens E w (Z.to_nat (c - i1)) a1 i1 W1 Hw1 Hwl ltac:(lia)
                ltac:(lia)) as (W2 & L2 & bits2 & m2 & S2 & D2 & N2).
    { intros p Hp. apply Hb. lia. }
    destruct (literal_tail_emits (seqZ i1 (Z.of_nat (Z.to_nat (c - i1)))) a1) as [Hf2 _].
    set (a2 := foldl _ a1 _) in *. clearbody a2.
    assert (Hw2 : window a2 = w).
    { rewrite <- Hw1. exact (f_equal (fun t => snd (fst (fst (fst (fst (fst t)))))) Hf2). }
    assert (Hc2 : in_cursor a2 = c).
    { rewrite <- Hc1. exact (f_equal (fun t => snd (fst (fst (fst (fst (fst (fst t))))))) Hf2). }
    assert (Hh2 : hash_table a2 = hash_table a1) by exact (enc_frame_hash_table _ _ Hf2).
    assert (Hcf2 : crc (current_file a2) = crc (current_file a)).
    { rewrite <- Hcf1. unfold enc_frame in Hf2.
      exact (f_equal (fun t => snd (fst (fst (fst (snd t))))) Hf2). }
    assert (Hus2 : uncompressed_size (current_file a2) = uncompressed_size (current_file a)).
    { rewrite <- Hus1. unfold enc_frame in Hf2.
      exact (f_equal (fun t => snd (fst (fst (fst (fst (snd t)))))) Hf2). }
    replace (i1 + Z.of_nat (Z.to_nat (c - i1))) with c in D2 by lia.
    assert (Hlen' : Z.of_nat (length (E ++ ztake c (zdrop 32768 w)))
                    = Z.of_nat (length E) + c).
    { exact (decoded_length w E Hwl c ltac:(lia)). }
    cbn [in_cursor window current_file hash_table set_in_cursor set_current_file
         set_window set_hash_table crc uncompressed_size set_crc set_uncompressed_size].
    rewrite Hw2, Hc2.
    split; [exact W2|]. split; [reflexivity|].
    split; [apply window_slide_length; [exact Hwl|lia]|].
    split; [|split; [|split; [|split; [|split]]]].
    + intros p Hp Hh. rewrite window_slide_lower by (try exact Hwl; lia).
      rewrite Hlen' in Hh |- *.
      pose proof (decoded_rd w E Hwl Hhist c (c + p) ltac:(lia) ltac:(lia) ltac:(lia)) as Hrd.
      unfold decoded in Hrd. rewrite <- Hrd. f_equal. lia.
    + unfold entries_sat.
      cbn [hash_table set_in_cursor set_current_file set_window set_hash_table].
      apply map_Forall_fmap. rewrite Hh2.
      eapply map_Forall_impl; [exact He1|]. intros h s Hs. unfold compose.
      cbn [slide_chain sbitems]. eapply slide_items_sat; [|exact Hs].
      intros e [H1 H2] Hce. rewrite Hlen'. rewrite u16_small by lia. split; lia.
    + unfold lag in *.
      cbn [current_file log set_in_cursor set_current_file set_window set_hash_table
           compressed_size set_crc set_uncompressed_size]. congruence.
    + rewrite window_slide_upper by (try exact Hwl; lia).
      rewrite Hcf2, Hcrc. symmetry. apply crc32_app.
    + rewrite Hus2, Hus, Hlen'. apply u64_add_l.
    + exists (bits1 ++ bits2), (m1 + m2)%nat.
      split; [|split].
      * unfold bitstream in *.
        cbn [log out_cursor out bitbuf bitcount set_in_cursor set_current_file set_window
             set_hash_table]. unfold bitstream in S2. rewrite S2, S1, app_assoc. reflexivity.
      * unfold decoded in D1 at 1. unfold ztake in D1 at 1. cbn [Z.to_nat take] in D1.
        rewrite app_nil_r in D1. exact (decodes_app _ _ _ _ _ _ _ D1 D2).
      * rewrite length_app. lia.
Qed.

End SearchTokens.

(** ** The window keeps its size *)

Section Window.

Context {U : Type} (no_sse : bool).
Implicit Types a : zw__zip_details U.

Lemma enc_frame_window a (b : zw__zip_details U) :
  enc_frame b = enc_frame a -> window b = window a.
Proof.
  unfold enc_frame. intros H.
  exact (f_equal (fun t => snd (fst (fst (fst (fst (fst t)))))) H).
Qed.

Lemma enc_frame_in_cursor a (b : zw__zip_details U) :
  enc_frame b = enc_frame a -> in_cursor b = in_cursor a.
Proof.
  unfold enc_frame. intros H.
  exact (f_equal (fun t => snd (fst (fst (fst (fst (fst (fst t))))))) H).
Qed.

Lemma flush_input_window_length a :
  0 <= in_cursor a <= 32768 -> length (window a) = Z.to_nat 65536 ->
  length (window (zw__flush_input no_sse a)) = Z.to_nat 65536.
Proof.
  intros Hc Hwl. unfold zw__flush_input. destruct (in_cursor a =? 0); [exact Hwl|].
  destruct (flush_input_loop_frame no_sse (in_cursor a) (Z.to_nat (in_cursor a)) a 0)
    as [Hf _].
  destruct (flush_input_loop no_sse (Z.to_nat (in_cursor a)) (in_cursor a) a 0) as [a1 i1].
  cbn [fst] in Hf.
  destruct (literal_tail_emits (seqZ i1 (in_cursor a - i1)) a1) as [Hf2 _].
  set (a2 := foldl _ a1 _) in *. clearbody a2.
  assert (Hw2 : window a2 = window a).
  { rewrite (enc_frame_window _ _ Hf2). exact (f_equal (fun t => snd (fst (fst t))) Hf). }
  assert (Hc2 : in_cursor a2 = in_cursor a).
  { rewrite (enc_frame_in_cursor _ _ Hf2).
    exact (f_equal (fun t => snd (fst (fst (fst t)))) Hf). }
  cbn [window set_in_cursor set_current_file set_window set_hash_table in_cursor].
  rewrite Hw2, Hc2. apply window_slide_length; assumption.
Qed.

Lemma emits_window_length a (b : zw__zip_details U) :
  emits a b -> length (window a) = Z.to_nat 65536 -> length (window b) = Z.to_nat 65536.
Proof. intros [Hf _] H. rewrite (enc_frame_window _ _ Hf). exact H. Qed.

Lemma end_file_window_length a :
  session_ok a -> length (window a) = Z.to_nat 65536 ->
  length (window (snd (zw__zip_end_file no_sse a))) = Z.to_nat 65536.
Proof.
  intros Hok Hwl. unfold zw__zip_end_file.
  destruct (name_length (current_file a) =? 0); [exact Hwl|].
  assert (H1 : length (window (zw__flush_input no_sse a)) = Z.to_nat 65536).
  { destruct Hok as (_ & _ & _ & _ & Hc & _). apply flush_input_window_length; [lia|exact Hwl]. }
  set (a1 := zw__flush_input no_sse a) in *. clearbody a1.
  assert (H4 : length (window (zw__flush_compressed_bytes (pad_bits 8 (zw__zlib_huff 256 a1))))
               = Z.to_nat 65536).
  { eapply emits_window_length; [apply flush_compressed_bytes_emits|].
    eapply emits_window_length; [apply pad_bits_emits|].
    eapply emits_window_length; [apply zlib_huff_emits|]. exact H1. }
  set (a4 := zw__flush_compressed_bytes _) in *. clearbody a4.
  match goal with |- context [zw__write_to_stream a4 ?d] =>
    pose proof (emits_window_length _ _ (write_to_stream_emits a4 d) H4) as Hw;
    destruct (zw__write_to_stream a4 d) as [[|] a5] end; cbn [snd] in *; [exact Hw|].
  unfold zw__append_to_central_dir.
  repeat match goal with |- context [if ?c then _ else _] => destruct c end;
    cbn [snd window set_central_dir set_current_file]; exact Hw.
Qed.

Lemma begin_file_window_length a file_path r a' :
  session_ok a -> length (window a) = Z.to_nat 65536 ->
  zw_begin_file no_sse (Some a) file_path = (r, Some a') ->
  length (window a') = Z.to_nat 65536.
Proof.
  intros Hok Hwl. unfold zw_begin_file.
  pose proof (end_file_window_length a Hok Hwl) as H0.
  set (a0 := snd (zw__zip_end_file no_sse a)) in *. clearbody a0.
  destruct file_path as [[|c file_path]|]; [congruence| |congruence].
  match goal with |- context [zw__write_to_stream a0 ?d] =>
    pose proof (emits_window_length _ _ (write_to_stream_emits a0 d) H0) as H1;
    destruct (zw__write_to_stream a0 d) as [[|] a1] end; cbn [snd] in *;
    [congruence|].
  match goal with |- context [zw__write_to_stream a1 ?d] =>
    pose proof (emits_window_length _ _ (write_to_stream_emits a1 d) H1) as H2;
    destruct (zw__write_to_stream a1 d) as [[|] a2] end; cbn [snd] in *;
    [congruence|].
  intros E. injection E as _ <-.
  eapply emits_window_length; [apply zlib_add_emits|].
  eapply emits_window_length; [apply zlib_add_emits|].
  destruct (negb (num_files a2 =? 0)); exact H2.
Qed.

(** Copying a batch into the upper half of the window. *)
Lemma window_copy_length (w data : list Z) c b :
  length w = Z.to_nat 65536 -> 0 <= c -> 0 <= b <= Z.of_nat (length data) ->
  c + b <= 32768 ->
  length (memmove w (32768 + c) data 0 b) = Z.to_nat 65536.
Proof.
  intros Hw Hc Hb Hcb. unfold memmove, ztake, zdrop.
  rewrite !length_app, !length_take, !length_drop. lia.
Qed.

Lemma write_loop_window_length n : forall a (data : list Z),
  session_ok a -> length (window a) = Z.to_nat 65536 ->
  length (window (fst (write_loop no_sse n a data))) = Z.to_nat 65536.
Proof.
  induction n as [|n IH]; intros a data Hok Hwl; [exact Hwl|].
  cbn [write_loop]. destruct (Z.ltb_spec 0 (Z.of_nat (length data))) as [Hlen|Hlen];
    [|exact Hwl].
  pose proof Hok as (Hq & Hi & Ho & Hl & Hc & Hch).
  rewrite Hi. rewrite (u16_small (32768 - in_cursor a)) by lia.
  set (batch := if Z.of_nat (length data) <? 32768 - in_cursor a
                then u16 (Z.of_nat (length data)) else 32768 - in_cursor a).
  assert (Hb : 1 <= batch <= 32768 - in_cursor a /\ batch <= Z.of_nat (length data)).
  { unfold batch. destruct (Z.ltb_spec (Z.of_nat (length data)) (32768 - in_cursor a));
      [rewrite u16_small by lia|]; lia. }
  cbn [in_cursor in_total set_in_cursor set_window].
  rewrite Hi. rewrite (u16_small (in_cursor a + batch)) by lia.
  assert (Hwl' : length (memmove (window a) (32768 + in_cursor a) data 0 batch)
                 = Z.to_nat 65536) by (apply window_copy_length; lia).
  destruct (Z.eqb_spec (in_cursor a + batch) 32768) as [He|Hne].
  - apply IH.
    + apply flush_input_session_ok; assumption.
    + apply flush_input_window_length; [cbn; lia|exact Hwl'].
  - apply IH; [|exact Hwl'].
    unfold session_ok, chains_bounded. cbn. repeat split; try assumption; lia.
Qed.

Lemma create_ex_window_length options local (a : zw__zip_details U) :
  zw_create_ex options local = Some a -> length (window a) = Z.to_nat 65536.
Proof.
  unfold zw_create_ex. destruct options as [o|]; [|congruence].
  destruct (write (opt_stream o)); [|congruence].
  intros E.
  apply (f_equal (from_option (fun a => length (window a)) (Z.to_nat 65536))) in E.
  cbn [from_option window] in E. rewrite <- E. apply repeat_length.
Qed.

Lemma finish_window_length a r a' :
  session_ok a -> length (window a) = Z.to_nat 65536 ->
  zw_finish no_sse (Some a) = (r, Some a') -> length (window a') = Z.to_nat 65536.
Proof.
  intros Hok Hwl. rewrite finish_unfold. cbv zeta.
  pose proof (end_file_window_length a Hok Hwl) as H0.
  set (a0 := set_hash_table ∅ (snd (zw__zip_end_file no_sse a))).
  assert (Hh : length (window a0) = Z.to_nat 65536) by exact H0. clearbody a0. clear H0.
  assert (Htail : forall res x r a', length (window x) = Z.to_nat 65536 ->
            finish_tail res x = (r, Some a') -> length (window a') = Z.to_nat 65536).
  { intros res x r0 x' Hx. unfold finish_tail. destruct (close (stream x)) as [f|].
    - destruct (f _ _) as [u e]. intros [= _ <-]. exact Hx.
    - intros [= _ <-]. exact Hx. }
  pose proof (emits_window_length _ _ (write_to_stream_emits a0 (sb_items (central_dir a0))) Hh)
    as H1.
  destruct (zw__write_to_stream a0 (sb_items (central_dir a0))) as [r1 a1].
  cbn [fst snd] in *.
  assert (Hc1 : length (window (set_central_dir None a1)) = Z.to_nat 65536) by exact H1.
  set (c1 := set_central_dir None a1) in *. clearbody c1.
  destruct r1.
  - match goal with |- context [zw__write_to_stream c1 ?d] =>
      pose proof (emits_window_length _ _ (write_to_stream_emits c1 d) Hc1) as H3;
      destruct (zw__write_to_stream c1 d) as [r3 a3] end.
    cbn [snd] in *. apply Htail. exact H3.
  - match goal with |- context [zw__write_to_stream c1 ?d] =>
      pose proof (emits_window_length _ _ (write_to_stream_emits c1 d) Hc1) as H2;
      destruct (zw__write_to_stream c1 d) as [r2 a2] end.
    cbn [fst snd] in *.
    match goal with |- context [zw__write_to_stream a2 ?d] =>
      pose proof (emits_window_length _ _ (write_to_stream_emits a2 d) H2) as H3;
      destruct (zw__write_to_stream a2 d) as [r3 a3] end.
    cbn [fst snd] in *.
    destruct r2, r3; try (apply Htail; exact H3).
    pose proof (emits_window_length _ _
                  (write_to_stream_emits a3 end_of_central_dir_bytes) H3) as H4.
    destruct (zw__write_to_stream a3 end_of_central_dir_bytes) as [r4 a4].
    cbn [fst snd] in *. destruct r4.
    + intros [= <- <-]. exact H4.
    + apply Htail. exact H4.
Qed.

Lemma reachable_window_length a :
  reachable no_sse a -> length (window a) = Z.to_nat 65536.
Proof.
  induction 1 as [options local a Hc|a path r a' Hr IH Hb|a data r a' Hr IH Hw
                 |a r a' Hr IH Hf].
  - exact (create_ex_window_length options local a Hc).
  - exact (begin_file_window_length a path r a' (reachable_session_ok no_sse a Hr) IH Hb).
  - revert Hw. unfold zw_write. destruct (num_files a =? 0); intros [= _ <-]; [exact IH|].
    apply write_loop_window_length; [exact (reachable_session_ok no_sse a Hr)|exact IH].
  - exact (finish_window_length a r a' (reachable_session_ok no_sse a Hr) IH Hf).
Qed.

End Window.

(** ** A member while it is written *)

Lemma copy_pending_gen (w data : list Z) (h c b : nat) :
  (h + c + b <= length w)%nat -> (b <= length data)%nat ->
  take (c + b) (drop h (take (h + c) w ++ take b data ++ drop (h + c + b) w))
  = take c (drop h w) ++ take b data.
Proof.
  intros Hw Hd.
  rewrite drop_app_le by (rewrite length_take; lia).
  rewrite <- take_drop_commute.
  rewrite app_assoc. apply take_app_length'.
  rewrite length_app, !length_take, length_drop. lia.
Qed.

Lemma window_copy_pending (w data : list Z) c b :
  length w = Z.to_nat 65536 -> 0 <= c -> 0 <= b <= Z.of_nat (length data) ->
  c + b <= 32768 ->
  ztake (c + b) (zdrop 32768 (memmove w (32768 + c) data 0 b))
  = ztake c (zdrop 32768 w) ++ ztake b data.
Proof.
  intros Hw Hc Hb Hcb. unfold memmove, ztake, zdrop.
  change (Z.to_nat 0) with O. rewrite drop_0.
  replace (Z.to_nat (32768 + c)) with (Z.to_nat 32768 + Z.to_nat c)%nat by lia.
  replace (Z.to_nat (32768 + c + b)) with (Z.to_nat 32768 + Z.to_nat c + Z.to_nat b)%nat
    by lia.
  replace (Z.to_nat (c + b)) with (Z.to_nat c + Z.to_nat b)%nat by lia.
  apply copy_pending_gen; lia.
Qed.

Lemma window_copy_lower (w data : list Z) c b p :
  length w = Z.to_nat 65536 -> 0 <= c -> 0 <= p < 32768 + c -> c <= 32768 ->
  rd (memmove w (32768 + c) data 0 b) p = rd w p.
Proof.
  intros Hw Hc Hp Hc2. unfold memmove.
  rewrite rd_app_l by (rewrite ztake_length; lia).
  apply rd_ztake. lia.
Qed.

Section Member.

Context {U : Type} (no_sse : bool).
Implicit Types a : zw__zip_details U.

Lemma handed_prefix_keeps (B : list Z) a data :
  (exists body, handed (snd (sink_state a)) = B ++ body) ->
  exists body, handed (snd (sink_state (snd (zw__write_to_stream a data)))) = B ++ body.
Proof.
  unfold sink_state. cbn [snd]. intros [body Hb].
  destruct (write_to_stream_log a data) as [->|[w ->]].
  - exists body. exact Hb.
  - exists (body ++ ztake w data). rewrite handed_app, Hb. cbn [handed].
    rewrite app_nil_r, app_assoc. reflexivity.
Qed.

Lemma layout_name_length a (b : zw__zip_details U) :
  layout b = layout a -> name_length (current_file b) = name_length (current_file a).
Proof.
  unfold layout. intros H. exact (f_equal (fun t => snd (fst (fst (snd t)))) H).
Qed.

(** The state after a batch has been copied and, when it filled the window,
    flushed. *)
Lemma write_step_member (B E : list Z) a (data : list Z) batch :
  member_inv B E a -> Forall byte data ->
  1 <= batch <= 32768 - in_cursor a -> batch <= Z.of_nat (length data) ->
  let ac := set_in_cursor (in_cursor a + batch)
              (set_window (memmove (window a) (32768 + in_cursor a) data 0 batch) a) in
  let a' := if in_cursor ac =? in_total ac then zw__flush_input no_sse ac else ac in
  exists E', member_inv B E' a' /\ E' ++ pending a' = E ++ pending a ++ ztake batch data.
Proof.
  intros (Hw & Hq & Hit & Hc & Hwl & Hhist & Hent & Hby & Hcrc & Hus & Hlag & Hnl & Hpre
          & bits & m & Hst & Hdec & Hm) Hdata Hb1 Hb2 ac a'.
  assert (Hwl' : length (window ac) = Z.to_nat 65536)
    by (apply window_copy_length; lia).
  assert (Hpend : pending ac = pending a ++ ztake batch data)
    by (apply window_copy_pending; lia).
  assert (Hhist' : hist_ok (window ac) E).
  { intros p Hp Hh. cbn [ac window set_in_cursor set_window].
    rewrite window_copy_lower by lia. apply Hhist; assumption. }
  assert (Hby' : Forall byte (pending ac)).
  { rewrite Hpend. apply Forall_app. split; [exact Hby|].
    unfold ztake. apply Forall_take. exact Hdata. }
  assert (Hw' : writer_ok ac) by exact Hw.
  assert (Hq' : quality ac = 8) by exact Hq.
  assert (Hit' : in_total ac = 32768) by exact Hit.
  assert (Hc' : in_cursor ac = in_cursor a + batch) by reflexivity.
  assert (Hent' : entries_sat (entry_in 32768 (Z.of_nat (length E))) ac) by exact Hent.
  assert (Hcrc' : crc (current_file ac) = zw__crc32 E 0) by exact Hcrc.
  assert (Hus' : uncompressed_size (current_file ac) = u64 (Z.of_nat (length E))) by exact Hus.
  assert (Hlag' : u64 (lag ac) = u64 (- Z.of_nat (length B))) by exact Hlag.
  assert (Hnl' : name_length (current_file ac) <> 0) by exact Hnl.
  assert (Hpre' : exists body, handed (log ac) = B ++ body) by exact Hpre.
  assert (Hst' : bitstream ac = bytes_bits B ++ [true; true; false] ++ bits) by exact Hst.
  clearbody ac. subst a'. rewrite Hit', Hc'.
  destruct (Z.eqb_spec (in_cursor a + batch) 32768) as [Hfull|Hroom].
  - destruct (flush_input_member no_sse E ac Hw' Hq' Hwl' ltac:(lia) Hhist' Hent' Hby'
                Hcrc' Hus') as (W1 & C1 & L1 & H1 & E1 & G1 & R1 & S1 & bits1 & m1 & T1 & D1 & N1).
    destruct (flush_input_layout no_sse ac) as (Hlay & _ & _).
    fold (pending ac) in H1, E1, R1, S1, D1.
    exists (E ++ pending ac). split.
    + split; [exact W1|].
      split; [rewrite (layout_quality _ _ Hlay); exact Hq'|].
      split; [rewrite (layout_in_total _ _ Hlay); exact Hit'|].
      split; [lia|]. split; [exact L1|]. split; [exact H1|]. split; [exact E1|].
      split; [unfold pending; rewrite C1; constructor|].
      split; [exact R1|]. split; [exact S1|]. split; [rewrite G1; exact Hlag'|].
      split; [rewrite (layout_name_length _ _ Hlay); exact Hnl'|].
      split.
      * apply (flush_input_keeps (fun s => exists body, handed (snd s) = B ++ body)
                 (handed_prefix_keeps B) no_sse ac). exact Hpre'.
      * exists (bits ++ bits1), (m + m1)%nat. split; [|split].
        -- rewrite T1, Hst'. rewrite <- !app_assoc. reflexivity.
        -- exact (decodes_app _ _ _ _ _ _ _ Hdec D1).
        -- rewrite length_app. lia.
    + assert (Hnil : pending (zw__flush_input no_sse ac) = [])
        by (unfold pending; rewrite C1; reflexivity).
      rewrite Hnil, app_nil_r, Hpend, app_assoc. reflexivity.
  - exists E. split.
    + split; [exact Hw'|]. split; [exact Hq'|]. split; [exact Hit'|].
      split; [lia|]. split; [exact Hwl'|]. split; [exact Hhist'|].
      split; [exact Hent'|]. split; [exact Hby'|].
      split; [exact Hcrc'|]. split; [exact Hus'|]. split; [exact Hlag'|]. split; [exact Hnl'|].
      split; [exact Hpre'|]. exists bits, m. auto.
    + rewrite Hpend. reflexivity.
Qed.

Lemma write_loop_member (B : list Z) n : forall a (data E : list Z),
  member_inv B E a -> Forall byte data -> (length data <= n)%nat ->
  exists E',
    member_inv B E' (fst (write_loop no_sse n a data))
    /\ E' ++ pending (fst (write_loop no_sse n a data)) = E ++ pending a ++ data.
Proof.
  induction n as [|n IH]; intros a data E Hinv Hdata Hn.
  - destruct data; [|cbn in Hn; lia]. exists E. rewrite app_nil_r. auto.
  - cbn [write_loop]. destruct (Z.ltb_spec 0 (Z.of_nat (length data))) as [Hlen|Hlen].
    2:{ destruct data; [|cbn in Hlen; lia]. exists E. rewrite app_nil_r. auto. }
    pose proof Hinv as (_ & _ & Hit & Hc & _).
    rewrite Hit. rewrite (u16_small (32768 - in_cursor a)) by lia.
    set (batch := if Z.of_nat (length data) <? 32768 - in_cursor a
                  then u16 (Z.of_nat (length data)) else 32768 - in_cursor a).
    assert (Hb : 1 <= batch <= 32768 - in_cursor a /\ batch <= Z.of_nat (length data)).
    { unfold batch. destruct (Z.ltb_spec (Z.of_nat (length data)) (32768 - in_cursor a));
        [rewrite u16_small by lia|]; lia. }
    cbn [in_cursor in_total set_in_cursor set_window].
    rewrite (u16_small (in_cursor a + batch)) by lia.
    destruct (write_step_member B E a data batch Hinv Hdata ltac:(lia) ltac:(lia))
      as (E1 & Hinv1 & HE1).
    cbv zeta in Hinv1, HE1. cbn [in_cursor in_total set_in_cursor set_window] in Hinv1, HE1.
    match type of Hinv1 with member_inv _ _ ?x => set (a1 := x) in * end.
    destruct (IH a1 (zdrop batch data) E1 Hinv1) as (E2 & Hinv2 & HE2).
    { unfold zdrop. apply Forall_drop. exact Hdata. }
    { unfold zdrop. rewrite length_drop. lia. }
    exists E2. split; [exact Hinv2|].
    rewrite HE2, app_assoc, HE1, <- !app_assoc. do 2 f_equal.
    unfold ztake, zdrop. apply take_drop.
Qed.

End Member.

(** ** A member when it ends *)

Lemma le64_u64 x y : u64 x = u64 y -> le64 x = le64 y.
Proof. unfold le64. intros ->. reflexivity. Qed.

Lemma u64_idem x : u64 (u64 x) = u64 x.
Proof. unfold u64. apply Z.mod_mod. lia. Qed.

Lemma inflate_one_block bits (out : list Z) (m : nat) rest :
  decodes bits [] out m -> (m <= length bits)%nat ->
  inflate ([true; true; false] ++ bits ++ fixed_code 256 ++ rest) = Some out.
Proof.
  intros Hdec Hm. unfold inflate. cbn [app length inflate_blocks andb negb].
  pose proof (fixed_code_length 256) as H7.
  replace (length (bits ++ fixed_code 256 ++ rest))
    with (m + S (length bits - m + (length (fixed_code 256) - 1) + length rest))%nat
    by (rewrite !length_app; lia).
  rewrite Hdec, inflate_block_end. reflexivity.
Qed.

Section EndMember.

Context {U : Type} (no_sse : bool).
Implicit Types a : zw__zip_details U.

Lemma pad_bits_stream n : forall a,
  writer_ok a -> bitcount a = 0 \/ 8 - bitcount a <= Z.of_nat n ->
  let a' := pad_bits n a in
  writer_ok a' /\ bitcount a' = 0 /\ u64 (lag a') = u64 (lag a)
  /\ exists k, bitstream a' = bitstream a ++ repeat false k
       /\ Z.of_nat k = (if bitcount a =? 0 then 0 else 8 - bitcount a).
Proof.
  induction n as [|n IH]; intros a Hw Hn; cbv zeta.
  - cbn [pad_bits]. pose proof Hw as (_ & [Hbc _] & _).
    assert (H0 : bitcount a = 0) by lia.
    split; [exact Hw|]. split; [exact H0|]. split; [reflexivity|].
    exists 0%nat. rewrite H0, app_nil_r. split; reflexivity.
  - cbn [pad_bits]. destruct (Z.eqb_spec (bitcount a) 0) as [H0|Hne]; cbn [negb].
    + split; [exact Hw|]. split; [exact H0|]. split; [reflexivity|].
      exists 0%nat. rewrite app_nil_r. split; reflexivity.
    + pose proof Hw as (_ & [Hbc _] & _).
      destruct (zlib_add_stream 0 1 a Hw ltac:(lia) ltac:(lia)) as (W1 & S1 & L1 & C1).
      set (a1 := zw__zlib_add 0 1 a) in *. clearbody a1.
      assert (Hn1 : bitcount a1 = 0 \/ 8 - bitcount a1 <= Z.of_nat n).
      { rewrite C1. assert (Hcase : bitcount a = 7 \/ bitcount a < 7) by lia.
        destruct Hcase as [H7|Hlt].
        - left. rewrite H7. reflexivity.
        - right. rewrite Z.mod_small by lia. lia. }
      destruct (IH a1 W1 Hn1) as (W2 & C2 & L2 & k & S2 & Hk).
      split; [exact W2|]. split; [exact C2|]. split; [congruence|].
      exists (S k). split.
      * rewrite S2, S1, <- app_assoc. reflexivity.
      * rewrite C1 in Hk. assert (Hcase : bitcount a = 7 \/ bitcount a < 7) by lia.
        destruct Hcase as [H7|Hlt].
        -- rewrite H7 in Hk. change ((7 + 1) mod 8 =? 0) with true in Hk.
           cbv iota in Hk |- *. lia.
        -- rewrite Z.mod_small in Hk by lia. cbv iota.
           destruct (Z.eqb_spec (bitcount a + 1) 0); lia.
Qed.

Lemma sink_accepts_keeps a data :
  sink_accepts (fst (fst (sink_state a))) ->
  sink_accepts (fst (fst (sink_state (snd (zw__write_to_stream a data))))).
Proof.
  unfold sink_state. cbn [fst]. intros Hs.
  destruct (write_to_stream_accepted a data Hs) as (a' & -> & Hs' & _). exact Hs'.
Qed.

Lemma flush_compressed_bytes_stream a :
  writer_ok a ->
  let a' := zw__flush_compressed_bytes a in
  writer_ok a' /\ out_cursor a' = 0 /\ bitcount a' = bitcount a /\ bitbuf a' = bitbuf a
  /\ bitstream a' = bitstream a /\ u64 (lag a') = u64 (lag a).
Proof.
  intros (Hs & Hbits & Hot & Hlen & Hc). cbv zeta.
  destruct (flush_compressed_bytes_accepted a Hs ltac:(lia))
    as (Hs' & Hh & Hc' & Ho & Hbb & Hbc & Hot' & Hcs).
  set (a' := zw__flush_compressed_bytes a) in *. clearbody a'.
  split.
  { unfold writer_ok, bits_ok. rewrite Hbb, Hbc, Hot', Ho, Hc'.
    split; [exact Hs'|]. split; [exact Hbits|]. auto with zarith. }
  split; [exact Hc'|]. split; [exact Hbc|]. split; [exact Hbb|]. split.
  - unfold bitstream. rewrite Hh, Hc', Hbb, Hbc. unfold ztake at 2. cbn [Z.to_nat take].
    rewrite app_nil_r. reflexivity.
  - unfold lag. rewrite Hcs, Hh, length_app.
    assert (Hl : Z.of_nat (length (ztake (out_cursor a) (out a))) = out_cursor a)
      by (apply ztake_length; lia).
    rewrite Nat2Z.inj_add, Hl.
    destruct (Z.ltb_spec 0 (out_cursor a)).
    + apply u64_lag_step.
    + f_equal. lia.
Qed.

Lemma enc_frame_fields a (b : zw__zip_details U) :
  enc_frame b = enc_frame a ->
  quality b = quality a /\ in_total b = in_total a /\ in_cursor b = in_cursor a
  /\ window b = window a /\ num_files b = num_files a
  /\ time b = time a /\ date b = date a /\ central_dir b = central_dir a
  /\ start_offset (current_file b) = start_offset (current_file a)
  /\ uncompressed_size (current_file b) = uncompressed_size (current_file a)
  /\ crc (current_file b) = crc (current_file a)
  /\ name_length (current_file b) = name_length (current_file a)
  /\ name_heap (current_file b) = name_heap (current_file a)
  /\ name (current_file b) = name (current_file a).
Proof. unfold enc_frame. intros H. injection H. intros. repeat split; congruence. Qed.

Lemma layout_fields a (b : zw__zip_details U) :
  layout b = layout a ->
  quality b = quality a /\ in_total b = in_total a /\ num_files b = num_files a
  /\ time b = time a /\ date b = date a /\ central_dir b = central_dir a
  /\ start_offset (current_file b) = start_offset (current_file a)
  /\ name_length (current_file b) = name_length (current_file a)
  /\ name_heap (current_file b) = name_heap (current_file a)
  /\ name (current_file b) = name (current_file a).
Proof. unfold layout. intros H. injection H. intros. repeat split; congruence. Qed.

Lemma append_to_central_dir_other {X : Type} (f : zw__zip_details U -> X) a data :
  (forall cd x, f (set_central_dir cd x) = f x) ->
  f (snd (zw__append_to_central_dir a data)) = f a.
Proof.
  intros Hf. unfold zw__append_to_central_dir.
  destruct (Z.of_nat (length data) =? 0); cbn [snd]; [reflexivity|apply Hf].
Qed.

Lemma member_prefix_keeps (B : list Z) a (f : zw__zip_details U -> zw__zip_details U) :
  (forall x, (exists body, handed (snd (sink_state x)) = B ++ body) ->
             exists body, handed (snd (sink_state (f x))) = B ++ body) ->
  (exists body, handed (log a) = B ++ body) -> exists body, handed (log (f a)) = B ++ body.
Proof. intros H. exact (H a). Qed.

(** Ending a member on an accepting sink: the body the sink has taken
    inflates to the bytes written to the member, and the descriptor and the
    central directory record their CRC-32 and sizes. *)
Lemma end_file_member (B E : list Z) a :
  member_inv B E a ->
  let D := E ++ pending a in
  let desc := data_descriptor_bytes
                {| dd_crc := zw__crc32 D 0; dd_compressed_size := not32 0;
                   dd_uncompressed_size := not32 0 |} in
  exists body a',
    zw__zip_end_file no_sse a = (zw_true, a')
    /\ handed (log a') = B ++ body ++ desc
    /\ inflate (bytes_bits body) = Some D
    /\ sb_items (central_dir a')
       = sb_items (central_dir a)
         ++ central_dir_file_header_bytes (time a) (date a) (zw__crc32 D 0)
              (name_length (current_file a))
         ++ ztake (name_length (current_file a)) (name (current_file a))
         ++ info64_bytes (Z.of_nat (length D)) (Z.of_nat (length body))
              (start_offset (current_file a))
    /\ writer_ok a' /\ bitcount a' = 0 /\ out_cursor a' = 0
    /\ name_length (current_file a') = 0
    /\ layout a' = layout (set_central_dir (central_dir a')
                           (set_current_file (set_name_length 0 (current_file a)) a))
    /\ length (window a') = Z.to_nat 65536 /\ 0 <= in_cursor a' < 32768
    /\ (exists bits m k,
          bytes_bits body = [true; true; false] ++ bits ++ fixed_code 256 ++ repeat false k
          /\ (k < 8)%nat /\ decodes bits [] D m /\ (m <= length bits)%nat)
    /\ exists calls, log a' = calls ++ [EvWrite desc 12] /\ handed calls = B ++ body.
Proof.
  intros (Hw & Hq & Hit & Hc & Hwl & Hhist & Hent & Hby & Hcrc & Hus & Hlag & Hnl & Hpre
          & bits & m & Hst & Hdec & Hm) D desc.
  unfold zw__zip_end_file.
  destruct (Z.eqb_spec (name_length (current_file a)) 0) as [|_]; [contradiction|].
  (* the pending bytes are encoded *)
  destruct (flush_input_member no_sse E a Hw Hq Hwl ltac:(lia) Hhist Hent Hby Hcrc Hus)
    as (W1 & C1 & L1 & _ & _ & G1 & R1 & S1 & bits1 & m1 & T1 & D1 & N1).
  fold (pending a) in R1, S1, D1. fold D in R1, S1, D1.
  destruct (flush_input_layout no_sse a) as (Hlay1 & _ & _).
  pose proof (flush_input_keeps (fun s => exists body, handed (snd s) = B ++ body)
                (handed_prefix_keeps B) no_sse a Hpre) as P1.
  set (a1 := zw__flush_input no_sse a) in *. clearbody a1.
  (* the block ends *)
  destruct (zlib_huff_stream 256 a1 W1 ltac:(lia)) as (W2 & T2 & G2).
  destruct (zlib_huff_emits 256 a1) as [Hf2 _].
  pose proof (zlib_huff_keeps (fun s => exists body, handed (snd s) = B ++ body)
                (handed_prefix_keeps B) 256 a1 P1) as P2.
  set (a2 := zw__zlib_huff 256 a1) in *. clearbody a2.
  destruct (pad_bits_stream 8 a2 W2) as (W3 & C3 & G3 & k & T3 & Hk).
  { pose proof W2 as (_ & [Hbc _] & _). change (Z.of_nat 8) with 8. lia. }
  assert (Hk8 : (k < 8)%nat).
  { pose proof W2 as (_ & [Hbc _] & _).
    destruct (Z.eqb_spec (bitcount a2) 0); lia. }
  destruct (pad_bits_emits 8 a2) as [Hf3 _].
  pose proof (pad_bits_keeps (fun s => exists body, handed (snd s) = B ++ body)
                (handed_prefix_keeps B) 8 a2 P2) as P3.
  set (a3 := pad_bits 8 a2) in *. clearbody a3.
  destruct (flush_compressed_bytes_stream a3 W3) as (W4 & C4 & K4 & _ & T4 & G4).
  destruct (flush_compressed_bytes_emits a3) as [Hf4 _].
  pose proof (flush_compressed_bytes_keeps (fun s => exists body, handed (snd s) = B ++ body)
                (handed_prefix_keeps B) a3 P3) as [body P4].
  unfold sink_state in P4. cbn [snd] in P4.
  set (a4 := zw__flush_compressed_bytes a3) in *. clearbody a4.
  (* what the stream and the counters hold now *)
  assert (Hframe : enc_frame a4 = enc_frame a1) by congruence.
  assert (Hbody : bytes_bits body
                  = [true; true; false] ++ (bits ++ bits1) ++ fixed_code 256
                    ++ repeat false k).
  { assert (Hs4 : bitstream a4 = bytes_bits (B ++ body)).
    { unfold bitstream. rewrite C4, P4. rewrite K4, C3. unfold ztake. cbn [Z.to_nat take].
      cbn [bits_lsb]. rewrite !app_nil_r. reflexivity. }
    rewrite T4, T3, T2, T1, Hst, bytes_bits_app in Hs4.
    rewrite <- !app_assoc in Hs4. apply app_inv_head in Hs4.
    rewrite <- Hs4. rewrite <- !app_assoc. reflexivity. }
  assert (Hinf : inflate (bytes_bits body) = Some D).
  { rewrite Hbody. apply (inflate_one_block _ _ (m + m1)).
    - exact (decodes_app _ _ _ _ _ _ _ Hdec D1).
    - rewrite length_app. lia. }
  assert (Hcs : u64 (compressed_size (current_file a4)) = u64 (Z.of_nat (length body))).
  { assert (Hl4 : u64 (lag a4) = u64 (- Z.of_nat (length B))) by congruence.
    unfold lag in Hl4. rewrite P4, length_app, Nat2Z.inj_add in Hl4.
    unfold u64 in *.
    replace (compressed_size (current_file a4))
      with ((compressed_size (current_file a4)
             - (Z.of_nat (length B) + Z.of_nat (length body)))
            + (Z.of_nat (length B) + Z.of_nat (length body))) by lia.
    rewrite <- Zplus_mod_idemp_l, Hl4, Zplus_mod_idemp_l. f_equal. lia. }
  destruct (enc_frame_fields _ _ Hframe)
    as (Hq4 & Hit4 & Hic4 & Hw4 & Hnf4 & Htm4 & Hdt4 & Hcd4 & Hso4 & Hus4 & Hcrc4 & Hnl4
        & Hnh4 & Hnm4).
  destruct (layout_fields _ _ Hlay1)
    as (Hq1 & Hit1 & Hnf1 & Htm1 & Hdt1 & Hcd1 & Hso1 & Hnl1 & Hnh1 & Hnm1).
  rewrite R1 in Hcrc4. rewrite S1 in Hus4.
  (* the descriptor *)
  pose proof W4 as (Hs4 & _).
  match goal with |- context [zw__write_to_stream a4 ?d] =>
    destruct (write_to_stream_accepted a4 d Hs4) as (a5 & E5 & Hs5 & Hl5 & Hh5 & _ & Hf5);
    rewrite E5 end.
  change (Z.of_nat (length (data_descriptor_bytes
                              {| dd_crc := crc (current_file a4);
                                 dd_compressed_size := not32 0;
                                 dd_uncompressed_size := not32 0 |})) =? 0)
    with false in Hl5.
  change (Z.of_nat (length (data_descriptor_bytes
                              {| dd_crc := crc (current_file a4);
                                 dd_compressed_size := not32 0;
                                 dd_uncompressed_size := not32 0 |})))
    with 12 in Hl5.
  destruct (sink_frame_fields _ _ Hf5) as (Hbb5 & Hbc5 & Ho5' & Hoc5 & Hcs5 & Hot5 & He5).
  destruct (enc_frame_fields _ _ He5)
    as (Hq5 & Hit5 & Hic5 & Hw5 & Hnf5 & Htm5 & Hdt5 & Hcd5 & Hso5 & Hus5 & Hcrc5 & Hnl5
        & Hnh5 & Hnm5).
  eexists body, _. split; [reflexivity|].
  cbn [log central_dir set_current_file current_file name_length set_name_length].
  rewrite !append_to_central_dir_items, !append_to_central_dir_current_file,
    !append_to_central_dir_log.
  split.
  { rewrite Hh5, P4, Hcrc4, <- app_assoc. reflexivity. }
  split; [exact Hinf|].
  split.
  { rewrite Hcd5, Hcd4, Hcd1, Htm5, Htm4, Htm1, Hdt5, Hdt4, Hdt1, Hcrc5, Hcrc4,
      Hnl5, Hnl4, Hnl1, Hnm5, Hnm4, Hnm1, Hso5, Hso4, Hso1, Hus5, Hus4, Hcs5.
    rewrite <- !app_assoc. do 3 f_equal.
    unfold info64_bytes. do 2 f_equal. f_equal; [apply le64_u64, u64_idem|].
    f_equal. apply le64_u64. exact Hcs. }
  set (other := fun x : zw__zip_details U =>
                  (stream x, bitbuf x, bitcount x, out x, out_cursor x, out_total x,
                   window x, in_cursor x,
                   (quality x, in_total x, num_files x, time x, date x, length (out x)),
                   (start_offset (current_file x), name_heap (current_file x),
                    name (current_file x)))).
  match goal with |- writer_ok (set_current_file _ ?x) /\ _ =>
    assert (Hoth : other x = other a5)
      by (rewrite !(append_to_central_dir_other other) by reflexivity; reflexivity);
    set (a8 := x) in *; clearbody a8
  end.
  unfold other in Hoth. injection Hoth. clear Hoth. intros.
  pose proof W4 as (_ & Hbits4 & Hot4 & Hlen4 & Hoc4).
  pose proof Hw as (_ & _ & Hot0 & Hlen0 & _).
  assert (Hbc8 : bitcount a8 = 0) by congruence.
  assert (Hbb8 : bitbuf a8 = bitbuf a4) by congruence.
  assert (Hoc8 : out_cursor a8 = 0) by congruence.
  assert (Hout8 : out a8 = out a4) by congruence.
  assert (Hot8 : out_total a8 = 32768) by congruence.
  assert (Hst8 : stream a8 = stream a5) by congruence.
  split.
  { unfold writer_ok, bits_ok.
    cbn [stream bitbuf bitcount out out_total out_cursor set_current_file].
    rewrite Hbc8, Hbb8, Hoc8, Hout8, Hot8, Hst8.
    split; [exact Hs5|].
    split; [destruct Hbits4 as [_ Hbb4]; rewrite K4, C3 in Hbb4; split; [lia|exact Hbb4]|].
    split; [reflexivity|]. split; [exact Hlen4|lia]. }
  split; [exact Hbc8|]. split; [exact Hoc8|]. split; [reflexivity|].
  split.
  { unfold layout.
    cbn [quality in_total out_total num_files out time date central_dir current_file
         start_offset name_length name_heap name set_current_file set_central_dir
         set_name_length].
    assert (length (out a8) = length (out a)) by congruence.
    assert (quality a8 = quality a) by congruence.
    assert (in_total a8 = in_total a) by congruence.
    assert (out_total a8 = out_total a) by congruence.
    assert (num_files a8 = num_files a) by congruence.
    assert (time a8 = time a) by congruence.
    assert (date a8 = date a) by congruence.
    assert (start_offset (current_file a8) = start_offset (current_file a)) by congruence.
    assert (name_heap (current_file a8) = name_heap (current_file a)) by congruence.
    assert (name (current_file a8) = name (current_file a)) by congruence.
    congruence. }
  split; [cbn [window set_current_file]; congruence|].
  split; [cbn [in_cursor set_current_file]; assert (in_cursor a8 = 0) by congruence; lia|].
  split.
  { exists (bits ++ bits1), (m + m1)%nat, k. split; [exact Hbody|]. split; [exact Hk8|].
    split; [exact (decodes_app _ _ _ _ _ _ _ Hdec D1)|]. rewrite length_app. lia. }
  exists (log a4). split; [|exact P4].
  rewrite Hl5, Hcrc4. reflexivity.
Qed.

End EndMember.

(** ** A member when it begins *)

Section BeginMember.

Context {U : Type} (no_sse : bool).
Implicit Types a : zw__zip_details U.

(** The session a successful [zw_begin_file] returns, field by field. *)
Lemma begin_file_fields a file_path a1 :
  bitbuf (snd (zw__zip_end_file no_sse a)) = 0 ->
  bitcount (snd (zw__zip_end_file no_sse a)) = 0 ->
  zw_begin_file no_sse (Some a) file_path = (zw_true, Some a1) ->
  let a0 := snd (zw__zip_end_file no_sse a) in
  exists p b1 b2,
    file_path = Some p /\ p <> []
    /\ zw__write_to_stream a0
         (local_file_header_bytes (time a0) (date a0) (u16 (clamp_name_length p)))
       = (zw_true, b1)
    /\ zw__write_to_stream b1 (ztake (clamp_name_length p) p) = (zw_true, b2)
    /\ stream a1 = stream b2 /\ offset a1 = offset b2 /\ log a1 = log b2
    /\ bitbuf a1 = 3 /\ bitcount a1 = 3 /\ out_cursor a1 = 0 /\ in_cursor a1 = 0
    /\ out a1 = out a0 /\ out_total a1 = out_total a0 /\ window a1 = window a0
    /\ quality a1 = quality a0 /\ in_total a1 = in_total a0
    /\ time a1 = time a0 /\ date a1 = date a0 /\ central_dir a1 = central_dir a0
    /\ num_files a1 = u64 (num_files a0 + 1)
    /\ hash_table a1 = (if num_files a0 =? 0 then hash_table a0
                        else (fun s => {| sbm := sbm s; sbitems := [] |}) <$> hash_table a0)
    /\ current_file a1
       = {| start_offset := offset a0; compressed_size := 0; uncompressed_size := 0;
            crc := 0; name_length := u16 (clamp_name_length p);
            name_heap := name_room (name_heap (current_file a0)) (clamp_name_length p);
            name := ztake (clamp_name_length p) p |}.
Proof.
  unfold zw_begin_file. set (a0 := snd (zw__zip_end_file no_sse a)). intros Hb Hc.
  destruct file_path as [[|ch file_path]|]; [discriminate| |discriminate].
  fold (clamp_name_length (ch :: file_path)).
  set (nl := clamp_name_length (ch :: file_path)).
  match goal with |- context [zw__write_to_stream a0 ?d] =>
    pose proof (write_to_stream_sink_frame a0 d) as Hf1;
    destruct (zw__write_to_stream a0 d) as [[|] a2] eqn:E1 end; [discriminate|].
  match goal with |- context [zw__write_to_stream a2 ?d] =>
    pose proof (write_to_stream_sink_frame a2 d) as Hf2;
    destruct (zw__write_to_stream a2 d) as [[|] a3] eqn:E2 end; [discriminate|].
  cbn [snd] in *. rewrite Hf1 in Hf2. clear Hf1. intros E. cbv zeta.
  exists (ch :: file_path), a2, a3.
  split; [reflexivity|]. split; [discriminate|]. split; [exact E1|].
  split; [exact E2|].
  destruct (sink_frame_fields _ _ Hf2) as (Hbb & Hbc & Ho & Hoc & Hcs & Hot & Hef).
  destruct (enc_frame_fields _ _ Hef)
    as (Hq & Hit & Hic & Hw & Hnf & Htm & Hdt & Hcd & Hso & Hus & Hcrc & Hnl & Hnh & Hnm).
  match type of E with
  | (zw_true, Some (zw__zlib_add 1 2 (zw__zlib_add 1 1 ?b))) = _ => set (b0 := b) in *
  end.
  assert (Hb0 : bitbuf b0 = 0 /\ bitcount b0 = 0).
  { unfold b0. destruct (negb (num_files a3 =? 0)); cbn; split; congruence. }
  destruct Hb0 as [Hbb0 Hbc0].
  rewrite (zlib_add_no_flush 1 1 b0) in E by lia.
  rewrite zlib_add_no_flush in E by (cbn [bitcount set_bitcount set_bitbuf]; lia).
  cbn [bitcount bitbuf set_bitcount set_bitbuf] in E. rewrite Hbb0, Hbc0 in E.
  injection E as <-.
  assert (Hht : hash_table a3 = hash_table a0) by exact (enc_frame_hash_table _ _ Hef).
  rewrite <- Hnf, <- Hht.
  unfold b0. destruct (Z.eqb_spec (num_files a3) 0) as [Hz|Hz]; cbn;
    repeat split; try congruence; rewrite Hnh; reflexivity.
Qed.

Lemma emits_static a (b : zw__zip_details U) : emits a b -> static b = static a.
Proof.
  intros [Hf _]. destruct (enc_frame_fields _ _ Hf)
    as (_ & _ & _ & _ & Hnf & Htm & Hdt & _ & Hso & _ & _ & _ & Hnh & Hnm).
  unfold static. congruence.
Qed.

Lemma layout_static a (b : zw__zip_details U) : layout b = layout a -> static b = static a.
Proof.
  intros Hl. destruct (layout_fields _ _ Hl)
    as (_ & _ & Hnf & Htm & Hdt & _ & Hso & _ & Hnh & Hnm).
  unfold static. congruence.
Qed.

Lemma end_file_static a : static (snd (zw__zip_end_file no_sse a)) = static a.
Proof.
  unfold zw__zip_end_file.
  destruct (name_length (current_file a) =? 0); [reflexivity|].
  destruct (flush_input_layout no_sse a) as (Hlay & _ & _).
  pose proof (layout_static _ _ Hlay) as H1.
  set (a1 := zw__flush_input no_sse a) in *. clearbody a1.
  assert (H4 : static (zw__flush_compressed_bytes (pad_bits 8 (zw__zlib_huff 256 a1)))
               = static a).
  { rewrite (emits_static _ _ (flush_compressed_bytes_emits _)).
    rewrite (emits_static _ _ (pad_bits_emits 8 _)).
    rewrite (emits_static _ _ (zlib_huff_emits 256 _)). exact H1. }
  set (a4 := zw__flush_compressed_bytes _) in *. clearbody a4.
  match goal with |- context [zw__write_to_stream a4 ?d] =>
    pose proof (emits_static _ _ (write_to_stream_emits a4 d)) as Hw;
    destruct (zw__write_to_stream a4 d) as [[|] a5] end; cbn [snd] in *; [congruence|].
  match goal with |- static (set_current_file _ ?x) = _ =>
    change (static (set_current_file (set_name_length 0 (current_file x)) x))
      with (static x) end.
  rewrite !(append_to_central_dir_other static) by reflexivity. congruence.
Qed.

Lemma write_loop_layout n : forall a (data : list Z),
  layout (fst (write_loop no_sse n a data)) = layout a.
Proof.
  induction n as [|n IH]; intros a data; [reflexivity|].
  cbn [write_loop]. destruct (0 <? Z.of_nat (length data)); [|reflexivity].
  rewrite IH.
  match goal with |- context [if ?c then _ else _] => destruct c end; [|reflexivity].
  destruct (flush_input_layout no_sse
              (set_in_cursor
                 (u16 (in_cursor a
                       + (if Z.of_nat (length data) <? u16 (in_total a - in_cursor a)
                          then u16 (Z.of_nat (length data))
                          else u16 (in_total a - in_cursor a))))
                 (set_window
                    (memmove (window a) (32768 + in_cursor a) data 0
                       (if Z.of_nat (length data) <? u16 (in_total a - in_cursor a)
                        then u16 (Z.of_nat (length data))
                        else u16 (in_total a - in_cursor a))) a))) as (Hlay & _ & _).
  exact Hlay.
Qed.

Lemma began_in_protocol k a : began no_sse k a -> in_protocol no_sse a.
Proof.
  induction 1 as [options local a Hc|k a path a' _ IH Hb|k a path a' _ IH Hb
                 |k a data r a' _ IH Hn Hw].
  - exact (proto_create no_sse options local a Hc).
  - exact (proto_begin_file no_sse a path zw_true a' IH Hb).
  - exact (proto_begin_file no_sse a path zw_false a' IH Hb).
  - exact (proto_write no_sse a data r a' IH Hn Hw).
Qed.

Lemma begin_file_refused a file_path a' :
  zw_begin_file no_sse (Some a) file_path = (zw_false, Some a') ->
  enc_frame a' = enc_frame (snd (zw__zip_end_file no_sse a)).
Proof.
  unfold zw_begin_file.
  set (a0 := snd (zw__zip_end_file no_sse a)) in *. clearbody a0.
  destruct file_path as [[|c file_path]|];
    [intros [= <-]; reflexivity| |intros [= <-]; reflexivity].
  match goal with |- context [zw__write_to_stream a0 ?d] =>
    pose proof (write_to_stream_sink_frame a0 d) as Hf1;
    destruct (zw__write_to_stream a0 d) as [[|] a1] end; cbn [snd] in *.
  { intros [= <-].
    destruct (sink_frame_fields _ _ Hf1) as (_ & _ & _ & _ & _ & _ & He). exact He. }
  match goal with |- context [zw__write_to_stream a1 ?d] =>
    pose proof (write_to_stream_sink_frame a1 d) as Hf2;
    destruct (zw__write_to_stream a1 d) as [[|] a2] end; cbn [snd] in *.
  { intros [= <-]. rewrite Hf1 in Hf2.
    destruct (sink_frame_fields _ _ Hf2) as (_ & _ & _ & _ & _ & _ & He). exact He. }
  discriminate.
Qed.

Lemma began_idle_accumulator a :
  in_protocol no_sse a ->
  bitbuf (snd (zw__zip_end_file no_sse a)) = 0
  /\ bitcount (snd (zw__zip_end_file no_sse a)) = 0.
Proof.
  intros Hp.
  pose proof (reachable_session_ok no_sse a (in_protocol_reachable no_sse a Hp)) as Hok.
  pose proof (in_protocol_encoder no_sse a Hp) as Henc.
  destruct (end_file_encoder no_sse a Hok Henc) as [((Hc & Hb) & _) H0].
  rewrite H0 in Hb. change (2 ^ 0) with 1 in Hb. split; [lia|exact H0].
Qed.

Lemma began_num_files k a : began no_sse k a -> num_files a = u64 (Z.of_nat k).
Proof.
  induction 1 as [options local a Hc|k a path a' Hg IH Hb|k a path a' Hg IH Hb
                 |k a data r a' Hg IH Hn Hw].
  - unfold zw_create_ex in Hc. destruct options as [o|]; [|discriminate].
    destruct (write (opt_stream o)); [|discriminate].
    apply (f_equal (from_option num_files 0)) in Hc. cbn in Hc. rewrite <- Hc. reflexivity.
  - destruct (began_idle_accumulator a (began_in_protocol k a Hg)) as [Hbb Hbc].
    destruct (begin_file_fields a path a' Hbb Hbc Hb)
      as (p & b1 & b2 & _ & _ & _ & _ & _ & _ & _ & _ & _ & _ & _ & _ & _ & _ & _ & _
          & _ & _ & _ & Hnf & _).
    rewrite Hnf.
    pose proof (f_equal (fun t => fst (fst (fst (fst (fst t))))) (end_file_static a)) as Hn0.
    cbn [fst static] in Hn0. rewrite Hn0, IH.
    unfold u64. rewrite Zplus_mod_idemp_l. f_equal. lia.
  - pose proof (begin_file_refused a path a' Hb) as He.
    destruct (enc_frame_fields _ _ He) as (_ & _ & _ & _ & Hnf & _).
    pose proof (f_equal (fun t => fst (fst (fst (fst (fst t))))) (end_file_static a)) as Hn0.
    cbn [fst static] in Hn0. congruence.
  - unfold zw_write in Hw. destruct (num_files a =? 0).
    + injection Hw as _ <-. exact IH.
    + apply (f_equal (fun p => from_option num_files 0 (snd p))) in Hw.
      cbn [snd from_option] in Hw. rewrite <- Hw.
      destruct (layout_fields _ _ (write_loop_layout (length data) a data))
        as (_ & _ & Hnf & _). congruence.
Qed.

(** Before the first member is begun no chain exists and no member is
    active. *)
Lemma began_fresh a :
  began no_sse 0 a -> hash_table a = ∅ /\ name_length (current_file a) = 0.
Proof.
  intros H. remember 0%nat as k eqn:Hk.
  induction H as [options local a Hc|k a path a' Hg IH Hb|k a path a' Hg IH Hb
                 |k a data r a' Hg IH Hn Hw].
  - unfold zw_create_ex in Hc. destruct options as [o|]; [|discriminate].
    destruct (write (opt_stream o)); [|discriminate].
    apply (f_equal (from_option (fun a => (hash_table a, name_length (current_file a)))
                      (∅, 0))) in Hc.
    cbn in Hc. split; congruence.
  - discriminate.
  - destruct (IH Hk) as [Hh Hn].
    pose proof (begin_file_refused a path a' Hb) as He.
    assert (E0 : snd (zw__zip_end_file no_sse a) = a).
    { unfold zw__zip_end_file. rewrite Hn. reflexivity. }
    rewrite E0 in He.
    destruct (enc_frame_fields _ _ He)
      as (_ & _ & _ & _ & _ & _ & _ & _ & _ & _ & _ & Hnl & _).
    pose proof (enc_frame_hash_table _ _ He). split; congruence.
  - destruct (IH Hk) as [_ Hn0]. contradiction.
Qed.

(** A member that has just begun: nothing is encoded, the stream holds the
    three bits of the block header after the bytes of the local header. *)
Lemma begin_file_member k a file_path a1 :
  began no_sse k a -> Z.of_nat k < 2 ^ 64 -> sink_accepts (stream a) ->
  zw_begin_file no_sse (Some a) file_path = (zw_true, Some a1) ->
  member_inv (handed (log a1)) [] a1.
Proof.
  intros Hg Hk Hs Hb.
  pose proof (began_in_protocol k a Hg) as Hp.
  pose proof (in_protocol_reachable no_sse a Hp) as Hr.
  pose proof (reachable_session_ok no_sse a Hr) as Hok.
  pose proof (reachable_window_length no_sse a Hr) as Hwl.
  pose proof (end_file_session_ok no_sse a Hok) as Hok0.
  pose proof (end_file_window_length no_sse a Hok Hwl) as Hwl0.
  destruct (began_idle_accumulator a Hp) as [Hbb Hbc].
  pose proof (begin_file_keeps (fun s => sink_accepts (fst (fst s))) sink_accepts_keeps
                no_sse a file_path zw_true a1 Hs Hb) as Hs1.
  cbn [sink_state fst] in Hs1.
  pose proof (f_equal (fun t => fst (fst (fst (fst (fst t))))) (end_file_static a)) as Hn0.
  cbn [fst static] in Hn0.
  assert (Hh0 : num_files a = 0 ->
                hash_table (snd (zw__zip_end_file no_sse a)) = ∅).
  { intros Hz. rewrite (began_num_files k a Hg) in Hz. unfold u64 in Hz.
    change 18446744073709551616 with (2 ^ 64) in Hz.
    rewrite Z.mod_small in Hz by lia.
    assert (k = 0%nat) by lia. subst k.
    destruct (began_fresh a Hg) as [Hh Hn].
    unfold zw__zip_end_file. rewrite Hn. exact Hh. }
  destruct (begin_file_fields a file_path a1 Hbb Hbc Hb)
    as (p & b1 & b2 & -> & Hp0 & _ & _ & _ & _ & _ & Fbb & Fbc & Foc & Fic & Fo & Fot
        & Fw & Fq & Fit & _ & _ & _ & _ & Fh & Fcf).
  cbv zeta in *.
  set (a0 := snd (zw__zip_end_file no_sse a)) in *. clearbody a0.
  destruct Hok0 as (Hq & Hit & Hot & Hlo & _ & _).
  unfold member_inv.
  split.
  { unfold writer_ok, bits_ok. split; [exact Hs1|].
    rewrite Fbb, Fbc, Fot, Fo, Foc. change (2 ^ 3) with 8. repeat split; (lia || assumption). }
  split; [congruence|]. split; [congruence|]. split; [lia|]. split; [congruence|].
  split.
  { intros q Hq1 Hq2. cbn [length] in Hq2. lia. }
  split.
  { unfold entries_sat. rewrite Fh. rewrite Hn0.
    destruct (Z.eqb_spec (num_files a) 0) as [Hz|Hz].
    - rewrite (Hh0 Hz). apply map_Forall_empty.
    - intros i s. rewrite lookup_fmap. intros E.
      destruct (hash_table a0 !! i) as [s0|]; [|discriminate].
      cbn in E. injection E as <-. cbn [sbitems]. constructor. }
  split.
  { unfold pending. rewrite Fic. constructor. }
  rewrite Fcf. cbn [crc uncompressed_size name_length length].
  split; [reflexivity|]. split; [reflexivity|].
  split.
  { unfold lag. rewrite Fcf. cbn [compressed_size]. f_equal. }
  split.
  { unfold clamp_name_length, u16.
    destruct p as [|c p]; [contradiction|]. cbn [length].
    destruct (0xfffe <? Z.of_nat (S (length p))) eqn:E; [discriminate|].
    apply Z.ltb_ge in E. rewrite Z.mod_small by lia. lia. }
  split; [exists []; rewrite app_nil_r; reflexivity|].
  exists [], 0%nat.
  split.
  { unfold bitstream. rewrite Foc, Fbb, Fbc.
    change (ztake 0 (out a1)) with (@nil Z). rewrite !app_nil_r. reflexivity. }
  split; [apply decodes_nil|]. cbn [length]. lia.
Qed.

End BeginMember.

(** ** A member from its beginning to its end *)

Section MemberRoundTrip.

Context {U : Type} (no_sse : bool).
Implicit Types a : zw__zip_details U.

Lemma write_to_stream_write a data :
  write (stream (snd (zw__write_to_stream a data))) = write (stream a).
Proof.
  unfold zw__write_to_stream.
  destruct (Z.of_nat (length data) =? 0); [reflexivity|].
  destruct (negb (error (stream a) =? 0)); [reflexivity|].
  unfold call_write. destruct (write (stream a)) as [f|] eqn:Ef.
  - destruct (f (user_data (stream a)) (error (stream a)) data) as [[w u] e].
    destruct (w =? Z.of_nat (length data)); [reflexivity|].
    cbn [snd stream set_offset set_log set_stream error].
    destruct (e =? 0); reflexivity.
  - destruct (0 =? Z.of_nat (length data)); [exact Ef|].
    cbn [snd stream set_offset set_log set_stream error].
    destruct (error (stream a) =? 0); exact Ef.
Qed.

(** A sink that accepts after a call accepted before it. *)
Lemma sink_accepts_before a data :
  sink_accepts (stream (snd (zw__write_to_stream a data))) -> sink_accepts (stream a).
Proof.
  intros (He' & g & Hg & Hacc). rewrite write_to_stream_write in Hg.
  destruct (Z.eq_dec (error (stream a)) 0) as [He|He].
  - split; [exact He|]. exists g. auto.
  - rewrite (write_to_stream_latched a data He) in He'. contradiction.
Qed.

(** While the sink accepts, the offset is the number of bytes it has
    taken. *)
Lemma offset_handed_keeps a data :
  (sink_accepts (fst (fst (sink_state a))) ->
   snd (fst (sink_state a)) = u64 (Z.of_nat (length (handed (snd (sink_state a)))))) ->
  sink_accepts (fst (fst (sink_state (snd (zw__write_to_stream a data))))) ->
  snd (fst (sink_state (snd (zw__write_to_stream a data))))
  = u64 (Z.of_nat (length (handed (snd (sink_state (snd (zw__write_to_stream a data))))))).
Proof.
  unfold sink_state. cbn [fst snd]. intros Hq Hs'.
  pose proof (sink_accepts_before a data Hs') as Hs.
  destruct (write_to_stream_accepted a data Hs) as (a' & -> & _ & _ & Hh & Ho & _).
  cbn [snd]. rewrite Hh, Ho, length_app, (Hq Hs).
  destruct (Z.eqb_spec (Z.of_nat (length data)) 0) as [Hz|Hz].
  - assert (length data = 0%nat) by lia. f_equal. lia.
  - unfold u64. rewrite Zplus_mod_idemp_l. f_equal. lia.
Qed.

Lemma began_offset_handed k a :
  began no_sse k a -> sink_accepts (stream a) ->
  offset a = u64 (Z.of_nat (length (handed (log a)))).
Proof.
  set (Q := fun s : zw_output_stream U * Z * list event =>
              sink_accepts (fst (fst s)) ->
              snd (fst s) = u64 (Z.of_nat (length (handed (snd s))))).
  change (began no_sse k a -> Q (sink_state a)).
  induction 1 as [options local a Hc|k a path a' Hg IH Hb|k a path a' Hg IH Hb
                 |k a data r a' Hg IH Hn Hw].
  - unfold zw_create_ex in Hc. destruct options as [o|]; [|discriminate].
    destruct (write (opt_stream o)); [|discriminate].
    apply (f_equal (from_option (fun a => Q (sink_state a)) True)) in Hc.
    cbn [from_option] in Hc. rewrite <- Hc. intros _. reflexivity.
  - exact (begin_file_keeps Q offset_handed_keeps no_sse a path zw_true a' IH Hb).
  - exact (begin_file_keeps Q offset_handed_keeps no_sse a path zw_false a' IH Hb).
  - exact (write_keeps_sink Q offset_handed_keeps no_sse a data r a' IH Hw).
Qed.

Lemma write_all_some (chunks : list (list Z)) : forall a,
  exists a2, zw_write_all no_sse (Some a) chunks = Some a2.
Proof.
  induction chunks as [|data chunks IH]; intros a; [exists a; reflexivity|].
  unfold zw_write_all. cbn [foldl]. unfold zw_write at 2.
  destruct (num_files a =? 0); cbn [snd]; apply IH.
Qed.

Lemma write_all_member (B : list Z) (chunks : list (list Z)) :
  forall a (E : list Z) (k : nat),
  member_inv B E a -> num_files a <> 0 -> Forall (Forall byte) chunks ->
  began no_sse k a ->
  exists a2 E',
    zw_write_all no_sse (Some a) chunks = Some a2
    /\ member_inv B E' a2
    /\ E' ++ pending a2 = E ++ pending a ++ concat chunks
    /\ layout a2 = layout a
    /\ began no_sse k a2.
Proof.
  induction chunks as [|data chunks IH]; intros a E k Hinv Hnf Hall Hg.
  - exists a, E. cbn [concat]. rewrite app_nil_r. auto.
  - apply Forall_cons_iff in Hall. destruct Hall as [Hd Hall].
    destruct (write_loop_member no_sse B (length data) a data E Hinv Hd (le_n _))
      as (E1 & Hinv1 & HE1).
    pose proof (write_loop_layout no_sse (length data) a data) as Hl1.
    set (a1 := fst (write_loop no_sse (length data) a data)) in *.
    assert (Hw : zw_write_all no_sse (Some a) (data :: chunks)
                 = zw_write_all no_sse (Some a1) chunks).
    { unfold zw_write_all. cbn [foldl]. f_equal. unfold zw_write.
      destruct (Z.eqb_spec (num_files a) 0); [contradiction|]. reflexivity. }
    assert (Hnf1 : num_files a1 <> 0).
    { destruct (layout_fields _ _ Hl1) as (_ & _ & Hn & _). congruence. }
    assert (Hg1 : began no_sse k a1).
    { apply (began_write no_sse k a data zw_true a1 Hg).
      - destruct Hinv as (_ & _ & _ & _ & _ & _ & _ & _ & _ & _ & _ & Hnl & _). exact Hnl.
      - unfold zw_write. destruct (Z.eqb_spec (num_files a) 0); [contradiction|].
        reflexivity. }
    destruct (IH a1 E1 k Hinv1 Hnf1 Hall Hg1) as (a2 & E2 & Hw2 & Hinv2 & HE2 & Hl2 & Hg2).
    exists a2, E2. split; [congruence|]. split; [exact Hinv2|].
    split; [|split; [congruence|exact Hg2]].
    rewrite HE2, app_assoc, HE1. cbn [concat]. rewrite <- !app_assoc. reflexivity.
Qed.

(** One member from [zw_begin_file] to the end of the member, on a sink
    that accepts. *)
Lemma member_cycle (k : nat) a a1 a2 (file_path : option (list Z))
    (chunks : list (list Z)) :
  began no_sse k a -> Z.of_nat k < 2 ^ 64 - 1 -> sink_accepts (stream a) ->
  zw_begin_file no_sse (Some a) file_path = (zw_true, Some a1) ->
  Forall (Forall byte) chunks ->
  zw_write_all no_sse (Some a1) chunks = Some a2 ->
  let D := concat chunks in
  let a0 := snd (zw__zip_end_file no_sse a) in
  exists p body a3,
    file_path = Some p
    /\ zw__zip_end_file no_sse a2 = (zw_true, a3)
    /\ handed (log a3)
       = handed (log a0)
         ++ local_file_header_bytes (time a) (date a) (clamp_name_length p)
         ++ ztake (clamp_name_length p) p
         ++ body
         ++ data_descriptor_bytes
              {| dd_crc := zw__crc32 D 0; dd_compressed_size := not32 0;
                 dd_uncompressed_size := not32 0 |}
    /\ inflate (bytes_bits body) = Some D
    /\ sb_items (central_dir a3)
       = sb_items (central_dir a0)
         ++ central_dir_file_header_bytes (time a) (date a) (zw__crc32 D 0)
              (clamp_name_length p)
         ++ ztake (clamp_name_length p) p
         ++ info64_bytes (Z.of_nat (length D)) (Z.of_nat (length body))
              (Z.of_nat (length (handed (log a0))))
    /\ central_dir a1 = central_dir a0
    /\ began no_sse (S k) a2 /\ sink_accepts (stream a2)
    /\ time a2 = time a /\ date a2 = date a
    /\ exists calls bits m pad,
         log a3 = calls
                  ++ [EvWrite (data_descriptor_bytes
                                 {| dd_crc := zw__crc32 D 0; dd_compressed_size := not32 0;
                                    dd_uncompressed_size := not32 0 |}) 12]
         /\ handed calls
            = handed (log a0)
              ++ local_file_header_bytes (time a) (date a) (clamp_name_length p)
              ++ ztake (clamp_name_length p) p
              ++ body
         /\ bytes_bits body
            = [true; true; false] ++ bits ++ fixed_code 256 ++ repeat false pad
         /\ (pad < 8)%nat /\ decodes bits [] D m /\ (m <= length bits)%nat.
Proof.
  intros Hg Hk Hs Hb Hall Hw D a0'.
  pose proof (began_in_protocol no_sse k a Hg) as Hp.
  destruct (began_idle_accumulator no_sse a Hp) as [Hbb Hbc].
  pose proof (begin_file_member no_sse k a file_path a1 Hg ltac:(lia) Hs Hb) as Hinv.
  pose proof (began_num_files no_sse (S k) a1 (began_member no_sse k a file_path a1 Hg Hb))
    as Hnf1.
  assert (Hnf : num_files a1 <> 0).
  { rewrite Hnf1. unfold u64. change 18446744073709551616 with (2 ^ 64).
    rewrite Z.mod_small by lia. lia. }
  destruct (write_all_member (handed (log a1)) chunks a1 [] (S k) Hinv Hnf Hall
              (began_member no_sse k a file_path a1 Hg Hb))
    as (a2' & E & Hw' & Hinv2 & HE & Hl2 & Hg2).
  assert (a2' = a2) by congruence. subst a2'.
  assert (Hp1 : pending a1 = []).
  { destruct (begin_file_fields no_sse a file_path a1 Hbb Hbc Hb)
      as (_ & _ & _ & _ & _ & _ & _ & _ & _ & _ & _ & _ & _ & Fic & _).
    unfold pending. rewrite Fic. reflexivity. }
  rewrite Hp1 in HE. cbn [app] in HE. fold D in HE.
  destruct (end_file_member no_sse (handed (log a1)) E a2 Hinv2)
    as (body & a3 & He & Hh & Hinf & Hcd & _ & _ & _ & _ & _ & _ & _
        & (bits & m & pad & Hb1 & Hb2 & Hb3 & Hb4) & calls & Hl1 & Hl3).
  cbv zeta in Hh, Hinf, Hcd, Hb3, Hl1. rewrite HE in Hh, Hinf, Hcd, Hb3, Hl1.
  (* the session the member began on *)
  pose proof (end_file_keeps (fun s => sink_accepts (fst (fst s)))
                (sink_accepts_keeps) no_sse a Hs) as Hs0.
  pose proof (end_file_keeps
                (fun s => sink_accepts (fst (fst s)) ->
                          snd (fst s) = u64 (Z.of_nat (length (handed (snd s)))))
                offset_handed_keeps no_sse a
                (began_offset_handed k a Hg)) as Ho0.
  pose proof (f_equal (fun t => (snd (fst (fst (fst (fst t)))), snd (fst (fst (fst t)))))
                (end_file_static no_sse a)) as Htd.
  cbn [fst snd static] in Htd. injection Htd as Ht0 Hd0.
  destruct (begin_file_fields no_sse a file_path a1 Hbb Hbc Hb)
    as (p & b1 & b2 & -> & Hp0 & W1 & W2 & _ & _ & Fl & _ & _ & _ & _ & _ & _
        & _ & _ & _ & Ft & Fd & Fcd & _ & _ & Fcf).
  cbv zeta in *.
  set (a0 := snd (zw__zip_end_file no_sse a)) in *. clearbody a0.
  cbn [sink_state fst snd] in Hs0, Ho0.
  destruct (write_to_stream_accepted a0
              (local_file_header_bytes (time a0) (date a0) (u16 (clamp_name_length p))) Hs0) as (b1' & W1' & Hs1 & _ & Hh1 & _).
  rewrite W1 in W1'. injection W1' as <-.
  destruct (write_to_stream_accepted b1 (ztake (clamp_name_length p) p) Hs1)
    as (b2' & W2' & _ & _ & Hh2 & _).
  rewrite W2 in W2'. injection W2' as <-.
  assert (Hcl : 0 <= clamp_name_length p <= 0xfffe).
  { unfold clamp_name_length. destruct (Z.ltb_spec 0xfffe (Z.of_nat (length p))); lia. }
  assert (Hu : u16 (clamp_name_length p) = clamp_name_length p).
  { unfold u16. apply Z.mod_small. lia. }
  rewrite Hu in *.
  destruct (layout_fields _ _ Hl2) as (_ & _ & _ & Ht & Hd & Hc & Hso & Hnl & _ & Hnm).
  subst a0'. exists p, body, a3.
  split; [reflexivity|]. split; [exact He|].
  split.
  { rewrite Hh, Fl, Hh2, Hh1, Ht0, Hd0, <- !app_assoc. reflexivity. }
  split; [exact Hinf|].
  rewrite Hcd, Hc, Ht, Hd, Hso, Hnl, Hnm, Fcf, Ft, Fd, Ht0, Hd0.
  cbn [start_offset name_length name].
  assert (Hz : ztake (clamp_name_length p) (ztake (clamp_name_length p) p)
               = ztake (clamp_name_length p) p).
  { unfold ztake. apply take_take_eq || (rewrite take_take; f_equal; lia). }
  split.
  { rewrite Hz, Fcd. do 3 f_equal. unfold info64_bytes. do 4 f_equal.
    apply le64_u64. rewrite (Ho0 Hs0), u64_idem. reflexivity. }
  split; [exact Fcd|]. split; [exact Hg2|].
  split; [destruct Hinv2 as ((Hsa & _) & _); exact Hsa|].
  split; [congruence|]. split; [congruence|].
  exists calls, bits, m, pad. split; [exact Hl1|]. split; [|auto].
  rewrite Hl3, Fl, Hh2, Hh1, Ht0, Hd0, <- !app_assoc. reflexivity.
Qed.

End MemberRoundTrip.



(** ** A whole archive *)

Lemma members_bytes_app t d l1 l2 :
  members_bytes t d (l1 ++ l2) = members_bytes t d l1 ++ members_bytes t d l2.
Proof.
  induction l1 as [|m l1 IH]; [reflexivity|].
  cbn [app members_bytes]. rewrite IH, app_assoc. reflexivity.
Qed.

Lemma directory_bytes_app t d l1 : forall pos l2,
  directory_bytes t d pos (l1 ++ l2)
  = directory_bytes t d pos l1
    ++ directory_bytes t d (pos + Z.of_nat (length (members_bytes t d l1))) l2.
Proof.
  induction l1 as [|m l1 IH]; intros pos l2.
  - cbn [app directory_bytes members_bytes length]. rewrite Z.add_0_r. reflexivity.
  - cbn [app directory_bytes members_bytes]. rewrite IH, <- app_assoc.
    do 3 f_equal. rewrite length_app. lia.
Qed.

Section Archive.

Context {U : Type} (no_sse : bool).
Implicit Types a : zw__zip_details U.

Lemma write_to_stream_close a data :
  close (stream (snd (zw__write_to_stream a data))) = close (stream a).
Proof.
  unfold zw__write_to_stream.
  destruct (Z.of_nat (length data) =? 0); [reflexivity|].
  destruct (negb (error (stream a) =? 0)); [reflexivity|].
  unfold call_write. destruct (write (stream a)) as [f|] eqn:Ef.
  - destruct (f (user_data (stream a)) (error (stream a)) data) as [[w u] e].
    destruct (w =? Z.of_nat (length data)); [reflexivity|].
    cbn [snd stream set_offset set_log set_stream error].
    destruct (e =? 0); reflexivity.
  - destruct (0 =? Z.of_nat (length data)); [reflexivity|].
    cbn [snd stream set_offset set_log set_stream error].
    destruct (error (stream a) =? 0); reflexivity.
Qed.

Lemma closes_cleanly_keeps a data :
  closes_cleanly (fst (fst (sink_state a))) ->
  closes_cleanly (fst (fst (sink_state (snd (zw__write_to_stream a data))))).
Proof.
  unfold sink_state, closes_cleanly. cbn [fst]. rewrite write_to_stream_close. auto.
Qed.

Lemma write_all_keeps (P : zw_output_stream U * Z * list event -> Prop)
    (write_keeps : forall a data,
       P (sink_state a) -> P (sink_state (snd (zw__write_to_stream a data))))
    (chunks : list (list Z)) : forall a a2,
  P (sink_state a) -> zw_write_all no_sse (Some a) chunks = Some a2 -> P (sink_state a2).
Proof.
  induction chunks as [|data chunks IH]; intros a a2 H.
  - intros [= <-]. exact H.
  - unfold zw_write_all. cbn [foldl]. 
    destruct (zw_write no_sse (Some a) data) as [r [a1|]] eqn:Ew.
    + cbn [snd]. apply IH. exact (write_keeps_sink P write_keeps no_sse a data r a1 H Ew).
    + unfold zw_write in Ew. destruct (num_files a =? 0); discriminate Ew.
Qed.

(** On an accepting sink a non-empty path begins a member. *)
Lemma begin_file_accepts a (p : list Z) :
  sink_accepts (stream a) -> p <> [] ->
  exists a1, zw_begin_file no_sse (Some a) (Some p) = (zw_true, Some a1).
Proof.
  intros Hs Hp. unfold zw_begin_file.
  pose proof (end_file_keeps (fun s => sink_accepts (fst (fst s)))
                sink_accepts_keeps no_sse a Hs) as Hs0.
  cbn [sink_state fst] in Hs0.
  set (a0 := snd (zw__zip_end_file no_sse a)) in *. clearbody a0.
  destruct p as [|c p]; [contradiction|].
  match goal with |- context [zw__write_to_stream a0 ?d] =>
    destruct (write_to_stream_accepted a0 d Hs0) as (b1 & -> & Hs1 & _) end.
  match goal with |- context [zw__write_to_stream b1 ?d] =>
    destruct (write_to_stream_accepted b1 d Hs1) as (b2 & -> & Hs2 & _) end.
  eexists. reflexivity.
Qed.

Lemma add_member_holds t d l a (file : list Z * list (list Z)) :
  holds no_sse t d l a -> Z.of_nat (length l) < 2 ^ 64 - 1 ->
  fst file <> [] -> Forall (Forall byte) (snd file) ->
  exists body a2,
    add_member no_sse (Some a) file = Some a2
    /\ inflate (bytes_bits body) = Some (concat (snd file))
    /\ holds no_sse t d (l ++ [(fst file, concat (snd file), body)]) a2.
Proof.
  intros (Hg & Hs & Hc & Ht & Hd & Hh & Hcd) Hk Hp Hall.
  destruct file as [p chunks]. cbn [fst snd] in *. unfold add_member. cbn [fst snd].
  destruct (begin_file_accepts a p Hs Hp) as [a1 Hb]. rewrite Hb. cbn [snd].
  destruct (write_all_some no_sse chunks a1) as [a2 Hw]. rewrite Hw.
  destruct (member_cycle no_sse (length l) a a1 a2 (Some p) chunks Hg Hk Hs Hb Hall Hw)
    as (p' & body & a3 & Hp' & He & Hh3 & Hinf & Hcd3 & _ & Hg2 & Hs2 & Ht2 & Hd2 & _).
  injection Hp' as <-.
  exists body, a2. split; [reflexivity|]. split; [exact Hinf|].
  unfold holds. rewrite length_app, Nat.add_1_r. split; [exact Hg2|].
  split; [exact Hs2|].
  split.
  { apply (write_all_keeps (fun s => closes_cleanly (fst (fst s))) closes_cleanly_keeps
             chunks a1 a2); [|exact Hw].
    exact (begin_file_keeps (fun s => closes_cleanly (fst (fst s))) closes_cleanly_keeps
             no_sse a (Some p) zw_true a1 Hc Hb). }
  split; [congruence|]. split; [congruence|].
  rewrite He. cbn [snd]. rewrite Hh3, Hcd3, Hh, Hcd, Ht, Hd.
  rewrite members_bytes_app, directory_bytes_app.
  cbn [members_bytes directory_bytes member_bytes entry_bytes].
  rewrite !app_nil_r, Z.add_0_l. split; reflexivity.
Qed.

Lemma add_members_hold t d (files : list (list Z * list (list Z))) : forall l a,
  holds no_sse t d l a -> Z.of_nat (length l + length files) < 2 ^ 64 ->
  Forall (fun f => fst f <> [] /\ Forall (Forall byte) (snd f)) files ->
  exists bodies a',
    foldl (add_member no_sse) (Some a) files = Some a'
    /\ Forall2 (fun f body => inflate (bytes_bits body) = Some (concat (snd f)))
         files bodies
    /\ holds no_sse t d (l ++ stored files bodies) a'.
Proof.
  induction files as [|file files IH]; intros l a Hh Hk Hall.
  - exists [], a. split; [reflexivity|]. split; [constructor|].
    unfold stored. cbn [zip_with]. rewrite app_nil_r. exact Hh.
  - apply Forall_cons_iff in Hall. destruct Hall as [[Hp Hb] Hall].
    cbn [length] in Hk.
    destruct (add_member_holds t d l a file Hh ltac:(lia) Hp Hb) as (body & a2 & Ha & Hi & Hh2).
    destruct (IH (l ++ [(fst file, concat (snd file), body)]) a2 Hh2) as (bodies & a' & Hf & H2 & Hh').
    { rewrite length_app. cbn [length]. lia. }
    { exact Hall. }
    exists (body :: bodies), a'. cbn [foldl]. rewrite Ha.
    split; [exact Hf|]. split; [constructor; assumption|].
    unfold stored in *. cbn [zip_with]. rewrite <- app_assoc in Hh'. exact Hh'.
Qed.

Lemma create_ex_holds (o : zw_zip_options U) local a :
  sink_accepts (opt_stream o) -> closes_cleanly (opt_stream o) ->
  zw_create_ex (Some o) local = Some a ->
  holds no_sse (zw__zip_encode_time (u32 (tm_hour local)) (u32 (tm_min local)) (u32 (tm_sec local)))
        (zw__zip_encode_date (u32 (tm_year local + 1900)) (u32 (tm_mon local + 1))
           (u32 (tm_mday local)))
        [] a.
Proof.
  intros Hs Hc Ha. unfold holds.
  split; [exact (began_create no_sse (Some o) local a Ha)|].
  unfold zw_create_ex in Ha. destruct (write (opt_stream o)); [|discriminate].
  assert (E : stream a = opt_stream o
              /\ time a = zw__zip_encode_time (u32 (tm_hour local)) (u32 (tm_min local))
                            (u32 (tm_sec local))
              /\ date a = zw__zip_encode_date (u32 (tm_year local + 1900))
                            (u32 (tm_mon local + 1)) (u32 (tm_mday local))
              /\ name_length (current_file a) = 0 /\ log a = [] /\ central_dir a = None).
  { apply (f_equal (from_option (fun a => (stream a, time a, date a,
                        name_length (current_file a), log a, central_dir a))
                      (opt_stream o, 0, 0, 0, [], None))) in Ha.
    cbn in Ha. injection Ha. intros. repeat split; symmetry; eassumption. }
  destruct E as (E1 & E2 & E3 & E4 & E5 & E6).
  rewrite E1. split; [exact Hs|]. split; [exact Hc|].
  split; [exact E2|]. split; [exact E3|].
  unfold zw__zip_end_file. rewrite E4. cbn [Z.eqb snd]. rewrite E5, E6. split; reflexivity.
Qed.

Lemma sbcount_items (c : option sbuf) : zw__sbcount c = Z.of_nat (length (sb_items c)).
Proof. destruct c; reflexivity. Qed.

Lemma finish_tail_true a :
  sink_accepts (stream a) -> closes_cleanly (stream a) ->
  exists a', finish_tail zw_true a = (zw_true, Some a')
    /\ handed (log a') = handed (log a).
Proof.
  intros (He & _) Hc. unfold finish_tail, closes_cleanly in *.
  destruct (close (stream a)) as [f|].
  - specialize (Hc (user_data (stream a))). rewrite He.
    destruct (f (user_data (stream a)) 0) as [u e]. cbn [snd] in Hc. subst e.
    eexists. split; [reflexivity|]. cbn [log set_log set_stream].
    rewrite !handed_app. cbn [handed]. rewrite !app_nil_r. reflexivity.
  - rewrite He. eexists. split; [reflexivity|]. cbn [log set_log].
    rewrite handed_app. cbn [handed]. rewrite app_nil_r. reflexivity.
Qed.

(** [zw_finish] after the members [l]. *)
Lemma finish_holds t d l a :
  holds no_sse t d l a -> Z.of_nat (length l) < 2 ^ 64 ->
  exists a', zw_finish no_sse (Some a) = (zw_true, Some a')
    /\ handed (log a') = archive_bytes t d l.
Proof.
  intros (Hg & Hs & Hc & Ht & Hd & Hh & Hcd) Hk.
  pose proof (end_file_keeps (fun s => sink_accepts (fst (fst s)))
                sink_accepts_keeps no_sse a Hs) as Hs0.
  pose proof (end_file_keeps (fun s => closes_cleanly (fst (fst s)))
                closes_cleanly_keeps no_sse a Hc) as Hc0.
  pose proof (end_file_keeps
                (fun s => sink_accepts (fst (fst s)) ->
                          snd (fst s) = u64 (Z.of_nat (length (handed (snd s)))))
                (offset_handed_keeps) no_sse a
                (began_offset_handed no_sse (length l) a Hg) Hs0) as Ho0.
  pose proof (f_equal (fun t => fst (fst (fst (fst (fst t))))) (end_file_static no_sse a)) as Hn0.
  cbn [fst static] in Hn0. rewrite (began_num_files no_sse (length l) a Hg) in Hn0.
  cbn [sink_state fst snd] in Hs0, Hc0, Ho0.
  rewrite finish_unfold. cbv zeta.
  set (a0 := snd (zw__zip_end_file no_sse a)) in *. clearbody a0.
  set (M := members_bytes t d l) in *. set (C := directory_bytes t d 0 l) in *.
  rewrite Hh in Ho0.
  assert (Hu : u64 (Z.of_nat (length l)) = Z.of_nat (length l)).
  { unfold u64. change 18446744073709551616 with (2 ^ 64). apply Z.mod_small. lia. }
  rewrite Hu in Hn0.
  cbn [central_dir set_hash_table offset num_files set_central_dir].
  rewrite sbcount_items, Hcd.
  destruct (write_to_stream_accepted (set_hash_table ∅ a0) C Hs0)
    as (b1 & E1 & Hs1 & _ & Hh1 & _ & Hf1).
  rewrite E1. cbn [fst snd].
  cbn [log set_hash_table] in Hh1.
  destruct (sink_frame_fields _ _ Hf1) as (_ & _ & _ & _ & _ & _ & Hef1).
  destruct (enc_frame_fields _ _ Hef1) as (_ & _ & _ & _ & Hn1 & _).
  cbn [num_files set_hash_table] in Hn1. rewrite Hn1, Hn0.
  match goal with |- context [zw__write_to_stream (set_central_dir None b1) ?e] =>
    destruct (write_to_stream_accepted (set_central_dir None b1) e Hs1)
      as (b2 & E2 & Hs2 & _ & Hh2 & _) end.
  rewrite E2. cbn [fst snd].
  match goal with |- context [zw__write_to_stream b2 ?e] =>
    destruct (write_to_stream_accepted b2 e Hs2) as (b3 & E3 & Hs3 & _ & Hh3 & _) end.
  rewrite E3. cbn [fst snd].
  destruct (write_to_stream_accepted b3 end_of_central_dir_bytes Hs3)
    as (b4 & E4 & Hs4 & _ & Hh4 & _).
  rewrite E4. cbn [fst snd].
  assert (Hc4 : closes_cleanly (stream b4)).
  { assert (K : close (stream b4) = close (stream a0)).
    { pose proof (write_to_stream_close (set_hash_table ∅ a0) C) as K1.
      rewrite E1 in K1.
      match type of E2 with zw__write_to_stream ?x ?e = _ =>
        pose proof (write_to_stream_close x e) as K2; rewrite E2 in K2 end.
      match type of E3 with zw__write_to_stream ?x ?e = _ =>
        pose proof (write_to_stream_close x e) as K3; rewrite E3 in K3 end.
      pose proof (write_to_stream_close b3 end_of_central_dir_bytes) as K4.
      rewrite E4 in K4. cbn [snd stream set_hash_table set_central_dir] in *. congruence. }
    unfold closes_cleanly in *. rewrite K. exact Hc0. }
  destruct (finish_tail_true b4 Hs4 Hc4) as (a' & Ef & Hha).
  exists a'. split; [exact Ef|].
  rewrite Hha, Hh4, Hh3, Hh2. cbn [log set_central_dir]. rewrite Hh1, Hh.
  unfold archive_bytes. cbv zeta. fold M. fold C.
  rewrite <- !app_assoc. do 2 f_equal.
  rewrite Ho0.
  f_equal.
  - unfold end_of_central_dir_64_bytes. do 9 f_equal.
    apply le64_u64. apply u64_idem.
  - f_equal. unfold end_of_central_dir_locator_64_bytes. do 2 f_equal. f_equal.
    apply le64_u64. rewrite u64_idem. apply u64_add_l.
Qed.

End Archive.

(** X13: a whole archive written to a sink that accepts every byte and closes
    without error: [zw_finish] succeeds, and the sink has taken, in this
    order, every member (local header, name, body, descriptor), the central
    directory with one entry per member pointing at its local header, the
    ZIP64 end record with the count of members and the size and place of the
    directory, its locator, and the end record.  Every body inflates to the
    bytes written to its member. *)
Theorem archive_is_well_formed {U : Type} (no_sse : bool) (o : zw_zip_options U)
    (local : tm) (files : list (list Z * list (list Z))) :
  sink_accepts (opt_stream o) -> closes_cleanly (opt_stream o) ->
  Forall (fun f => fst f <> [] /\ Forall (Forall byte) (snd f)) files ->
  Z.of_nat (length files) < 2 ^ 64 ->
  exists bodies a',
    write_archive no_sse (Some o) local files = (zw_true, Some a')
    /\ Forall2 (fun f body => inflate (bytes_bits body) = Some (concat (snd f)))
         files bodies
    /\ handed (log a')
       = archive_bytes
           (zw__zip_encode_time (u32 (tm_hour local)) (u32 (tm_min local))
              (u32 (tm_sec local)))
           (zw__zip_encode_date (u32 (tm_year local + 1900)) (u32 (tm_mon local + 1))
              (u32 (tm_mday local)))
           (stored files bodies).
Proof.
  intros Hs Hc Hall Hk.
  assert (Ha : exists a, zw_create_ex (Some o) local = Some a).
  { unfold zw_create_ex. destruct Hs as (_ & f & -> & _). eexists. reflexivity. }
  destruct Ha as [a Ha].
  pose proof (create_ex_holds no_sse o local a Hs Hc Ha) as Hh.
  destruct (add_members_hold no_sse _ _ files [] a Hh ltac:(cbn [length]; lia) Hall)
    as (bodies & a' & Hf & H2 & Hh').
  cbn [app] in Hh'.
  assert (Hl : length (stored files bodies) = length files).
  { clear -H2. unfold stored. induction H2; cbn [zip_with length]; congruence. }
  destruct (finish_holds no_sse _ _ _ a' Hh' ltac:(rewrite Hl; exact Hk)) as (a'' & Hfin & Hlog).
  exists bodies, a''. unfold write_archive. rewrite Ha, Hf. auto.
Qed.

Lemma archive_is_well_formed_witness :
  exists bodies a',
    write_archive false (Some {| opt_stream := memory_stream |}) stamp
      [([97], [[104; 105]; [104; 105; 33]]); ([98], [])]
    = (zw_true, Some a')
    /\ Forall2 (fun f body => inflate (bytes_bits body) = Some (concat (snd f)))
         [([97], [[104; 105]; [104; 105; 33]]); ([98], [])] bodies
    /\ handed (log a')
       = archive_bytes
           (zw__zip_encode_time (u32 (tm_hour stamp)) (u32 (tm_min stamp))
              (u32 (tm_sec stamp)))
           (zw__zip_encode_date (u32 (tm_year stamp + 1900)) (u32 (tm_mon stamp + 1))
              (u32 (tm_mday stamp)))
           (stored [([97], [[104; 105]; [104; 105; 33]]); ([98], [])] bodies).
Proof.
  apply (archive_is_well_formed false {| opt_stream := memory_stream |} stamp
           [([97], [[104; 105]; [104; 105; 33]]); ([98], [])]).
  - split; [reflexivity|]. exists memory_write. split; [reflexivity|].
    intros u data. eexists. reflexivity.
  - intros u. reflexivity.
  - repeat constructor; try discriminate; vm_compute; discriminate.
  - vm_compute. reflexivity.
Defined.

(** ** The reference decoder on streams of zlib

    Raw DEFLATE streams that zlib 1.2.13 writes with the strategy [Z_FIXED] (one
    final fixed-Huffman block), and the bytes they were made from. *)

Example inflate_zlib_text :
  inflate (bytes_bits
    [75; 84; 40; 202; 47; 78; 85; 200; 44; 86; 72; 68; 99; 233; 96; 136; 32; 88; 122; 0])
  = Some [97; 32; 114; 111; 115; 101; 32; 105; 115; 32; 97; 32; 114; 111; 115; 101; 32; 105;
     115; 32; 97; 32; 114; 111; 115; 101; 44; 32; 97; 32; 114; 111; 115; 101; 32; 105; 115;
     32; 97; 32; 114; 111; 115; 101; 32; 105; 115; 32; 97; 32; 114; 111; 115; 101; 46].
Proof. vm_compute. reflexivity. Qed.

Example inflate_zlib_bytes :
  inflate (bytes_bits
    [171; 168; 172; 170; 174; 169; 173; 171; 111; 104; 108; 106; 110; 105; 109; 107; 239;
     232; 236; 234; 238; 233; 237; 235; 159; 48; 113; 210; 228; 41; 83; 167; 77; 159; 49;
     115; 214; 236; 57; 115; 231; 205; 95; 176; 112; 209; 226; 37; 75; 151; 45; 95; 177;
     114; 213; 234; 53; 107; 215; 173; 223; 176; 113; 211; 230; 45; 91; 183; 109; 223; 177;
     115; 215; 238; 61; 123; 247; 237; 63; 112; 240; 208; 225; 35; 71; 143; 29; 175; 160;
     178; 121; 0])
  = Some [120; 121; 122; 123; 124; 125; 126; 127; 128; 129; 130; 131; 132; 133; 134; 135;
     136; 137; 138; 139; 140; 141; 142; 143; 144; 145; 146; 147; 148; 149; 150; 151; 152;
     153; 154; 155; 156; 157; 158; 159; 160; 161; 162; 163; 164; 165; 166; 167; 168; 169;
     170; 171; 172; 173; 174; 175; 176; 177; 178; 179; 180; 181; 182; 183; 184; 185; 186;
     187; 188; 189; 190; 191; 192; 193; 194; 195; 196; 197; 198; 199; 120; 121; 122; 123;
     124; 125; 126; 127; 128; 129; 130; 131; 132; 133; 134; 135; 136; 137; 138; 139; 140;
     141; 142; 143; 144; 145; 146; 147; 148; 149; 150; 151; 152; 153; 154; 155; 156; 157;
     158; 159; 160; 161; 162; 163; 164; 165; 166; 167; 168; 169; 170; 171; 172; 173; 174;
     175; 176; 177; 178; 179; 180; 181; 182; 183; 184; 185; 186; 187; 188; 189; 190; 191;
     192; 193; 194; 195; 196; 197; 198; 199].
Proof. vm_compute. reflexivity. Qed.

Example inflate_zlib_empty :
  inflate (bytes_bits [3; 0]) = Some [].
Proof. vm_compute. reflexivity. Qed.

(** ** [zw_write] and the way its input is cut into chunks *)

Section Chunks.

Context {U : Type} (no_sse : bool).
Implicit Types a : zw__zip_details U.

Lemma write_loop_S n a (data : list Z) :
  write_loop no_sse (S n) a data
  = if 0 <? Z.of_nat (length data)
    then write_loop no_sse n (write_step no_sse a data (write_batch a data))
           (zdrop (write_batch a data) data)
    else (a, data).
Proof. reflexivity. Qed.

Lemma write_batch_min a (data : list Z) :
  buffers_ok a ->
  write_batch a data = Z.min (Z.of_nat (length data)) (32768 - in_cursor a).
Proof.
  intros ((_ & Hit & _ & _ & Hc & _) & _). unfold write_batch, u16. rewrite Hit.
  rewrite (Z.mod_small (32768 - in_cursor a)) by lia.
  destruct (Z.ltb_spec (Z.of_nat (length data)) (32768 - in_cursor a)).
  - rewrite Z.mod_small by lia. lia.
  - lia.
Qed.

Lemma write_step_ok a (data : list Z) b :
  buffers_ok a -> 0 <= b <= Z.of_nat (length data) -> in_cursor a + b <= 32768 ->
  buffers_ok (write_step no_sse a data b).
Proof.
  intros ((Hq & Hit & Hot & Hlo & Hc & Hch) & Hwl) Hb Hcb. unfold write_step.
  assert (Hwl' : length (memmove (window a) (32768 + in_cursor a) data 0 b)
                 = Z.to_nat 65536) by (apply window_copy_length; lia).
  cbn [in_cursor in_total set_in_cursor set_window].
  assert (Hu : u16 (in_cursor a + b) = in_cursor a + b) by (unfold u16; apply Z.mod_small; lia).
  rewrite Hu, Hit.
  destruct (Z.eqb_spec (in_cursor a + b) 32768) as [He|He].
  - split.
    + apply flush_input_session_ok; assumption.
    + apply flush_input_window_length; cbn [in_cursor window set_in_cursor set_window]; lia.
  - split; [|exact Hwl'].
    unfold session_ok, chains_bounded. cbn. repeat split; try assumption; lia.
Qed.

(** More turns than bytes change nothing. *)
Lemma write_loop_fuel n : forall m a (data : list Z),
  buffers_ok a -> (length data <= n)%nat -> (length data <= m)%nat ->
  write_loop no_sse n a data = write_loop no_sse m a data.
Proof.
  induction n as [|n IH]; intros m a data Hok Hn Hm.
  - destruct data; [destruct m; reflexivity|cbn in Hn; lia].
  - destruct data as [|x l]; [destruct m; reflexivity|].
    destruct m as [|m]; [cbn in Hm; lia|].
    rewrite !write_loop_S.
    destruct (0 <? Z.of_nat (length (x :: l))); [|reflexivity].
    pose proof (write_batch_min a (x :: l) Hok) as Hb.
    destruct (proj1 Hok) as (Hq & Hit & Hot & Hlo & Hc & Hch).
    cbn [length] in *.
    assert (Hl : (length (zdrop (write_batch a (x :: l)) (x :: l)) <= length l)%nat).
    { unfold zdrop. rewrite length_drop. cbn [length]. lia. }
    apply IH; [|lia|lia].
    apply write_step_ok; [exact Hok|cbn [length]; lia|lia].
Qed.

Lemma write_step_prefix a (d1 d2 : list Z) b :
  0 <= b <= Z.of_nat (length d1) ->
  write_step no_sse a (d1 ++ d2) b = write_step no_sse a d1 b.
Proof.
  intros Hb. unfold write_step, memmove, ztake, zdrop.
  change (Z.to_nat 0) with 0%nat. rewrite !drop_0.
  rewrite take_app_le by lia. reflexivity.
Qed.

Lemma write_step_compose a (d1 d2 : list Z) b2 :
  buffers_ok a -> in_cursor a + Z.of_nat (length d1) < 32768 ->
  0 <= b2 <= Z.of_nat (length d2) ->
  in_cursor a + Z.of_nat (length d1) + b2 <= 32768 ->
  write_step no_sse (write_step no_sse a d1 (Z.of_nat (length d1))) d2 b2
  = write_step no_sse a (d1 ++ d2) (Z.of_nat (length d1) + b2).
Proof.
  intros ((Hq & Hit & Hot & Hlo & Hc & Hch) & Hwl) H1 Hb2 H2.
  assert (E1 : write_step no_sse a d1 (Z.of_nat (length d1))
               = set_in_cursor (in_cursor a + Z.of_nat (length d1))
                   (set_window (memmove (window a) (32768 + in_cursor a) d1 0
                                  (Z.of_nat (length d1))) a)).
  { unfold write_step. cbn [in_cursor in_total set_in_cursor set_window].
    assert (Hu : u16 (in_cursor a + Z.of_nat (length d1)) = in_cursor a + Z.of_nat (length d1))
      by (unfold u16; apply Z.mod_small; lia).
    rewrite Hu, Hit.
    destruct (Z.eqb_spec (in_cursor a + Z.of_nat (length d1)) 32768); [lia|reflexivity]. }
  rewrite E1. unfold write_step.
  cbn [in_cursor in_total window set_in_cursor set_window].
  assert (Hu : u16 (in_cursor a + Z.of_nat (length d1) + b2)
               = u16 (in_cursor a + (Z.of_nat (length d1) + b2))) by (f_equal; lia).
  rewrite Hu.
  assert (Hm : memmove (memmove (window a) (32768 + in_cursor a) d1 0 (Z.of_nat (length d1)))
                 (32768 + (in_cursor a + Z.of_nat (length d1))) d2 0 b2
               = memmove (window a) (32768 + in_cursor a) (d1 ++ d2) 0
                   (Z.of_nat (length d1) + b2)).
  { unfold memmove, ztake, zdrop. change (Z.to_nat 0) with 0%nat. rewrite !drop_0.
    rewrite Nat2Z.id.
    replace (Z.to_nat (32768 + (in_cursor a + Z.of_nat (length d1))))
      with (Z.to_nat (32768 + in_cursor a) + length d1)%nat by lia.
    replace (Z.to_nat (32768 + (in_cursor a + Z.of_nat (length d1)) + b2))
      with (Z.to_nat (32768 + in_cursor a) + length d1 + Z.to_nat b2)%nat by lia.
    replace (Z.to_nat (32768 + in_cursor a + (Z.of_nat (length d1) + b2)))
      with (Z.to_nat (32768 + in_cursor a) + length d1 + Z.to_nat b2)%nat by lia.
    replace (Z.to_nat (32768 + in_cursor a + Z.of_nat (length d1)))
      with (Z.to_nat (32768 + in_cursor a) + length d1)%nat by lia.
    replace (Z.to_nat (Z.of_nat (length d1) + b2)) with (length d1 + Z.to_nat b2)%nat by lia.
    set (P := Z.to_nat (32768 + in_cursor a)).
    assert (HP : (P + length d1 + Z.to_nat b2 <= length (window a))%nat) by lia.
    clearbody P.
    rewrite firstn_all.
    assert (Hl1 : length (take P (window a)) = P) by (rewrite length_take; lia).
    rewrite (take_app_ge (take P (window a))) by lia.
    rewrite Hl1, Nat.add_comm, Nat.add_sub.
    rewrite (take_app_ge d1) by lia. replace (length d1 + P - P - length d1)%nat with 0%nat by lia.
    rewrite Nat.sub_diag. rewrite take_0, app_nil_r.
    rewrite (take_app_ge d1 d2) by lia.
    replace (length d1 + Z.to_nat b2 - length d1)%nat with (Z.to_nat b2) by lia.
    rewrite <- !app_assoc. do 3 f_equal.
    rewrite (drop_app_ge (take P (window a))) by lia. rewrite Hl1.
    rewrite drop_app_ge by lia.
    rewrite drop_drop. f_equal. lia. }
  rewrite Hm. reflexivity.
Qed.

Lemma write_step_short a (d1 : list Z) :
  buffers_ok a -> in_cursor a + Z.of_nat (length d1) < 32768 ->
  in_cursor (write_step no_sse a d1 (Z.of_nat (length d1)))
  = in_cursor a + Z.of_nat (length d1).
Proof.
  intros ((Hq & Hit & Hot & Hlo & Hc & Hch) & Hwl) H1.
  unfold write_step. cbn [in_cursor in_total set_in_cursor set_window].
  assert (Hu : u16 (in_cursor a + Z.of_nat (length d1)) = in_cursor a + Z.of_nat (length d1))
    by (unfold u16; apply Z.mod_small; lia).
  rewrite Hu, Hit.
  destruct (Z.eqb_spec (in_cursor a + Z.of_nat (length d1)) 32768); [lia|reflexivity].
Qed.

Lemma write_loop_nil n a : write_loop no_sse n a [] = (a, []).
Proof. destruct n; reflexivity. Qed.

Lemma write_loop_app m : forall a (d1 d2 : list Z) n n',
  buffers_ok a -> (length d1 <= m)%nat ->
  (length d1 + length d2 <= n)%nat -> (length d2 <= n')%nat ->
  write_loop no_sse n a (d1 ++ d2)
  = write_loop no_sse n' (fst (write_loop no_sse m a d1)) d2.
Proof.
  induction m as [|m IH]; intros a d1 d2 n n' Hok Hm Hn Hn'.
  - destruct d1; [|cbn in Hm; lia]. cbn [app write_loop fst].
    apply write_loop_fuel; [exact Hok|cbn in Hn; lia|lia].
  - destruct d1 as [|x l].
    { rewrite write_loop_nil. cbn [app fst].
      apply write_loop_fuel; [exact Hok|cbn in Hn; lia|lia]. }
    set (d1 := x :: l) in *.
    assert (Hl1 : 0 < Z.of_nat (length d1)) by (unfold d1; cbn [length]; lia).
    destruct (proj1 Hok) as (Hq & Hit & Hot & Hlo & Hc & Hch).
    pose proof (write_batch_min a d1 Hok) as Hb1.
    pose proof (write_batch_min a (d1 ++ d2) Hok) as HbL.
    rewrite length_app, Nat2Z.inj_add in HbL.
    destruct n as [|n]; [lia|].
    rewrite (write_loop_S m a d1), (write_loop_S n a (d1 ++ d2)).
    destruct (Z.ltb_spec 0 (Z.of_nat (length d1))) as [_|]; [|lia].
    destruct (Z.ltb_spec 0 (Z.of_nat (length (d1 ++ d2)))) as [_|Hx];
      [|rewrite length_app in Hx; lia].
    destruct (Z_le_gt_dec (32768 - in_cursor a) (Z.of_nat (length d1))) as [Hfull|Hshort].
    + (* the first chunk fills the window *)
      assert (E1 : write_batch a d1 = 32768 - in_cursor a) by lia.
      assert (EL : write_batch a (d1 ++ d2) = 32768 - in_cursor a) by lia.
      rewrite E1, EL. rewrite write_step_prefix by lia.
      assert (Ed : zdrop (32768 - in_cursor a) (d1 ++ d2)
                   = zdrop (32768 - in_cursor a) d1 ++ d2).
      { unfold zdrop. apply drop_app_le. lia. }
      rewrite Ed. apply IH.
      * apply write_step_ok; [exact Hok|lia|lia].
      * unfold zdrop. rewrite length_drop. lia.
      * unfold zdrop. rewrite length_drop. lia.
      * exact Hn'.
    + (* the first chunk leaves room *)
      assert (E1 : write_batch a d1 = Z.of_nat (length d1)) by lia.
      rewrite E1.
      assert (Ez : zdrop (Z.of_nat (length d1)) d1 = []).
      { unfold zdrop. rewrite Nat2Z.id. apply drop_all. }
      rewrite Ez, write_loop_nil. cbn [fst].
      pose proof (write_step_ok a d1 (Z.of_nat (length d1)) Hok ltac:(lia) ltac:(lia)) as Hok1.
      pose proof (write_step_short a d1 Hok ltac:(lia)) as Hc1.
      destruct d2 as [|y d2'].
      { rewrite write_loop_nil. rewrite !app_nil_r in *. cbn [length] in HbL.
        assert (EL : write_batch a d1 = Z.of_nat (length d1)) by lia.
        rewrite EL, Ez, write_loop_nil. reflexivity. }
      set (d2 := y :: d2') in *.
      assert (Hl2 : 0 < Z.of_nat (length d2)) by (unfold d2; cbn [length]; lia).
      destruct n' as [|n']; [unfold d2 in Hn'; cbn [length] in Hn'; lia|].
      rewrite (write_loop_S n' _ d2).
      destruct (Z.ltb_spec 0 (Z.of_nat (length d2))) as [_|]; [|lia].
      pose proof (write_batch_min _ d2 Hok1) as Hb2. rewrite Hc1 in Hb2.
      set (b2 := write_batch (write_step no_sse a d1 (Z.of_nat (length d1))) d2) in *.
      assert (EL : write_batch a (d1 ++ d2) = Z.of_nat (length d1) + b2) by lia.
      rewrite EL.
      rewrite <- (write_step_compose a d1 d2 b2 Hok) by lia.
      assert (Ed : zdrop (Z.of_nat (length d1) + b2) (d1 ++ d2) = zdrop b2 d2).
      { unfold zdrop. replace (Z.to_nat (Z.of_nat (length d1) + b2))
          with (length d1 + Z.to_nat b2)%nat by lia.
        apply drop_app_add. }
      rewrite Ed.
      apply write_loop_fuel.
      * apply write_step_ok; [exact Hok1|lia|lia].
      * unfold zdrop. rewrite length_drop. lia.
      * unfold zdrop. rewrite length_drop. lia.
Qed.

Lemma write_chunks a (d1 d2 : list Z) :
  buffers_ok a ->
  zw_write no_sse (snd (zw_write no_sse (Some a) d1)) d2
  = zw_write no_sse (Some a) (d1 ++ d2).
Proof.
  intros Hok. unfold zw_write at 2 3.
  destruct (Z.eqb_spec (num_files a) 0) as [Hz|Hz]; cbn [snd].
  - unfold zw_write. rewrite (proj2 (Z.eqb_eq _ _) Hz). reflexivity.
  - unfold zw_write.
    destruct (layout_fields _ _ (write_loop_layout no_sse (length d1) a d1))
      as (_ & _ & Hn & _).
    rewrite Hn. destruct (Z.eqb_spec (num_files a) 0); [contradiction|].
    do 2 f_equal. symmetry. f_equal.
    apply write_loop_app; [exact Hok|lia|rewrite length_app; lia|lia].
Qed.

End Chunks.

(** X14: cutting the input of [zw_write] into chunks changes nothing: writing
    [d1] and then [d2] leaves the session, and has made the calls of the
    sink, that writing [d1 ++ d2] at once does. *)
Theorem zw_write_chunks {U : Type} (no_sse : bool) (a : zw__zip_details U)
    (d1 d2 : list Z) :
  reachable no_sse a ->
  zw_write no_sse (snd (zw_write no_sse (Some a) d1)) d2
  = zw_write no_sse (Some a) (d1 ++ d2).
Proof.
  intros Hr. apply write_chunks. split.
  - exact (reachable_session_ok no_sse a Hr).
  - exact (reachable_window_length no_sse a Hr).
Qed.

Lemma zw_write_chunks_witness :
  match snd (zw_begin_file false memory_session (Some [97])) with
  | Some a =>
      zw_write false (snd (zw_write false (Some a) [1; 2])) [3]
      = zw_write false (Some a) ([1; 2] ++ [3])
  | None => False
  end.
Proof.
  destruct (zw_begin_file false memory_session (Some [97])) as [r o] eqn:E.
  pose proof (f_equal (fun p => from_option num_files 0 (snd p)) E) as H1.
  vm_compute in H1. destruct o as [a1|]; [clear H1|discriminate H1]. cbn [snd].
  apply (zw_write_chunks false a1 [1; 2] [3]).
  eapply (reach_begin_file false _ (Some [97]) r a1); [|exact E].
  eapply reach_create with (options := Some {| opt_stream := memory_stream |})
                           (local := stamp).
  reflexivity.
Defined.

(** ** The bit writer and the codes, one call at a time *)

Lemma member_sample_ok :
  exists a, member_sample = Some a /\ writer_ok a /\ reachable false a.
Proof.
  unfold member_sample.
  destruct (zw_begin_file false memory_session (Some [97])) as [r o] eqn:E.
  pose proof (f_equal (fun p => (fst p, from_option num_files 0 (snd p))) E) as H1.
  vm_compute in H1. destruct r; try discriminate H1.
  destruct o as [a1|]; [clear H1|cbn in H1; discriminate H1].
  exists a1. split; [reflexivity|].
  assert (Hc : zw_create_ex (Some {| opt_stream := memory_stream |}) stamp = memory_session)
    by reflexivity.
  destruct memory_session as [a0|] eqn:E0; [|discriminate E].
  assert (Hs : sink_accepts (stream a0)).
  { pose proof (f_equal (from_option stream memory_stream) E0) as Hs.
    cbn in Hs. rewrite <- Hs. split; [reflexivity|].
    exists memory_write. split; [reflexivity|].
    intros u data. eexists. reflexivity. }
  split.
  - pose proof (begin_file_member false 0 a0 (Some [97]) a1
                  (began_create false _ stamp a0 Hc) ltac:(vm_compute; reflexivity) Hs E)
      as (Hw & _).
    exact Hw.
  - exact (reach_begin_file false a0 (Some [97]) zw_true a1
             (reach_create false _ stamp a0 Hc) E).
Qed.

(** X9: [zw__zlib_add] appends the [codebits] low bits of [code] to the stream
    of bits, the least significant first, and leaves fewer than 8 of them in
    the accumulator; no bit written before is changed or lost, whether or not
    bytes are moved to the output buffer or the sink on the way. *)
Theorem zlib_add_appends_bits {U : Type} (code codebits : Z) (a : zw__zip_details U) :
  writer_ok a -> 0 <= codebits <= 24 -> 0 <= code < 2 ^ codebits ->
  bitstream (zw__zlib_add code codebits a)
  = bitstream a ++ bits_lsb (Z.to_nat codebits) code
  /\ bitcount (zw__zlib_add code codebits a) = (bitcount a + codebits) mod 8
  /\ writer_ok (zw__zlib_add code codebits a).
Proof.
  intros Hw Hn Hc.
  destruct (zlib_add_stream code codebits a Hw Hn Hc) as (H1 & H2 & _ & H4). auto.
Qed.

Lemma zlib_add_appends_bits_witness :
  match member_sample with
  | Some a =>
      bitstream (zw__zlib_add 5 3 a) = bitstream a ++ bits_lsb (Z.to_nat 3) 5
      /\ bitcount (zw__zlib_add 5 3 a) = (bitcount a + 3) mod 8
      /\ writer_ok (zw__zlib_add 5 3 a)
  | None => False
  end.
Proof.
  destruct member_sample_ok as (a & -> & Hw & _).
  apply (zlib_add_appends_bits 5 3 a Hw); lia.
Defined.

(** X10: the bits [zw__zlib_huff] writes for a literal/length symbol are the code
    of the symbol in the fixed Huffman table of DEFLATE: a decoder reads
    the symbol back from them and consumes nothing of what follows. *)
Theorem fixed_code_round_trip {U : Type} (n : Z) (a : zw__zip_details U)
    (rest : list bool) :
  writer_ok a -> 0 <= n <= 287 ->
  bitstream (zw__zlib_huff n a) = bitstream a ++ fixed_code n
  /\ inflate_symbol (fixed_code n ++ rest) = Some (n, rest).
Proof.
  intros Hw Hn. destruct (zlib_huff_stream n a Hw Hn) as (_ & H2 & _).
  split; [exact H2|]. apply inflate_symbol_fixed_code. exact Hn.
Qed.

Lemma fixed_code_round_trip_witness :
  match member_sample with
  | Some a =>
      bitstream (zw__zlib_huff 200 a) = bitstream a ++ fixed_code 200
      /\ inflate_symbol (fixed_code 200 ++ [true; false]) = Some (200, [true; false])
  | None => False
  end.
Proof.
  destruct member_sample_ok as (a & -> & Hw & _).
  apply (fixed_code_round_trip 200 a [true; false] Hw). lia.
Defined.

(** X11: the bits the encoder writes for a match of [best] bytes at distance [d]
    (length code, extra length bits, distance code, extra distance bits) make
    a decoder copy exactly [best] bytes from [d] bytes back. *)
Theorem match_round_trip {U : Type} (best d : Z) (a : zw__zip_details U)
    (out : list Z) :
  writer_ok a -> 3 <= best <= 258 -> 1 <= d <= 32767 -> d <= Z.of_nat (length out) ->
  bitstream (emit_match best d a) = bitstream a ++ match_bits best d
  /\ forall fuel rest,
       inflate_block (S fuel) (match_bits best d ++ rest) out
       = inflate_block fuel rest (lz_copy (Z.to_nat best) (Z.to_nat d) out).
Proof.
  intros Hw Hb Hd Ho. destruct (emit_match_stream best d a Hw Hb Hd) as (_ & H2 & _).
  split; [exact H2|]. intros fuel rest.
  exact (decodes_match best d out Hb Hd Ho fuel rest).
Qed.

Lemma match_round_trip_witness :
  match member_sample with
  | Some a =>
      bitstream (emit_match 100 3000 a) = bitstream a ++ match_bits 100 3000
      /\ forall fuel rest,
           inflate_block (S fuel) (match_bits 100 3000 ++ rest) (repeat 7 3000)
           = inflate_block fuel rest
               (lz_copy (Z.to_nat 100) (Z.to_nat 3000) (repeat 7 3000))
  | None => False
  end.
Proof.
  destruct member_sample_ok as (a & -> & Hw & _).
  apply (match_round_trip 100 3000 a (repeat 7 3000) Hw); try lia.
  rewrite repeat_length. lia.
Defined.

(** X15: in every session the public operations can produce, the window holds
    65536 bytes and the output buffer 32768, the totals are 32768, and the
    input cursor stays below 32768: the bytes [zw_write] copies always fit
    in the upper half of the window. *)
Theorem buffers_keep_their_sizes {U : Type} (no_sse : bool) (a : zw__zip_details U) :
  reachable no_sse a ->
  length (window a) = Z.to_nat 65536 /\ length (out a) = Z.to_nat 32768
  /\ in_total a = 32768 /\ out_total a = 32768 /\ 0 <= in_cursor a < 32768.
Proof.
  intros Hr.
  destruct (reachable_session_ok no_sse a Hr) as (_ & Hit & Hot & Hlo & Hc & _).
  pose proof (reachable_window_length no_sse a Hr). auto.
Qed.

Lemma buffers_keep_their_sizes_witness :
  match member_sample with
  | Some a =>
      length (window a) = Z.to_nat 65536 /\ length (out a) = Z.to_nat 32768
      /\ in_total a = 32768 /\ out_total a = 32768 /\ 0 <= in_cursor a < 32768
  | None => False
  end.
Proof.
  destruct member_sample_ok as (a & -> & _ & Hr).
  exact (buffers_keep_their_sizes false a Hr).
Defined.

(** * cpuid_multiver.h *)

Lemma testbit_one_shiftl k i :
  0 <= k -> 0 <= i -> Z.testbit (Z.shiftl 1 k) i = (i =? k).
Proof.
  intros Hk Hi. rewrite Z.shiftl_spec by lia.
  destruct (Z.eqb_spec i k) as [->|Hne].
  - rewrite Z.sub_diag. reflexivity.
  - destruct (Z_lt_le_dec i k).
    + apply Z.testbit_neg_r. lia.
    + apply Z.bits_above_log2; [lia|]. change (Z.log2 1) with 0. lia.
Qed.

Lemma land_one_shiftl x k :
  0 <= k -> negb (Z.land x (Z.shiftl 1 k) =? 0) = Z.testbit x k.
Proof.
  intros Hk. destruct (Z.testbit x k) eqn:E.
  - destruct (Z.eqb_spec (Z.land x (Z.shiftl 1 k)) 0) as [H0|]; [|reflexivity].
    apply (f_equal (fun z => Z.testbit z k)) in H0.
    rewrite Z.land_spec, testbit_one_shiftl, E, Z.eqb_refl, Z.bits_0 in H0 by lia.
    discriminate.
  - assert (H0 : Z.land x (Z.shiftl 1 k) = 0).
    { apply Z.bits_inj'. intros i Hi.
      rewrite Z.land_spec, testbit_one_shiftl, Z.bits_0 by lia.
      destruct (Z.eqb_spec i k) as [->|]; [rewrite E; reflexivity|apply andb_false_r]. }
    rewrite H0. reflexivity.
Qed.

(** The bit of capability [c] after the lines [l], starting from
    [result]. *)
Lemma detect_fold f1 f7 (l : list (cmv.capability * Z * Z * Z)) : forall result i,
  0 <= i ->
  Forall (fun e => 0 <= snd e) l ->
  Z.testbit (fold_left (cmv.detect_cap f1 f7) l result) i
  = Z.testbit result i
    || existsb (fun e : cmv.capability * Z * Z * Z =>
                  let '(name, fn, reg, regbit) := e in
                  (i =? cmv.capability_index name)
                  && Z.testbit (rd (if fn =? 1 then f1 else f7) (reg - 1)) regbit) l.
Proof.
  induction l as [|[[[name fn] reg] regbit] l IH]; intros result i Hi Hall.
  - cbn [fold_left existsb]. rewrite orb_false_r. reflexivity.
  - apply Forall_cons_iff in Hall. destruct Hall as [Hb Hall]. cbn [snd] in Hb.
    cbn [fold_left existsb]. rewrite IH by assumption.
    unfold cmv.detect_cap at 1. rewrite land_one_shiftl by exact Hb.
    destruct (Z.testbit (rd (if fn =? 1 then f1 else f7) (reg - 1)) regbit).
    + rewrite Z.lor_spec. unfold cmv.caps.
      rewrite testbit_one_shiftl by (destruct name; cbn; lia).
      rewrite andb_true_r, orb_assoc. reflexivity.
    + rewrite andb_false_r. reflexivity.
Qed.

Lemma detect_fold_other f1 f7 (l : list (cmv.capability * Z * Z * Z)) i :
  Forall (fun e => cmv.capability_index (fst (fst (fst e))) <> i) l ->
  existsb (fun e : cmv.capability * Z * Z * Z =>
             let '(name, fn, reg, regbit) := e in
             (i =? cmv.capability_index name)
             && Z.testbit (rd (if fn =? 1 then f1 else f7) (reg - 1)) regbit) l
  = false.
Proof.
  induction 1 as [|[[[name fn] reg] regbit] l Hn _ IH]; [reflexivity|].
  cbn [existsb fst] in *. rewrite IH, orb_false_r.
  destruct (Z.eqb_spec i (cmv.capability_index name)); [congruence|reflexivity].
Qed.

Lemma capability_list_bits : Forall (fun e : cmv.capability * Z * Z * Z => 0 <= snd e)
                               cmv.capability_list.
Proof. repeat constructor; cbn; lia. Qed.

(** ** What [detect_system_caps] reads *)

Lemma testbit_u32 x k : 0 <= k < 32 -> Z.testbit (u32 x) k = Z.testbit x k.
Proof.
  intros Hk. unfold u32. change 4294967296 with (2 ^ 32).
  apply Z.mod_pow2_bits_low. lia.
Qed.

Lemma testbit_to_int x k : 0 <= k < 32 -> Z.testbit (cmv.to_int x) k = Z.testbit x k.
Proof.
  intros Hk. unfold cmv.to_int. destruct (u32 x <? 2 ^ 31).
  - apply testbit_u32. exact Hk.
  - rewrite <- (testbit_u32 (u32 x - 2 ^ 32)), <- (testbit_u32 x) by exact Hk.
    f_equal. unfold u32. change 4294967296 with (2 ^ 32).
    rewrite <- Zminus_mod_idemp_r, Z.mod_same, Z.sub_0_r by lia.
    apply Z.mod_mod. lia.
Qed.

Lemma to_int_u32 x : cmv.to_int (u32 x) = cmv.to_int x.
Proof. unfold cmv.to_int. rewrite (u32_small (u32 x)) by apply u32_range. reflexivity. Qed.

Lemma capability_list_entries :
  Forall (fun e : cmv.capability * Z * Z * Z =>
            let '(name, fn, reg, regbit) := e in
            (fn = 1 \/ fn = 7) /\ 1 <= reg <= 4 /\ 0 <= regbit < 32)
    cmv.capability_list.
Proof. repeat constructor; lia. Qed.

(** The bit of a capability of the list after all the lines. *)
Lemma detect_bit f1 f7 name fn reg regbit :
  In (name, fn, reg, regbit) cmv.capability_list ->
  Z.testbit (fold_left (cmv.detect_cap f1 f7) cmv.capability_list 0)
    (cmv.capability_index name)
  = Z.testbit (rd (if fn =? 1 then f1 else f7) (reg - 1)) regbit.
Proof.
  intros Hin.
  rewrite detect_fold; [|destruct name; cbn; lia|exact capability_list_bits].
  rewrite Z.bits_0, orb_false_l.
  cbn [In cmv.capability_list] in Hin.
  repeat (destruct Hin as [Hin|Hin];
    [injection Hin as <- <- <- <-; cbn; rewrite ?orb_false_r; reflexivity|]).
  contradiction.
Qed.

Lemma rd_zeros_bit k b : Z.testbit (rd [0; 0; 0; 0] k) b = false.
Proof.
  unfold rd. destruct (Z.to_nat k) as [|[|[|[|[|n]]]]]; cbn [nth]; apply Z.bits_0.
Qed.

Lemma rd_map (f : Z -> Z) (l : list Z) k : f 0 = 0 -> rd (map f l) k = f (rd l k).
Proof. intros H0. unfold rd. rewrite <- H0 at 1. apply map_nth. Qed.

(** X17: [detect_system_caps] sets the bit of a capability exactly when eax of
    CPUID leaf 0, read as an [int], reaches the capability's leaf and the
    register the capability list names has the bit it names set in the
    answer to that leaf; it sets no other bit.  Leaf 7 is asked for subleaf 0
    in the MSVC build, and for whatever subleaf ecx happens to hold in the
    GCC build, whose [__get_cpuid] loads eax only. *)
Theorem detect_system_caps_reads_cpuid (b : cmv.compiler) (c : cmv.cpu) (stale_ecx : Z)
    (name : cmv.capability) (fn reg regbit : Z) :
  In (name, fn, reg, regbit) cmv.capability_list ->
  let max_func := cmv.to_int (cmv.eax (cmv.leaf0 c)) in
  let subleaf := match b with cmv.msvc => 0 | cmv.gnuc => stale_ecx end in
  let r := if fn =? 1 then cmv.leaf1 c else cmv.leaf7 c subleaf in
  Z.testbit (cmv.detect_system_caps b c stale_ecx) (cmv.capability_index name)
  = (fn <=? max_func)
    && Z.testbit (rd [cmv.eax r; cmv.ebx r; cmv.ecx r; cmv.edx r] (reg - 1)) regbit
  /\ forall i, 16 <= i -> Z.testbit (cmv.detect_system_caps b c stale_ecx) i = false.
Proof.
  intros Hin max_func subleaf r. split.
  - pose proof (proj1 (List.Forall_forall _ _) capability_list_entries _ Hin) as Hent.
    cbv beta iota in Hent. destruct Hent as (Hfn & Hreg & Hbit).
    assert (Hmax : cmv.to_int (cmv.get_cpuid_max c) = max_func)
      by apply to_int_u32.
    assert (Hget : forall leaf, 1 <= leaf -> (leaf <=? max_func) = true ->
              cmv.get_cpuid c stale_ecx leaf [0; 0; 0; 0]
              = cmv.uint_array (if leaf =? 1 then cmv.leaf1 c
                                else cmv.leaf7 c stale_ecx)).
    { intros leaf H1 Hle. apply Z.leb_le in Hle. unfold cmv.get_cpuid.
      replace ((cmv.get_cpuid_max c =? 0) || (cmv.get_cpuid_max c <? leaf)) with false;
        [reflexivity|].
      symmetry. apply orb_false_iff.
      assert (Hm : leaf <= cmv.get_cpuid_max c).
      { revert Hle. unfold max_func, cmv.get_cpuid_max, cmv.to_int.
        pose proof (u32_range (cmv.eax (cmv.leaf0 c))).
        destruct (Z.ltb_spec (u32 (cmv.eax (cmv.leaf0 c))) (2 ^ 31)); lia. }
      split; [apply Z.eqb_neq|apply Z.ltb_ge]; lia. }
    unfold cmv.detect_system_caps. destruct b; cbv zeta.
    + change (rd (cmv.int_array (cmv.leaf0 c)) 0) with max_func.
      rewrite (detect_bit _ _ name fn reg regbit Hin).
      destruct Hfn as [-> | ->]; cbn [Z.eqb Pos.eqb]; subst r; cbn [Z.eqb Pos.eqb];
        (match goal with |- context [?k <=? max_func] =>
           destruct (k <=? max_func) end;
         [|rewrite rd_zeros_bit; reflexivity]);
        unfold cmv.int_array; rewrite rd_map, testbit_to_int by (reflexivity || lia);
        reflexivity.
    + rewrite Hmax.
      rewrite (detect_bit _ _ name fn reg regbit Hin).
      destruct Hfn as [-> | ->]; cbn [Z.eqb Pos.eqb]; subst r; cbn [Z.eqb Pos.eqb];
        (match goal with |- context [?k <=? max_func] =>
           destruct (k <=? max_func) eqn:Hle end;
         [|rewrite rd_zeros_bit; reflexivity]);
        rewrite Hget by (lia || exact Hle); cbn [Z.eqb Pos.eqb];
        unfold cmv.uint_array; rewrite rd_map, testbit_u32 by (reflexivity || lia);
        reflexivity.
  - intros i Hi. unfold cmv.detect_system_caps.
    destruct b; cbv zeta;
      (rewrite detect_fold; [|lia|exact capability_list_bits]);
      rewrite Z.bits_0, orb_false_l; apply detect_fold_other;
      repeat constructor; cbn; lia.
Qed.

(** On the sample processor the GCC build finds the capabilities of leaf 7
    only when ecx happens to hold 0. *)
Lemma detect_system_caps_reads_cpuid_witness :
  (Z.testbit (cmv.detect_system_caps cmv.gnuc sample_cpu 0x6C65746E)
     (cmv.capability_index cmv.avx2)
   = (7 <=? cmv.to_int 13) && Z.testbit (rd [0; 0; 0; 0] (2 - 1)) 5
   /\ forall i, 16 <= i ->
        Z.testbit (cmv.detect_system_caps cmv.gnuc sample_cpu 0x6C65746E) i = false)
  /\ cmv.detect_system_caps cmv.gnuc sample_cpu 0x6C65746E = 28287
  /\ cmv.detect_system_caps cmv.gnuc sample_cpu 0 = 65535
  /\ cmv.detect_system_caps cmv.msvc sample_cpu 0x6C65746E = 65535.
Proof.
  split; [|vm_compute; repeat split; reflexivity].
  exact (detect_system_caps_reads_cpuid cmv.gnuc sample_cpu 0x6C65746E cmv.avx2 7 2 5
           ltac:(vm_compute; tauto)).
Defined.

(** A requirement mask meets no missing capability exactly when the system
    has all of its capabilities. *)
Lemma requirements_met system_caps requirements :
  0 <= system_caps < 2 ^ 32 -> 0 <= requirements < 2 ^ 32 ->
  Z.land requirements (u32 (Z.lnot system_caps)) = 0 <-> supports system_caps requirements.
Proof.
  intros Hc Hr. unfold supports, u32. change 4294967296 with (2 ^ 32).
  rewrite <- Z.land_ones by lia.
  assert (Hhi : forall i, 32 <= i -> Z.testbit requirements i = false).
  { intros i Hi. destruct (Z.eq_dec requirements 0) as [->|Hn]; [apply Z.bits_0|].
    assert (2 ^ 32 <= 2 ^ i) by (apply Z.pow_le_mono_r; lia).
    apply Z.bits_above_log2; [lia|]. apply Z.log2_lt_pow2; lia. }
  split; intros H; apply Z.bits_inj'; intros i Hi.
  - apply (f_equal (fun z => Z.testbit z i)) in H.
    rewrite !Z.land_spec, Z.lnot_spec, Z.bits_0 in H by lia.
    rewrite Z.land_spec.
    destruct (Z_lt_le_dec i 32).
    + rewrite Z.ones_spec_low, andb_true_r in H by lia.
      destruct (Z.testbit requirements i), (Z.testbit system_caps i); cbn in *; congruence.
    + rewrite Hhi by lia. reflexivity.
  - apply (f_equal (fun z => Z.testbit z i)) in H. rewrite Z.land_spec in H.
    rewrite !Z.land_spec, Z.lnot_spec, Z.bits_0 by lia.
    destruct (Z.testbit requirements i), (Z.testbit system_caps i); cbn in *;
      try congruence; reflexivity.
Qed.

Lemma resolve_from_skips {F : Type} not_present (pre rest : list (cmv.version F)) :
  Forall (fun c => Z.land (cmv.requirements c) not_present <> 0) pre ->
  cmv.resolve_from not_present (pre ++ rest) = cmv.resolve_from not_present rest.
Proof.
  induction 1 as [|c pre Hc _ IH]; [reflexivity|].
  cbn [app cmv.resolve_from].
  destruct (Z.eqb_spec (Z.land (cmv.requirements c) not_present) 0); [contradiction|].
  exact IH.
Qed.

(** X18: [resolve] returns the function of the first version whose requirements
    the system meets: every version before it lacks a capability, and the
    versions after it are not looked at. *)
Theorem resolve_picks_first_supported {F : Type} (system_caps : Z)
    (pre : list (cmv.version F)) (v : cmv.version F) (post : list (cmv.version F)) :
  0 <= system_caps < 2 ^ 32 ->
  Forall (fun c => 0 <= cmv.requirements c < 2 ^ 32) (pre ++ [v]) ->
  Forall (fun c => ~ supports system_caps (cmv.requirements c)) pre ->
  supports system_caps (cmv.requirements v) ->
  cmv.resolve system_caps (pre ++ v :: post) = Some (cmv.function v).
Proof.
  intros Hc Hr Hpre Hv. unfold cmv.resolve.
  apply Forall_app in Hr. destruct Hr as [Hrp Hrv].
  apply Forall_cons_iff in Hrv. destruct Hrv as [Hrv _].
  rewrite resolve_from_skips.
  - cbn [cmv.resolve_from].
    rewrite (proj2 (requirements_met system_caps _ Hc Hrv) Hv). reflexivity.
  - rewrite Forall_forall in *. intros c Hin H0.
    apply (Hpre c Hin). apply requirements_met; auto.
Qed.

Lemma resolve_picks_first_supported_witness :
  cmv.resolve (Z.lor (cmv.caps cmv.sse) (cmv.caps cmv.sse2))
    ([{| cmv.function := 1%nat;
         cmv.requirements := Z.lor (cmv.caps cmv.ssse3) (cmv.caps cmv.sse2) |}]
     ++ {| cmv.function := 2%nat; cmv.requirements := cmv.caps cmv.sse2 |}
     :: [{| cmv.function := 3%nat; cmv.requirements := cmv.generic |}])
  = Some 2%nat.
Proof.
  apply (resolve_picks_first_supported (Z.lor (cmv.caps cmv.sse) (cmv.caps cmv.sse2))
           [{| cmv.function := 1%nat;
               cmv.requirements := Z.lor (cmv.caps cmv.ssse3) (cmv.caps cmv.sse2) |}]
           {| cmv.function := 2%nat; cmv.requirements := cmv.caps cmv.sse2 |}
           [{| cmv.function := 3%nat; cmv.requirements := cmv.generic |}]).
  - vm_compute. split; [discriminate|reflexivity].
  - repeat constructor; vm_compute; (discriminate || reflexivity).
  - repeat constructor. vm_compute. discriminate.
  - vm_compute. reflexivity.
Defined.

(** X19: [resolve] finds a version exactly when some version is met by the
    system: an array that ends with a [generic] version always gives one,
    and on an array without a version the system meets the loop runs past
    the last element. *)
Theorem resolve_needs_a_supported_version {F : Type} (system_caps : Z)
    (versions : list (cmv.version F)) :
  0 <= system_caps < 2 ^ 32 ->
  Forall (fun c => 0 <= cmv.requirements c < 2 ^ 32) versions ->
  (cmv.resolve system_caps versions = None
   <-> Forall (fun c => ~ supports system_caps (cmv.requirements c)) versions)
  /\ (Exists (fun c => cmv.requirements c = cmv.generic) versions ->
      exists f, cmv.resolve system_caps versions = Some f).
Proof.
  intros Hc Hr. unfold cmv.resolve.
  assert (Hiff : cmv.resolve_from (u32 (Z.lnot system_caps)) versions = None
                 <-> Forall (fun c => ~ supports system_caps (cmv.requirements c)) versions).
  { induction Hr as [|c l Hrc _ IH]; [split; [constructor|reflexivity]|].
    cbn [cmv.resolve_from].
    destruct (Z.eqb_spec (Z.land (cmv.requirements c) (u32 (Z.lnot system_caps))) 0)
      as [H0|H0]; cbn [negb].
    - split; [discriminate|]. intros H. apply Forall_cons_iff in H. destruct H as [H _].
      exfalso. apply H. apply requirements_met; assumption.
    - rewrite IH. split.
      + intros H. constructor; [|exact H]. intros Hs. apply H0.
        apply requirements_met; assumption.
      + intros H. apply Forall_cons_iff in H. tauto. }
  split; [exact Hiff|].
  intros Hex.
  destruct (cmv.resolve_from (u32 (Z.lnot system_caps)) versions) as [f|];
    [exists f; reflexivity|].
  exfalso. pose proof (proj1 Hiff eq_refl) as E. rewrite Forall_forall in E.
  apply Exists_exists in Hex. destruct Hex as (c & Hin & Hg).
  apply (E c Hin). unfold supports. rewrite Hg. reflexivity.
Qed.

Lemma resolve_needs_a_supported_version_witness :
  (cmv.resolve (cmv.caps cmv.sse)
     [{| cmv.function := 1%nat; cmv.requirements := cmv.caps cmv.avx |};
      {| cmv.function := 2%nat; cmv.requirements := cmv.generic |}] = None
   <-> Forall (fun c => ~ supports (cmv.caps cmv.sse) (cmv.requirements c))
         [{| cmv.function := 1%nat; cmv.requirements := cmv.caps cmv.avx |};
          {| cmv.function := 2%nat; cmv.requirements := cmv.generic |}])
  /\ (Exists (fun c => cmv.requirements c = cmv.generic)
        [{| cmv.function := 1%nat; cmv.requirements := cmv.caps cmv.avx |};
         {| cmv.function := 2%nat; cmv.requirements := cmv.generic |}] ->
      exists f, cmv.resolve (cmv.caps cmv.sse)
                  [{| cmv.function := 1%nat; cmv.requirements := cmv.caps cmv.avx |};
                   {| cmv.function := 2%nat; cmv.requirements := cmv.generic |}] = Some f).
Proof.
  apply (resolve_needs_a_supported_version (cmv.caps cmv.sse)
           [{| cmv.function := 1%nat; cmv.requirements := cmv.caps cmv.avx |};
            {| cmv.function := 2%nat; cmv.requirements := cmv.generic |}]).
  - vm_compute. split; [discriminate|reflexivity].
  - repeat constructor; vm_compute; (discriminate || reflexivity).
Defined.

(** ** The stretchy buffers never overflow *)

Lemma sbmaybegrow_room (a : option sbuf) n :
  0 <= n -> (forall s, a = Some s -> sb_fits s) ->
  zw__sbn (zw__sbmaybegrow a n) + n < sbm (zw__sbmaybegrow a n)
  /\ sbitems (zw__sbmaybegrow a n) = sb_items a.
Proof.
  intros Hn Hf. destruct a as [s|].
  - specialize (Hf s eq_refl). unfold sb_fits in Hf.
    unfold zw__sbmaybegrow, zw__sbneedgrow.
    assert (0 <= zw__sbn s) by (unfold zw__sbn; lia).
    destruct (Z.leb_spec (sbm s) (zw__sbn s + n)).
    + unfold zw__sbgrowf, zw__sbn in *. cbn [sbm sbitems sb_items]. split; [lia|reflexivity].
    + split; [lia|reflexivity].
  - unfold zw__sbmaybegrow, zw__sbgrowf, zw__sbn. cbn. split; [lia|reflexivity].
Qed.

Lemma sbpush_fits (a : option sbuf) v :
  (forall s, a = Some s -> sb_fits s) -> sb_fits (zw__sbpush a v).
Proof.
  intros Hf. destruct (sbmaybegrow_room a 1 ltac:(lia) Hf) as [Hr _].
  unfold zw__sbpush, sb_fits, zw__sbn in *. cbn [sbm sbitems].
  rewrite length_app. cbn [length]. lia.
Qed.

Lemma hash_insert_fits (hl : option sbuf) v :
  (forall s, hl = Some s -> sb_fits s) -> sb_fits (hash_insert 8 hl v).
Proof.
  intros Hf. unfold hash_insert. apply sbpush_fits.
  intros s' Hs'. destruct hl as [s|]; [|discriminate]. specialize (Hf s eq_refl).
  unfold hash_trim in Hs'.
  destruct (Z.eqb_spec (zw__sbn s) (u32 (2 * 8))) as [He|_].
  - injection Hs' as <-. unfold sb_fits, zw__sbn in *. cbn [sbm sbitems].
    change (u32 (2 * 8)) with 16 in He. unfold ztake. rewrite length_take. lia.
  - injection Hs' as <-. exact Hf.
Qed.

Section Capacities.

Context {U : Type} (no_sse : bool).
Implicit Types a : zw__zip_details U.

Lemma buffers_fit_enc_frame a (b : zw__zip_details U) :
  enc_frame b = enc_frame a -> buffers_fit a -> buffers_fit b.
Proof.
  intros He [Hc Hh].
  destruct (enc_frame_fields _ _ He) as (_ & _ & _ & _ & _ & _ & _ & Hcd & _).
  unfold buffers_fit. rewrite (enc_frame_hash_table _ _ He), Hcd. auto.
Qed.

Lemma buffers_fit_emits a (b : zw__zip_details U) :
  emits a b -> buffers_fit a -> buffers_fit b.
Proof. intros [He _]. apply buffers_fit_enc_frame. exact He. Qed.

Lemma flush_input_step_fit data_len a i :
  quality a = 8 -> buffers_fit a ->
  buffers_fit (fst (flush_input_step no_sse data_len a i)).
Proof.
  intros Hq [Hc Hh]. destruct (flush_input_step_spec no_sse data_len a i) as (h & Hh' & Hf & _).
  destruct (layout_fields _ _ (search_frame_layout _ _ Hf)) as (_ & _ & _ & _ & _ & Hcd & _).
  unfold buffers_fit. rewrite Hh', Hcd, Hq. split; [exact Hc|].
  apply map_Forall_insert_2; [|exact Hh].
  apply hash_insert_fits. intros s Hs. exact (Hh h s Hs).
Qed.

Lemma flush_input_loop_fit data_len n : forall a i,
  quality a = 8 -> buffers_fit a ->
  buffers_fit (fst (flush_input_loop no_sse n data_len a i)).
Proof.
  induction n as [|n IH]; intros a i Hq Hf; [exact Hf|].
  cbn [flush_input_loop]. destruct (i <? data_len - 3); [|exact Hf].
  pose proof (flush_input_step_fit data_len a i Hq Hf) as Hf1.
  destruct (flush_input_step_spec no_sse data_len a i) as (h & _ & Hs & _).
  destruct (flush_input_step no_sse data_len a i) as [a1 i1]. cbn [fst] in *.
  apply IH; [|exact Hf1].
  rewrite (layout_quality _ _ (search_frame_layout _ _ Hs)). exact Hq.
Qed.

Lemma flush_input_fit a :
  quality a = 8 -> buffers_fit a -> buffers_fit (zw__flush_input no_sse a).
Proof.
  intros Hq Hf. unfold zw__flush_input. destruct (in_cursor a =? 0); [exact Hf|].
  pose proof (flush_input_loop_fit (in_cursor a) (Z.to_nat (in_cursor a)) a 0 Hq Hf) as Hf1.
  destruct (flush_input_loop no_sse (Z.to_nat (in_cursor a)) (in_cursor a) a 0)
    as [a1 i1]. cbn [fst] in *.
  pose proof (buffers_fit_emits _ _ (literal_tail_emits (seqZ i1 (in_cursor a - i1)) a1) Hf1)
    as [Hc2 Hh2].
  set (a2 := foldl _ a1 _) in *. clearbody a2.
  unfold buffers_fit.
  cbn [hash_table central_dir set_in_cursor set_current_file set_window set_hash_table].
  split; [exact Hc2|].
  apply map_Forall_fmap. eapply map_Forall_impl; [exact Hh2|].
  intros h s Hs. unfold compose, sb_fits, zw__sbn in *. cbn [slide_chain sbitems sbm].
  pose proof (slide_items_length (in_cursor a2) (sbitems s)). lia.
Qed.

Lemma append_to_central_dir_fit a data :
  buffers_fit a -> buffers_fit (snd (zw__append_to_central_dir a data)).
Proof.
  intros [Hc Hh]. unfold zw__append_to_central_dir.
  destruct (Z.of_nat (length data) =? 0); [split; assumption|].
  cbn [snd]. unfold buffers_fit. cbn [central_dir hash_table set_central_dir].
  split; [|exact Hh].
  intros s [= <-].
  destruct (sbmaybegrow_room (central_dir a) (Z.of_nat (length data)) ltac:(lia) Hc) as [Hr _].
  unfold sb_fits, zw__sbn in *. cbn [sbm sbitems]. rewrite length_app. lia.
Qed.

Lemma end_file_fit a :
  quality a = 8 -> buffers_fit a -> buffers_fit (snd (zw__zip_end_file no_sse a)).
Proof.
  intros Hq Hf. unfold zw__zip_end_file.
  destruct (name_length (current_file a) =? 0); [exact Hf|].
  pose proof (flush_input_fit a Hq Hf) as H1.
  set (a1 := zw__flush_input no_sse a) in *. clearbody a1.
  assert (H4 : buffers_fit (zw__flush_compressed_bytes (pad_bits 8 (zw__zlib_huff 256 a1)))).
  { eapply buffers_fit_emits; [apply flush_compressed_bytes_emits|].
    eapply buffers_fit_emits; [apply pad_bits_emits|].
    eapply buffers_fit_emits; [apply zlib_huff_emits|]. exact H1. }
  set (a4 := zw__flush_compressed_bytes _) in *. clearbody a4.
  match goal with |- context [zw__write_to_stream a4 ?d] =>
    pose proof (buffers_fit_emits _ _ (write_to_stream_emits a4 d) H4) as Hw;
    destruct (zw__write_to_stream a4 d) as [[|] a5] end; cbn [snd] in *; [exact Hw|].
  match goal with |- buffers_fit (set_current_file _ ?x) =>
    change (buffers_fit x) end.
  repeat apply append_to_central_dir_fit. exact Hw.
Qed.

Lemma begin_file_fit a file_path r a' :
  quality a = 8 -> buffers_fit a ->
  zw_begin_file no_sse (Some a) file_path = (r, Some a') -> buffers_fit a'.
Proof.
  intros Hq Hf. unfold zw_begin_file.
  pose proof (end_file_fit a Hq Hf) as H0.
  set (a0 := snd (zw__zip_end_file no_sse a)) in *. clearbody a0.
  destruct file_path as [[|c path]|]; [intros [= <- <-]; exact H0| |intros [= <- <-]; exact H0].
  match goal with |- context [zw__write_to_stream a0 ?d] =>
    pose proof (buffers_fit_emits _ _ (write_to_stream_emits a0 d) H0) as H1;
    destruct (zw__write_to_stream a0 d) as [[|] a1] end;
    cbn [snd] in H1; [intros [= <- <-]; exact H1|].
  match goal with |- context [zw__write_to_stream a1 ?d] =>
    pose proof (buffers_fit_emits _ _ (write_to_stream_emits a1 d) H1) as H2;
    destruct (zw__write_to_stream a1 d) as [[|] a2] end;
    cbn [snd] in H2; [intros [= <- <-]; exact H2|].
  intros [= <- <-].
  eapply buffers_fit_emits; [apply zlib_add_emits|].
  eapply buffers_fit_emits; [apply zlib_add_emits|].
  destruct H2 as [Hc Hh]. unfold buffers_fit.
  destruct (negb (num_files a2 =? 0)); cbn; (split; [exact Hc|]); [|exact Hh].
  apply map_Forall_fmap. eapply map_Forall_impl; [exact Hh|].
  intros h s Hs. unfold compose, sb_fits, zw__sbn in *. cbn [sbm sbitems length]. lia.
Qed.

Lemma write_step_fit a (data : list Z) b :
  quality a = 8 -> buffers_fit a ->
  buffers_fit (write_step no_sse a data b) /\ quality (write_step no_sse a data b) = 8.
Proof.
  intros Hq Hf. unfold write_step.
  set (a1 := set_in_cursor _ (set_window _ a)).
  assert (Hq1 : quality a1 = 8) by exact Hq.
  assert (Hf1 : buffers_fit a1) by exact Hf.
  clearbody a1.
  destruct (in_cursor a1 =? in_total a1); [|auto].
  split; [apply flush_input_fit; assumption|].
  destruct (flush_input_layout no_sse a1) as (Hlay & _).
  rewrite (layout_quality _ _ Hlay). exact Hq1.
Qed.

Lemma write_loop_fit n : forall a (data : list Z),
  quality a = 8 -> buffers_fit a -> buffers_fit (fst (write_loop no_sse n a data)).
Proof.
  induction n as [|n IH]; intros a data Hq Hf; [exact Hf|].
  rewrite write_loop_S. destruct (0 <? Z.of_nat (length data)); [|exact Hf].
  destruct (write_step_fit a data (write_batch a data) Hq Hf) as [Hf1 Hq1].
  apply IH; assumption.
Qed.

Lemma finish_tail_fit r a r' a' :
  finish_tail r a = (r', Some a') -> buffers_fit a -> buffers_fit a'.
Proof.
  unfold finish_tail. destruct (close (stream a)) as [f|].
  - destruct (f (user_data (stream a)) (error (stream a))) as [u e].
    intros E Hf. apply (f_equal (fun p => from_option buffers_fit True (snd p))) in E.
    cbn [snd from_option] in E. rewrite <- E. exact Hf.
  - intros E Hf. apply (f_equal (fun p => from_option buffers_fit True (snd p))) in E.
    cbn [snd from_option] in E. rewrite <- E. exact Hf.
Qed.

Lemma finish_fit a r a' :
  quality a = 8 -> buffers_fit a ->
  zw_finish no_sse (Some a) = (r, Some a') -> buffers_fit a'.
Proof.
  intros Hq Hf. rewrite finish_unfold. cbv zeta.
  pose proof (end_file_fit a Hq Hf) as [Hc0 _].
  set (a0 := set_hash_table ∅ (snd (zw__zip_end_file no_sse a))).
  assert (H0 : buffers_fit a0) by (split; [exact Hc0|apply map_Forall_empty]).
  clearbody a0. clear Hc0.
  pose proof (buffers_fit_emits _ _ (write_to_stream_emits a0 (sb_items (central_dir a0))) H0)
    as [_ H1].
  destruct (zw__write_to_stream a0 (sb_items (central_dir a0))) as [r1 a1].
  cbn [fst snd] in *.
  assert (Hc1 : buffers_fit (set_central_dir None a1)) by (split; [discriminate|exact H1]).
  set (c1 := set_central_dir None a1) in *. clearbody c1.
  destruct r1.
  - match goal with |- context [zw__write_to_stream c1 ?d] =>
      pose proof (buffers_fit_emits _ _ (write_to_stream_emits c1 d) Hc1) as H3;
      destruct (zw__write_to_stream c1 d) as [r3 a3] end.
    cbn [snd] in *. intros E. exact (finish_tail_fit _ _ _ _ E H3).
  - match goal with |- context [zw__write_to_stream c1 ?d] =>
      pose proof (buffers_fit_emits _ _ (write_to_stream_emits c1 d) Hc1) as H2;
      destruct (zw__write_to_stream c1 d) as [r2 a2] end.
    cbn [fst snd] in *.
    match goal with |- context [zw__write_to_stream a2 ?d] =>
      pose proof (buffers_fit_emits _ _ (write_to_stream_emits a2 d) H2) as H3;
      destruct (zw__write_to_stream a2 d) as [r3 a3] end.
    cbn [fst snd] in *.
    destruct r2, r3; try (intros E; exact (finish_tail_fit _ _ _ _ E H3)).
    pose proof (buffers_fit_emits _ _
                  (write_to_stream_emits a3 end_of_central_dir_bytes) H3) as H4.
    destruct (zw__write_to_stream a3 end_of_central_dir_bytes) as [r4 a4].
    cbn [fst snd] in *. destruct r4.
    + intros E. apply (f_equal (fun p => from_option buffers_fit True (snd p))) in E.
      cbn [snd from_option] in E. rewrite <- E. exact H4.
    + intros E. exact (finish_tail_fit _ _ _ _ E H4).
Qed.

Lemma reachable_fit a : reachable no_sse a -> buffers_fit a.
Proof.
  induction 1 as [options local a Hc|a path r a' Hr IH Hb|a data r a' Hr IH Hw
                 |a r a' Hr IH Hf].
  - unfold zw_create_ex in Hc. destruct options as [o|]; [|discriminate].
    destruct (write (opt_stream o)); [|discriminate].
    apply (f_equal (from_option buffers_fit True)) in Hc. cbn [from_option] in Hc.
    rewrite <- Hc. split; [discriminate|apply map_Forall_empty].
  - destruct (reachable_session_ok no_sse a Hr) as (Hq & _).
    exact (begin_file_fit a path r a' Hq IH Hb).
  - destruct (reachable_session_ok no_sse a Hr) as (Hq & _).
    unfold zw_write in Hw. destruct (num_files a =? 0).
    + injection Hw as _ <-. exact IH.
    + apply (f_equal (fun p => from_option buffers_fit True (snd p))) in Hw.
      cbn [snd from_option] in Hw. rewrite <- Hw. apply write_loop_fit; assumption.
  - destruct (reachable_session_ok no_sse a Hr) as (Hq & _).
    exact (finish_fit a r a' Hq IH Hf).
Qed.

End Capacities.

(** X16: in every session the public operations can produce, the central
    directory and every chain of the hash table hold fewer items than their
    capacity: each store into a stretchy buffer goes to a slot
    [zw__sbmaybegrow] has made room for. *)
Theorem stretchy_buffers_never_overflow {U : Type} (no_sse : bool)
    (a : zw__zip_details U) :
  reachable no_sse a ->
  (forall s, central_dir a = Some s -> zw__sbn s < sbm s)
  /\ map_Forall (fun _ s => zw__sbn s < sbm s) (hash_table a).
Proof. intros Hr. exact (reachable_fit no_sse a Hr). Qed.

Lemma idle_session_reachable :
  exists a, idle_session = Some a /\ reachable false a.
Proof.
  unfold idle_session. cbv zeta.
  destruct (zw_begin_file false memory_session (Some [97])) as [r1 o1] eqn:E1.
  pose proof (f_equal (fun p => from_option num_files 0 (snd p)) E1) as H1.
  vm_compute in H1. destruct o1 as [a1|]; [clear H1|discriminate H1]. cbn [snd].
  assert (Hr1 : reachable false a1).
  { eapply (reach_begin_file false _ (Some [97]) r1 a1); [|exact E1].
    eapply reach_create with (options := Some {| opt_stream := memory_stream |})
                             (local := stamp).
    reflexivity. }
  destruct (zw_begin_file false (Some a1) (Some [])) as [r o] eqn:E.
  assert (Ho : o = Some (snd (zw__zip_end_file false a1))).
  { unfold zw_begin_file in E. injection E as _ <-. reflexivity. }
  exists (snd (zw__zip_end_file false a1)). split; [exact Ho|].
  rewrite Ho in E. exact (reach_begin_file false a1 (Some []) r _ Hr1 E).
Qed.

Lemma stretchy_buffers_never_overflow_witness :
  match idle_session with
  | Some a =>
      (forall s, central_dir a = Some s -> zw__sbn s < sbm s)
      /\ map_Forall (fun _ s => zw__sbn s < sbm s) (hash_table a)
  | None => False
  end.
Proof.
  destruct idle_session_reachable as (a & -> & Hr).
  exact (stretchy_buffers_never_overflow false a Hr).
Defined.

(** ** The two builds *)

Section Builds.

Context {U : Type}.
Implicit Types a : zw__zip_details U.

Lemma countm_builds_agree (p q : list Z) limit :
  0 <= limit -> zw__zlib_countm true p q limit = zw__zlib_countm false p q limit.
Proof.
  intros Hl. eapply first_mismatch_unique; apply countm_first_mismatch; exact Hl.
Qed.

Lemma scan_chain_builds_agree (w : list Z) i data_len (hlist : list Z) :
  0 <= data_len - i -> forall best bestloc,
  scan_chain true w i data_len hlist best bestloc
  = scan_chain false w i data_len hlist best bestloc.
Proof.
  intros Hl. induction hlist as [|e hlist IH]; intros best bestloc; [reflexivity|].
  cbn [scan_chain]. rewrite countm_builds_agree by exact Hl.
  destruct (i <? e); [|apply IH].
  destruct (best <=? _); apply IH.
Qed.

Lemma lazy_scan_builds_agree (w : list Z) i data_len best (hlist : list Z) :
  0 <= data_len - i - 1 ->
  lazy_scan true w i data_len best hlist = lazy_scan false w i data_len best hlist.
Proof.
  intros Hl. induction hlist as [|c hlist IH]; [reflexivity|].
  cbn [lazy_scan]. rewrite countm_builds_agree by exact Hl. rewrite IH. reflexivity.
Qed.

Lemma flush_input_step_builds_agree data_len a i :
  i < data_len - 3 ->
  flush_input_step true data_len a i = flush_input_step false data_len a i.
Proof.
  intros Hi. unfold flush_input_step.
  rewrite scan_chain_builds_agree by lia.
  destruct (scan_chain false _ _ _ _ _ _) as [best [loc|]]; [|reflexivity].
  rewrite lazy_scan_builds_agree by lia. reflexivity.
Qed.

Lemma flush_input_loop_builds_agree data_len n : forall a i,
  flush_input_loop true n data_len a i = flush_input_loop false n data_len a i.
Proof.
  induction n as [|n IH]; intros a i; [reflexivity|].
  cbn [flush_input_loop]. destruct (Z.ltb_spec i (data_len - 3)); [|reflexivity].
  rewrite flush_input_step_builds_agree by assumption.
  destruct (flush_input_step false data_len a i) as [a1 i1]. apply IH.
Qed.

Lemma flush_input_builds_agree a : zw__flush_input true a = zw__flush_input false a.
Proof. unfold zw__flush_input. rewrite flush_input_loop_builds_agree. reflexivity. Qed.

Lemma end_file_builds_agree a : zw__zip_end_file true a = zw__zip_end_file false a.
Proof. unfold zw__zip_end_file. rewrite flush_input_builds_agree. reflexivity. Qed.

Lemma write_loop_builds_agree n : forall a (data : list Z),
  write_loop true n a data = write_loop false n a data.
Proof.
  induction n as [|n IH]; intros a data; [reflexivity|].
  rewrite !write_loop_S. unfold write_step. rewrite flush_input_builds_agree, IH.
  reflexivity.
Qed.

End Builds.

(** X20: the build with SSE intrinsics and the build with [ZW_NO_SSE] cannot be
    told apart: on every session and every input, [zw_begin_file],
    [zw_write] and [zw_finish] return the same result, leave the same
    session, and have handed the same bytes to the sink. *)
Theorem sse_build_changes_nothing {U : Type} (archive : option (zw__zip_details U))
    (file_path : option (list Z)) (data : list Z) :
  zw_begin_file true archive file_path = zw_begin_file false archive file_path
  /\ zw_write true archive data = zw_write false archive data
  /\ zw_finish true archive = zw_finish false archive.
Proof.
  destruct archive as [a|]; [|repeat split; reflexivity].
  split; [|split].
  - unfold zw_begin_file. rewrite end_file_builds_agree. reflexivity.
  - unfold zw_write. rewrite write_loop_builds_agree. reflexivity.
  - unfold zw_finish. rewrite end_file_builds_agree. reflexivity.
Qed.

(** ** [zw_write] takes in every byte *)

Lemma crc32_bounds buffer initial : 0 <= zw__crc32 buffer initial < 2 ^ 32.
Proof. unfold zw__crc32. change (2 ^ 32) with 4294967296. apply not32_range. Qed.

Section TakesIn.

Context {U : Type} (no_sse : bool).
Implicit Types a : zw__zip_details U.

Lemma pending_length a :
  buffers_ok a -> Z.of_nat (length (pending a)) = in_cursor a.
Proof.
  intros ((_ & _ & _ & _ & Hc & _) & Hwl). unfold pending, ztake, zdrop.
  rewrite length_take, length_drop. lia.
Qed.

(** A flush of a window that holds bytes: they enter the CRC-32 and the
    size, and none is left waiting. *)
Lemma flush_input_accounts a :
  length (window a) = Z.to_nat 65536 -> 0 < in_cursor a <= 32768 ->
  crc (current_file (zw__flush_input no_sse a))
  = zw__crc32 (pending a) (crc (current_file a))
  /\ uncompressed_size (current_file (zw__flush_input no_sse a))
     = u64 (uncompressed_size (current_file a) + in_cursor a)
  /\ pending (zw__flush_input no_sse a) = [].
Proof.
  intros Hwl Hc. unfold zw__flush_input.
  destruct (Z.eqb_spec (in_cursor a) 0) as [|_]; [lia|].
  destruct (flush_input_loop_frame no_sse (in_cursor a) (Z.to_nat (in_cursor a)) a 0)
    as [Hf _].
  destruct (flush_input_loop no_sse (Z.to_nat (in_cursor a)) (in_cursor a) a 0)
    as [a1 i1]. cbn [fst] in Hf.
  destruct (literal_tail_emits (seqZ i1 (in_cursor a - i1)) a1) as [Hf2 _].
  set (a2 := foldl _ a1 _) in *. clearbody a2.
  pose proof (enc_frame_search_frame _ _ Hf2) as Hs2. rewrite Hf in Hs2. clear Hf Hf2.
  assert (H : in_cursor a2 = in_cursor a /\ window a2 = window a
              /\ uncompressed_size (current_file a2) = uncompressed_size (current_file a)
              /\ crc (current_file a2) = crc (current_file a)).
  { unfold search_frame in Hs2. injection Hs2. intros. auto. }
  destruct H as (Hic & Hw & Hus & Hcrc).
  cbn [crc uncompressed_size current_file set_in_cursor set_current_file set_crc
       set_uncompressed_size set_window set_hash_table window in_cursor].
  unfold pending.
  cbn [window in_cursor set_in_cursor set_current_file set_window set_hash_table].
  rewrite Hic, Hw, Hus, Hcrc.
  rewrite window_slide_upper by (assumption || lia).
  split; [reflexivity|]. split; reflexivity.
Qed.

Lemma crc32_nil c : 0 <= c < 2 ^ 32 -> zw__crc32 [] c = c.
Proof.
  intros Hc. unfold zw__crc32, crc_loop. cbn [fold_left].
  apply not32_involutive. change 4294967296 with (2 ^ 32). exact Hc.
Qed.

Lemma write_step_takes_in a (data : list Z) b :
  buffers_ok a -> 0 <= b <= Z.of_nat (length data) -> in_cursor a + b <= 32768 ->
  takes_in a (ztake b data) (write_step no_sse a data b).
Proof.
  intros Hok Hb Hcb. pose proof Hok as ((Hq & Hit & Hot & Hlo & Hc & Hch) & Hwl).
  unfold write_step. cbv zeta.
  cbn [in_cursor window set_window].
  set (a1 := set_in_cursor (u16 (in_cursor a + b))
               (set_window (memmove (window a) (32768 + in_cursor a) data 0 b) a)).
  assert (Hu : u16 (in_cursor a + b) = in_cursor a + b)
    by (unfold u16; apply Z.mod_small; lia).
  assert (Hp1 : pending a1 = pending a ++ ztake b data).
  { unfold pending, a1. cbn [window in_cursor set_in_cursor set_window]. rewrite Hu.
    apply window_copy_pending; lia. }
  assert (Hwl1 : length (window a1) = Z.to_nat 65536)
    by (apply window_copy_length; lia).
  assert (Hc1 : in_cursor a1 = in_cursor a + b) by exact Hu.
  assert (Hit1 : in_total a1 = 32768) by exact Hit.
  assert (Hcf1 : current_file a1 = current_file a) by reflexivity.
  assert (Hl1 : Z.of_nat (length (pending a1)) = in_cursor a + b).
  { rewrite Hp1, length_app, Nat2Z.inj_add, (pending_length a Hok).
    unfold ztake. rewrite length_take. lia. }
  clearbody a1. rewrite Hc1, Hit1. unfold takes_in. rewrite <- Hp1, <- Hcf1.
  destruct (Z.eqb_spec (in_cursor a + b) 32768) as [He|Hne].
  - destruct (flush_input_accounts a1 Hwl1 ltac:(lia)) as (F1 & F2 & F3).
    rewrite F1, F2, F3. cbn [length]. split; [apply crc32_nil, crc32_bounds|].
    split.
    + rewrite Z.add_0_r, Hl1, Hc1. unfold u64. apply Z.mod_mod. lia.
    + exists (pending a1). rewrite app_nil_r. reflexivity.
  - split; [reflexivity|]. split; [reflexivity|]. exists []. reflexivity.
Qed.

Lemma takes_in_trans a a1 a2 (d1 d2 : list Z) :
  takes_in a d1 a1 -> takes_in a1 d2 a2 -> takes_in a (d1 ++ d2) a2.
Proof.
  intros (C1 & S1 & f1 & P1) (C2 & S2 & f2 & P2). unfold takes_in.
  split; [|split].
  - rewrite C2, crc32_app, C1, <- crc32_app, <- app_assoc. reflexivity.
  - rewrite S2, length_app, Nat2Z.inj_add, Z.add_assoc, <- u64_add_l, S1, u64_add_l.
    f_equal. rewrite !length_app, !Nat2Z.inj_add. lia.
  - exists (f1 ++ f2). rewrite app_assoc, P1, <- !app_assoc, P2. reflexivity.
Qed.

Lemma takes_in_refl a : takes_in a [] a.
Proof.
  unfold takes_in. rewrite app_nil_r. split; [reflexivity|]. split; [reflexivity|].
  exists []. reflexivity.
Qed.

Lemma write_loop_takes_in n : forall a (data : list Z),
  buffers_ok a -> (length data <= n)%nat ->
  write_loop no_sse n a data = (fst (write_loop no_sse n a data), [])
  /\ takes_in a data (fst (write_loop no_sse n a data))
  /\ buffers_ok (fst (write_loop no_sse n a data)).
Proof.
  induction n as [|n IH]; intros a data Hok Hn.
  - destruct data; [|cbn in Hn; lia]. cbn [write_loop fst].
    split; [reflexivity|]. split; [apply takes_in_refl|exact Hok].
  - rewrite write_loop_S.
    destruct (Z.ltb_spec 0 (Z.of_nat (length data))) as [Hlen|Hlen].
    2:{ destruct data; [|cbn in Hlen; lia]. cbn [fst].
        split; [reflexivity|]. split; [apply takes_in_refl|exact Hok]. }
    pose proof (write_batch_min a data Hok) as Hb.
    destruct (proj1 Hok) as (_ & _ & _ & _ & Hc & _).
    set (b := write_batch a data) in *.
    pose proof (write_step_takes_in a data b Hok ltac:(lia) ltac:(lia)) as T1.
    pose proof (write_step_ok no_sse a data b Hok ltac:(lia) ltac:(lia)) as Hok1.
    destruct (IH (write_step no_sse a data b) (zdrop b data) Hok1) as (E2 & T2 & Hok2).
    { unfold zdrop. rewrite length_drop. lia. }
    split; [exact E2|]. split; [|exact Hok2].
    replace data with (ztake b data ++ zdrop b data) at 1
      by (unfold ztake, zdrop; apply take_drop).
    exact (takes_in_trans _ _ _ _ _ T1 T2).
Qed.

End TakesIn.

(** C1, as the code has it: [zw_write] fails on a null session and on a
    session on which no member has been begun yet, leaving the session as it
    is.  While a member is active it succeeds, whatever the sink's error,
    and takes in every byte: no input is left over, the bytes waiting in the
    window afterwards are the last of the bytes that waited before followed
    by [data], and the CRC-32 and the size the member will be closed with
    are those of all of them, in order; when the error has latched nothing
    of it reaches the sink.  A latched error makes [zw__write_to_stream] of
    a non-empty buffer a no-op that fails. *)
Theorem zw_write_ignores_latched_error {U : Type} (no_sse : bool)
    (archive : option (zw__zip_details U)) (data : list Z) :
  (archive = None -> zw_write no_sse archive data = (zw_false, None))
  /\ (forall a, archive = Some a -> num_files a = 0 ->
        zw_write no_sse archive data = (zw_false, Some a))
  /\ (forall a, archive = Some a -> reachable no_sse a ->
        num_files a <> 0 -> name_length (current_file a) <> 0 ->
        exists a', zw_write no_sse archive data = (zw_true, Some a')
          /\ write_loop no_sse (length data) a data = (a', [])
          /\ (exists flushed, pending a ++ data = flushed ++ pending a')
          /\ zw__crc32 (pending a') (crc (current_file a'))
             = zw__crc32 (pending a ++ data) (crc (current_file a))
          /\ u64 (uncompressed_size (current_file a') + Z.of_nat (length (pending a')))
             = u64 (uncompressed_size (current_file a)
                    + Z.of_nat (length (pending a ++ data)))
          /\ (error (stream a) <> 0 ->
              stream a' = stream a /\ offset a' = offset a /\ log a' = log a))
  /\ (forall a, archive = Some a -> error (stream a) <> 0 -> data <> [] ->
        zw__write_to_stream a data = (zw_false, a)).
Proof.
  split; [|split; [|split]].
  - intros ->. reflexivity.
  - intros a -> H0. unfold zw_write. rewrite H0. reflexivity.
  - intros a -> Hr Hn _.
    assert (Hok : buffers_ok a).
    { split; [exact (reachable_session_ok no_sse a Hr)
             |exact (reachable_window_length no_sse a Hr)]. }
    destruct (write_loop_takes_in no_sse (length data) a data Hok (le_n _))
      as (E & (Hc & Hs & Hf) & _).
    assert (Ew : zw_write no_sse (Some a) data
                 = (zw_true, Some (fst (write_loop no_sse (length data) a data)))).
    { unfold zw_write. destruct (Z.eqb_spec (num_files a) 0); [contradiction|reflexivity]. }
    exists (fst (write_loop no_sse (length data) a data)).
    split; [exact Ew|]. split; [exact E|]. split; [exact Hf|].
    split; [exact Hc|]. split; [exact Hs|].
    intros He.
    pose proof (write_keeps_sink (fun s => s = sink_state a)
                  (fun b d => write_to_stream_keeps_latched a b d He) no_sse a data _ _
                  eq_refl Ew) as Hk.
    unfold sink_state in Hk. injection Hk as H1 H2 H3. auto.
  - intros a _ He Hd. unfold zw__write_to_stream.
    destruct data as [|x data]; [contradiction|].
    replace (Z.of_nat (length (x :: data)) =? 0) with false
      by (symmetry; apply Z.eqb_neq; cbn [length]; lia).
    destruct (Z.eqb_spec (error (stream a)) 0); [contradiction|]. reflexivity.
Qed.

Lemma zw_write_ignores_latched_error_witness :
  match latched_session with
  | Some a =>
      exists a', zw_write false (Some a) (ramp_data ++ [104; 105]) = (zw_true, Some a')
        /\ write_loop false (length (ramp_data ++ [104; 105])) a (ramp_data ++ [104; 105])
           = (a', [])
        /\ (exists flushed, pending a ++ ramp_data ++ [104; 105] = flushed ++ pending a')
        /\ zw__crc32 (pending a') (crc (current_file a'))
           = zw__crc32 (pending a ++ ramp_data ++ [104; 105]) (crc (current_file a))
        /\ u64 (uncompressed_size (current_file a') + Z.of_nat (length (pending a')))
           = u64 (uncompressed_size (current_file a)
                  + Z.of_nat (length (pending a ++ ramp_data ++ [104; 105])))
        /\ stream a' = stream a /\ offset a' = offset a /\ log a' = log a
  | None => False
  end.
Proof.
  destruct (zw_begin_file false (failing_session 31) (Some [97])) as [r1 o1] eqn:E1.
  assert (Hl : latched_session = snd (zw_begin_file false o1 (Some [98])))
    by (unfold latched_session; rewrite E1; reflexivity).
  pose proof (f_equal (fun p => from_option num_files 0 (snd p)) E1) as H1.
  vm_compute in H1. destruct o1 as [a1|]; [clear H1|discriminate H1].
  destruct (zw_begin_file false (Some a1) (Some [98])) as [r2 o2] eqn:E2.
  cbn [snd] in Hl. rewrite Hl.
  assert (Hn : from_option (fun a => (num_files a, name_length (current_file a),
                                        error (stream a))) (0, 0, 0)
                 latched_session = (1, 1, 5)) by (vm_compute; reflexivity).
  rewrite Hl in Hn. destruct o2 as [a|]; [|discriminate Hn].
  cbn [from_option] in Hn. injection Hn as Hn1 Hn2 Hn3.
  destruct (zw_write_ignores_latched_error false (Some a) (ramp_data ++ [104; 105]))
    as (_ & _ & H & _).
  destruct (H a eq_refl) as (a' & W1 & W2 & W3 & W4 & W5 & W6).
  - eapply (reach_begin_file false a1 (Some [98]) r2 a); [|exact E2].
    eapply (reach_begin_file false _ (Some [97]) r1 a1); [|exact E1].
    eapply reach_create with (options := Some {| opt_stream := failing_stream 31 |})
                             (local := stamp).
    reflexivity.
  - rewrite Hn1. discriminate.
  - rewrite Hn2. discriminate.
  - exists a'. destruct W6 as (S1 & S2 & S3); [rewrite Hn3; discriminate|]. auto 10.
Defined.

(** ** A chain that fills up and is trimmed *)

Lemma chains_never_exceed_twice_quality_witness :
  let h := Z.land (zw__zhash [97; 97; 97]) (zw__hash_size - 1) in
  match snd (zw_write true (snd (zw_begin_file true memory_session (Some [97])))
               chain_data) with
  | Some a =>
      quality a = 8
      /\ (forall h s, hash_table a !! h = Some s -> zw__sbn s <= 16)
      /\ sb_items (hash_table a !! h)
         = [0; 1; 259; 517; 775; 1033; 1291; 1549; 1807; 2065; 2323; 2581; 2839; 3097;
            3355; 3613]
      /\ chains_bounded (fst (flush_input_step true 32768 a 0))
      /\ sbitems (hash_insert 8 (hash_table a !! h) 32768)
         = [1807; 2065; 2323; 2581; 2839; 3097; 3355; 3613; 32768]
  | None => False
  end.
Proof.
  cbv zeta.
  assert (Hc : from_option
                 (fun a => sb_items (hash_table a
                                       !! Z.land (zw__zhash [97; 97; 97]) (zw__hash_size - 1)))
                 []
                 (snd (zw_write true (snd (zw_begin_file true memory_session (Some [97])))
                         chain_data))
               = [0; 1; 259; 517; 775; 1033; 1291; 1549; 1807; 2065; 2323; 2581; 2839;
                  3097; 3355; 3613]) by (vm_compute; reflexivity).
  destruct (zw_begin_file true memory_session (Some [97])) as [r1 o1] eqn:E1.
  cbn [snd] in *.
  destruct o1 as [a1|]; [|discriminate Hc].
  destruct (zw_write true (Some a1) chain_data) as [r2 o2] eqn:E2. cbn [snd] in *.
  destruct o2 as [a|]; [|discriminate Hc]. cbn [from_option] in Hc.
  assert (Hr : reachable true a).
  { eapply (reach_write true a1 chain_data r2 a); [|exact E2].
    eapply (reach_begin_file true _ (Some [97]) r1 a1); [|exact E1].
    eapply reach_create with (options := Some {| opt_stream := memory_stream |})
                             (local := stamp).
    reflexivity. }
  destruct (chains_never_exceed_twice_quality true a Hr) as (H1 & H2 & H3 & H4).
  split; [exact H1|]. split; [exact H2|]. split; [exact Hc|]. split.
  - apply (H3 a 32768 0 H1). intros k s Hs. cbv beta. rewrite H1. exact (H2 k s Hs).
  - rewrite (H4 (hash_table a !! Z.land (zw__zhash [97; 97; 97]) (zw__hash_size - 1)) 32768).
    rewrite sbcount_items, Hc. reflexivity.
Defined.

(** ** The lazy step *)

(** C8: when the scan at [i] has found a match of length [best], the turn
    looks at the chain of the 3 bytes at [i + 1]; it discards the match and
    advances by 1 exactly when some candidate there is strictly longer than
    [best], and keeps the match and advances by [best] when every candidate
    is at most [best] long.  A discarded match puts the fixed code of the
    byte [data[i]] (the window's byte at [32768 + i]) on the stream of bits,
    after the bits written so far, and the decoder reads that code as the
    literal [data[i]]; a kept match puts the length and distance codes of
    [best] and [32768 + i - loc] there. *)
Theorem lazy_match_needs_strictly_longer {U : Type} (no_sse : bool)
    (a : zw__zip_details U) (data_len i best loc : Z) :
  0 <= i < data_len - 3 -> data_len <= 32768 ->
  let w := window a in
  let h := Z.land (zw__zhash (zdrop (32768 + i) w)) (zw__hash_size - 1) in
  let a1 := set_hash_table
              (<[h := hash_insert (quality a) (hash_table a !! h) (u16 (i + 32768))]>
                 (hash_table a)) a in
  let h1 := Z.land (zw__zhash (zdrop (32768 + i + 1) w)) (zw__hash_size - 1) in
  let candidates := sb_items (hash_table a1 !! h1) in
  let length_at c :=
    zw__zlib_countm no_sse (zdrop c w) (zdrop (32768 + i + 1) w) (data_len - i - 1) in
  scan_chain no_sse w i data_len (sb_items (hash_table a !! h)) 3 None = (best, Some loc) ->
  (snd (flush_input_step no_sse data_len a i) = i + 1
   <-> exists c, c ∈ candidates /\ i + 1 < c /\ best < length_at c)
  /\ ((exists c, c ∈ candidates /\ i + 1 < c /\ best < length_at c) ->
      flush_input_step no_sse data_len a i = (zw__zlib_huffb (rd w (32768 + i)) a1, i + 1))
  /\ ((forall c, c ∈ candidates -> i + 1 < c -> length_at c <= best) ->
      flush_input_step no_sse data_len a i
      = (emit_match best (u16 (32768 + i - loc)) a1, i + best))
  /\ (writer_ok a -> byte (rd w (32768 + i)) ->
      (exists c, c ∈ candidates /\ i + 1 < c /\ best < length_at c) ->
      writer_ok (fst (flush_input_step no_sse data_len a i))
      /\ bitstream (fst (flush_input_step no_sse data_len a i))
         = bitstream a ++ fixed_code (rd w (32768 + i))
      /\ forall out,
           decodes (fixed_code (rd w (32768 + i))) out (out ++ [rd w (32768 + i)]) 1)
  /\ (writer_ok a -> 1 <= 32768 + i - loc <= 32767 ->
      (forall c, c ∈ candidates -> i + 1 < c -> length_at c <= best) ->
      writer_ok (fst (flush_input_step no_sse data_len a i))
      /\ bitstream (fst (flush_input_step no_sse data_len a i))
         = bitstream a ++ match_bits best (32768 + i - loc)).
Proof.
  intros Hi Hlen w h a1 h1 candidates length_at Hscan.
  pose proof (scan_chain_best no_sse w i data_len ltac:(lia) _ 3 None best (Some loc)
                ltac:(lia) Hscan) as Hbest.
  assert (Hstep : flush_input_step no_sse data_len a i
                  = if lazy_scan no_sse w i data_len best candidates
                    then (zw__zlib_huffb (rd w (32768 + i)) a1, i + 1)
                    else (emit_match best (u16 (32768 + i - loc)) a1, i + best)).
  { unfold flush_input_step. fold w. fold h. rewrite Hscan. fold a1.
    change (window a1) with w. fold h1. fold candidates.
    rewrite (u16_small (i + 1)), (u16_small (i + best)) by lia.
    destruct (lazy_scan no_sse w i data_len best candidates); reflexivity. }
  pose proof (lazy_scan_spec no_sse w i data_len best candidates) as Hlazy.
  unfold length_at. rewrite Hstep. split; [|split; [|split; [|split]]].
  - rewrite <- Hlazy.
    destruct (lazy_scan no_sse w i data_len best candidates); cbn [snd].
    + split; reflexivity.
    + split; [lia|discriminate].
  - intros Hex. apply Hlazy in Hex. rewrite Hex. reflexivity.
  - intros Hall.
    destruct (lazy_scan no_sse w i data_len best candidates); [|reflexivity].
    destruct (proj1 Hlazy eq_refl) as (c & Hc & H1 & H2).
    specialize (Hall c Hc H1). lia.
  - intros Hw Hb Hex. apply Hlazy in Hex. rewrite Hex. cbn [fst].
    destruct (zlib_huffb_stream (rd w (32768 + i)) a1
                (writer_ok_set_hash_table _ a Hw) Hb) as (W1 & S1 & _).
    split; [exact W1|]. split; [exact S1|].
    intros out. apply decodes_literal. exact Hb.
  - intros Hw Hd Hall.
    assert (Hno : lazy_scan no_sse w i data_len best candidates = false).
    { destruct (lazy_scan no_sse w i data_len best candidates); [|reflexivity].
      destruct (proj1 Hlazy eq_refl) as (c & Hc & H1 & H2).
      specialize (Hall c Hc H1). lia. }
    rewrite Hno. cbn [fst]. rewrite (u16_small (32768 + i - loc)) by lia.
    destruct (emit_match_stream best (32768 + i - loc) a1
                (writer_ok_set_hash_table _ a Hw) Hbest Hd) as (W1 & S1 & _).
    split; [exact W1|exact S1].
Qed.

Lemma lazy_match_needs_strictly_longer_witness :
  match lazy_sample with
  | Some a =>
      let w := window a in
      let h := Z.land (zw__zhash (zdrop (32768 + 10) w)) (zw__hash_size - 1) in
      let a1 := set_hash_table
                  (<[h := hash_insert (quality a) (hash_table a !! h) (u16 (10 + 32768))]>
                     (hash_table a)) a in
      let h1 := Z.land (zw__zhash (zdrop (32768 + 10 + 1) w)) (zw__hash_size - 1) in
      let candidates := sb_items (hash_table a1 !! h1) in
      let length_at c :=
        zw__zlib_countm false (zdrop c w) (zdrop (32768 + 10 + 1) w) (20 - 10 - 1) in
      scan_chain false w 10 20 (sb_items (hash_table a !! h)) 3 None = (3, Some 32768)
      /\ candidates = [32772] /\ length_at 32772 = 5
      /\ rd w (32768 + 10) = 97
      /\ flush_input_step false 20 a 10 = (zw__zlib_huffb 97 a1, 10 + 1)
      /\ bitstream (fst (flush_input_step false 20 a 10)) = bitstream a ++ fixed_code 97
      /\ forall out, decodes (fixed_code 97) out (out ++ [97]) 1
  | None => False
  end.
Proof.
  assert (Hs : from_option
                 (fun a : zw__zip_details (list Z) =>
                    let w := window a in
                    let h := Z.land (zw__zhash (zdrop (32768 + 10) w)) (zw__hash_size - 1) in
                    let a1 := set_hash_table
                                (<[h := hash_insert (quality a) (hash_table a !! h)
                                          (u16 (10 + 32768))]> (hash_table a)) a in
                    let h1 := Z.land (zw__zhash (zdrop (32768 + 10 + 1) w))
                                (zw__hash_size - 1) in
                    (scan_chain false w 10 20 (sb_items (hash_table a !! h)) 3 None,
                     sb_items (hash_table a1 !! h1),
                     zw__zlib_countm false (zdrop 32772 w) (zdrop (32768 + 10 + 1) w)
                       (20 - 10 - 1),
                     rd w (32768 + 10),
                     error (stream a), write (stream a), bitcount a, bitbuf a,
                     out_total a, Z.of_nat (length (out a)), out_cursor a))
                 ((0, None), [], 0, 0, 1, None, 0, 0, 0, 0, 0) lazy_sample
               = ((3, Some 32768), [32772], 5, 97,
                  0, Some memory_write, 3, 7, 32768, 32768, 10)).
  { vm_compute. reflexivity. }
  destruct lazy_sample as [a|]; [|discriminate Hs]. cbn [from_option] in Hs.
  cbv zeta in Hs |- *.
  apply pair_equal_spec in Hs. destruct Hs as [Hs Hoc].
  apply pair_equal_spec in Hs. destruct Hs as [Hs Hout].
  apply pair_equal_spec in Hs. destruct Hs as [Hs Hot].
  apply pair_equal_spec in Hs. destruct Hs as [Hs Hbb].
  apply pair_equal_spec in Hs. destruct Hs as [Hs Hbc].
  apply pair_equal_spec in Hs. destruct Hs as [Hs Hwr].
  apply pair_equal_spec in Hs. destruct Hs as [Hs Herr].
  apply pair_equal_spec in Hs. destruct Hs as [Hs Hrd].
  apply pair_equal_spec in Hs. destruct Hs as [Hs Hlen].
  apply pair_equal_spec in Hs. destruct Hs as [Hscan Hcand].
  assert (Hw : writer_ok a).
  { split.
    - split; [exact Herr|]. exists memory_write. split; [exact Hwr|].
      intros u data. eexists. reflexivity.
    - split; [split; rewrite ?Hbc, ?Hbb; lia|]. rewrite Hot, Hoc.
      split; [reflexivity|]. split; lia. }
  assert (Hex : exists c,
             c ∈ sb_items
                   (hash_table
                      (set_hash_table
                         (<[Z.land (zw__zhash (zdrop (32768 + 10) (window a)))
                              (zw__hash_size - 1)
                            := hash_insert (quality a)
                                 (hash_table a
                                    !! Z.land (zw__zhash (zdrop (32768 + 10) (window a)))
                                         (zw__hash_size - 1))
                                 (u16 (10 + 32768))]> (hash_table a)) a)
                    !! Z.land (zw__zhash (zdrop (32768 + 10 + 1) (window a)))
                         (zw__hash_size - 1))
             /\ 10 + 1 < c
             /\ 3 < zw__zlib_countm false (zdrop c (window a))
                      (zdrop (32768 + 10 + 1) (window a)) (20 - 10 - 1)).
  { exists 32772. split; [|rewrite Hlen; lia].
    rewrite Hcand. left. }
  destruct (lazy_match_needs_strictly_longer false a 20 10 3 32768 ltac:(lia) ltac:(lia)
              Hscan) as (_ & H2 & _ & H4 & _).
  destruct (H4 Hw ltac:(rewrite Hrd; unfold byte; lia) Hex) as (_ & S1 & D1).
  rewrite Hrd in H2, S1, D1.
  split; [exact Hscan|]. split; [exact Hcand|]. split; [exact Hlen|]. split; [exact Hrd|].
  split; [exact (H2 Hex)|]. split; [exact S1|exact D1].
Defined.

(** ** The data descriptor *)




Section DescriptorCrc.

Context {U : Type} (no_sse : bool).
Implicit Types a : zw__zip_details U.




End DescriptorCrc.


